(** * The CELLCYTE X measurement pipeline, embedded and verified

    Shallow embedding of [parser.py] (class [CytenaProcessor]) and
    [metadata_parser.py] (class [MetadataParser]).

    - Python values are the inductive [pyval]; exceptions are the
      constructors of [exn] and fallible code returns [result].
    - Code that prints or reads the staging directory runs in the monad
      [M], a state-and-exception monad over [World] (file system and
      console).
    - A pandas [DataFrame] is a list of column labels and a list of rows;
      the pandas operations the source calls are modelled in [Pandas].
    - A [float] is held as the rational it denotes. Sums and means are
      computed on the rationals, the square root is truncated at twelve
      decimals ([Py.fsqrt]), and rounding to two decimals is computed
      in binary64 as numpy does ([Py.round2]). How Python and pandas
      read and print numbers is a parameter ([Py.Numerics]).
    - A staging directory is the list of its entries in the order in
      which [os.listdir] lists them.

    The file first embeds the two modules, then fixes the vocabulary of
    the specification and some example directories, then proves: the
    labels of a 96-well plate; that the outcome of [process] is a
    function of the staging directory as it is listed, and not of its
    files alone; three kinds of runs that end in an exception
    (per-position exports, metadata that cannot be resolved, metadata in
    JSON); the shape, the contents and the order of the aggregated
    table; the rows of the row-level table, and what happens to wells
    that the metadata maps more than once; the Disco Bio layout, from
    the grid to the table of wells; the scan identifier, in the
    directory and in the tables. *)

From Stdlib Require Import String Ascii List ZArith QArith Qround Bool Lia
  DecimalString DecimalZ Permutation.
Import ListNotations.
Open Scope string_scope.
Open Scope list_scope.

(* ================================================================== *)
(** * Python runtime *)
(* ================================================================== *)

Module Py.

(** Exceptions the modelled code can raise. *)
Inductive exn :=
| FileNotFoundError | NotADirectoryError | IsADirectoryError
| ValueError | KeyError | IndexError | TypeError | AttributeError
| UnboundLocalError | ParserError | JSONDecodeError.

Inductive result (A : Type) :=
| Ok (a : A)
| Raise (e : exn).
Arguments Ok {A} a.
Arguments Raise {A} e.

Definition rbind {A B} (r : result A) (f : A -> result B) : result B :=
  match r with Ok a => f a | Raise e => Raise e end.

Fixpoint rmap {A B} (f : A -> result B) (l : list A) : result (list B) :=
  match l with
  | [] => Ok []
  | x :: l' => rbind (f x) (fun y => rbind (rmap f l') (fun ys => Ok (y :: ys)))
  end.

Definition is_ok {A} (r : result A) : bool :=
  match r with Ok _ => true | Raise _ => false end.

(** ** Strings ([str] restricted to one-byte characters) *)

Definition startswith (s p : string) : bool := String.prefix p s.

Definition endswith (s suf : string) : bool :=
  let n := String.length s in
  let m := String.length suf in
  if (m <=? n)%nat then String.eqb (substring (n - m) m s) suf else false.

(** [sub in s] *)
Fixpoint contains (sub s : string) : bool :=
  String.prefix sub s ||
  match s with
  | EmptyString => false
  | String _ s' => contains sub s'
  end.

(** [s.split(sep, maxsplit)] for a non-empty [sep]: [n] bounds the number
    of cuts, [skip] counts the characters of a separator still to drop. *)
Fixpoint split_go (sep : string) (n skip : nat) (s : string) : list string :=
  match s with
  | EmptyString => [EmptyString]
  | String c s' =>
      match skip with
      | S k => split_go sep n k s'
      | O =>
          match n with
          | S n' =>
              if String.prefix sep s
              then EmptyString :: split_go sep n' (String.length sep - 1) s'
              else match split_go sep n 0 s' with
                   | p :: ps => String c p :: ps
                   | [] => [String c EmptyString]
                   end
          | O => match split_go sep 0 0 s' with
                 | p :: ps => String c p :: ps
                 | [] => [String c EmptyString]
                 end
          end
      end
  end.

(** [s.split(sep)] *)
Definition split (sep s : string) : list string :=
  split_go sep (String.length s) 0 s.

(** [s.split(sep, 1)] *)
Definition split1 (sep s : string) : list string := split_go sep 1 0 s.

(** [s.replace(old, new)] for a non-empty [old]. *)
Fixpoint replace_go (old new : string) (skip : nat) (s : string) : string :=
  match s with
  | EmptyString => EmptyString
  | String c s' =>
      match skip with
      | S k => replace_go old new k s'
      | O =>
          if String.prefix old s
          then new ++ replace_go old new (String.length old - 1) s'
          else String c (replace_go old new 0 s')
      end
  end.

Definition replace (old new s : string) : string := replace_go old new 0 s.

Fixpoint lstrip_by (p : ascii -> bool) (s : string) : string :=
  match s with
  | EmptyString => EmptyString
  | String c s' => if p c then lstrip_by p s' else s
  end.

Fixpoint rstrip_by (p : ascii -> bool) (s : string) : string :=
  match s with
  | EmptyString => EmptyString
  | String c s' =>
      match rstrip_by p s' with
      | EmptyString => if p c then EmptyString else String c EmptyString
      | r => String c r
      end
  end.

Definition strip_by (p : ascii -> bool) (s : string) : string :=
  rstrip_by p (lstrip_by p s).

(** [str.isspace] on one-byte characters: TAB..CR, FS..US and the space. *)
Definition is_space (c : ascii) : bool :=
  let n := nat_of_ascii c in
  ((9 <=? n) && (n <=? 13) || (28 <=? n) && (n <=? 32))%nat.

(** [s.strip()] *)
Definition strip (s : string) : string := strip_by is_space s.

(** [s.strip('_')] *)
Definition strip_underscore (s : string) : string :=
  strip_by (fun c => Ascii.eqb c "_"%char) s.

Definition is_digit (c : ascii) : bool :=
  let n := nat_of_ascii c in ((48 <=? n) && (n <=? 57))%nat.

Fixpoint all_digits (s : string) : bool :=
  match s with
  | EmptyString => true
  | String c s' => is_digit c && all_digits s'
  end.

(** [s.isdigit()] *)
Definition isdigit (s : string) : bool :=
  match s with
  | EmptyString => false
  | _ => all_digits s
  end.

Fixpoint digits_value (acc : Z) (s : string) : Z :=
  match s with
  | EmptyString => acc
  | String c s' => digits_value (10 * acc + (Z.of_nat (nat_of_ascii c) - 48)) s'
  end.

(** [int(s)]: surrounding white space, an optional sign, decimal digits. *)
Definition int_of_str (s : string) : result Z :=
  match strip s with
  | String "-"%char d => if isdigit d then Ok (- digits_value 0 d)%Z else Raise ValueError
  | String "+"%char d => if isdigit d then Ok (digits_value 0 d) else Raise ValueError
  | d => if isdigit d then Ok (digits_value 0 d) else Raise ValueError
  end.

(** [str(z)] for an [int]. *)
Definition str_of_int (z : Z) : string := NilZero.string_of_int (Z.to_int z).

(** [string.ascii_uppercase] *)
Definition ascii_uppercase : string := "ABCDEFGHIJKLMNOPQRSTUVWXYZ".

(** [s[i]] with Python's negative indices. *)
Definition str_index (s : string) (i : Z) : result string :=
  let n := Z.of_nat (String.length s) in
  let j := if (i <? 0)%Z then (i + n)%Z else i in
  if ((0 <=? j) && (j <? n))%Z
  then match String.get (Z.to_nat j) s with
       | Some c => Ok (String c EmptyString)
       | None => Raise IndexError
       end
  else Raise IndexError.

(** ** Numbers *)

(** Square root of a rational, truncated at twelve decimals. *)
Definition fsqrt (q : Q) : Q :=
  Qred (Z.sqrt (Qfloor (q * inject_Z (10 ^ 24))) # 1000000000000).

(** A [float] is a binary64 number, held as the rational it denotes.
    Sums, means and square roots are computed on the rationals;
    [Series.round] is computed as numpy computes it, every operation
    rounded to binary64. *)

Definition pow2 (e : Z) : Q :=
  if (0 <=? e)%Z then inject_Z (2 ^ e) else 1 # Z.to_pos (2 ^ (- e)).

(** [rint]: the nearest integer, ties to even. *)
Definition rint (q : Q) : Z :=
  let f := Qfloor q in
  match Qcompare (q - inject_Z f) (1 # 2) with
  | Lt => f
  | Gt => (f + 1)%Z
  | Eq => if Z.even f then f else (f + 1)%Z
  end.

(** The exponent of the unit in the last place of the binary64 numbers
    around [q > 0]: 52 below the binary exponent of [q], and -1074 for
    the subnormal numbers. *)
Definition ulp_exponent (q : Q) : Z :=
  let e0 := (Z.log2 (Qnum q) - Z.log2 (Z.pos (Qden q)))%Z in
  let e := if Qle_bool (pow2 e0) q then e0 else (e0 - 1)%Z in
  Z.max (e - 52) (-1074).

(** The binary64 number nearest to [q], ties to the even significand.
    The overflow to infinity, beyond 1.7e308, is left out. *)
Definition b64 (q : Q) : Q :=
  let a := Z.abs (Qnum q) # Qden q in
  let e := ulp_exponent a in
  let m := rint (a * pow2 (- e)) in
  match Qnum q with
  | Z0 => 0
  | Zpos _ => Qred (inject_Z m * pow2 e)
  | Zneg _ => Qred (inject_Z (- m) * pow2 e)
  end.

(** [Series.round(2)] on a [float]: numpy's [rint(x * 100) / 100]. *)
Definition round2 (q : Q) : Q :=
  b64 (inject_Z (rint (b64 (b64 q * 100))) / 100).

(** What the model takes from the number formats of Python and pandas:
    [parse_number s] is the [int] or the [float] that [pd.to_numeric]
    reads in the string [s], if it reads one; [repr_float q] is [str(x)]
    for the [float] [q]. *)
Class Numerics := {
  parse_number : string -> option (Z + Q);
  repr_float : Q -> string
}.

(** ** Values *)

Inductive pyval :=
| PNone
| NaN
| PInt (z : Z)
| PFloat (q : Q)
| PStr (s : string).

(** [pd.isna(v)] *)
Definition isna (v : pyval) : bool :=
  match v with PNone | NaN => true | _ => false end.

Definition notna (v : pyval) : bool := negb (isna v).

Definition is_str (v : pyval) : bool :=
  match v with PStr _ => true | _ => false end.

Definition num_of (v : pyval) : option Q :=
  match v with
  | PInt z => Some (inject_Z z)
  | PFloat q => Some q
  | _ => None
  end.

(** Equality of labels and of join or group keys: numbers by value,
    missing values equal to each other. *)
Definition val_eqb (a b : pyval) : bool :=
  match a, b with
  | PStr s, PStr t => String.eqb s t
  | PStr _, _ | _, PStr _ => false
  | _, _ =>
      match num_of a, num_of b with
      | Some x, Some y => Qeq_bool x y
      | None, None => true
      | _, _ => false
      end
  end.

(** [v == s] for a string literal [s]. *)
Definition is_literal (v : pyval) (s : string) : bool :=
  match v with PStr t => String.eqb t s | _ => false end.

(** [str(v)] *)
Definition str_of `{Numerics} (v : pyval) : string :=
  match v with
  | PNone => "None"
  | NaN => "nan"
  | PInt z => str_of_int z
  | PFloat q => repr_float q
  | PStr s => s
  end.

End Py.

(* ================================================================== *)
(** * pandas: the DataFrame operations the pipeline calls *)
(* ================================================================== *)

Module Pandas.
Import Py.

(** A table: column labels and rows of cells, a cell beyond the end of a
    short row reading as missing. *)
Record DataFrame := { columns : list pyval; rows : list (list pyval) }.

Definition row := list pyval.

Definition cell (r : row) (j : nat) : pyval := nth j r NaN.

Definition column_at (j : nat) (df : DataFrame) : list pyval :=
  map (fun r => cell r j) (rows df).

Fixpoint find_label (l : pyval) (cols : list pyval) : option nat :=
  match cols with
  | [] => None
  | c :: cs => if val_eqb c l then Some O
               else option_map S (find_label l cs)
  end.

Definition has_label (l : pyval) (cols : list pyval) : bool :=
  existsb (fun c => val_eqb c l) cols.

(** Position of a label, [KeyError] when the table has no such column. *)
Definition label_index (l : pyval) (cols : list pyval) : result nat :=
  match find_label l cols with
  | Some j => Ok j
  | None => Raise KeyError
  end.

(** [df.columns[0]] *)
Definition first_label (df : DataFrame) : result pyval :=
  match columns df with
  | c :: _ => Ok c
  | [] => Raise IndexError
  end.

(** Keeps the elements of [xs] whose flag in [keep] is set. *)
Fixpoint select {A} (keep : list bool) (xs : list A) : list A :=
  match keep, xs with
  | k :: ks, x :: xs' => if k then x :: select ks xs' else select ks xs'
  | _, _ => []
  end.

Definition pad (n : nat) (r : row) : row :=
  map (cell r) (seq 0 n).

(** [df.drop(columns=[l])] for a label the table has. *)
Definition drop_label (l : pyval) (df : DataFrame) : DataFrame :=
  let n := List.length (columns df) in
  let keep := map (fun c => negb (val_eqb c l)) (columns df) in
  {| columns := select keep (columns df);
     rows := map (fun r => select keep (pad n r)) (rows df) |}.

(** [df.columns = cols] *)
Definition set_columns (cols : list pyval) (df : DataFrame) : DataFrame :=
  {| columns := cols; rows := rows df |}.

(** [df.rename(columns={old: new})] *)
Definition rename_label (old new : pyval) (df : DataFrame) : DataFrame :=
  set_columns (map (fun c => if val_eqb c old then new else c) (columns df)) df.

(** [df.iloc[k:, :]] *)
Definition iloc_from (k : nat) (df : DataFrame) : DataFrame :=
  {| columns := columns df; rows := skipn k (rows df) |}.

(** [df.iloc[0, 1:].tolist()] *)
Definition first_row_tail (df : DataFrame) : result (list pyval) :=
  match rows df with
  | r :: _ => Ok (tl (pad (List.length (columns df)) r))
  | [] => Raise IndexError
  end.

Fixpoint replace_nth {A} (j : nat) (x : A) (l : list A) : list A :=
  match l, j with
  | [], _ => []
  | _ :: l', O => x :: l'
  | y :: l', S j' => y :: replace_nth j' x l'
  end.

(** [df[l] = vals]: overwrites the column labelled [l], or appends it. *)
Definition set_column (l : pyval) (vals : list pyval) (df : DataFrame) : DataFrame :=
  let n := List.length (columns df) in
  match find_label l (columns df) with
  | Some j =>
      {| columns := columns df;
         rows := map (fun rv => replace_nth j (snd rv) (pad n (fst rv)))
                     (combine (rows df) vals) |}
  | None =>
      {| columns := columns df ++ [l];
         rows := map (fun rv => pad n (fst rv) ++ [snd rv])
                     (combine (rows df) vals) |}
  end.

(** [df[l] = v] for a scalar [v]. *)
Definition set_column_const (l v : pyval) (df : DataFrame) : DataFrame :=
  set_column l (repeat v (List.length (rows df))) df.

(** Applies [f] to every column. *)
Definition map_columns (f : list pyval -> list pyval) (df : DataFrame) : DataFrame :=
  let n := List.length (columns df) in
  let m := List.length (rows df) in
  let cols := map (fun j => f (column_at j df)) (seq 0 n) in
  {| columns := columns df;
     rows := map (fun i => map (fun c => nth i c NaN) cols) (seq 0 m) |}.

(** [pd.to_numeric(column, errors='coerce')]: every cell becomes a number
    or missing; the column stays integral only when every cell is an
    [int]. *)
Definition to_numeric_scalar `{Numerics} (v : pyval) : pyval :=
  match v with
  | PStr s => match parse_number s with
              | Some (inl z) => PInt z
              | Some (inr q) => PFloat q
              | None => NaN
              end
  | PInt z => PInt z
  | PFloat q => PFloat q
  | _ => NaN
  end.

Definition is_int (v : pyval) : bool :=
  match v with PInt _ => true | _ => false end.

Definition as_float (v : pyval) : pyval :=
  match v with PInt z => PFloat (inject_Z z) | _ => v end.

Definition to_numeric `{Numerics} (col : list pyval) : list pyval :=
  let c := map to_numeric_scalar col in
  if forallb is_int c then c else map as_float c.

(** [pd.melt(df, id_vars=[id], var_name=var, value_name=value)] for the
    label [id] of a column of [df]: one row per cell of every other
    column, column after column. *)
Definition melt (id var value : pyval) (df : DataFrame) : result DataFrame :=
  rbind (label_index id (columns df)) (fun i =>
  let n := List.length (columns df) in
  let vars := filter (fun j => negb (val_eqb (nth j (columns df) NaN) id)) (seq 0 n) in
  Ok {| columns := [id; var; value];
        rows := flat_map (fun j =>
                  map (fun r => [cell r i; nth j (columns df) NaN; cell r j])
                      (rows df)) vars |}).

(** ** Joins *)

Definition key_of (ks : list nat) (r : row) : list pyval := map (cell r) ks.

Fixpoint key_eqb (a b : list pyval) : bool :=
  match a, b with
  | [], [] => true
  | x :: a', y :: b' => val_eqb x y && key_eqb a' b'
  | _, _ => false
  end.

Definition is_key (on : list pyval) (c : pyval) : bool := has_label c on.

(** Labels of one side of a join: a column that is no key and whose label
    the other side has too gets the suffix. *)
Definition suffixed `{Numerics} (on other : list pyval) (suffix : string) (c : pyval) : pyval :=
  if negb (is_key on c) && has_label c other
  then PStr (str_of c ++ suffix) else c.

(** [pd.merge(l, r, on=on, how='left')]: every row of [l], in order, once
    per row of [r] with the same key (in the order of [r]), or once with
    missing values when [r] has none. *)
Definition merge_left `{Numerics} (l r : DataFrame) (on : list pyval) : result DataFrame :=
  rbind (rmap (fun k => label_index k (columns l)) on) (fun lk =>
  rbind (rmap (fun k => label_index k (columns r)) on) (fun rk =>
  let nl := List.length (columns l) in
  let nr := List.length (columns r) in
  let keep := map (fun c => negb (is_key on c)) (columns r) in
  let rest := select keep (columns r) in
  let lrest := filter (fun c => negb (is_key on c)) (columns l) in
  Ok {| columns := map (suffixed on rest "_x") (columns l)
                   ++ map (suffixed on lrest "_y") rest;
        rows := flat_map (fun a =>
                  match filter (fun b => key_eqb (key_of lk a) (key_of rk b)) (rows r) with
                  | [] => [pad nl a ++ repeat NaN (List.length rest)]
                  | ms => map (fun b => pad nl a ++ select keep (pad nr b)) ms
                  end) (rows l) |})).

(** ** Concatenation *)

Fixpoint union_labels (acc : list pyval) (ls : list pyval) : list pyval :=
  match ls with
  | [] => acc
  | c :: ls' => if has_label c acc then union_labels acc ls'
                else union_labels (acc ++ [c]) ls'
  end.

Definition reindex (cols : list pyval) (df : DataFrame) : list row :=
  map (fun r => map (fun c => match find_label c (columns df) with
                              | Some j => cell r j
                              | None => NaN
                              end) cols) (rows df).

(** The cells of a column in the type of the column: a column of
    numbers that holds a [float] or a missing value is a column of
    [float]; a column that holds a string or [None] keeps its objects. *)
Definition upcast (col : list pyval) : list pyval :=
  if existsb (fun v => match v with PStr _ | PNone => true | _ => false end) col
  then col
  else if forallb is_int col then col else map as_float col.

(** [pd.concat(dfs, axis=0, ignore_index=True)] *)
Definition concat (dfs : list DataFrame) : result DataFrame :=
  match dfs with
  | [] => Raise ValueError
  | _ =>
      let cols := fold_left (fun acc df => union_labels acc (columns df)) dfs [] in
      Ok (map_columns upcast {| columns := cols; rows := flat_map (reindex cols) dfs |})
  end.

End Pandas.

(** ** Grouping and aggregation *)

Module GroupBy.
Import Py Pandas.

(** Order of group keys: numbers before strings, missing values last. *)
Definition val_cmp (a b : pyval) : comparison :=
  match a, b with
  | PStr s, PStr t => String.compare s t
  | PStr _, _ => if isna b then Lt else Gt
  | _, PStr _ => if isna a then Gt else Lt
  | _, _ =>
      match num_of a, num_of b with
      | Some x, Some y => Qcompare x y
      | Some _, None => Lt
      | None, Some _ => Gt
      | None, None => Eq
      end
  end.

Fixpoint key_cmp (a b : list pyval) : comparison :=
  match a, b with
  | [], [] => Eq
  | [], _ => Lt
  | _, [] => Gt
  | x :: a', y :: b' =>
      match val_cmp x y with
      | Eq => key_cmp a' b'
      | c => c
      end
  end.

Definition key_leb (a b : list pyval) : bool :=
  match key_cmp a b with Gt => false | _ => true end.

Fixpoint insert_key (k : list pyval) (l : list (list pyval)) : list (list pyval) :=
  match l with
  | [] => [k]
  | x :: l' => if key_leb k x then k :: l else x :: insert_key k l'
  end.

Definition sort_keys (l : list (list pyval)) : list (list pyval) :=
  fold_right insert_key [] l.

(** First occurrences, up to [key_eqb]. *)
Fixpoint nub (seen ks : list (list pyval)) : list (list pyval) :=
  match ks with
  | [] => []
  | k :: ks' => if existsb (key_eqb k) seen then nub seen ks'
                else k :: nub (k :: seen) ks'
  end.

(** A key with a missing component forms no group ([dropna=True], the
    default of [groupby]). *)
Definition complete (k : list pyval) : bool := forallb notna k.

(** The group keys of [df.groupby(keys)]: sorted, each once. *)
Definition group_keys (ks : list nat) (df : DataFrame) : list (list pyval) :=
  sort_keys (nub [] (filter complete (map (key_of ks) (rows df)))).

Definition group_rows (ks : list nat) (df : DataFrame) (k : list pyval) : list row :=
  filter (fun r => key_eqb (key_of ks r) k) (rows df).

(** The numbers of a column of a group; missing cells are skipped, a
    string cannot be aggregated. *)
Fixpoint numbers (vals : list pyval) : result (list Q) :=
  match vals with
  | [] => Ok []
  | PStr _ :: _ => Raise TypeError
  | v :: vs => rbind (numbers vs) (fun xs =>
               Ok (match num_of v with Some x => x :: xs | None => xs end))
  end.

Definition Qsum (l : list Q) : Q := fold_right Qplus 0 l.

Definition Qlen (l : list Q) : Q := inject_Z (Z.of_nat (List.length l)).

(** ['mean'] *)
Definition mean (xs : list Q) : pyval :=
  match xs with
  | [] => NaN
  | _ => PFloat (Qred (Qsum xs / Qlen xs))
  end.

(** Sample variance (divisor [n - 1]). *)
Definition variance (xs : list Q) : Q :=
  let m := (Qsum xs / Qlen xs)%Q in
  Qred (Qsum (map (fun x => (x - m) * (x - m))%Q xs) / (Qlen xs - 1)).

(** ['std'] (pandas takes [ddof=1]) *)
Definition std (xs : list Q) : pyval :=
  if (List.length xs <=? 1)%nat then NaN else PFloat (fsqrt (variance xs)).

(** The table [df.groupby(keys)[attrs].agg(['mean','std']).reset_index()];
    its column labels are pairs. *)
Record AggFrame := { agg_columns : list (string * string); agg_rows : list row }.

Definition agg_cells (js : list nat) (g : list row) : result row :=
  rbind (rmap (fun j => rbind (numbers (map (fun r => cell r j) g))
                              (fun xs => Ok [mean xs; std xs])) js)
        (fun cs => Ok (List.concat cs)).

Definition groupby_agg (keys attrs : list string) (df : DataFrame) : result AggFrame :=
  rbind (rmap (fun k => label_index (PStr k) (columns df)) keys) (fun ks =>
  rbind (rmap (fun a => label_index (PStr a) (columns df)) attrs) (fun js =>
  match attrs with
  | [] => Raise ValueError
  | _ =>
      rbind (rmap (fun k => rbind (agg_cells js (group_rows ks df k))
                                  (fun cs => Ok (k ++ cs)))
                  (group_keys ks df)) (fun rs =>
      Ok {| agg_columns := map (fun k => (k, "")) keys
                           ++ flat_map (fun a => [(a, "mean"); (a, "std")]) attrs;
            agg_rows := rs |})
  end)).

End GroupBy.

(* ================================================================== *)
(** * The world: staging directories and the console *)
(* ================================================================== *)

Module Sys.
Import Py Pandas.

(** A decoded JSON document, as [json.load] returns it. *)
#[warnings="-register-all"] Inductive json :=
| JNull
| JBool (b : bool)
| JInt (z : Z)
| JFloat (q : Q)
| JStr (s : string)
| JArr (l : list json)
| JObj (l : list (string * json)).

(** What a file holds: the table [pd.read_csv] or [pd.read_excel] reads in
    it, the document [json.load] reads in it, or none of these. *)
Inductive content :=
| Csv (df : DataFrame)
| Excel (df : DataFrame)
| Json (j : json)
| Other.

(** Directory entries keep the order in which [os.listdir] lists them. *)
#[warnings="-register-all"] Inductive node :=
| File (c : content)
| Dir (entries : list (string * node)).

Definition path := list string.

Record World := { fs : list (string * node); stdout : list string }.

Fixpoint lookup {A} (name : string) (l : list (string * A)) : option A :=
  match l with
  | [] => None
  | (k, v) :: l' => if String.eqb k name then Some v else lookup name l'
  end.

Fixpoint resolve (entries : list (string * node)) (p : path) : result node :=
  match p with
  | [] => Ok (Dir entries)
  | name :: rest =>
      match lookup name entries with
      | None => Raise FileNotFoundError
      | Some (File c) =>
          match rest with
          | [] => Ok (File c)
          | _ => Raise NotADirectoryError
          end
      | Some (Dir es) => resolve es rest
      end
  end.

(** The monad of the pipeline: a computation reads and changes the world
    and returns a value or raises. *)
Definition M (A : Type) := World -> result A * World.

Definition ret {A} (a : A) : M A := fun w => (Ok a, w).

Definition raise {A} (e : exn) : M A := fun w => (Raise e, w).

Definition bind {A B} (m : M A) (f : A -> M B) : M B :=
  fun w => match m w with
           | (Ok a, w') => f a w'
           | (Raise e, w') => (Raise e, w')
           end.

Definition lift {A} (r : result A) : M A := fun w => (r, w).

(** [print(msg)] *)
Definition print (msg : string) : M unit :=
  fun w => (Ok tt, {| fs := fs w; stdout := stdout w ++ [msg] |}).

Definition read {A} (f : list (string * node) -> result A) : M A :=
  fun w => (f (fs w), w).

(** [for x in l: s = body x s] *)
Fixpoint foreach {A S} (l : list A) (body : A -> S -> M S) (s : S) : M S :=
  match l with
  | [] => ret s
  | x :: l' => bind (body x s) (foreach l' body)
  end.

(** [Path(p).exists()] *)
Definition exists_ (p : path) : M bool :=
  read (fun root => Ok (is_ok (resolve root p))).

(** [os.listdir(p)] *)
Definition listdir (p : path) : M (list string) :=
  read (fun root => rbind (resolve root p) (fun n =>
    match n with
    | Dir es => Ok (map fst es)
    | File _ => Raise NotADirectoryError
    end)).

(** [list(Path(p).glob('*' + ext))] *)
Definition glob_ext (p : path) (ext : string) : M (list string) :=
  read (fun root =>
    match resolve root p with
    | Ok (Dir es) => Ok (filter (fun f => endswith f ext) (map fst es))
    | _ => Ok []
    end).

Definition read_file {A} (p : path) (bad : exn) (get : content -> option A) : M A :=
  read (fun root => rbind (resolve root p) (fun n =>
    match n with
    | Dir _ => Raise IsADirectoryError
    | File c => match get c with Some a => Ok a | None => Raise bad end
    end)).

(** [pd.read_csv(p)] *)
Definition read_csv (p : path) : M DataFrame :=
  read_file p ParserError (fun c => match c with Csv df => Some df | _ => None end).

(** [pd.read_excel(p, engine='openpyxl')] *)
Definition read_excel (p : path) : M DataFrame :=
  read_file p ValueError (fun c => match c with Excel df => Some df | _ => None end).

(** [with open(p, 'r') as f: json.load(f)] *)
Definition load_json (p : path) : M json :=
  read_file p JSONDecodeError (fun c => match c with Json j => Some j | _ => None end).

(** ** Python dictionaries: insertion-ordered, one entry per key *)

Fixpoint dict_set {A} (k : string) (v : A) (d : list (string * A)) : list (string * A) :=
  match d with
  | [] => [(k, v)]
  | (k', v') :: d' => if String.eqb k' k then (k, v) :: d'
                     else (k', v') :: dict_set k v d'
  end.

Definition dict_has {A} (k : string) (d : list (string * A)) : bool :=
  existsb (fun kv => String.eqb (fst kv) k) d.

(** [j[k]] for a decoded JSON object [j]. *)
Definition jget (j : json) (k : string) : result json :=
  match j with
  | JObj l => match lookup k l with Some v => Ok v | None => Raise KeyError end
  | _ => Raise TypeError
  end.

(** [for x in j] for a decoded JSON value [j]. *)
Definition jiter (j : json) : result (list json) :=
  match j with
  | JArr l => Ok l
  | JObj l => Ok (map (fun kv => JStr (fst kv)) l)
  | JStr s => Ok (map (fun c => JStr (String c EmptyString)) (list_ascii_of_string s))
  | _ => Raise TypeError
  end.

End Sys.

Declare Scope monad_scope.
Notation "x <- c ;; k" := (Sys.bind c (fun x => k))
  (at level 61, c at next level, right associativity) : monad_scope.
Notation "c ;;; k" := (Sys.bind c (fun _ => k))
  (at level 61, right associativity) : monad_scope.

Open Scope monad_scope.

(** Result-monad counterparts of the loops. *)
Fixpoint rfold {A S} (l : list A) (body : A -> S -> Py.result S) (s : S) : Py.result S :=
  match l with
  | [] => Py.Ok s
  | x :: l' => Py.rbind (body x s) (rfold l' body)
  end.

Fixpoint rfilter {A} (p : A -> Py.result bool) (l : list A) : Py.result (list A) :=
  match l with
  | [] => Py.Ok []
  | x :: l' => Py.rbind (p x) (fun b =>
               Py.rbind (rfilter p l') (fun r => Py.Ok (if b then x :: r else r)))
  end.

(** An object, as far as the pipeline looks into one: the bound method
    that [self._well_to_label] finds, if the class of the object defines
    it. *)
Record instance := {
  well_to_label_attr : option (Sys.json -> Py.result string)
}.

(** [self._well_to_label] *)
Definition getattr_well_to_label (self : instance)
  : Py.result (Sys.json -> Py.result string) :=
  match well_to_label_attr self with
  | Some f => Py.Ok f
  | None => Py.Raise Py.AttributeError
  end.

(** The value of a JSON scalar; arrays and objects are not hashable. *)
Definition hashable (j : Sys.json) : Py.result Py.pyval :=
  match j with
  | Sys.JNull => Py.Ok Py.PNone
  | Sys.JBool b => Py.Ok (Py.PInt (if b then 1 else 0))
  | Sys.JInt z => Py.Ok (Py.PInt z)
  | Sys.JFloat q => Py.Ok (Py.PFloat q)
  | Sys.JStr s => Py.Ok (Py.PStr s)
  | _ => Py.Raise Py.TypeError
  end.

(** [d[k] = v] for a dictionary with keys of any hashable type. *)
Fixpoint pdict_set {A} (k : Py.pyval) (v : A) (d : list (Py.pyval * A)) : list (Py.pyval * A) :=
  match d with
  | [] => [(k, v)]
  | (k', v') :: d' => if Py.val_eqb k' k then (k', v) :: d'
                     else (k', v') :: pdict_set k v d'
  end.

(** The dictionary comprehension shared by the two readers of
    [AnalysisWellGroup.json]:
    [{group["GroupName"]: [self._well_to_label(w) for w in group["SelectedWells"]]
      for group in content["AnalysisWellGroupsCollection"]}] *)
Definition well_groups_of_json (self : instance) (content : Sys.json)
  : Py.result (list (Py.pyval * list string)) :=
  Py.rbind (Sys.jget content "AnalysisWellGroupsCollection") (fun coll =>
  Py.rbind (Sys.jiter coll) (fun groups =>
  rfold groups (fun group d =>
    Py.rbind (Sys.jget group "GroupName") (fun name =>
    Py.rbind (hashable name) (fun key =>
    Py.rbind (Sys.jget group "SelectedWells") (fun sel =>
    Py.rbind (Sys.jiter sel) (fun wells =>
    Py.rbind (Py.rmap (fun w => Py.rbind (getattr_well_to_label self) (fun f => f w)) wells)
      (fun labels => Py.Ok (pdict_set key labels d))))))) [])).

(* ================================================================== *)
(** * metadata_parser.py *)
(* ================================================================== *)

Module MetadataParser.
Import Py Pandas Sys.

(** [MetadataParser()]: the class defines [parse_json_metadata] and
    [parse_disco_bio_excel], and no [_well_to_label]. *)
Definition new : instance := {| well_to_label_attr := None |}.

Section Methods.
Context `{Numerics}.

Definition parse_json_metadata (self : instance) (json_path : path) : M DataFrame :=
  content <- load_json (json_path ++ ["AnalysisWellGroup.json"]) ;;
  metadata_dict <- lift (well_groups_of_json self content) ;;
  let metadata_rows :=
    flat_map (fun gw => map (fun well => [PStr well; fst gw]) (snd gw)) metadata_dict in
  ret (match metadata_rows with
       | [] => {| columns := []; rows := [] |}
       | _ => {| columns := [PStr "Well"; PStr "Well Group"]; rows := metadata_rows |}
       end).

(** [int(col)] for a column label. *)
Definition int_of (v : pyval) : result Z :=
  match v with
  | PStr s => int_of_str s
  | PInt z => Ok z
  | PFloat q => Ok (if Qle_bool 0 q then Qfloor q else Qceiling q)
  | NaN => Raise ValueError
  | PNone => Raise TypeError
  end.

(** Length of a match of [r' \(PPB-\d+\)'] at the start of [s]. *)
Fixpoint count_digits (s : string) : nat :=
  match s with
  | String c s' => if is_digit c then S (count_digits s') else O
  | EmptyString => O
  end.

Definition match_ppb (s : string) : option nat :=
  if String.prefix " (PPB-" s then
    let rest := substring 6 (String.length s - 6) s in
    let n := count_digits rest in
    if (1 <=? n)%nat && String.prefix ")" (substring n (String.length rest - n) rest)
    then Some (6 + n + 1)%nat else None
  else None.

(** [re.sub(r' \(PPB-\d+\)', '', s)] *)
Fixpoint sub_ppb (skip : nat) (s : string) : string :=
  match s with
  | EmptyString => EmptyString
  | String c s' =>
      match skip with
      | S k => sub_ppb k s'
      | O => match match_ppb s with
             | Some n => sub_ppb (n - 1) s'
             | None => String c (sub_ppb 0 s')
             end
      end
  end.

(** [column.str.replace(r' \(PPB-\d+\)', '', regex=True)]: a cell that is
    no string becomes missing. *)
Definition str_replace_ppb (v : pyval) : pyval :=
  match v with PStr s => PStr (sub_ppb 0 s) | _ => NaN end.

(** [column.dtype == object] *)
Definition is_object (col : list pyval) : bool :=
  existsb (fun v => match v with PStr _ | PNone => true | _ => false end) col.

(** The row that [iterrows] yields: the cells in the common type of the
    columns. *)
Definition iterrows_row (df : DataFrame) (r : row) : row :=
  let n := List.length (columns df) in
  let cols := map (fun j => column_at j df) (seq 0 n) in
  if existsb is_object cols then pad n r
  else if forallb (forallb is_int) cols then pad n r
  else map as_float (pad n r).

Definition conc_label : pyval := PStr ("Ab conc." ++ String "010"%char "[nM]").

Definition letters : list string := ["A"; "B"; "C"; "D"; "E"; "F"; "G"; "H"].

(** [str(col).isdigit() and 1 <= int(col) <= 8] *)
Definition titration_column (col : pyval) : bool :=
  let s := str_of col in
  isdigit s &&
  match int_of col with
  | Ok n => (1 <=? n)%Z && (n <=? 8)%Z
  | Raise _ => false
  end.

(** [f"{v} ({ab_conc} nM)"] *)
Definition annotated (v ab_conc : pyval) : pyval :=
  PStr (str_of v ++ " (" ++ str_of ab_conc ++ " nM)").

(** The loop over [metadata.iterrows()]: the cells of the columns after
    the second whose label is one of 1..8 get the concentration of their
    row. *)
Definition annotate (df : DataFrame) (ci : nat) : DataFrame :=
  let n := List.length (columns df) in
  {| columns := columns df;
     rows := map (fun r =>
               let snapshot := iterrows_row df r in
               let ab_conc := cell snapshot ci in
               map (fun j =>
                      if (2 <=? j)%nat && titration_column (nth j (columns df) NaN)
                         && notna (cell snapshot j)
                      then annotated (cell snapshot j) ab_conc
                      else cell r j) (seq 0 n)) (rows df) |}.

(** [row + col] on the cells of two string columns: a missing [Row] stays
    missing, a number cannot be added to a string. *)
Definition add_str (v : pyval) (s : string) : result pyval :=
  match v with
  | PStr r => Ok (PStr (r ++ s))
  | PNone | NaN => Ok NaN
  | _ => Raise TypeError
  end.

Definition round_cell (v : pyval) : pyval :=
  match v with PFloat q => PFloat (round2 q) | _ => v end.

(** Lines 58-62: a column filled in one row only gets that value in every
    row. *)
Definition broadcast (metadata : DataFrame) : DataFrame :=
  fold_left (fun df col =>
      match find_label col (columns df) with
      | Some j =>
          match filter notna (column_at j df) with
          | [value] => set_column_const col value df
          | _ => df
          end
      | None => df
      end) (columns metadata) metadata.

(** Lines 64-68: [" (PPB-###)"] is removed in the string columns after
    the second. *)
Definition strip_ppb (metadata : DataFrame) : DataFrame :=
  fold_left (fun df col =>
      match find_label col (columns df) with
      | Some j =>
          if is_object (column_at j df)
          then set_column col (map str_replace_ppb (column_at j df)) df
          else df
      | None => df
      end) (skipn 2 (columns metadata)) metadata.

(** Lines 40-79 of [parse_disco_bio_excel]: the checks, and the grid with
    the concentration column numeric and rounded. *)
Definition check_and_coerce (metadata : DataFrame) : M DataFrame :=
  (* check that second column has values A-H *)
  second <- lift (match columns metadata with
                  | _ :: c :: _ => Ok c
                  | _ => Raise IndexError
                  end) ;;
  let unique_values := column_at 1 metadata in
  let valid := forallb (fun v => existsb (is_literal v) letters) unique_values
               && forallb (fun l => existsb (fun v => is_literal v l) unique_values) letters in
  metadata <- (if valid
               then print "Metadata second column is valid" ;;;
                    ret (rename_label second (PStr "well column") metadata)
               else print "Metadata second column is invalid" ;;; ret metadata) ;;
  (* check that the other column names are numbers 1-12 *)
  foreach (skipn 2 (columns metadata)) (fun col _ =>
    match int_of col with
    | Ok num => if ((num <? 1) || (12 <? num))%Z
                then print ("Invalid column name: " ++ str_of col) else ret tt
    | Raise ValueError => print ("Invalid column name: " ++ str_of col)
    | Raise e => raise e
    end) tt ;;;
  let metadata := broadcast metadata in
  let metadata := strip_ppb metadata in
  (* check the first column *)
  (if negb (is_literal (nth 0 (columns metadata) NaN) ("Ab conc." ++ String "010"%char "[nM]"))
   then print "First column name is invalid, expected 'Ab conc.\n[nM]'" else ret tt) ;;;
  ci <- lift (label_index conc_label (columns metadata)) ;;
  (if negb (forallb notna (to_numeric (column_at ci metadata)))
   then print "First column contains non-numeric values" else ret tt) ;;;
  let metadata := set_column conc_label (to_numeric (column_at ci metadata)) metadata in
  ci <- lift (label_index conc_label (columns metadata)) ;;
  ret (set_column conc_label (map round_cell (column_at ci metadata)) metadata).

(** Lines 81-103 of [parse_disco_bio_excel]: the concentration suffixes
    and the table of wells. *)
Definition annotate_and_melt (metadata : DataFrame) : result DataFrame :=
  rbind (label_index conc_label (columns metadata)) (fun ci =>
  let metadata := annotate metadata ci in
  let metadata := drop_label conc_label metadata in
  let metadata := rename_label (PStr "well column") (PStr "Row") metadata in
  rbind (melt (PStr "Row") (PStr "Col") (PStr "Well Group") metadata) (fun long_df =>
  rbind (rmap (fun r => add_str (cell r 0) (str_of (cell r 1))) (rows long_df)) (fun wells =>
  Ok {| columns := [PStr "Well"; PStr "Well Group"];
        rows := map (fun wr => [fst wr; cell (snd wr) 2])
                    (combine wells (rows long_df)) |}))).

Definition parse_disco_bio_excel (metadata : DataFrame) : M DataFrame :=
  metadata <- check_and_coerce metadata ;;
  lift (annotate_and_melt metadata).

End Methods.
End MetadataParser.

(* ================================================================== *)
(** * parser.py *)
(* ================================================================== *)

Module CytenaProcessor.
Import Py Pandas Sys.

Definition _validate_directory (data_dir : string) : M string :=
  found <- exists_ [data_dir] ;;
  if negb found then raise FileNotFoundError
  else
    let supported_file_extensions := [".csv"; ".xlsx"; ".json"] in
    found_files <- foreach supported_file_extensions (fun ext acc =>
                     l <- glob_ext [data_dir] ext ;; ret (acc ++ l)) [] ;;
    match found_files with
    | [] => raise ValueError
    | _ => ret data_dir
    end.

Section Methods.
Context `{Numerics}.

Definition _well_to_label (well : json) : result string :=
  rbind (jget well "Row") (fun r =>
  rbind (match r with
         | JInt z => str_index ascii_uppercase z
         | JBool b => str_index ascii_uppercase (if b then 1 else 0)
         | _ => Raise TypeError
         end) (fun row_letter =>
  rbind (jget well "Column") (fun c =>
  rbind (match c with
         | JInt z => Ok (PInt (z + 1))
         | JBool b => Ok (PInt ((if b then 1 else 0) + 1))
         | JFloat q => Ok (PFloat (q + 1))
         | _ => Raise TypeError
         end) (fun col_number =>
  Ok (row_letter ++ str_of col_number)%string)))).

(** [CytenaProcessor()] *)
Definition new : instance := {| well_to_label_attr := Some _well_to_label |}.

Definition _parse_json_metadata (self : instance) (json_path : path)
  : M (list (pyval * list string)) :=
  content <- load_json (json_path ++ ["AnalysisWellGroup.json"]) ;;
  lift (well_groups_of_json self content).

(** A [set] of strings. *)
Definition set_add (x : string) (s : list string) : list string :=
  if existsb (String.eqb x) s then s else s ++ [x].

Definition _extract_scan_id (data_dir : string) : M (option string) :=
  files <- listdir [data_dir] ;;
  let prefixes := fold_left (fun prefixes file =>
      if endswith file ".csv"
      then set_add (hd EmptyString (split "_" file)) prefixes
      else prefixes) files [] in
  match prefixes with
  | [scan_id] => ret (Some scan_id)
  | _ => print "Multiple scan IDs found" ;;; ret None
  end.

Definition possible_channels : list (string * string) :=
  [("BF", "brightfield"); ("green", "green"); ("EC", "enhanced contrast")].

Definition possible_attributes : list (string * string) :=
  [("total_intensity", "AU"); ("average_mean_intensity", "AU");
   ("relative_spheroid_area", "%"); ("total_spheroid_area", "mm2");
   ("relative_fluorescence_area", "%"); ("confluency", "%");
   ("total_area", "mm2"); ("object_count", "1/mm2");
   ("object_count_per_fov", "per FOV")].

(** The first loop of the two readers: the tables of the files whose name
    ends in [.csv] and contains [marker], under the label cut out of the
    name after [marker ++ "_"]. *)
Definition read_summaries (data_dir marker : string) : M (list (string * DataFrame)) :=
  files <- listdir [data_dir] ;;
  foreach files (fun file data_dict_raw =>
    if endswith file ".csv" && contains marker file then
      label <- lift (match split (marker ++ "_") file with
                     | _ :: l :: _ => Ok (replace ".csv" "" l)
                     | _ => Raise IndexError
                     end) ;;
      ca <- lift (match split1 "_" label with
                  | [channel; attribute] => Ok (channel, attribute)
                  | _ => Raise ValueError
                  end) ;;
      (if negb (dict_has (fst ca) possible_channels)
       then print ("ERROR: Channel " ++ fst ca ++ " not recognized") else ret tt) ;;;
      (if negb (dict_has (snd ca) possible_attributes)
       then print ("ERROR: Attribute " ++ snd ca ++ " not recognized") else ret tt) ;;;
      df <- read_csv [data_dir; file] ;;
      ret (dict_set label df data_dict_raw)
    else ret data_dict_raw) [].

(** The header handling both readers share: drop a first column named
    "Scan", take the labels of the other columns from the first row. *)
Definition drop_scan (df : DataFrame) : result DataFrame :=
  rbind (first_label df) (fun c0 =>
  Ok (if is_literal c0 "Scan" then drop_label c0 df else df)).

Definition promote_first_row (df : DataFrame) : result DataFrame :=
  rbind (first_label df) (fun c0 =>
  rbind (first_row_tail df) (fun labels =>
  Ok (set_columns (c0 :: labels) df))).

(** What [parse_position_summary_files] returns: [False] or a dictionary. *)
Inductive position_result :=
| PFalse
| PDict (d : list (string * DataFrame)).

(** [bool(r)] *)
Definition truthy (r : position_result) : bool :=
  match r with
  | PFalse => false
  | PDict [] => false
  | PDict (_ :: _) => true
  end.

(** ['Position 1' in col] *)
Definition in_label (sub : string) (col : pyval) : result bool :=
  match col with
  | PStr s => Ok (contains sub s)
  | _ => Raise TypeError
  end.

(** The second loop of [parse_position_summary_files]; nothing is stored
    in [data_dict_processed]. *)
Fixpoint position_loop (items : list (string * DataFrame))
    (data_dict_processed : list (string * DataFrame)) : result position_result :=
  match items with
  | [] => Ok (PDict data_dict_processed)
  | (label, df) :: rest =>
      rbind (drop_scan df) (fun df =>
      rbind (promote_first_row df) (fun df =>
      let df := iloc_from 2 df in
      rbind (rmap (in_label "Position 1") (tl (columns df))) (fun flags =>
      if forallb (fun b => b) flags then
        let df := set_columns
                    (firstn 1 (columns df)
                     ++ map (fun col => match col with
                                        | PStr s => PStr (replace " - Position 1" "" s)
                                        | _ => col
                                        end) (tl (columns df))) df in
        position_loop rest data_dict_processed
      else Ok PFalse)))
  end.

Definition parse_position_summary_files (data_dir : string) : M position_result :=
  data_dict_raw <- read_summaries data_dir "summary_positions" ;;
  lift (position_loop data_dict_raw []).

(** The second loop of [parse_well_summary_files]. *)
Definition well_loop (items : list (string * DataFrame))
  : result (list (string * DataFrame)) :=
  rfold items (fun item data_dict_processed =>
    rbind (drop_scan (snd item)) (fun df =>
    let df := if has_label (PStr "Stdev") (columns df)
              then drop_label (PStr "Stdev") df else df in
    rbind (promote_first_row df) (fun df =>
    let df := iloc_from 2 df in
    Ok (dict_set (fst item) df data_dict_processed)))) [].

Definition parse_well_summary_files (data_dir : string) : M (list (string * DataFrame)) :=
  data_dict_raw <- read_summaries data_dir "summary_wells" ;;
  lift (well_loop data_dict_raw).

(** Lines 164-168 of [process]: which reader supplies the tables. *)
Definition load_measurements (data_dir : string) : M (list (string * DataFrame)) :=
  r <- parse_position_summary_files data_dir ;;
  if negb (truthy r) then
    print "INFO: Multiple positions detected, switching to well summary files" ;;;
    parse_well_summary_files data_dir
  else
    r <- parse_position_summary_files data_dir ;;
    match r with
    | PDict d => ret d
    | PFalse => raise AttributeError
    end.

(** [col.replace('Well ', '')] *)
Definition replace_in_label (old new : string) (col : pyval) : result pyval :=
  match col with
  | PStr s => Ok (PStr (replace old new s))
  | _ => Raise AttributeError
  end.

(** Lines 170-178 of [process]. *)
Definition normalise (data_dict_processed : list (string * DataFrame))
  : result (list (string * DataFrame)) :=
  rfold data_dict_processed (fun item d =>
    let df := snd item in
    rbind (first_label df) (fun c0 =>
    rbind (rmap (replace_in_label "Well " "") (tl (columns df))) (fun cols =>
    let df := set_columns (c0 :: cols) df in
    let df := map_columns to_numeric df in
    let df := set_columns (map (fun col => match col with
                                           | PStr s => PStr (strip s)
                                           | _ => col
                                           end) (columns df)) df in
    Ok (dict_set (fst item) df d)))) data_dict_processed.

(** [metadata[metadata.columns[1:]].astype(str).agg(' '.join, axis=1)] *)
Definition joined_columns (metadata : DataFrame) : list pyval :=
  map (fun r => PStr (String.concat " "
                        (map str_of (tl (pad (List.length (columns metadata)) r)))))
      (rows metadata).

(** Lines 180-206 of [process]; [None] stands for the local variable
    [metadata] left unassigned. *)
Definition resolve_metadata (data_dir : string) : M (option DataFrame) :=
  files <- listdir [data_dir] ;;
  let excel_files := filter (fun file => endswith file ".xlsx") files in
  let metadata_parser := MetadataParser.new in
  match excel_files with
  | [excel_file] =>
      print ("Excel file found: " ++ data_dir ++ "/" ++ excel_file) ;;;
      metadata <- read_excel [data_dir; excel_file] ;;
      c0 <- lift (first_label metadata) ;;
      if is_literal c0 "Well" then
        print "Found excel metadata template" ;;;
        ret (Some (set_column (PStr "Well Group") (joined_columns metadata) metadata))
      else
        print "Did not find excel metadata template. Trying to parse Disco Bio Excel format" ;;;
        metadata <- MetadataParser.parse_disco_bio_excel metadata ;;
        ret (Some metadata)
  | _ :: _ :: _ =>
      print "ERROR: Multiple Excel files found in data directory. Expects only one Excel file." ;;;
      ret None
  | [] =>
      print "INFO: No Excel file found in data directory, looking for JSON file" ;;;
      files <- listdir [data_dir] ;;
      let json_files := filter (fun file => endswith file ".json") files in
      match json_files with
      | _ :: _ :: _ =>
          print "ERROR: Multiple JSON files found in data directory" ;;; ret None
      | [] =>
          print "ERROR: No JSON file found in data directory. Metadata extraction is not possible." ;;;
          ret None
      | [json_file] =>
          print ("JSON file found: " ++ json_file) ;;;
          let json_path := [data_dir; json_file] in
          metadata <- MetadataParser.parse_json_metadata metadata_parser json_path ;;
          ret (Some metadata)
      end
  end.

(** Reading a local variable. *)
Definition local {A} (v : option A) : result A :=
  match v with Some a => Ok a | None => Raise UnboundLocalError end.

(** [df['channel'].iloc[0] == channel] *)
Definition first_channel_is (channel : string) (df : DataFrame) : result bool :=
  rbind (label_index (PStr "channel") (columns df)) (fun j =>
  match rows df with
  | r :: _ => Ok (is_literal (cell r j) channel)
  | [] => Raise IndexError
  end).

(** Lines 207-238 of [process]: the row-level table. *)
Definition reshape_and_join (data_dict_processed : list (string * DataFrame))
    (metadata : option DataFrame) (scan_id : option string) : result DataFrame :=
  rbind (rmap (fun item =>
           let df := snd item in
           rbind (first_label df) (fun id =>
           let value_name := nth 1 (split1 "_" (fst item)) EmptyString in
           rbind (melt id (PStr "Well") (PStr value_name) df) (fun df_long =>
           Ok (fst item, df_long)))) data_dict_processed) (fun data_dict_long =>
  rbind (rmap (fun item =>
           let channel := hd EmptyString (split "_" (fst item)) in
           let df := set_column_const (PStr "channel") (PStr channel) (snd item) in
           rbind (local metadata) (fun metadata =>
           merge_left df metadata [PStr "Well"])) data_dict_long) (fun merged_dfs =>
  let channels := map fst possible_channels in
  rbind (local metadata) (fun metadata =>
  let cols_to_merge := columns metadata ++ [PStr "Time"; PStr "channel"] in
  rbind (rfold channels (fun channel merged_dfs_final =>
           rbind (rfilter (first_channel_is channel) merged_dfs) (fun dfs_to_merge =>
           match dfs_to_merge with
           | first :: (_ :: _) as others =>
               rbind (rfold others (fun df merged_df_channel =>
                        merge_left merged_df_channel df cols_to_merge) first)
                     (fun merged_df_channel =>
               Ok (merged_dfs_final ++ [merged_df_channel]))
           | [single] => Ok (merged_dfs_final ++ [single])
           | [] => Ok merged_dfs_final
           end)) []) (fun merged_dfs_final =>
  rbind (concat merged_dfs_final) (fun results =>
  Ok (set_column_const (PStr "Scan ID")
        (match scan_id with Some s => PStr s | None => PNone end) results)))))).

(** [re.sub(r'_mean$', '_avg', name)]: [$] also matches before a final
    newline. *)
Definition mean_to_avg (name : string) : string :=
  let n := String.length name in
  if endswith name "_mean" then substring 0 (n - 5) name ++ "_avg"
  else if endswith name ("_mean" ++ String "010"%char EmptyString)
       then substring 0 (n - 6) name ++ "_avg" ++ String "010"%char EmptyString
       else name.

(** Lines 240-249 of [process]: the aggregated table. *)
Definition aggregate (results : DataFrame) (scan_id : option string) : result DataFrame :=
  let aggregate_cols := ["Well Group"; "Time"; "channel"] in
  let attribute_cols :=
    flat_map (fun col => match col with
                         | PStr s => if dict_has s possible_attributes then [s] else []
                         | _ => []
                         end) (columns results) in
  rbind (GroupBy.groupby_agg aggregate_cols attribute_cols results) (fun results_agg =>
  let names := map (fun col => strip_underscore (String.concat "_" [fst col; snd col]))
                   (GroupBy.agg_columns results_agg) in
  let names := map mean_to_avg names in
  Ok (set_column_const (PStr "Scan ID")
        (match scan_id with Some s => PStr s | None => PNone end)
        {| columns := map PStr names; rows := GroupBy.agg_rows results_agg |})).

Definition process (data_dir : string) : M (DataFrame * DataFrame) :=
  data_dir <- _validate_directory data_dir ;;
  scan_id <- _extract_scan_id data_dir ;;
  data_dict_processed <- load_measurements data_dir ;;
  data_dict_processed <- lift (normalise data_dict_processed) ;;
  metadata <- resolve_metadata data_dir ;;
  results <- lift (reshape_and_join data_dict_processed metadata scan_id) ;;
  results_agg <- lift (aggregate results scan_id) ;;
  ret (results_agg, results).

End Methods.
End CytenaProcessor.

(* ================================================================== *)
(** * A number format for the examples *)
(* ================================================================== *)

(** Numbers in decimal notation, [-12], [0.5], [37.25]: a text with a
    point is read as the nearest [float], and a [float] is printed as
    [repr] prints it, with the fewest digits that read back as the same
    [float]. The theorems hold for every [Numerics]. *)
Module Decimal.
Import Py.

Definition parse_unsigned (s : string) : option (Z + Q) :=
  match split1 "." s with
  | [i] => if isdigit i then Some (inl (digits_value 0 i)) else None
  | [i; f] =>
      if isdigit i && isdigit f
      then Some (inr (b64 (digits_value 0 (i ++ f)
                           # Pos.of_nat (10 ^ String.length f))))
      else None
  | _ => None
  end.

Definition parse (s : string) : option (Z + Q) :=
  match s with
  | String "-"%char u =>
      match parse_unsigned u with
      | Some (inl z) => Some (inl (- z)%Z)
      | Some (inr q) => Some (inr (Qred (- q)))
      | None => None
      end
  | _ => parse_unsigned s
  end.

Definition pow10 (e : Z) : Q :=
  if (0 <=? e)%Z then inject_Z (10 ^ e) else 1 # Z.to_pos (10 ^ (- e)).

(** The decimal exponent of [q > 0]: the [e] with [10^e <= q < 10^(e+1)]. *)
Definition decimal_exponent (q : Q) : Z :=
  let est := ((Z.log2 (Qnum q) - Z.log2 (Z.pos (Qden q))) * 30103 / 100000)%Z in
  if Qle_bool (pow10 (est + 1)) q then (est + 1)%Z
  else if Qle_bool (pow10 est) q then est else (est - 1)%Z.

(** The decimal [m * 10^p] with the fewest digits, [k] or more, that
    reads back as the [float] [q > 0] of decimal exponent [e]; of two
    with the same number of digits, the nearer to [q]. *)
Fixpoint shortest (fuel : nat) (k : Z) (q : Q) (e : Z) : Z * Z :=
  let p := (e - k + 1)%Z in
  let s := (q * pow10 (- p))%Q in
  let lo := Qfloor s in
  let back m := Qeq_bool (b64 (inject_Z m * pow10 p)) q in
  match fuel with
  | O => (rint s, p)
  | S fuel' =>
      if back lo && back (lo + 1)%Z then (rint s, p)
      else if back lo then (lo, p)
      else if back (lo + 1)%Z then ((lo + 1)%Z, p)
      else shortest fuel' (k + 1)%Z q e
  end.

Fixpoint zeros (n : nat) : string :=
  match n with O => EmptyString | S n' => String "0" (zeros n') end.

(** Drops the zeros at the end of [m], counting them into [p]. *)
Fixpoint normal (fuel : nat) (m p : Z) : Z * Z :=
  match fuel with
  | O => (m, p)
  | S fuel' => if ((m mod 10 =? 0) && negb (m =? 0))%Z
               then normal fuel' (m / 10)%Z (p + 1)%Z else (m, p)
  end.

(** [repr(x)] for a [float] [x > 0]: plain notation when the decimal
    exponent is between -4 and 15, with an exponent otherwise. *)
Definition repr_positive (q : Q) : string :=
  let mp := shortest 17 1 q (decimal_exponent q) in
  let mp := normal 17 (fst mp) (snd mp) in
  let ds := str_of_int (fst mp) in
  let n := Z.of_nat (String.length ds) in
  let p := snd mp in
  let e := (n - 1 + p)%Z in
  (if ((-4 <=? e) && (e <=? 15))%Z then
     if (0 <=? p)%Z then ds ++ zeros (Z.to_nat p) ++ ".0"
     else if (0 <? n + p)%Z
          then substring 0 (Z.to_nat (n + p)) ds ++ "."
               ++ substring (Z.to_nat (n + p)) (Z.to_nat (- p)) ds
          else "0." ++ zeros (Z.to_nat (- (n + p))) ++ ds
   else
     substring 0 1 ds
     ++ (if (1 <? n)%Z then "." ++ substring 1 (Z.to_nat (n - 1)) ds else EmptyString)
     ++ "e" ++ (if (e <? 0)%Z then "-" else "+")
     ++ (if (Z.abs e <? 10)%Z then "0" else EmptyString) ++ str_of_int (Z.abs e))%string.

(** [repr(x)] for the [float] nearest to [q]. *)
Definition repr (q : Q) : string :=
  let x := b64 q in
  match Qnum x with
  | Z0 => "0.0"
  | Zpos _ => repr_positive x
  | Zneg _ => ("-" ++ repr_positive (Qred (- x)))%string
  end.

Definition numerics : Numerics :=
  {| parse_number := parse; repr_float := repr |}.

End Decimal.

(* ================================================================== *)
(** * app.py *)
(* ================================================================== *)

Module App.
Import Py Pandas Sys.

(** [s.lower()] on one-byte characters. *)
Definition lower_char (c : ascii) : ascii :=
  let n := nat_of_ascii c in
  if ((65 <=? n) && (n <=? 90))%nat then ascii_of_nat (n + 32) else c.

Fixpoint lower (s : string) : string :=
  match s with
  | EmptyString => EmptyString
  | String c s' => String (lower_char c) (lower s')
  end.

(** The text before and the text after the last [sep] of [s]. *)
Fixpoint cut_last (sep : ascii) (s : string) : option (string * string) :=
  match s with
  | EmptyString => None
  | String c s' =>
      match cut_last sep s' with
      | Some (a, b) => Some (String c a, b)
      | None => if Ascii.eqb c sep then Some (EmptyString, s') else None
      end
  end.

(** [s.rsplit(sep, 1)] for a separator of one character. *)
Definition rsplit1 (sep : ascii) (s : string) : list string :=
  match cut_last sep s with
  | Some (a, b) => [a; b]
  | None => [s]
  end.

Definition allowed_file (filename : string) : result bool :=
  if contains "." filename then
    match rsplit1 "." filename with
    | _ :: ext :: _ => Ok (existsb (String.eqb (lower ext)) ["csv"; "xlsx"; "xls"])
    | _ => Raise IndexError
    end
  else Ok false.

(** The dictionary [upload_files] and [get_plot_data] each write out. *)
Definition possible_attributes : list (string * string) :=
  [("total_intensity", "AU"); ("average_mean_intensity", "AU");
   ("relative_spheroid_area", "%"); ("total_spheroid_area", "mm2");
   ("relative_fluorescence_area", "%"); ("confluency", "%");
   ("total_area", "mm2"); ("object_count", "1/mm2");
   ("object_count_per_fov", "per FOV")].

(** [col.split('_avg')[0].split('_std', -1)[0]] *)
Definition base_name (col : pyval) : result string :=
  match col with
  | PStr s => Ok (hd EmptyString (split "_std" (hd EmptyString (split "_avg" s))))
  | _ => Raise AttributeError
  end.

(** [upload_files]: the attributes offered for plotting, a set. *)
Definition available_attributes (results_agg : DataFrame) : result (list string) :=
  rfold (columns results_agg) (fun col acc =>
    rbind (base_name col) (fun b =>
    Ok (if dict_has b possible_attributes then CytenaProcessor.set_add b acc else acc))) [].

(** [upload_files]:
    [results_agg['Scan ID'].iloc[0] if 'Scan ID' in results_agg.columns else 'Unknown'] *)
Definition response_scan_id (results_agg : DataFrame) : result pyval :=
  if has_label (PStr "Scan ID") (columns results_agg) then
    rbind (label_index (PStr "Scan ID") (columns results_agg)) (fun j =>
    match rows results_agg with
    | r :: _ => Ok (cell r j)
    | [] => Raise IndexError
    end)
  else Ok (PStr "Unknown").

(** [col.replace('_avg', '').replace('_std', '') if isinstance(col, str) else col] *)
Definition stripped (col : pyval) : pyval :=
  match col with
  | PStr s => PStr (replace "_std" "" (replace "_avg" "" s))
  | _ => col
  end.

(** [get_plot_data]: the column that is plotted for a requested
    attribute, [None] where the request is answered with "Attribute ...
    not found in data". *)
Definition plot_column (df_columns : list pyval) (attribute : string) : option string :=
  if negb (has_label (PStr attribute) (map stripped df_columns)) then None
  else if has_label (PStr (attribute ++ "_avg")%string) df_columns
       then Some (attribute ++ "_avg")%string
       else Some attribute.

(** [get_plot_data]: [possible_attributes.get(base_attribute, '')] *)
Definition unit_of (attribute : string) : string :=
  let base_attribute := replace "_std" "" (replace "_avg" "" attribute) in
  match lookup base_attribute possible_attributes with
  | Some unit => unit
  | None => EmptyString
  end.

End App.

(* ================================================================== *)
(** * Vocabulary of the specification and example inputs *)
(* ================================================================== *)

Import Py Pandas Sys.

(** The labels of a 96-well plate: [^[A-H](?:[1-9]|1[0-2])$]. *)
Definition char_between (lo hi c : ascii) : bool :=
  ((nat_of_ascii lo <=? nat_of_ascii c) && (nat_of_ascii c <=? nat_of_ascii hi))%nat.

Definition plate_label (s : string) : bool :=
  match s with
  | String l (String d EmptyString) =>
      char_between "A" "H" l && char_between "1" "9" d
  | String l (String "1" (String d EmptyString)) =>
      char_between "A" "H" l && char_between "0" "2" d
  | _ => false
  end.

(** A well of [AnalysisWellGroup.json]. *)
Definition json_well (r c : Z) : json := JObj [("Row", JInt r); ("Column", JInt c)].

(** ** Invocations and the world *)

(** A computation leaves the file system as it found it. *)
Definition keeps_fs {A} (m : M A) : Prop :=
  forall w, fs (snd (m w)) = fs w.

(** The directory [d1] of the first world holds what [d2] holds in the
    second. *)
Definition same_dir (d1 d2 : string) (w1 w2 : World) : Prop :=
  lookup d1 (fs w1) = lookup d2 (fs w2).

(** The two directories hold the same files with the same contents, in
    whatever order they are listed. *)
Definition same_files (d1 d2 : string) (w1 w2 : World) : Prop :=
  exists es1 es2, lookup d1 (fs w1) = Some (Dir es1)
                  /\ lookup d2 (fs w2) = Some (Dir es2)
                  /\ Permutation es1 es2.

Definition same_outcome {A} (R : A -> A -> Prop) (r1 r2 : result A) : Prop :=
  match r1, r2 with
  | Ok a1, Ok a2 => R a1 a2
  | Raise e1, Raise e2 => e1 = e2
  | _, _ => False
  end.

(** Run on two worlds with the same directory, the two computations end
    alike: with the same exception, or with values related by [R]. *)
Definition agree {A} (d1 d2 : string) (R : A -> A -> Prop) (m1 m2 : M A) : Prop :=
  forall w1 w2, same_dir d1 d2 w1 w2 -> same_outcome R (fst (m1 w1)) (fst (m2 w2)).

(** ** Scan identifiers *)

(** The text of a file name before its first underscore. *)
Definition scan_prefix (file : string) : string := hd EmptyString (split "_" file).

Definition csv_files (names : list string) : list string :=
  filter (fun f => endswith f ".csv") names.

(** The cell of a row under the column labelled [l]. *)
Definition field (df : DataFrame) (l : string) (r : row) : pyval :=
  match find_label (PStr l) (columns df) with
  | Some j => cell r j
  | None => NaN
  end.

(** ** Example staging directories *)

Module Examples.

(** A per-well export: the first row names the wells, the second holds
    the units, then one row per time point. *)
Definition intensity_csv : DataFrame :=
  {| columns := [PStr "Scan"; PStr "Time"; PStr "Unnamed: 2"; PStr "Unnamed: 3";
                 PStr "Unnamed: 4"; PStr "Unnamed: 5"];
     rows := [[PStr "1"; NaN; PStr "Well A1"; PStr "Well A2"; PStr "Well B1"; PStr "Well C1"];
              [PStr "1"; NaN; PStr "AU"; PStr "AU"; PStr "AU"; PStr "AU"];
              [PStr "1"; PStr "1"; PStr "10"; PStr "20"; PStr "7"; PStr "3"]] |}.

Definition confluency_csv : DataFrame :=
  {| columns := [PStr "Scan"; PStr "Time"; PStr "Unnamed: 2"; PStr "Unnamed: 3"];
     rows := [[PStr "1"; NaN; PStr "Well A1"; PStr "Well A2"];
              [PStr "1"; NaN; PStr "%"; PStr "%"];
              [PStr "1"; PStr "1"; PStr "40.5"; PStr "42"];
              [PStr "1"; PStr "2"; PStr "55"; PStr "n/a"]] |}.

(** A per-position export with one position per well. *)
Definition positions_csv : DataFrame :=
  {| columns := [PStr "Scan"; PStr "Time"; PStr "Unnamed: 2"; PStr "Unnamed: 3"];
     rows := [[PStr "1"; NaN; PStr "Well A1 - Position 1"; PStr "Well A2 - Position 1"];
              [PStr "1"; NaN; PStr "%"; PStr "%"];
              [PStr "1"; PStr "1"; PStr "40"; PStr "42"]] |}.

(** The template layout of the metadata: a first column "Well". *)
Definition plate_map : DataFrame :=
  {| columns := [PStr "Well"; PStr "Condition"];
     rows := [[PStr "A1"; PStr "G1"]; [PStr "A2"; PStr "G1"]; [PStr "B1"; PStr "G2"]] |}.

(** A template that maps the well A1 twice. *)
Definition plate_map_twice : DataFrame :=
  {| columns := [PStr "Well"; PStr "Condition"];
     rows := [[PStr "A1"; PStr "G1"]; [PStr "A1"; PStr "G2"]; [PStr "A2"; PStr "G1"]] |}.

(** [AnalysisWellGroup.json] with the documented structure. *)
Definition well_groups_json : json :=
  JObj [("AnalysisWellGroupsCollection",
         JArr [JObj [("GroupName", JStr "G1");
                     ("SelectedWells", JArr [json_well 0 0; json_well 0 1])];
               JObj [("GroupName", JStr "G2");
                     ("SelectedWells", JArr [json_well 1 0])]])].

(** The Disco Bio layout: concentrations, row letters, plate columns. *)
Definition disco_grid : DataFrame :=
  {| columns := [MetadataParser.conc_label; PStr "Row"; PInt 1; PInt 9];
     rows := [[PFloat (3 # 2); PStr "A"; PStr "X (PPB-12)"; PStr "ctl"];
              [PInt 10; PStr "B"; NaN; PStr "ctl (PPB-3)"];
              [PStr "0.125"; PStr "C"; PStr "Y"; NaN]] |}.

(** A plate grid: concentrations to be rounded, texts with and without
    [" (PPB-<digits>)"], missing cells, and the columns 1, 2 and 9. *)
Definition titration_grid : DataFrame :=
  {| columns := [MetadataParser.conc_label; PStr "Row"; PInt 1; PInt 2; PInt 9];
     rows := [[PFloat (Py.b64 (1255 # 1000)); PStr "A"; PStr "mAb1 (PPB-12)"; PStr "mAb2";
               PStr "ctl"];
              [PFloat (Py.b64 (8345 # 1000)); PStr "B"; NaN; PStr "mAb2 (PPB-7) x";
               PStr "ctl (PPB-3)"];
              [PStr "0.125"; PStr "C"; PStr "mAb1"; NaN; NaN]] |}.

Definition run1 : node :=
  Dir [("scan42_summary_wells_BF_total_intensity.csv", File (Csv intensity_csv));
       ("scan42_summary_wells_green_confluency.csv", File (Csv confluency_csv));
       ("plate.xlsx", File (Excel plate_map))].

Definition staging : list (string * node) :=
  [("run1", run1);
   ("mixed", Dir [("scanA_summary_wells_BF_total_intensity.csv", File (Csv intensity_csv));
                  ("scanB_summary_wells_green_confluency.csv", File (Csv confluency_csv));
                  ("plate.xlsx", File (Excel plate_map))]);
   ("bare", Dir [("scan42_summary_wells_BF_total_intensity.csv", File (Csv intensity_csv))]);
   ("two_sheets", Dir [("scan42_summary_wells_BF_total_intensity.csv", File (Csv intensity_csv));
                       ("plate.xlsx", File (Excel plate_map));
                       ("plate_old.xlsx", File (Excel plate_map))]);
   ("groups", Dir [("scan42_summary_wells_BF_total_intensity.csv", File (Csv intensity_csv));
                   ("AnalysisWellGroup.json", File (Json well_groups_json))]);
   ("positions", Dir [("scan42_summary_positions_BF_confluency.csv", File (Csv positions_csv));
                      ("plate.xlsx", File (Excel plate_map))]);
   ("twice", Dir [("scan42_summary_wells_BF_total_intensity.csv", File (Csv intensity_csv));
                  ("plate.xlsx", File (Excel plate_map_twice))]);
   ("disco", Dir [("scan42_summary_wells_BF_total_intensity.csv", File (Csv intensity_csv));
                  ("design.xlsx", File (Excel disco_grid))])].

Definition world : World := {| fs := staging; stdout := [] |}.

(** The same directory as [run1] under another name, after some output. *)
Definition world' : World :=
  {| fs := [("upload_7", run1)]; stdout := ["Cleaned up temporary directory"] |}.

(** Two directories that hold the same three files; [os.listdir] lists
    the two exports of the brightfield channel in one order in the
    first, in the other order in the second. *)
Definition listed : node :=
  Dir [("scan42_summary_wells_BF_total_intensity.csv", File (Csv intensity_csv));
       ("scan42_summary_wells_BF_confluency.csv", File (Csv confluency_csv));
       ("plate.xlsx", File (Excel plate_map))].

Definition relisted : node :=
  Dir [("scan42_summary_wells_BF_confluency.csv", File (Csv confluency_csv));
       ("scan42_summary_wells_BF_total_intensity.csv", File (Csv intensity_csv));
       ("plate.xlsx", File (Excel plate_map))].

Definition listings : World :=
  {| fs := [("listed", listed); ("relisted", relisted)]; stdout := [] |}.

End Examples.

(** ** Metadata sources *)

(** More than one spreadsheet, or no spreadsheet and not exactly one JSON
    file. *)
Definition unresolvable (names : list string) : bool :=
  match filter (fun f => endswith f ".xlsx") names with
  | _ :: _ :: _ => true
  | [_] => false
  | [] => match filter (fun f => endswith f ".json") names with
          | [_] => false
          | _ => true
          end
  end.

(** ** Aggregation *)

(** The attribute columns of the row-level table, in the order of the
    table. *)
Definition attribute_cols (results : DataFrame) : list string :=
  flat_map (fun col => match col with
                       | PStr s => if dict_has s CytenaProcessor.possible_attributes
                                   then [s] else []
                       | _ => []
                       end) (columns results).

(** The group key of a row: its Well Group, Time and channel. *)
Definition group_key (df : DataFrame) (r : row) : list pyval :=
  [field df "Well Group" r; field df "Time" r; field df "channel" r].

(** The rows of the row-level table that belong to a group. *)
Definition members (results : DataFrame) (k : list pyval) : list row :=
  filter (fun r => key_eqb (group_key results r) k) (rows results).

(** No two keys of the list are equal. *)
Fixpoint distinct_keys (ks : list (list pyval)) : Prop :=
  match ks with
  | [] => True
  | k :: ks' => (forall k', In k' ks' -> key_eqb k k' = false /\ key_eqb k' k = false)
                /\ distinct_keys ks'
  end.

(** The rows whose Well Group, Time and channel are all present. *)
Definition with_complete_key (results : DataFrame) : DataFrame :=
  {| columns := columns results;
     rows := filter (fun r => GroupBy.complete (group_key results r)) (rows results) |}.

(** The column names of the aggregated table, before the scan column. *)
Definition agg_names (attrs : list string) : list string :=
  ["Well Group"; "Time"; "channel"]
  ++ flat_map (fun a => [a ++ "_avg"; a ++ "_std"]%string) attrs.

Definition scan_value (scan_id : option string) : pyval :=
  match scan_id with Some s => PStr s | None => PNone end.

(** The values of an attribute in a list of rows. *)
Definition values_of (df : DataFrame) (attr : string) (rs : list row) : list pyval :=
  map (field df attr) rs.

(** The two tables [process] returns for the directory [run1]. *)
Definition run1_tables : DataFrame * DataFrame :=
  match fst (CytenaProcessor.process (H := Decimal.numerics) "run1" Examples.world) with
  | Ok tables => tables
  | Raise _ => ({| columns := []; rows := [] |}, {| columns := []; rows := [] |})
  end.

(** The two tables [process] returns for the directories [listed] and
    [relisted]. *)
Definition listed_tables : DataFrame * DataFrame :=
  match fst (CytenaProcessor.process (H := Decimal.numerics) "listed" Examples.listings) with
  | Ok tables => tables
  | Raise _ => ({| columns := []; rows := [] |}, {| columns := []; rows := [] |})
  end.

Definition relisted_tables : DataFrame * DataFrame :=
  match fst (CytenaProcessor.process (H := Decimal.numerics) "relisted" Examples.listings) with
  | Ok tables => tables
  | Raise _ => ({| columns := []; rows := [] |}, {| columns := []; rows := [] |})
  end.

(** ** Wells and groups in the row-level table *)

(** Rows of the same well carry the same Well Group. *)
Definition one_group_per_well (res : DataFrame) : Prop :=
  forall r1 r2, In r1 (rows res) -> In r2 (rows res) ->
    val_eqb (field res "Well" r1) (field res "Well" r2) = true ->
    val_eqb (field res "Well Group" r1) (field res "Well Group" r2) = true.

Definition measurement_key (res : DataFrame) (r : row) : list pyval :=
  [field res "Well" r; field res "Time" r; field res "channel" r].

(** No (Well, Time, channel) has two rows. *)
Definition one_row_per_measurement (res : DataFrame) : Prop :=
  distinct_keys (map (measurement_key res) (rows res)).

(** The two tables [process] returns for the directory [twice]. *)
Definition twice_tables : DataFrame * DataFrame :=
  match fst (CytenaProcessor.process (H := Decimal.numerics) "twice" Examples.world) with
  | Ok tables => tables
  | Raise _ => ({| columns := []; rows := [] |}, {| columns := []; rows := [] |})
  end.

(** ** The plate grid *)

(** A label that is none of the three the parser gives a meaning to. *)
Definition plate_column (c : pyval) : bool :=
  negb (val_eqb c MetadataParser.conc_label
        || val_eqb c (PStr "Row") || val_eqb c (PStr "well column")).

Definition row_letter_of (r : row) : string :=
  match cell r 1 with PStr s => s | _ => EmptyString end.

Section Grid.
Context `{Numerics}.

(** Well = Row + plate column. *)
Definition grid_well (r : row) (col : pyval) : pyval :=
  PStr (row_letter_of r ++ str_of col).

(** The cell of the row under the [j]-th plate column, with the
    concentration of the row when the column is one of 1..8 and the cell
    is not missing. *)
Definition grid_group (r : row) (j : nat) (col : pyval) : pyval :=
  if MetadataParser.titration_column col && notna (cell r (2 + j))
  then PStr (str_of (cell r (2 + j)) ++ " (" ++ str_of (cell r 0) ++ " nM)")
  else cell r (2 + j).

(** The grid unpivoted: one row per cell, column after column. *)
Definition unpivoted (grid : DataFrame) (plate : list pyval) : DataFrame :=
  {| columns := [PStr "Well"; PStr "Well Group"];
     rows := flat_map (fun j =>
               map (fun r => [grid_well r (nth j plate NaN);
                              grid_group r j (nth j plate NaN)]) (rows grid))
             (seq 0 (List.length plate)) |}.

End Grid.


(** ** Names of the exported files *)

(** The label [read_summaries] cuts out of a file name:
    [file.split(marker + '_')[1].replace('.csv', '')]. *)
Definition label_of (marker file : string) : string :=
  replace ".csv" "" (nth 1 (split (marker ++ "_") file) EmptyString).

(** The two markers [process] looks for, in the order it does. *)
Definition markers : list string := ["summary_positions"; "summary_wells"].

(** ** Measurement tables *)





(** ** Well groups *)

(** The label of the well in row [r] (0 for A) and column [c] (0 for 1). *)
Definition well_label (rc : Z * Z) : string :=
  String (ascii_of_nat (65 + Z.to_nat (fst rc))) (str_of_int (snd rc + 1)).

(** [AnalysisWellGroup.json] for a list of groups, each a name and the
    (row, column) indices of its wells. *)
Definition json_group (g : string * list (Z * Z)) : json :=
  JObj [("GroupName", JStr (fst g));
        ("SelectedWells", JArr (map (fun rc => json_well (fst rc) (snd rc)) (snd g)))].

Definition json_groups (gs : list (string * list (Z * Z))) : json :=
  JObj [("AnalysisWellGroupsCollection", JArr (map json_group gs))].

(** A column that holds the letters A to H, each at least once, and
    nothing else. *)
Definition letters_A_to_H (col : list pyval) : Prop :=
  (forall v, In v col -> exists l, In l MetadataParser.letters /\ v = PStr l)
  /\ (forall l, In l MetadataParser.letters -> In (PStr l) col).

(** A grid with an unnamed second column that holds the eight letters. *)
Definition lettered_grid : DataFrame :=
  {| columns := [MetadataParser.conc_label; PStr "Unnamed: 1"; PInt 1; PInt 12];
     rows := map (fun l => [PInt 5; PStr l; PStr "mAb"; NaN]) MetadataParser.letters |}.

(** ** The row-level table *)

(** What the reshaping makes of one measurement table: its long form
    joined with the metadata. *)
Definition joined_with `{Numerics} (metadata : option DataFrame) (item : string * DataFrame)
    (m : DataFrame) : Prop :=
  exists id long md,
    first_label (snd item) = Ok id
    /\ melt id (PStr "Well")
         (PStr (nth 1 (split1 "_" (fst item)) EmptyString)) (snd item) = Ok long
    /\ metadata = Some md
    /\ merge_left (set_column_const (PStr "channel")
                     (PStr (hd EmptyString (split "_" (fst item)))) long)
                  md [PStr "Well"] = Ok m.


(** One normalised measurement table, and the row-level table lines
    207-238 of [process] build from it and the plate map. *)
Definition one_table : list (string * DataFrame) :=
  [("BF_total_intensity",
    {| columns := [PStr "Time"; PStr "A1"; PStr "A2"];
       rows := [[PInt 1; PInt 10; PInt 20]; [PInt 2; PInt 11; PInt 21]] |})].

Definition one_table_joined : DataFrame :=
  match CytenaProcessor.reshape_and_join (H := Decimal.numerics)
          one_table (Some Examples.plate_map) (Some "scan42") with
  | Ok results => results
  | Raise _ => {| columns := []; rows := [] |}
  end.

(** ** The per-well reader *)



(** ** Order of the aggregated rows *)

(** The order of texts: character by character, by code point; a text
    comes after the texts it starts with. *)
Fixpoint text_before (s t : string) : Prop :=
  match s, t with
  | EmptyString, String _ _ => True
  | String a s', String b t' =>
      (nat_of_ascii a < nat_of_ascii b)%nat \/ (a = b /\ text_before s' t')
  | _, _ => False
  end.

(** The order of the values of a key: numbers by value, texts as texts,
    every number before every text. *)
Definition value_before (a b : pyval) : Prop :=
  match a, b with
  | PStr s, PStr t => text_before s t
  | PStr _, _ => False
  | _, PStr _ => exists x, num_of a = Some x
  | _, _ => exists x y, num_of a = Some x /\ num_of b = Some y /\ (x < y)%Q
  end.

Definition same_value (a b : pyval) : Prop :=
  match a, b with
  | PStr s, PStr t => s = t
  | PStr _, _ | _, PStr _ => False
  | _, _ => exists x y, num_of a = Some x /\ num_of b = Some y /\ (x == y)%Q
  end.

(** The order of keys: by the first value, then by the second, and so
    on. *)
Fixpoint key_before (k1 k2 : list pyval) : Prop :=
  match k1, k2 with
  | a :: k1', b :: k2' => value_before a b \/ (same_value a b /\ key_before k1' k2')
  | _, _ => False
  end.

(** Each key is before the next one. *)
Fixpoint ascending (ks : list (list pyval)) : Prop :=
  match ks with
  | k1 :: (k2 :: _) as rest => key_before k1 k2 /\ ascending rest
  | _ => True
  end.

(** A row-level table whose groups are numbers and texts. *)
Definition mixed_groups : DataFrame :=
  {| columns := [PStr "Time"; PStr "Well"; PStr "confluency"; PStr "channel";
                 PStr "Well Group"];
     rows := [[PInt 1; PStr "A1"; PFloat 40; PStr "green"; PStr "b"];
              [PInt 1; PStr "A2"; PFloat 41; PStr "green"; PStr "B"];
              [PInt 2; PStr "A3"; PFloat 42; PStr "green"; PInt 10];
              [PInt 1; PStr "A3"; PFloat 43; PStr "green"; PInt 10];
              [PInt 1; PStr "A3"; PFloat 44; PStr "BF"; PInt 10];
              [PInt 1; PStr "A4"; PFloat 45; PStr "green"; PStr "10"];
              [PInt 1; PStr "A5"; PFloat 46; PStr "green"; PFloat (5 # 2)];
              [PInt 1; PStr "A6"; PFloat 47; PStr "green"; PStr "Ba"]] |}.

Definition mixed_groups_agg : DataFrame :=
  match CytenaProcessor.aggregate mixed_groups None with
  | Ok agg => agg
  | Raise _ => {| columns := []; rows := [] |}
  end.

(** ** The console *)

(** A computation adds to the console and erases nothing. *)
Definition only_prints {A} (m : M A) : Prop :=
  forall w, exists out, stdout (snd (m w)) = (stdout w ++ out)%list.

(** The column "channel" of a table holds [ch] in every row. *)
Definition channel_is (ch : string) (df : DataFrame) : Prop :=
  exists j, find_label (PStr "channel") (columns df) = Some j
            /\ forall a, In a (rows df) -> cell a j = PStr ch.

(** ** Columns of the plate grid *)

(** No two columns have the same label. *)
Definition distinct_labels (cols : list pyval) : Prop :=
  forall i j, (i < List.length cols)%nat -> (j < List.length cols)%nat ->
    val_eqb (nth i cols NaN) (nth j cols NaN) = true -> i = j.

(** A column filled in one row only, with that value in every row; any
    other column as it is. *)
Definition broadcast_column (col : list pyval) : list pyval :=
  match filter notna col with
  | [value] => repeat value (List.length col)
  | _ => col
  end.

(** A cell and the same cell in a column of [float]. *)
Definition upcast_of (a b : pyval) : Prop := b = a \/ b = as_float a.

(** ** The rows of the row-level table *)

(** The channel and the attribute in the label of an export. *)
Definition channel_of (item : string * DataFrame) : string :=
  hd EmptyString (split "_" (fst item)).

Definition attribute_of (item : string * DataFrame) : string :=
  nth 1 (split1 "_" (fst item)) EmptyString.

(** The measurements of a table: for every column but the first (every
    well), in the order of the columns, and for every row (every time
    point), in the order of the rows, the time, the well and the value. *)
Record measurement := { m_time : pyval; m_well : pyval; m_value : pyval }.

Definition measurements (df : DataFrame) : list measurement :=
  flat_map (fun j =>
      map (fun r => {| m_time := cell r 0;
                       m_well := nth j (columns df) NaN;
                       m_value := cell r j |}) (rows df))
    (filter (fun j => negb (val_eqb (nth j (columns df) NaN) (nth 0 (columns df) NaN)))
            (seq 0 (List.length (columns df)))).

(** The Well Groups that the metadata gives a well, in the order of the
    rows of the metadata. *)
Definition groups_of (md : DataFrame) (well : pyval) : list pyval :=
  map (field md "Well Group")
      (filter (fun b => val_eqb well (field md "Well" b)) (rows md)).

(** What a row of the row-level table says. *)
Record entry := {
  e_channel : string;
  e_time : pyval;
  e_well : pyval;
  e_group : pyval;
  e_attribute : string;
  e_value : pyval
}.

(** A measurement of an export once per Well Group of its well, and once
    with a missing Well Group when the metadata gives the well none. *)
Definition entries_of (md : DataFrame) (item : string * DataFrame) : list entry :=
  flat_map (fun m =>
      map (fun g => {| e_channel := channel_of item;
                       e_time := m_time m;
                       e_well := m_well m;
                       e_group := g;
                       e_attribute := attribute_of item;
                       e_value := m_value m |})
          (match groups_of md (m_well m) with
           | [] => [NaN]
           | groups => groups
           end))
    (measurements (snd item)).

(** The exports of a channel, in the order of the dictionary. *)
Definition exports_of (ch : string) (tables : list (string * DataFrame))
  : list (string * DataFrame) :=
  filter (fun item => String.eqb (channel_of item) ch) tables.

(** The entries of the exports of the channels BF, green and EC, channel
    after channel. *)
Definition expected_entries (md : DataFrame) (tables : list (string * DataFrame))
  : list entry :=
  flat_map (fun ch => flat_map (entries_of md) (exports_of ch tables))
           (map fst CytenaProcessor.possible_channels).

(** The row [a] of the joined table [m] of an export holds the entry
    [e]. *)
Definition holds (m : DataFrame) (e : entry) (a : row) : Prop :=
  field m "channel" a = PStr (e_channel e)
  /\ field m "Time" a = e_time e
  /\ field m "Well" a = e_well e
  /\ field m "Well Group" a = e_group e
  /\ field m (e_attribute e) a = e_value e.

(** The row [r] of the table [res] holds the entry [e], its numbers in
    the type of their column. *)
Definition shows (res : DataFrame) (e : entry) (r : row) : Prop :=
  field res "channel" r = PStr (e_channel e)
  /\ upcast_of (e_time e) (field res "Time" r)
  /\ upcast_of (e_well e) (field res "Well" r)
  /\ upcast_of (e_group e) (field res "Well Group" r)
  /\ upcast_of (e_value e) (field res (e_attribute e) r).

(** None of the channels BF, green and EC has two exports. *)
Definition one_export_per_channel (tables : list (string * DataFrame)) : bool :=
  forallb (fun ch => (List.length (exports_of ch tables) <=? 1)%nat)
          (map fst CytenaProcessor.possible_channels).

(** The labels do not clash: the metadata has the columns "Well" and
    "Well Group" and no column "Time" or "channel"; the first column of
    every export is "Time"; no attribute of an export is "Time",
    "channel" or "Scan ID", or the label of a column of the metadata. *)
Definition plain_labels (md : DataFrame) (tables : list (string * DataFrame)) : bool :=
  has_label (PStr "Well") (columns md)
  && has_label (PStr "Well Group") (columns md)
  && negb (has_label (PStr "Time") (columns md))
  && negb (has_label (PStr "channel") (columns md))
  && forallb (fun item =>
        is_literal (nth 0 (columns (snd item)) NaN) "Time"
        && negb (existsb (String.eqb (attribute_of item)) ["Time"; "channel"; "Scan ID"])
        && negb (has_label (PStr (attribute_of item)) (columns md))) tables.

(** What a run of [process] reads in a directory: the exports as the
    reader returns them, the normalised tables and the metadata. *)
Definition raw_tables (d : string) (w : World) : list (string * DataFrame) :=
  match fst (CytenaProcessor.load_measurements d w) with
  | Ok raw => raw
  | Raise _ => []
  end.

Definition tables_read `{Numerics} (d : string) (w : World) : list (string * DataFrame) :=
  match CytenaProcessor.normalise (raw_tables d w) with
  | Ok tables => tables
  | Raise _ => []
  end.

Definition metadata_read `{Numerics} (d : string) (w : World) : DataFrame :=
  match fst (CytenaProcessor.resolve_metadata d w) with
  | Ok (Some md) => md
  | _ => {| columns := []; rows := [] |}
  end.

(** ** The scan identifier in the tables *)

(** Lines 164-257 of [process]: the run once the scan identifier is
    known, with [scan_id] for the identifier. *)
Definition process_from `{Numerics} (scan_id : option string) (data_dir : string)
  : M (DataFrame * DataFrame) :=
  data_dict_processed <- CytenaProcessor.load_measurements data_dir ;;
  data_dict_processed <- lift (CytenaProcessor.normalise data_dict_processed) ;;
  metadata <- CytenaProcessor.resolve_metadata data_dir ;;
  results <- lift (CytenaProcessor.reshape_and_join data_dict_processed metadata scan_id) ;;
  results_agg <- lift (CytenaProcessor.aggregate results scan_id) ;;
  ret (results_agg, results).

(** The run of [process] in which [_extract_scan_id] returns [scan_id]. *)
Definition process_with `{Numerics} (scan_id : option string) (d : string)
  : M (DataFrame * DataFrame) :=
  data_dir <- CytenaProcessor._validate_directory d ;;
  process_from scan_id data_dir.

(** Two tables with [None] in every row of the scan column. *)
Definition scan_missing (tables : DataFrame * DataFrame) : DataFrame * DataFrame :=
  (set_column_const (PStr "Scan ID") PNone (fst tables),
   set_column_const (PStr "Scan ID") PNone (snd tables)).

(** The two tables [process] returns for the directory [mixed]. *)
Definition mixed_tables : DataFrame * DataFrame :=
  match fst (CytenaProcessor.process (H := Decimal.numerics) "mixed" Examples.world) with
  | Ok tables => tables
  | Raise _ => ({| columns := []; rows := [] |}, {| columns := []; rows := [] |})
  end.

(** ** The grid before it is unpivoted *)

Section Prepared.
Context `{Numerics}.

(** What lines 58-79 of [parse_disco_bio_excel] make of the [j]-th
    column of the grid. A column filled in one row only has that value
    in every row. The first column, the concentrations, is then coerced
    to numbers and rounded to two decimals. A column after the second
    that holds text loses every [" (PPB-<digits>)"]. *)
Definition prepared_column (j : nat) (col : list pyval) : list pyval :=
  let col := broadcast_column col in
  match j with
  | 0%nat => map MetadataParser.round_cell (to_numeric col)
  | 1%nat => col
  | _ => if MetadataParser.is_object col
         then map MetadataParser.str_replace_ppb col else col
  end.

(** The grid with every column prepared. *)
Definition prepared (g : DataFrame) : DataFrame :=
  {| columns := columns g;
     rows := map (fun i => map (fun j => nth i (prepared_column j (column_at j g)) NaN)
                               (seq 0 (List.length (columns g))))
                 (seq 0 (List.length (rows g))) |}.

End Prepared.

(* ================================================================== *)
(** * The well-label codec *)
(* ================================================================== *)

Section Codec.
Context `{Numerics}.

Lemma well_to_label_int (well : json) (r c : Z) :
  jget well "Row" = Ok (JInt r) ->
  jget well "Column" = Ok (JInt c) ->
  CytenaProcessor._well_to_label well
  = rbind (str_index ascii_uppercase r)
          (fun row_letter => Ok (row_letter ++ str_of_int (c + 1))%string).
Proof.
  intros Hr Hc. unfold CytenaProcessor._well_to_label.
  rewrite Hr. cbn [rbind].
  destruct (str_index ascii_uppercase r) as [l|e]; cbn [rbind]; [|reflexivity].
  rewrite Hc. reflexivity.
Qed.

Lemma row_letter (r : Z) :
  (0 <= r < 8)%Z ->
  str_index ascii_uppercase r
  = Ok (String (ascii_of_nat (65 + Z.to_nat r)) EmptyString).
Proof.
  intros Hr.
  assert (r = 0 \/ r = 1 \/ r = 2 \/ r = 3 \/ r = 4 \/ r = 5 \/ r = 6 \/ r = 7)%Z
    as Hcases by lia.
  repeat (destruct Hcases as [-> | Hcases]; [reflexivity|]).
  subst r. reflexivity.
Qed.

Lemma column_digits (c : Z) :
  (0 <= c < 12)%Z ->
  In (str_of_int (c + 1))
     ["1"; "2"; "3"; "4"; "5"; "6"; "7"; "8"; "9"; "10"; "11"; "12"]
  /\ forall c', (0 <= c' < 12)%Z -> str_of_int (c' + 1) = str_of_int (c + 1) -> c' = c.
Proof.
  intros Hc.
  assert (c = 0 \/ c = 1 \/ c = 2 \/ c = 3 \/ c = 4 \/ c = 5 \/ c = 6 \/ c = 7
          \/ c = 8 \/ c = 9 \/ c = 10 \/ c = 11)%Z as Hcases by lia.
  split.
  - repeat (destruct Hcases as [-> | Hcases]; [vm_compute; tauto|]).
    subst c. vm_compute. tauto.
  - intros c' Hc' E.
    assert (c' = 0 \/ c' = 1 \/ c' = 2 \/ c' = 3 \/ c' = 4 \/ c' = 5 \/ c' = 6
            \/ c' = 7 \/ c' = 8 \/ c' = 9 \/ c' = 10 \/ c' = 11)%Z as Hcases' by lia.
    repeat (destruct Hcases as [-> | Hcases]);
      repeat (destruct Hcases' as [-> | Hcases']);
      subst; first [reflexivity | vm_compute in E; discriminate E].
Qed.

(** C7. For a row index [r] in [0,8) and a column index [c] in [0,12) the
    encoder returns the [(r+1)]-th uppercase letter followed by the
    decimal digits of [c+1]; this label matches
    [^[A-H](?:[1-9]|1[0-2])$], and two wells in that range with the same
    label have the same indices. *)
Theorem well_label_of_plate_coordinates (well well' : json) (r c r' c' : Z) :
  jget well "Row" = Ok (JInt r) -> jget well "Column" = Ok (JInt c) ->
  jget well' "Row" = Ok (JInt r') -> jget well' "Column" = Ok (JInt c') ->
  (0 <= r < 8)%Z -> (0 <= c < 12)%Z -> (0 <= r' < 8)%Z -> (0 <= c' < 12)%Z ->
  exists letter,
    String.get (Z.to_nat r) ascii_uppercase = Some letter
    /\ CytenaProcessor._well_to_label well = Ok (String letter (str_of_int (c + 1)))
    /\ plate_label (String letter (str_of_int (c + 1))) = true
    /\ (CytenaProcessor._well_to_label well' = CytenaProcessor._well_to_label well ->
        r' = r /\ c' = c).
Proof.
  intros Hr Hc Hr' Hc' Br Bc Br' Bc'.
  exists (ascii_of_nat (65 + Z.to_nat r)).
  rewrite (well_to_label_int well r c Hr Hc), (well_to_label_int well' r' c' Hr' Hc').
  rewrite (row_letter r Br), (row_letter r' Br'). cbn [rbind].
  destruct (column_digits c Bc) as [Hin Hinj].
  repeat split.
  - assert (r = 0 \/ r = 1 \/ r = 2 \/ r = 3 \/ r = 4 \/ r = 5 \/ r = 6 \/ r = 7)%Z
      as Hcases by lia.
    repeat (destruct Hcases as [-> | Hcases]; [reflexivity|]).
    subst r. reflexivity.
  - assert (r = 0 \/ r = 1 \/ r = 2 \/ r = 3 \/ r = 4 \/ r = 5 \/ r = 6 \/ r = 7)%Z
      as Hcases by lia.
    cbn in Hin.
    repeat (destruct Hcases as [-> | Hcases]);
      subst; repeat (destruct Hin as [<- | Hin]; [reflexivity|]); destruct Hin.
  - injection H0 as Ha _.
    apply (f_equal nat_of_ascii) in Ha.
    rewrite !nat_ascii_embedding in Ha by lia. lia.
  - injection H0 as _ Hs. apply Hinj; assumption.
Qed.

End Codec.

Lemma well_label_of_plate_coordinates_witness :
  exists letter,
    String.get (Z.to_nat 2) ascii_uppercase = Some letter
    /\ CytenaProcessor._well_to_label (H := Decimal.numerics) (json_well 2 11)
       = Ok (String letter (str_of_int (11 + 1)))
    /\ plate_label (String letter (str_of_int (11 + 1))) = true
    /\ (CytenaProcessor._well_to_label (H := Decimal.numerics) (json_well 7 0)
        = CytenaProcessor._well_to_label (H := Decimal.numerics) (json_well 2 11) ->
        7 = 2 /\ 0 = 11)%Z.
Proof.
  apply (well_label_of_plate_coordinates (H := Decimal.numerics)
           (json_well 2 11) (json_well 7 0) 2 11 7 0);
    first [reflexivity | lia].
Defined.

(* ================================================================== *)
(** * Running computations *)
(* ================================================================== *)

Lemma Ok_inj {A} (a b : A) : Ok a = Ok b -> a = b.
Proof. congruence. Qed.

Lemma rbind_ok {A B} (r : result A) (f : A -> result B) (b : B) :
  rbind r f = Ok b -> exists a, r = Ok a /\ f a = Ok b.
Proof. destruct r as [a|e]; cbn; [eauto | discriminate]. Qed.

Lemma bind_ok {A B} (m : M A) (f : A -> M B) (w : World) (b : B) :
  fst (bind m f w) = Ok b ->
  exists a w1, m w = (Ok a, w1) /\ fst (f a w1) = Ok b.
Proof.
  unfold bind. destruct (m w) as [[a|e] w1]; cbn; [eauto | discriminate].
Qed.

Lemma bind_run_ok {A B} (m : M A) (f : A -> M B) (w w2 : World) (b : B) :
  bind m f w = (Ok b, w2) ->
  exists a w1, m w = (Ok a, w1) /\ f a w1 = (Ok b, w2).
Proof.
  unfold bind. destruct (m w) as [[a|e] w1]; [eauto | discriminate].
Qed.

Lemma lift_ok {A} (r : result A) (w : World) (a : A) :
  fst (lift r w) = Ok a -> r = Ok a.
Proof. exact (fun E => E). Qed.

Lemma rmap_ok {A B} (f : A -> result B) (l : list A) (l' : list B) :
  rmap f l = Ok l' -> Forall2 (fun x y => f x = Ok y) l l'.
Proof.
  revert l'. induction l as [|x l IH]; cbn; intros l' E.
  - injection E as <-. constructor.
  - destruct (f x) as [y|] eqn:Ex; cbn in E; [|discriminate].
    destruct (rmap f l) as [ys|] eqn:El; cbn in E; [|discriminate].
    injection E as <-. constructor; auto.
Qed.

Lemma rmap_total {A B} (f : A -> result B) (g : A -> B) (l : list A) :
  (forall x, In x l -> f x = Ok (g x)) -> rmap f l = Ok (map g l).
Proof.
  induction l as [|x l IH]; cbn; intros Hf; [reflexivity|].
  rewrite (Hf x) by auto. cbn. rewrite IH by auto. reflexivity.
Qed.

(** ** The file system is only read *)

Section Keeps.

Lemma keeps_ret {A} (a : A) : keeps_fs (ret a).
Proof. intro; reflexivity. Qed.

Lemma keeps_raise {A} (e : exn) : keeps_fs (@raise A e).
Proof. intro; reflexivity. Qed.

Lemma keeps_lift {A} (r : result A) : keeps_fs (lift r).
Proof. intro; reflexivity. Qed.

Lemma keeps_print (msg : string) : keeps_fs (print msg).
Proof. intro; reflexivity. Qed.

Lemma keeps_read {A} (f : list (string * node) -> result A) : keeps_fs (read f).
Proof. intro; reflexivity. Qed.

Lemma keeps_bind {A B} (m : M A) (f : A -> M B) :
  keeps_fs m -> (forall a, keeps_fs (f a)) -> keeps_fs (bind m f).
Proof.
  intros Hm Hf w. unfold bind. specialize (Hm w).
  destruct (m w) as [[a|e] w1]; cbn in *; [|assumption].
  rewrite Hf. assumption.
Qed.

Lemma keeps_foreach {A S} (l : list A) (body : A -> S -> M S) (s : S) :
  (forall x s, keeps_fs (body x s)) -> keeps_fs (foreach l body s).
Proof.
  intros Hb. revert s. induction l as [|x l IH]; intros s; cbn.
  - apply keeps_ret.
  - apply keeps_bind; auto.
Qed.

End Keeps.

(** One step of a proof that a computation keeps the file system. *)
Ltac keeps_step :=
  lazymatch goal with
  | |- keeps_fs (bind _ _) => apply keeps_bind; [|intros]
  | |- keeps_fs (ret _) => apply keeps_ret
  | |- keeps_fs (raise _) => apply keeps_raise
  | |- keeps_fs (lift _) => apply keeps_lift
  | |- keeps_fs (print _) => apply keeps_print
  | |- keeps_fs (read _) => apply keeps_read
  | |- keeps_fs (foreach _ _ _) => apply keeps_foreach; intros
  | |- keeps_fs (match ?x with _ => _ end) => destruct x
  | |- keeps_fs (let _ := _ in _) => cbv zeta
  end.

Ltac keeps := repeat keeps_step.

(** ** Two runs on the same directory *)

Section Agree.
Variables d1 d2 : string.

Lemma agree_ret {A} (R : A -> A -> Prop) (a1 a2 : A) :
  R a1 a2 -> agree d1 d2 R (ret a1) (ret a2).
Proof. intros HR w1 w2 _. exact HR. Qed.

Lemma agree_raise {A} (R : A -> A -> Prop) (e : exn) :
  agree d1 d2 R (raise e) (raise e).
Proof. intros w1 w2 _. reflexivity. Qed.

Lemma agree_lift {A} (r : result A) : agree d1 d2 eq (lift r) (lift r).
Proof. intros w1 w2 _. cbn. destruct r; reflexivity. Qed.

Lemma agree_print (m1 m2 : string) : agree d1 d2 eq (print m1) (print m2).
Proof. intros w1 w2 _. reflexivity. Qed.

Lemma agree_bind {A B} (RA : A -> A -> Prop) (RB : B -> B -> Prop)
    (m1 m2 : M A) (f1 f2 : A -> M B) :
  keeps_fs m1 -> keeps_fs m2 ->
  agree d1 d2 RA m1 m2 ->
  (forall a1 a2, RA a1 a2 -> agree d1 d2 RB (f1 a1) (f2 a2)) ->
  agree d1 d2 RB (bind m1 f1) (bind m2 f2).
Proof.
  intros K1 K2 Hm Hf w1 w2 Hw. unfold bind.
  specialize (Hm w1 w2 Hw). specialize (K1 w1). specialize (K2 w2).
  destruct (m1 w1) as [[a1|e1] w1'], (m2 w2) as [[a2|e2] w2']; cbn in *;
    try contradiction.
  - apply Hf; [assumption|]. unfold same_dir. rewrite K1, K2. exact Hw.
  - assumption.
Qed.

Lemma agree_foreach {A S} (l : list A) (body1 body2 : A -> S -> M S) (s : S) :
  (forall x s, keeps_fs (body1 x s)) -> (forall x s, keeps_fs (body2 x s)) ->
  (forall x s, agree d1 d2 eq (body1 x s) (body2 x s)) ->
  agree d1 d2 eq (foreach l body1 s) (foreach l body2 s).
Proof.
  intros K1 K2 Hb. revert s. induction l as [|x l IH]; intros s; cbn.
  - apply agree_ret. reflexivity.
  - apply agree_bind with (RA := eq); auto.
    intros a1 a2 <-. apply IH.
Qed.

(** Whatever is read below [d1] in one world and below [d2] in the other
    is the same. *)
Lemma resolve_below (root : list (string * node)) (d : string) (rest : path) :
  resolve root (d :: rest)
  = match lookup d root with
    | None => Raise FileNotFoundError
    | Some (File c) => match rest with
                       | [] => Ok (File c)
                       | _ => Raise NotADirectoryError
                       end
    | Some (Dir es) => resolve es rest
    end.
Proof. reflexivity. Qed.

Lemma agree_read {A} (rest : path) (f : result node -> result A) :
  agree d1 d2 eq (read (fun root => f (resolve root (d1 :: rest))))
                 (read (fun root => f (resolve root (d2 :: rest)))).
Proof.
  intros w1 w2 Hw. cbn [read fst]. rewrite !resolve_below.
  unfold same_dir in Hw. rewrite Hw. destruct (f _); reflexivity.
Qed.

Lemma agree_exists : agree d1 d2 eq (exists_ [d1]) (exists_ [d2]).
Proof. exact (agree_read [] (fun r => Ok (is_ok r))). Qed.

Lemma agree_listdir (rest : path) :
  agree d1 d2 eq (listdir (d1 :: rest)) (listdir (d2 :: rest)).
Proof.
  exact (agree_read rest (fun r => rbind r (fun n =>
           match n with Dir es => Ok (map fst es) | File _ => Raise NotADirectoryError end))).
Qed.

Lemma agree_glob_ext (ext : string) :
  agree d1 d2 eq (glob_ext [d1] ext) (glob_ext [d2] ext).
Proof.
  exact (agree_read [] (fun r =>
           match r with
           | Ok (Dir es) => Ok (filter (fun f => endswith f ext) (map fst es))
           | _ => Ok []
           end)).
Qed.

Lemma agree_read_file {A} (rest : path) (bad : exn) (get : content -> option A) :
  agree d1 d2 eq (read_file (d1 :: rest) bad get) (read_file (d2 :: rest) bad get).
Proof.
  exact (agree_read rest (fun r => rbind r (fun n =>
           match n with
           | Dir _ => Raise IsADirectoryError
           | File c => match get c with Some a => Ok a | None => Raise bad end
           end))).
Qed.

End Agree.

Create HintDb world discriminated.

Ltac keeps_leaf :=
  lazymatch goal with
  | |- keeps_fs (exists_ _) => apply keeps_read
  | |- keeps_fs (listdir _) => apply keeps_read
  | |- keeps_fs (glob_ext _ _) => apply keeps_read
  | |- keeps_fs (read_file _ _ _) => apply keeps_read
  | |- keeps_fs (read_csv _) => apply keeps_read
  | |- keeps_fs (read_excel _) => apply keeps_read
  | |- keeps_fs (load_json _) => apply keeps_read
  | |- keeps_fs _ => solve [auto with world]
  end.

Ltac keeps_all := repeat first [keeps_step | keeps_leaf].

Ltac agree_step :=
  lazymatch goal with
  | |- agree _ _ eq (bind _ _) (bind _ _) =>
      apply agree_bind with (RA := eq); [keeps_all | keeps_all | | intros ? ? <-]
  | |- agree _ _ _ (ret _) (ret _) => apply agree_ret; reflexivity
  | |- agree _ _ _ (raise _) (raise _) => apply agree_raise
  | |- agree _ _ _ (lift _) (lift _) => apply agree_lift
  | |- agree _ _ _ (print _) (print _) => apply agree_print
  | |- agree _ _ _ (exists_ _) (exists_ _) => apply agree_exists
  | |- agree _ _ _ (listdir _) (listdir _) => apply agree_listdir
  | |- agree _ _ _ (glob_ext _ _) (glob_ext _ _) => apply agree_glob_ext
  | |- agree _ _ _ (read_csv _) (read_csv _) => apply agree_read_file
  | |- agree _ _ _ (read_excel _) (read_excel _) => apply agree_read_file
  | |- agree _ _ _ (load_json _) (load_json _) => apply agree_read_file
  | |- agree _ _ _ (foreach _ _ _) (foreach _ _ _) =>
      apply agree_foreach; [intros; keeps_all | intros; keeps_all | intros]
  | |- agree _ _ _ (match ?x with _ => _ end) (match ?x with _ => _ end) => destruct x
  | |- agree _ _ _ (let _ := _ in _) _ => cbv zeta
  | |- agree _ _ _ _ _ => solve [auto with world]
  end.

Ltac agree_all := repeat agree_step.

(* ================================================================== *)
(** * The pipeline reads the staging directory and nothing else *)
(* ================================================================== *)

Lemma keeps_validate (d : string) : keeps_fs (CytenaProcessor._validate_directory d).
Proof. unfold CytenaProcessor._validate_directory. keeps_all. Qed.

Lemma keeps_extract_scan_id (d : string) : keeps_fs (CytenaProcessor._extract_scan_id d).
Proof. unfold CytenaProcessor._extract_scan_id. keeps_all. Qed.

Lemma keeps_read_summaries (d marker : string) :
  keeps_fs (CytenaProcessor.read_summaries d marker).
Proof. unfold CytenaProcessor.read_summaries. keeps_all. Qed.

#[global] Hint Resolve keeps_validate keeps_extract_scan_id keeps_read_summaries : world.

Lemma keeps_parse_position (d : string) :
  keeps_fs (CytenaProcessor.parse_position_summary_files d).
Proof. unfold CytenaProcessor.parse_position_summary_files. keeps_all. Qed.

Lemma keeps_parse_well (d : string) :
  keeps_fs (CytenaProcessor.parse_well_summary_files d).
Proof. unfold CytenaProcessor.parse_well_summary_files. keeps_all. Qed.

#[global] Hint Resolve keeps_parse_position keeps_parse_well : world.

Lemma keeps_load_measurements (d : string) :
  keeps_fs (CytenaProcessor.load_measurements d).
Proof. unfold CytenaProcessor.load_measurements. keeps_all. Qed.

#[global] Hint Resolve keeps_load_measurements : world.

Section KeepsMetadata.
Context `{Numerics}.

Lemma keeps_parse_json (self : instance) (p : path) :
  keeps_fs (MetadataParser.parse_json_metadata self p).
Proof. unfold MetadataParser.parse_json_metadata. keeps_all. Qed.

Lemma keeps_check_and_coerce (md : DataFrame) :
  keeps_fs (MetadataParser.check_and_coerce md).
Proof. unfold MetadataParser.check_and_coerce. keeps_all. Qed.

Lemma keeps_parse_disco (md : DataFrame) :
  keeps_fs (MetadataParser.parse_disco_bio_excel md).
Proof.
  unfold MetadataParser.parse_disco_bio_excel.
  apply keeps_bind; [apply keeps_check_and_coerce | intros; apply keeps_lift].
Qed.

Lemma keeps_resolve_metadata (d : string) :
  keeps_fs (CytenaProcessor.resolve_metadata d).
Proof.
  pose proof keeps_parse_json. pose proof keeps_parse_disco.
  unfold CytenaProcessor.resolve_metadata. keeps_all.
Qed.

Lemma keeps_process (d : string) : keeps_fs (CytenaProcessor.process d).
Proof.
  pose proof keeps_resolve_metadata.
  unfold CytenaProcessor.process. keeps_all.
Qed.

End KeepsMetadata.

Section AgreePipeline.
Context `{Numerics}.
Variables d1 d2 : string.

Lemma agree_validate :
  agree d1 d2 (fun a1 a2 => a1 = d1 /\ a2 = d2)
        (CytenaProcessor._validate_directory d1)
        (CytenaProcessor._validate_directory d2).
Proof.
  unfold CytenaProcessor._validate_directory.
  apply agree_bind with (RA := eq); [keeps_all | keeps_all | apply agree_exists |].
  intros found ? <-. destruct (negb found); [apply agree_raise|].
  apply agree_bind with (RA := eq); [keeps_all | keeps_all | | ].
  - agree_all.
  - intros l ? <-. destruct l; [apply agree_raise | apply agree_ret; split; reflexivity].
Qed.

Lemma agree_extract_scan_id :
  agree d1 d2 eq (CytenaProcessor._extract_scan_id d1) (CytenaProcessor._extract_scan_id d2).
Proof. unfold CytenaProcessor._extract_scan_id. agree_all. Qed.

Lemma agree_read_summaries (marker : string) :
  agree d1 d2 eq (CytenaProcessor.read_summaries d1 marker)
                 (CytenaProcessor.read_summaries d2 marker).
Proof. unfold CytenaProcessor.read_summaries. agree_all. Qed.

Lemma agree_parse_position :
  agree d1 d2 eq (CytenaProcessor.parse_position_summary_files d1)
                 (CytenaProcessor.parse_position_summary_files d2).
Proof.
  pose proof agree_read_summaries.
  unfold CytenaProcessor.parse_position_summary_files. agree_all.
Qed.

Lemma agree_parse_well :
  agree d1 d2 eq (CytenaProcessor.parse_well_summary_files d1)
                 (CytenaProcessor.parse_well_summary_files d2).
Proof.
  pose proof agree_read_summaries.
  unfold CytenaProcessor.parse_well_summary_files. agree_all.
Qed.

Lemma agree_load_measurements :
  agree d1 d2 eq (CytenaProcessor.load_measurements d1)
                 (CytenaProcessor.load_measurements d2).
Proof.
  pose proof agree_parse_position. pose proof agree_parse_well.
  unfold CytenaProcessor.load_measurements. agree_all.
Qed.

Lemma agree_parse_json (self : instance) (rest : path) :
  agree d1 d2 eq (MetadataParser.parse_json_metadata self (d1 :: rest))
                 (MetadataParser.parse_json_metadata self (d2 :: rest)).
Proof.
  unfold MetadataParser.parse_json_metadata.
  apply agree_bind with (RA := eq); [keeps_all | keeps_all | | ].
  - exact (agree_read_file d1 d2 (rest ++ ["AnalysisWellGroup.json"]) JSONDecodeError
             (fun c => match c with Json j => Some j | _ => None end)).
  - intros ? ? <-. agree_all.
Qed.

Lemma agree_check_and_coerce (md : DataFrame) :
  agree d1 d2 eq (MetadataParser.check_and_coerce md) (MetadataParser.check_and_coerce md).
Proof. unfold MetadataParser.check_and_coerce. agree_all. Qed.

Lemma agree_parse_disco (md : DataFrame) :
  agree d1 d2 eq (MetadataParser.parse_disco_bio_excel md)
                 (MetadataParser.parse_disco_bio_excel md).
Proof.
  unfold MetadataParser.parse_disco_bio_excel.
  apply agree_bind with (RA := eq).
  - apply keeps_check_and_coerce.
  - apply keeps_check_and_coerce.
  - apply agree_check_and_coerce.
  - intros ? ? <-. apply agree_lift.
Qed.

Lemma agree_resolve_metadata :
  agree d1 d2 eq (CytenaProcessor.resolve_metadata d1) (CytenaProcessor.resolve_metadata d2).
Proof.
  pose proof agree_parse_disco. pose proof keeps_parse_disco.
  pose proof keeps_parse_json.
  pose proof (fun self file => agree_parse_json self [file]).
  unfold CytenaProcessor.resolve_metadata. agree_all.
Qed.

Lemma agree_process :
  agree d1 d2 eq (CytenaProcessor.process d1) (CytenaProcessor.process d2).
Proof.
  pose proof agree_extract_scan_id. pose proof agree_load_measurements.
  pose proof agree_resolve_metadata. pose proof keeps_resolve_metadata.
  unfold CytenaProcessor.process.
  apply agree_bind with (RA := fun a1 a2 => a1 = d1 /\ a2 = d2);
    [keeps_all | keeps_all | apply agree_validate |].
  intros ? ? [-> ->]. agree_all.
Qed.

End AgreePipeline.

Lemma same_outcome_eq {A} (r1 r2 : result A) : same_outcome eq r1 r2 -> r1 = r2.
Proof. destruct r1, r2; cbn; intros E; congruence || contradiction. Qed.

(* ================================================================== *)
(** * Scan identifiers *)
(* ================================================================== *)

Lemma read_run {A} (f : list (string * node) -> result A) (w : World) (r : result A) :
  fst (read f w) = r -> read f w = (r, w).
Proof. unfold read. cbn. intros <-. reflexivity. Qed.

Lemma set_add_in (x y : string) (s : list string) :
  In y (CytenaProcessor.set_add x s) <-> In y s \/ y = x.
Proof.
  unfold CytenaProcessor.set_add.
  destruct (existsb (String.eqb x) s) eqn:E.
  - apply existsb_exists in E as [z [Hz Ez]]. apply String.eqb_eq in Ez. subst z.
    split; [auto | intros [Hy | ->]; assumption].
  - rewrite in_app_iff. cbn. intuition.
Qed.

Lemma set_add_nodup (x : string) (s : list string) :
  NoDup s -> NoDup (CytenaProcessor.set_add x s).
Proof.
  intros Hs. unfold CytenaProcessor.set_add.
  destruct (existsb (String.eqb x) s) eqn:E; [assumption|].
  assert (~ In x s) as Hx.
  { intros Hin. assert (existsb (String.eqb x) s = true) as E'.
    { apply existsb_exists. exists x. split; [assumption | apply String.eqb_refl]. }
    congruence. }
  clear E. induction Hs as [|y s Hy Hs IH]; cbn.
  - constructor; [intros [] | constructor].
  - constructor.
    + rewrite in_app_iff. cbn. intros [Hin | [-> | []]]; [auto | apply Hx; left; reflexivity].
    + apply IH. intros Hin. apply Hx. right. assumption.
Qed.

(** The set of prefixes the loop of [_extract_scan_id] builds. *)
Lemma prefixes_spec (files acc : list string) :
  let r := fold_left (fun prefixes file =>
             if endswith file ".csv"
             then CytenaProcessor.set_add (hd EmptyString (split "_" file)) prefixes
             else prefixes) files acc in
  (forall x, In x r <-> In x acc \/ exists f, In f (csv_files files) /\ scan_prefix f = x)
  /\ (NoDup acc -> NoDup r).
Proof.
  revert acc. induction files as [|f files IH]; intros acc; cbn.
  - split; [|auto]. intros x. split; [auto | intros [Hx | [f [[] _]]]; assumption].
  - destruct (IH (if endswith f ".csv"
                  then CytenaProcessor.set_add (hd EmptyString (split "_" f)) acc
                  else acc)) as [IHin IHnd].
    split.
    + intros x. rewrite IHin. unfold csv_files. cbn [filter].
      destruct (endswith f ".csv").
      * rewrite set_add_in. split.
        -- intros [[Hx | ->] | [g [Hg Eg]]].
           ++ left. assumption.
           ++ right. exists f. split; [left; reflexivity | reflexivity].
           ++ right. exists g. split; [right; assumption | assumption].
        -- intros [Hx | [g [[<- | Hg] Eg]]].
           ++ left. left. assumption.
           ++ left. right. symmetry. exact Eg.
           ++ right. exists g. split; assumption.
      * tauto.
    + intros Hacc. apply IHnd. destruct (endswith f ".csv"); [apply set_add_nodup|]; assumption.
Qed.

Lemma prefix_cons (a b : ascii) (s t : string) :
  String.prefix (String a s) (String b t)
  = if ascii_dec a b then String.prefix s t else false.
Proof. reflexivity. Qed.

Lemma prefix_nil (t : string) : String.prefix EmptyString t = true.
Proof. destruct t; reflexivity. Qed.

Lemma split_go_head (p rest : string) (n : nat) :
  contains "_" p = false ->
  hd EmptyString (split_go "_" (S n) 0 (p ++ String "_" rest)) = p.
Proof.
  induction p as [|c p IH]; cbn [append]; intros Hp.
  - cbn [split_go].
    assert (String.prefix "_" (String "_" rest) = true) as ->; [|reflexivity].
    rewrite prefix_cons, prefix_nil. destruct (ascii_dec "_" "_"); congruence.
  - cbn [contains] in Hp. apply orb_false_iff in Hp as [Hc Hp].
    cbn [split_go]. assert (String.prefix "_" (String c (p ++ String "_" rest)) = false) as ->.
    { rewrite prefix_cons, prefix_nil in *. exact Hc. }
    specialize (IH Hp).
    destruct (split_go "_" (S n) 0 (p ++ String "_" rest)); cbn in *; congruence.
Qed.

(** The prefix is the text before the first underscore. *)
Lemma scan_prefix_before_underscore (p rest : string) :
  contains "_" p = false -> scan_prefix (p ++ String "_" rest) = p.
Proof.
  intros Hp. unfold scan_prefix, split.
  destruct (String.length (p ++ String "_" rest)) as [|n] eqn:E.
  - destruct p; discriminate E.
  - apply split_go_head. assumption.
Qed.

(* ================================================================== *)
(** * Determinism *)
(* ================================================================== *)

(** C9, amended. Two invocations of [process] on directories that hold
    the same files with the same contents, listed by [os.listdir] in the
    same order, end alike: both raise the same exception, or both return
    the same aggregated table and the same row-level table. The path of
    the directory, the rest of the file system and what the console
    showed before play no part. *)
Theorem process_is_deterministic `{Numerics} (d1 d2 : string) (w1 w2 : World) :
  lookup d1 (fs w1) = lookup d2 (fs w2) ->
  fst (CytenaProcessor.process d1 w1) = fst (CytenaProcessor.process d2 w2).
Proof.
  intros Hw. apply same_outcome_eq. apply (agree_process d1 d2). exact Hw.
Qed.

Lemma process_is_deterministic_witness :
  fst (CytenaProcessor.process (H := Decimal.numerics) "run1" Examples.world)
  = fst (CytenaProcessor.process (H := Decimal.numerics) "upload_7" Examples.world').
Proof.
  apply (process_is_deterministic (H := Decimal.numerics)
           "run1" "upload_7" Examples.world Examples.world').
  reflexivity.
Defined.

(** The claim C9 as the specification states it does not hold: the
    directories [listed] and [relisted] hold the same three files with
    the same contents, [os.listdir] lists the two exports of the
    brightfield channel in the one order and in the other, and [process]
    returns other tables for the one than for the other. The export
    listed first decides which wells and time points the row-level table
    has. *)
Lemma listing_order_changes_the_tables :
  same_files "listed" "relisted" Examples.listings Examples.listings
  /\ fst (CytenaProcessor.process (H := Decimal.numerics) "listed" Examples.listings)
     = Ok listed_tables
  /\ fst (CytenaProcessor.process (H := Decimal.numerics) "relisted" Examples.listings)
     = Ok relisted_tables
  /\ map (field (snd listed_tables) "Well") (rows (snd listed_tables))
     = [PStr "A1"; PStr "A2"; PStr "B1"; PStr "C1"]
  /\ map (field (snd relisted_tables) "Well") (rows (snd relisted_tables))
     = [PStr "A1"; PStr "A1"; PStr "A2"; PStr "A2"]
  /\ fst (CytenaProcessor.process (H := Decimal.numerics) "listed" Examples.listings)
     <> fst (CytenaProcessor.process (H := Decimal.numerics) "relisted" Examples.listings).
Proof.
  split; [|split; [|split; [|split; [|split]]]].
  - do 2 eexists. split; [reflexivity|]. split; [reflexivity|]. apply perm_swap.
  - vm_compute. reflexivity.
  - vm_compute. reflexivity.
  - vm_compute. reflexivity.
  - vm_compute. reflexivity.
  - intros E. vm_compute in E. discriminate E.
Qed.

(** A second invocation sees the directory as the first one found it. *)
Corollary process_twice `{Numerics} (d : string) (w : World) :
  fst (CytenaProcessor.process d (snd (CytenaProcessor.process d w)))
  = fst (CytenaProcessor.process d w).
Proof.
  symmetry. apply same_outcome_eq. apply (agree_process d d).
  unfold same_dir. rewrite keeps_process. reflexivity.
Qed.

(* ================================================================== *)
(** * Which reader supplies the measurements *)
(* ================================================================== *)

Ltac bind_inv E :=
  let a := fresh "a" in
  let w := fresh "w" in
  let R := fresh "Run" in
  apply bind_ok in E as (a & w & R & E).

Lemma run_fs {A} (m : M A) (w w1 : World) (r : result A) :
  keeps_fs m -> m w = (r, w1) -> fs w1 = fs w.
Proof. intros K E. specialize (K w). rewrite E in K. exact K. Qed.

(** The second loop of [parse_position_summary_files] ends with [False]
    or with the dictionary it started from. *)
Lemma position_loop_result (items acc : list (string * DataFrame))
    (r : CytenaProcessor.position_result) :
  CytenaProcessor.position_loop items acc = Ok r ->
  r = CytenaProcessor.PFalse \/ r = CytenaProcessor.PDict acc.
Proof.
  induction items as [|[label df] items IH]; cbn [CytenaProcessor.position_loop]; intros E.
  - injection E as <-. right. reflexivity.
  - apply rbind_ok in E as (df1 & _ & E).
    apply rbind_ok in E as (df2 & _ & E).
    apply rbind_ok in E as (flags & _ & E).
    destruct (forallb (fun b => b) flags).
    + apply IH. exact E.
    + injection E as <-. left. reflexivity.
Qed.

(** [parse_position_summary_files] never returns a true value. *)
Lemma parse_position_is_falsy (d : string) (w : World) (r : CytenaProcessor.position_result) :
  fst (CytenaProcessor.parse_position_summary_files d w) = Ok r ->
  CytenaProcessor.truthy r = false.
Proof.
  unfold CytenaProcessor.parse_position_summary_files. intros E.
  bind_inv E. apply lift_ok in E.
  apply position_loop_result in E as [-> | ->]; reflexivity.
Qed.

(** Whatever [process] goes on with came from the per-well reader. *)
Lemma load_measurements_reads_well_summaries (d : string) (w : World)
    (tables : list (string * DataFrame)) :
  fst (CytenaProcessor.load_measurements d w) = Ok tables ->
  fst (CytenaProcessor.parse_well_summary_files d w) = Ok tables.
Proof.
  unfold CytenaProcessor.load_measurements. intros E.
  bind_inv E.
  assert (CytenaProcessor.truthy a = false) as Hf.
  { apply (parse_position_is_falsy d w). rewrite Run. reflexivity. }
  rewrite Hf in E. cbn [negb] in E.
  bind_inv E.
  rewrite <- E. apply same_outcome_eq.
  apply (agree_parse_well d d). unfold same_dir.
  apply (run_fs _ _ _ _ (keeps_print _)) in Run0.
  apply (run_fs _ _ _ _ (keeps_parse_position d)) in Run.
  rewrite Run0, Run. reflexivity.
Qed.

(** C1, at a directory whose only export is per-position with one
    position per well: the layout check passes (the reader returns a
    dictionary, not [False]), yet the dictionary is empty, so [process]
    takes the per-well branch, finds no table and raises. *)
Theorem per_position_tables_are_not_used :
  fst (CytenaProcessor.parse_position_summary_files "positions" Examples.world)
  = Ok (CytenaProcessor.PDict [])
  /\ fst (CytenaProcessor.load_measurements "positions" Examples.world) = Ok []
  /\ fst (CytenaProcessor.process (H := Decimal.numerics) "positions" Examples.world)
     = Raise ValueError.
Proof. repeat split; vm_compute; reflexivity. Qed.

(* ================================================================== *)
(** * Metadata that cannot be resolved *)
(* ================================================================== *)

Section Unresolved.
Context `{Numerics}.

Lemma val_eqb_refl (v : pyval) : val_eqb v v = true.
Proof.
  destruct v; cbn; try reflexivity.
  - apply Qeq_bool_iff. reflexivity.
  - apply Qeq_bool_iff. reflexivity.
  - apply String.eqb_refl.
Qed.

(** Without a metadata table the row-level table cannot be built. *)
Lemma reshape_needs_metadata (tables : list (string * DataFrame)) (scan_id : option string) :
  is_ok (CytenaProcessor.reshape_and_join tables None scan_id) = false.
Proof.
  unfold CytenaProcessor.reshape_and_join.
  destruct (rmap _ tables) as [long|e]; [|reflexivity]. cbn [rbind].
  destruct long as [|item long]; cbn [rmap CytenaProcessor.local rbind]; reflexivity.
Qed.

Lemma listdir_same_fs (p : path) (w w' : World) :
  fs w' = fs w -> listdir p w' = (fst (listdir p w), w').
Proof. unfold listdir, read. cbn. intros ->. reflexivity. Qed.

Lemma resolve_metadata_unresolvable (d : string) (w : World) (names : list string) :
  fst (listdir [d] w) = Ok names ->
  unresolvable names = true ->
  fst (CytenaProcessor.resolve_metadata d w) = Ok None.
Proof.
  intros Hls Hun. unfold CytenaProcessor.resolve_metadata, bind, print, listdir, read in *.
  cbn [fst fs] in *. rewrite Hls.
  unfold unresolvable in Hun.
  destruct (filter (fun file => endswith file ".xlsx") names) as [|x [|y xs]].
  - rewrite Hls.
    destruct (filter (fun file => endswith file ".json") names) as [|j [|k js]];
      [reflexivity | discriminate Hun | reflexivity].
  - discriminate Hun.
  - reflexivity.
Qed.

Lemma validate_returns (d a : string) (w w' : World) :
  CytenaProcessor._validate_directory d w = (Ok a, w') -> a = d.
Proof.
  unfold CytenaProcessor._validate_directory. intros E.
  apply bind_run_ok in E as (found & w1 & _ & E).
  destruct (negb found); [discriminate E|].
  apply bind_run_ok in E as (files & w2 & _ & E).
  destruct files; [discriminate E|]. unfold ret in E. congruence.
Qed.

(** In a staging directory whose metadata cannot be resolved, [process]
    does not return. *)
Lemma process_raises_when_unresolvable (d : string) (w : World) (names : list string) :
  fst (listdir [d] w) = Ok names ->
  unresolvable names = true ->
  is_ok (fst (CytenaProcessor.process d w)) = false.
Proof.
  intros Hls Hun.
  destruct (fst (CytenaProcessor.process d w)) as [r|e] eqn:E; [exfalso | reflexivity].
  unfold CytenaProcessor.process in E.
  bind_inv E. bind_inv E. bind_inv E. bind_inv E. bind_inv E. bind_inv E.
  assert (CytenaProcessor.reshape_and_join a2 a3 a0 = Ok a4) as Hre
    by (unfold lift in Run4; congruence).
  pose proof (reshape_needs_metadata a2 a0) as Hno.
  assert (a3 = None) as ->; [|rewrite Hre in Hno; discriminate Hno].
  assert (a = d) as -> by (eapply validate_returns; eassumption).
  apply (run_fs _ _ _ _ (keeps_validate d)) in Run.
  apply (run_fs _ _ _ _ (keeps_extract_scan_id d)) in Run0.
  apply (run_fs _ _ _ _ (keeps_load_measurements d)) in Run1.
  apply (run_fs _ _ _ _ (keeps_lift _)) in Run2.
  assert (fst (listdir [d] w3) = Ok names) as Hls3.
  { rewrite (listdir_same_fs [d] w w3); [exact Hls | congruence]. }
  pose proof (resolve_metadata_unresolvable d w3 names Hls3 Hun) as Hr.
  rewrite Run3 in Hr. cbn in Hr. congruence.
Qed.

End Unresolved.

(** C2, at a directory with one export and no metadata file, and at a
    directory with two spreadsheets: [process] reports the anomaly and
    goes on, and then raises [UnboundLocalError] where it reads the
    variable [metadata], which no branch has assigned. *)
Theorem unresolved_metadata_raises :
  unresolvable ["scan42_summary_wells_BF_total_intensity.csv"] = true
  /\ CytenaProcessor.process (H := Decimal.numerics) "bare" Examples.world
     = (Raise UnboundLocalError,
        {| fs := Examples.staging;
           stdout := ["INFO: Multiple positions detected, switching to well summary files";
                      "INFO: No Excel file found in data directory, looking for JSON file";
                      "ERROR: No JSON file found in data directory. Metadata extraction is not possible."] |})
  /\ fst (CytenaProcessor.process (H := Decimal.numerics) "two_sheets" Examples.world)
     = Raise UnboundLocalError.
Proof. repeat split; vm_compute; reflexivity. Qed.

(* ================================================================== *)
(** * Metadata from [AnalysisWellGroup.json] *)
(* ================================================================== *)

Lemma pdict_set_in {A} (k : pyval) (v : A) (d : list (pyval * A)) (x : pyval * A) :
  In x (pdict_set k v d) -> In x d \/ snd x = v.
Proof.
  induction d as [|[k' v'] d IH]; cbn.
  - intros [<- | []]. right. reflexivity.
  - destruct (val_eqb k' k); cbn.
    + intros [<- | Hx]; [right; reflexivity | left; right; assumption].
    + intros [<- | Hx]; [left; left; reflexivity|].
      destruct (IH Hx); [left; right; assumption | right; assumption].
Qed.

(** An instance of [MetadataParser] has no [_well_to_label]: a group that
    lists a well cannot be decoded, and a dictionary that is returned
    holds no well at all. *)
Lemma well_groups_without_codec (content : json) (d : list (pyval * list string)) :
  well_groups_of_json MetadataParser.new content = Ok d ->
  forall g, In g d -> snd g = [].
Proof.
  unfold well_groups_of_json. intros E.
  apply rbind_ok in E as (coll & _ & E).
  apply rbind_ok in E as (groups & _ & E).
  assert (forall g, In g (@nil (pyval * list string)) -> snd g = []) as Hacc
    by (intros g []).
  revert E Hacc. generalize (@nil (pyval * list string)) as acc.
  induction groups as [|group groups IH]; cbn [rfold]; intros acc E Hacc.
  - injection E as <-. exact Hacc.
  - apply rbind_ok in E as (acc' & Hstep & E).
    apply (IH acc' E).
    apply rbind_ok in Hstep as (name & _ & Hstep).
    apply rbind_ok in Hstep as (key & _ & Hstep).
    apply rbind_ok in Hstep as (sel & _ & Hstep).
    apply rbind_ok in Hstep as (wells & _ & Hstep).
    apply rbind_ok in Hstep as (labels & Hlabels & Hstep).
    injection Hstep as <-.
    assert (labels = []) as ->.
    { destruct wells as [|w0 wells]; cbn in Hlabels; [congruence | discriminate]. }
    intros g Hg. apply pdict_set_in in Hg as [Hg | Hg]; auto.
Qed.

(** [MetadataParser.parse_json_metadata] returns no row, whatever the
    file holds. *)
Lemma parse_json_metadata_is_empty (p : path) (w : World) (df : DataFrame) :
  fst (MetadataParser.parse_json_metadata MetadataParser.new p w) = Ok df ->
  df = {| columns := []; rows := [] |}.
Proof.
  unfold MetadataParser.parse_json_metadata. intros E.
  bind_inv E. bind_inv E. unfold lift in Run0.
  assert (well_groups_of_json MetadataParser.new a = Ok a0) as Hd by congruence.
  pose proof (well_groups_without_codec a a0 Hd) as Hempty.
  assert (flat_map (fun gw : pyval * list string =>
                      map (fun well => [PStr well; fst gw]) (snd gw)) a0 = []) as Hrows.
  { clear - Hempty. induction a0 as [|g l IH]; cbn; [reflexivity|].
    rewrite (Hempty g) by (left; reflexivity). cbn. apply IH.
    intros g' Hg'. apply Hempty. right. assumption. }
  cbn in E. rewrite Hrows in E. congruence.
Qed.

(** C4, at a directory with one export and the file
    [AnalysisWellGroup.json]: [process] takes the path of the file for a
    directory and looks for [AnalysisWellGroup.json] below it; called with
    the directory, as its documentation asks, the reader of
    [MetadataParser] stops at [self._well_to_label], which the class does
    not define. The reader of [CytenaProcessor], which no code calls,
    decodes the same file. *)
Theorem json_metadata_is_not_decoded :
  fst (CytenaProcessor.process (H := Decimal.numerics) "groups" Examples.world)
  = Raise NotADirectoryError
  /\ fst (MetadataParser.parse_json_metadata MetadataParser.new ["groups"] Examples.world)
     = Raise AttributeError
  /\ fst (CytenaProcessor._parse_json_metadata
            (CytenaProcessor.new (H := Decimal.numerics)) ["groups"] Examples.world)
     = Ok [(PStr "G1", ["A1"; "A2"]); (PStr "G2", ["B1"])].
Proof. repeat split; vm_compute; reflexivity. Qed.

(* ================================================================== *)
(** * Group keys *)
(* ================================================================== *)

Lemma val_eqb_sym (a b : pyval) : val_eqb a b = val_eqb b a.
Proof.
  destruct a, b; cbn; try reflexivity;
    try (apply eq_true_iff_eq; rewrite !Qeq_bool_iff; split; intros E; symmetry; exact E).
  apply String.eqb_sym.
Qed.

Lemma key_eqb_refl (k : list pyval) : key_eqb k k = true.
Proof. induction k; cbn; [reflexivity|]. rewrite val_eqb_refl. assumption. Qed.

Lemma key_eqb_sym (a b : list pyval) : key_eqb a b = key_eqb b a.
Proof.
  revert b. induction a as [|x a IH]; destruct b as [|y b]; cbn; try reflexivity.
  rewrite val_eqb_sym, IH. reflexivity.
Qed.

(** A missing value equals no present value. *)
Lemma val_eqb_notna (a b : pyval) :
  val_eqb a b = true -> notna b = true -> notna a = true.
Proof. destruct a, b; cbn; intros E Hb; try reflexivity; discriminate. Qed.

Lemma key_eqb_complete (a b : list pyval) :
  key_eqb a b = true -> GroupBy.complete b = true -> GroupBy.complete a = true.
Proof.
  revert b. induction a as [|x a IH]; destruct b as [|y b]; cbn; try discriminate; auto.
  intros E Hb. apply andb_true_iff in E as [Exy E]. apply andb_true_iff in Hb as [Hy Hb].
  rewrite (val_eqb_notna x y Exy Hy). cbn. eapply IH; eassumption.
Qed.

Lemma insert_key_in (k x : list pyval) (l : list (list pyval)) :
  In x (GroupBy.insert_key k l) <-> x = k \/ In x l.
Proof.
  induction l as [|y l IH]; cbn.
  - intuition.
  - destruct (GroupBy.key_leb k y); cbn; [intuition|].
    rewrite IH. intuition.
Qed.

Lemma insert_key_distinct (k : list pyval) (l : list (list pyval)) :
  (forall x, In x l -> key_eqb k x = false /\ key_eqb x k = false) ->
  distinct_keys l -> distinct_keys (GroupBy.insert_key k l).
Proof.
  induction l as [|y l IH]; cbn; intros Hk Hl.
  - split; [intros ? [] | exact I].
  - destruct (GroupBy.key_leb k y); cbn.
    + split; [exact Hk | exact Hl].
    + destruct Hl as [Hy Hl]. split.
      * intros x Hx. apply insert_key_in in Hx as [-> | Hx].
        -- destruct (Hk y (or_introl eq_refl)). split; assumption.
        -- apply Hy. assumption.
      * apply IH; [|assumption]. intros x Hx. apply Hk. right. assumption.
Qed.

Lemma sort_keys_in (x : list pyval) (l : list (list pyval)) :
  In x (GroupBy.sort_keys l) <-> In x l.
Proof.
  induction l as [|y l IH]; cbn; [reflexivity|].
  rewrite insert_key_in, IH. intuition.
Qed.

Lemma sort_keys_distinct (l : list (list pyval)) :
  distinct_keys l -> distinct_keys (GroupBy.sort_keys l).
Proof.
  induction l as [|y l IH]; cbn; [auto|]. intros [Hy Hl].
  apply insert_key_distinct; [|auto].
  intros x Hx. apply Hy. apply sort_keys_in. assumption.
Qed.

Lemma nub_in (seen l : list (list pyval)) (x : list pyval) :
  In x (GroupBy.nub seen l) ->
  In x l /\ forall s, In s seen -> key_eqb x s = false.
Proof.
  revert seen. induction l as [|k l IH]; cbn; intros seen Hx; [destruct Hx|].
  destruct (existsb (key_eqb k) seen) eqn:E.
  - destruct (IH seen Hx). auto.
  - destruct Hx as [<- | Hx].
    + split; [auto|]. intros s Hs.
      destruct (key_eqb k s) eqn:Eks; [|reflexivity].
      assert (existsb (key_eqb k) seen = true) by (apply existsb_exists; eauto).
      congruence.
    + destruct (IH (k :: seen) Hx) as [Hin Hseen]. split; [auto|].
      intros s Hs. apply Hseen. right. assumption.
Qed.

Lemma nub_distinct (seen l : list (list pyval)) :
  distinct_keys (GroupBy.nub seen l).
Proof.
  revert seen. induction l as [|k l IH]; cbn; intros seen; [exact I|].
  destruct (existsb (key_eqb k) seen); [apply IH|].
  cbn. split; [|apply IH].
  intros x Hx. apply nub_in in Hx as [_ Hx].
  specialize (Hx k (or_introl eq_refl)).
  split; [rewrite key_eqb_sym|]; assumption.
Qed.

Lemma nub_covers (seen l : list (list pyval)) (k : list pyval) :
  In k l ->
  (exists s, In s seen /\ key_eqb k s = true)
  \/ (exists x, In x (GroupBy.nub seen l) /\ key_eqb k x = true).
Proof.
  revert seen. induction l as [|k0 l IH]; cbn; intros seen Hk; [destruct Hk|].
  destruct (existsb (key_eqb k0) seen) eqn:E.
  - destruct Hk as [<- | Hk]; [|apply IH; assumption].
    left. apply existsb_exists in E. exact E.
  - destruct Hk as [<- | Hk].
    + right. exists k0. split; [left; reflexivity | apply key_eqb_refl].
    + destruct (IH (k0 :: seen) Hk) as [[s [[<- | Hs] Es]] | [x [Hx Ex]]].
      * right. exists k0. split; [left; reflexivity | assumption].
      * left. eauto.
      * right. exists x. split; [right; assumption | assumption].
Qed.

(** The group keys of a table: each is the key of a row and is complete,
    every complete key of a row is among them, and no two are equal. *)
Lemma group_keys_spec (ks : list nat) (df : DataFrame) :
  (forall k, In k (GroupBy.group_keys ks df) ->
             GroupBy.complete k = true /\ exists r, In r (rows df) /\ key_of ks r = k)
  /\ (forall r, In r (rows df) -> GroupBy.complete (key_of ks r) = true ->
                exists k, In k (GroupBy.group_keys ks df) /\ key_eqb (key_of ks r) k = true)
  /\ distinct_keys (GroupBy.group_keys ks df).
Proof.
  unfold GroupBy.group_keys. repeat split.
  - apply (proj1 (sort_keys_in _ _)) in H. apply nub_in in H as [H _].
    apply filter_In in H as [_ H]. exact H.
  - apply (proj1 (sort_keys_in _ _)) in H. apply nub_in in H as [H _].
    apply filter_In in H as [H _]. apply in_map_iff in H as [r [<- Hr]]. eauto.
  - intros r Hr Hc.
    destruct (nub_covers [] (filter GroupBy.complete (map (key_of ks) (rows df)))
                (key_of ks r)) as [[s [[] _]] | [x [Hx Ex]]].
    + apply filter_In. split; [apply in_map; assumption | assumption].
    + exists x. split; [apply sort_keys_in; assumption | assumption].
  - apply sort_keys_distinct. apply nub_distinct.
Qed.

(* ================================================================== *)
(** * Columns *)
(* ================================================================== *)

Lemma pad_all (r : row) : pad (List.length r) r = r.
Proof.
  unfold pad. induction r as [|x r IH]; cbn; [reflexivity|].
  f_equal. rewrite <- seq_shift, map_map. exact IH.
Qed.

Lemma pad_length (n : nat) (r : row) : List.length (pad n r) = n.
Proof. unfold pad. rewrite length_map, length_seq. reflexivity. Qed.

Lemma cell_pad (n j : nat) (r : row) : (j < n)%nat -> cell (pad n r) j = cell r j.
Proof.
  intros Hj. unfold pad, cell at 1.
  rewrite (nth_indep _ NaN (cell r 0)) by (rewrite length_map, length_seq; exact Hj).
  rewrite map_nth, seq_nth by exact Hj. reflexivity.
Qed.

Lemma find_label_bound (l : pyval) (cols : list pyval) (j : nat) :
  find_label l cols = Some j -> (j < List.length cols)%nat.
Proof.
  revert j. induction cols as [|c cols IH]; cbn; intros j E; [discriminate|].
  destruct (val_eqb c l).
  - injection E as <-. lia.
  - destruct (find_label l cols) as [j'|]; cbn in E; [|discriminate].
    injection E as <-. specialize (IH j' eq_refl). lia.
Qed.

Lemma find_label_app_new (l : pyval) (cols : list pyval) :
  find_label l cols = None -> find_label l (cols ++ [l]) = Some (List.length cols).
Proof.
  induction cols as [|c cols IH]; cbn.
  - rewrite val_eqb_refl. reflexivity.
  - destruct (val_eqb c l); [discriminate|].
    destruct (find_label l cols); cbn; [discriminate|].
    intros _. rewrite IH by reflexivity. reflexivity.
Qed.

Lemma combine_repeat {A B C} (f : A -> B -> C) (v : B) (l : list A) :
  map (fun rv => f (fst rv) (snd rv)) (combine l (repeat v (List.length l)))
  = map (fun r => f r v) l.
Proof. induction l; cbn; [reflexivity|]. f_equal. assumption. Qed.

(** Appending a constant column under a new label. *)
Lemma set_column_const_new (l v : pyval) (df : DataFrame) :
  find_label l (columns df) = None ->
  set_column_const l v df
  = {| columns := columns df ++ [l];
       rows := map (fun r => pad (List.length (columns df)) r ++ [v]) (rows df) |}.
Proof.
  intros E. unfold set_column_const, set_column. rewrite E. f_equal.
  exact (combine_repeat (fun r x => pad (List.length (columns df)) r ++ [x]) v (rows df)).
Qed.

Lemma cell_replace_nth (j : nat) (v : pyval) (r : row) :
  (j < List.length r)%nat -> cell (replace_nth j v r) j = v.
Proof.
  revert j. induction r as [|x r IH]; cbn; intros j Hj; [lia|].
  destruct j; [reflexivity|]. apply IH. lia.
Qed.

(** The column set by [df[l] = v] holds [v] in every row. *)
Lemma set_column_const_field (l : string) (v : pyval) (df : DataFrame) (r : row) :
  In r (rows (set_column_const (PStr l) v df)) ->
  field (set_column_const (PStr l) v df) l r = v.
Proof.
  unfold field. destruct (find_label (PStr l) (columns df)) as [j|] eqn:E.
  - unfold set_column_const, set_column. rewrite E. cbn [columns rows]. rewrite E.
    rewrite (combine_repeat (fun r x => replace_nth j x (pad (List.length (columns df)) r))).
    intros Hr. apply in_map_iff in Hr as [r0 [<- _]].
    apply cell_replace_nth. rewrite pad_length. eapply find_label_bound. eassumption.
  - rewrite (set_column_const_new _ _ _ E). cbn [columns rows].
    rewrite (find_label_app_new _ _ E).
    intros Hr. apply in_map_iff in Hr as [r0 [<- _]].
    unfold cell. rewrite app_nth2 by (rewrite pad_length; lia).
    rewrite pad_length, Nat.sub_diag. reflexivity.
Qed.

(** ** The type of a column *)

Lemma Forall2_seq {A B} (R : A -> B -> Prop) (l : list A) (d : A) (g : nat -> B) :
  (forall i, (i < List.length l)%nat -> R (nth i l d) (g i)) ->
  Forall2 R l (map g (seq 0 (List.length l))).
Proof.
  revert g. induction l as [|x l IH]; cbn; intros g Hg; constructor.
  - apply (Hg 0%nat). lia.
  - rewrite <- seq_shift, map_map. apply IH. intros i Hi. apply (Hg (S i)). lia.
Qed.

Lemma upcast_nth (col : list pyval) (i : nat) :
  upcast_of (nth i col NaN) (nth i (upcast col) NaN).
Proof.
  unfold upcast, upcast_of. destruct (existsb _ col); [left; reflexivity|].
  destruct (forallb is_int col); [left; reflexivity|]. right.
  change NaN with (as_float NaN) at 1. apply map_nth.
Qed.

Lemma column_at_nth (df : DataFrame) (i j : nat) :
  nth i (column_at j df) NaN = cell (nth i (rows df) []) j.
Proof.
  unfold column_at. generalize (rows df). intros l. revert i.
  induction l as [|r l IH]; intros [|i]; cbn; auto; destruct j; reflexivity.
Qed.

(** The rows of a table whose columns are brought to their type. *)
Lemma map_columns_upcast (df : DataFrame) :
  (forall r, In r (rows df) -> List.length r = List.length (columns df)) ->
  columns (map_columns upcast df) = columns df
  /\ Forall2 (Forall2 upcast_of) (rows df) (rows (map_columns upcast df)).
Proof.
  intros Hlen. split; [reflexivity|]. unfold map_columns. cbn [rows].
  apply (Forall2_seq _ _ []). intros i Hi.
  assert (In (nth i (rows df) []) (rows df)) as Hin by (apply nth_In; exact Hi).
  rewrite map_map. rewrite <- (Hlen _ Hin).
  apply (Forall2_seq _ _ NaN). intros j Hj.
  replace (nth j (nth i (rows df) []) NaN) with (nth i (column_at j df) NaN).
  - apply upcast_nth.
  - apply column_at_nth.
Qed.

Lemma upcast_of_str (a b : pyval) (s : string) : upcast_of a b -> a = PStr s -> b = PStr s.
Proof. intros [-> | ->] ->; reflexivity. Qed.

Lemma Forall2_cell (R : pyval -> pyval -> Prop) (a b : row) (j : nat) :
  Forall2 R a b -> R NaN NaN -> R (cell a j) (cell b j).
Proof.
  intros HF HN. revert j. induction HF; intros j; destruct j; cbn; auto.
  apply IHHF.
Qed.

Lemma reindex_length (cols : list pyval) (df : DataFrame) (r : row) :
  In r (reindex cols df) -> List.length r = List.length cols.
Proof. unfold reindex. intros Hr. apply in_map_iff in Hr as (a & <- & _). apply length_map. Qed.

(** What [pd.concat] returns: the labels of the tables in the order in
    which they first occur, and the rows of the tables under these
    labels, every column in its type. *)
Lemma concat_rows (dfs : list DataFrame) (res : DataFrame) :
  concat dfs = Ok res ->
  let cols := fold_left (fun acc df => union_labels acc (columns df)) dfs [] in
  columns res = cols
  /\ Forall2 (Forall2 upcast_of) (flat_map (reindex cols) dfs) (rows res).
Proof.
  unfold concat. intros E. destruct dfs as [|d0 dfs0] eqn:Edfs; [discriminate E|].
  rewrite <- Edfs in *. apply Ok_inj in E. subst res. cbn zeta.
  set (cols := fold_left _ dfs []).
  apply (map_columns_upcast {| columns := cols; rows := flat_map (reindex cols) dfs |}).
  cbn [rows columns]. intros r Hr. apply in_flat_map in Hr as (df & _ & Hr).
  eapply reindex_length. exact Hr.
Qed.

(* ================================================================== *)
(** * The aggregated table *)
(* ================================================================== *)

Lemma attribute_cols_known (results : DataFrame) (a : string) :
  In a (attribute_cols results) ->
  In a (map fst CytenaProcessor.possible_attributes).
Proof.
  unfold attribute_cols. intros Ha.
  apply in_flat_map in Ha as [col [_ Ha]].
  destruct col as [| | | |s]; try destruct Ha.
  destruct (dict_has s CytenaProcessor.possible_attributes) eqn:E; [|destruct Ha].
  destruct Ha as [<- | []].
  unfold dict_has in E. apply existsb_exists in E as [kv [Hkv E]].
  apply String.eqb_eq in E. subst s. apply in_map. exact Hkv.
Qed.

(** The flattened names of the two statistics of an attribute. *)
Lemma attribute_names (a : string) :
  In a (map fst CytenaProcessor.possible_attributes) ->
  CytenaProcessor.mean_to_avg (strip_underscore (String.concat "_" [a; "mean"]))
  = (a ++ "_avg")%string
  /\ CytenaProcessor.mean_to_avg (strip_underscore (String.concat "_" [a; "std"]))
     = (a ++ "_std")%string.
Proof.
  cbn. intros Ha.
  repeat (destruct Ha as [<- | Ha]; [split; vm_compute; reflexivity|]).
  destruct Ha.
Qed.

(** The names of the aggregated table are pairwise different. *)
Lemma names_apart (a b : string) :
  In a (map fst CytenaProcessor.possible_attributes) ->
  In b (map fst CytenaProcessor.possible_attributes) ->
  String.eqb (a ++ "_avg") (b ++ "_std") = false
  /\ String.eqb (a ++ "_std") (b ++ "_avg") = false
  /\ (a <> b -> String.eqb (a ++ "_avg") (b ++ "_avg") = false
                /\ String.eqb (a ++ "_std") (b ++ "_std") = false).
Proof.
  cbn. intros Ha Hb.
  repeat (destruct Ha as [<- | Ha]);
    try (destruct Ha);
    repeat (destruct Hb as [<- | Hb]);
    try (destruct Hb);
    (split; [reflexivity | split; [reflexivity |
       intros Hne; first [exfalso; apply Hne; reflexivity | split; reflexivity]]]).
Qed.

Lemma names_not_reserved (a : string) (k : string) :
  In a (map fst CytenaProcessor.possible_attributes) ->
  In k ["Well Group"; "Time"; "channel"; "Scan ID"] ->
  String.eqb (a ++ "_avg") k = false /\ String.eqb (a ++ "_std") k = false.
Proof.
  cbn. intros Ha Hk.
  repeat (destruct Ha as [<- | Ha]);
    try (destruct Ha);
    repeat (destruct Hk as [<- | Hk]);
    try (destruct Hk);
    (split; reflexivity).
Qed.

Lemma flattened_names (attrs : list string) :
  (forall a, In a attrs -> In a (map fst CytenaProcessor.possible_attributes)) ->
  map CytenaProcessor.mean_to_avg
    (map (fun col => strip_underscore (String.concat "_" [fst col; snd col]))
       (map (fun k => (k, "")) ["Well Group"; "Time"; "channel"]
        ++ flat_map (fun a => [(a, "mean"); (a, "std")]) attrs))
  = agg_names attrs.
Proof.
  intros Hk. rewrite !map_app. unfold agg_names. f_equal.
  induction attrs as [|a attrs IH]; [reflexivity|].
  cbn [flat_map app map fst snd].
  destruct (attribute_names a (Hk a (or_introl eq_refl))) as [-> ->].
  rewrite IH by (intros; apply Hk; right; assumption). reflexivity.
Qed.

Lemma flattened_names' (attrs : list string) :
  (forall a, In a attrs -> In a (map fst CytenaProcessor.possible_attributes)) ->
  map CytenaProcessor.mean_to_avg
    (map (fun col : string * string => strip_underscore (fst col ++ String "_" (snd col)))
       (("Well Group", "") :: ("Time", "") :: ("channel", "")
        :: flat_map (fun a => [(a, "mean"); (a, "std")]) attrs))
  = agg_names attrs.
Proof. exact (flattened_names attrs). Qed.

Lemma scan_id_is_new (attrs : list string) :
  (forall a, In a attrs -> In a (map fst CytenaProcessor.possible_attributes)) ->
  find_label (PStr "Scan ID") (map PStr (agg_names attrs)) = None.
Proof.
  intros Hk. unfold agg_names. cbn [app map find_label val_eqb].
  replace (String.eqb "Well Group" "Scan ID") with false by reflexivity.
  replace (String.eqb "Time" "Scan ID") with false by reflexivity.
  replace (String.eqb "channel" "Scan ID") with false by reflexivity.
  cbn [option_map].
  assert (find_label (PStr "Scan ID")
            (map PStr (flat_map (fun a => [a ++ "_avg"; a ++ "_std"]%string) attrs)) = None)
    as ->; [|reflexivity].
  induction attrs as [|a attrs IH]; [reflexivity|].
  cbn [flat_map app map find_label val_eqb].
  destruct (names_not_reserved a "Scan ID" (Hk a (or_introl eq_refl))) as [-> ->];
    [cbn; tauto|].
  rewrite IH by (intros; apply Hk; right; assumption). reflexivity.
Qed.

Lemma key_indices (df : DataFrame) (ks : list nat) :
  rmap (fun k => label_index (PStr k) (columns df)) ["Well Group"; "Time"; "channel"] = Ok ks ->
  List.length ks = 3%nat /\ forall r, key_of ks r = group_key df r.
Proof.
  unfold group_key, field, label_index. cbn [rmap].
  destruct (find_label (PStr "Well Group") (columns df)); cbn [rbind]; [|discriminate].
  destruct (find_label (PStr "Time") (columns df)); cbn [rbind]; [|discriminate].
  destruct (find_label (PStr "channel") (columns df)); cbn [rbind]; [|discriminate].
  intros E. injection E as <-. split; reflexivity.
Qed.

Lemma Forall2_in_r {A B} (R : A -> B -> Prop) (l : list A) (l' : list B) (y : B) :
  Forall2 R l l' -> In y l' -> exists x, In x l /\ R x y.
Proof.
  induction 1 as [|x y0 l l' Hxy _ IH]; cbn; intros Hy; [destruct Hy|].
  destruct Hy as [<- | Hy]; [eauto|].
  destruct (IH Hy) as [x' [? ?]]. eauto.
Qed.

Lemma Forall2_map_r {A B} (f : B -> A) (l : list A) (l' : list B) :
  Forall2 (fun x y => f y = x) l l' -> map f l' = l.
Proof. induction 1; cbn; congruence. Qed.

Lemma agg_cells_inv (js : list nat) (g : list row) (cs : row) :
  GroupBy.agg_cells js g = Ok cs ->
  exists cs0,
    Forall2 (fun j c => exists xs,
               GroupBy.numbers (map (fun r => cell r j) g) = Ok xs
               /\ c = [GroupBy.mean xs; GroupBy.std xs]) js cs0
    /\ cs = List.concat cs0.
Proof.
  unfold GroupBy.agg_cells. intros E.
  apply rbind_ok in E as (cs0 & Hcs0 & E). injection E as <-.
  exists cs0. split; [|reflexivity].
  apply rmap_ok in Hcs0.
  induction Hcs0 as [|j c js cs0 Hjc _ IH]; constructor; [|exact IH].
  apply rbind_ok in Hjc as (xs & Hxs & Hc). injection Hc as <-. eauto.
Qed.

Lemma find_label_app_l (l : pyval) (xs ys : list pyval) (j : nat) :
  find_label l xs = Some j -> find_label l (xs ++ ys) = Some j.
Proof.
  revert j. induction xs as [|x xs IH]; cbn; intros j E; [discriminate|].
  destruct (val_eqb x l); [assumption|].
  destruct (find_label l xs) as [j'|]; cbn in E; [|discriminate].
  rewrite (IH j' eq_refl). exact E.
Qed.

(** Where the two statistics of an attribute stand in a row of the
    aggregated table. *)
Lemma cells_lookup (cols : list pyval) (g : list row) (attr : string) :
  forall (attrs : list string) (js : list nat) (cs0 : list row),
  (forall a, In a attrs -> In a (map fst CytenaProcessor.possible_attributes)) ->
  Forall2 (fun a j => find_label (PStr a) cols = Some j) attrs js ->
  Forall2 (fun j c => exists xs,
             GroupBy.numbers (map (fun r => cell r j) g) = Ok xs
             /\ c = [GroupBy.mean xs; GroupBy.std xs]) js cs0 ->
  In attr attrs ->
  exists j xs n,
    find_label (PStr attr) cols = Some j
    /\ GroupBy.numbers (map (fun r => cell r j) g) = Ok xs
    /\ find_label (PStr (attr ++ "_avg"))
         (map PStr (flat_map (fun a => [a ++ "_avg"; a ++ "_std"]%string) attrs))
       = Some (2 * n)%nat
    /\ find_label (PStr (attr ++ "_std"))
         (map PStr (flat_map (fun a => [a ++ "_avg"; a ++ "_std"]%string) attrs))
       = Some (2 * n + 1)%nat
    /\ nth_error (List.concat cs0) (2 * n) = Some (GroupBy.mean xs)
    /\ nth_error (List.concat cs0) (2 * n + 1) = Some (GroupBy.std xs).
Proof.
  induction attrs as [|a0 attrs IH]; intros js cs0 Hk Hjs Hcs Hin; [destruct Hin|].
  inversion Hjs as [|? j0 ? js' Hj0 Hjs']; subst.
  inversion Hcs as [|? c0 ? cs0' (xs0 & Hxs0 & ->) Hcs']; subst.
  assert (In a0 (map fst CytenaProcessor.possible_attributes)) as Ha0
    by (apply Hk; left; reflexivity).
  cbn [flat_map app map find_label val_eqb List.concat].
  destruct (string_dec a0 attr) as [-> | Hne].
  - exists j0, xs0, 0%nat. rewrite String.eqb_refl.
    destruct (names_apart attr attr Ha0 Ha0) as (-> & _ & _).
    rewrite String.eqb_refl. repeat split; assumption || reflexivity.
  - destruct Hin as [-> | Hin]; [contradiction Hne; reflexivity|].
    destruct (IH js' cs0' (fun a Ha => Hk a (or_intror Ha)) Hjs' Hcs' Hin)
      as (j & xs & n & Hj & Hxs & Havg & Hstd & Hm & Hs).
    assert (In attr (map fst CytenaProcessor.possible_attributes)) as Hattr
      by (apply Hk; right; assumption).
    exists j, xs, (S n).
    destruct (names_apart a0 attr Ha0 Hattr) as (E1 & E2 & E3).
    destruct (E3 Hne) as [E4 E5].
    rewrite E1, E2, E4, E5, Havg, Hstd.
    replace (2 * S n)%nat with (S (S (2 * n))) by lia.
    repeat split; try assumption; try reflexivity.
Qed.

Lemma concat_cells_length (js : list nat) (cs0 : list row) (P : nat -> row -> Prop) :
  (forall j c, P j c -> List.length c = 2%nat) ->
  Forall2 P js cs0 -> List.length (List.concat cs0) = (2 * List.length js)%nat.
Proof.
  intros HP. induction 1 as [|j c js cs0 Hjc _ IH]; cbn [List.concat List.length]; [reflexivity|].
  rewrite length_app, IH, (HP _ _ Hjc). lia.
Qed.

(** What [aggregate] returns: the names of the columns, and one row per
    group key, holding the key, the two statistics of every attribute
    over the rows of the group, and the scan identifier. *)
Lemma aggregate_shape (results agg : DataFrame) (scan_id : option string) :
  CytenaProcessor.aggregate results scan_id = Ok agg ->
  columns agg = map PStr (agg_names (attribute_cols results) ++ ["Scan ID"])
  /\ exists ks js,
       (forall r, key_of ks r = group_key results r)
       /\ Forall2 (fun a j => find_label (PStr a) (columns results) = Some j)
                  (attribute_cols results) js
       /\ Forall2 (fun k a =>
                     List.length k = 3%nat
                     /\ exists cs0,
                          Forall2 (fun j c => exists xs,
                                     GroupBy.numbers
                                       (map (fun r => cell r j) (members results k)) = Ok xs
                                     /\ c = [GroupBy.mean xs; GroupBy.std xs]) js cs0
                          /\ a = k ++ List.concat cs0 ++ [scan_value scan_id])
                  (GroupBy.group_keys ks results) (rows agg).
Proof.
  unfold CytenaProcessor.aggregate. fold (attribute_cols results).
  fold (scan_value scan_id). intros E.
  apply rbind_ok in E as (ra & Hra & E). injection E as <-.
  unfold GroupBy.groupby_agg in Hra.
  apply rbind_ok in Hra as (ks & Hks & Hra).
  apply rbind_ok in Hra as (js & Hjs & Hra).
  destruct (attribute_cols results) as [|a0 attrs0] eqn:Eattrs; [discriminate Hra|].
  rewrite <- Eattrs in *.
  apply rbind_ok in Hra as (rs & Hrs & Hra). injection Hra as <-.
  cbn [GroupBy.agg_columns GroupBy.agg_rows].
  pose proof (attribute_cols_known results) as Hknown.
  rewrite (flattened_names' _ Hknown).
  rewrite (set_column_const_new (PStr "Scan ID") (scan_value scan_id)
             {| columns := map PStr (agg_names (attribute_cols results)); rows := rs |}
             (scan_id_is_new _ Hknown)).
  cbn [columns rows]. rewrite map_app. split; [reflexivity|].
  destruct (key_indices results ks Hks) as [Hlen Hkey].
  exists ks, js. split; [exact Hkey|].
  assert (Forall2 (fun a j => find_label (PStr a) (columns results) = Some j)
                  (attribute_cols results) js) as Hjs'.
  { apply rmap_ok in Hjs. clear - Hjs.
    induction Hjs as [|a j attrs js Haj _ IH]; constructor; [|exact IH].
    unfold label_index in Haj.
    destruct (find_label (PStr a) (columns results)); congruence. }
  split; [exact Hjs'|].
  assert (List.length js = List.length (attribute_cols results)) as Hljs
    by (symmetry; eapply Forall2_length; eassumption).
  assert (List.length (map PStr (agg_names (attribute_cols results)))
          = (3 + 2 * List.length js)%nat) as Hn.
  { rewrite length_map. unfold agg_names. rewrite length_app. cbn [List.length].
    rewrite Hljs. f_equal. clear. induction (attribute_cols results); cbn; lia. }
  apply rmap_ok in Hrs. clear Hks Hjs.
  assert (forall k, In k (GroupBy.group_keys ks results) -> List.length k = 3%nat) as Hk3.
  { intros k Hk. destruct (group_keys_spec ks results) as (Hspec & _ & _).
    destruct (Hspec k Hk) as (_ & r & _ & <-).
    unfold key_of. rewrite length_map. exact Hlen. }
  induction Hrs as [|k r keys rs Hkr _ IH]; cbn [map]; constructor;
    [|apply IH; intros; apply Hk3; right; assumption].
  specialize (Hk3 k (or_introl eq_refl)).
  apply rbind_ok in Hkr as (cs & Hcs & Hr). injection Hr as <-.
  assert (GroupBy.group_rows ks results k = members results k) as Hmem.
  { unfold GroupBy.group_rows, members. apply filter_ext. intros r. rewrite Hkey. reflexivity. }
  rewrite Hmem in Hcs.
  apply agg_cells_inv in Hcs as (cs0 & Hcs0 & ->).
  split; [exact Hk3|]. exists cs0. split; [exact Hcs0|].
  rewrite (app_assoc k). f_equal.
  replace (List.length (map PStr (agg_names (attribute_cols results))))
    with (List.length (k ++ List.concat cs0)).
  - apply pad_all.
  - rewrite Hn, length_app, Hk3. f_equal.
    eapply concat_cells_length; [|exact Hcs0].
    cbv beta. intros j c (xs & _ & ->). reflexivity.
Qed.

(** ** Mean and standard deviation *)

Lemma mean_spec (xs : list Q) :
  xs <> [] ->
  exists m, GroupBy.mean xs = PFloat m /\ m == GroupBy.Qsum xs / GroupBy.Qlen xs.
Proof.
  intros Hne. destruct xs as [|x xs]; [contradiction Hne; reflexivity|].
  eexists. split; [reflexivity | apply Qred_correct].
Qed.

Lemma mean_single (x : Q) :
  exists m, GroupBy.mean [x] = PFloat m /\ m == x /\ GroupBy.std [x] = NaN.
Proof.
  eexists. split; [reflexivity|]. split; [|reflexivity].
  rewrite Qred_correct. unfold GroupBy.Qsum, GroupBy.Qlen. cbn [fold_right List.length].
  change (inject_Z (Z.of_nat 1)) with 1. field.
Qed.

Lemma Qsum_nonneg (l : list Q) : (forall x, In x l -> 0 <= x) -> 0 <= GroupBy.Qsum l.
Proof.
  induction l as [|x l IH]; cbn; intros Hl; [apply Qle_refl|].
  replace 0 with (0 + 0) by reflexivity.
  apply Qplus_le_compat; [apply Hl; left; reflexivity | apply IH; auto].
Qed.

Lemma Qsquare_nonneg (x : Q) : 0 <= x * x.
Proof. unfold Qle, Qmult. cbn. nia. Qed.

Lemma variance_spec (xs : list Q) :
  (2 <= List.length xs)%nat ->
  let m := GroupBy.Qsum xs / GroupBy.Qlen xs in
  GroupBy.variance xs == GroupBy.Qsum (map (fun x => (x - m) * (x - m)) xs)
                         / (GroupBy.Qlen xs - 1)
  /\ 0 <= GroupBy.variance xs.
Proof.
  intros Hlen m. unfold GroupBy.variance. fold m. rewrite Qred_correct.
  split; [reflexivity|].
  apply Qle_shift_div_l.
  - unfold GroupBy.Qlen, Qlt, Qminus, Qplus. cbn. lia.
  - rewrite Qmult_0_l. apply Qsum_nonneg.
    intros y Hy. apply in_map_iff in Hy as [x [<- _]]. apply Qsquare_nonneg.
Qed.

(** The truncated square root is within [10^-12] below the square root. *)
Lemma fsqrt_spec (q : Q) :
  0 <= q ->
  0 <= fsqrt q
  /\ fsqrt q * fsqrt q <= q
  /\ q < (fsqrt q + (1 # 1000000000000)) * (fsqrt q + (1 # 1000000000000)).
Proof.
  intros Hq. unfold fsqrt. rewrite !Qred_correct.
  destruct q as [n d].
  assert (0 <= n)%Z as Hn by (unfold Qle in Hq; cbn in Hq; lia).
  assert (Qfloor ((n # d) * inject_Z (10 ^ 24)) = (n * 10 ^ 24 / Z.pos d)%Z) as ->.
  { unfold Qfloor, Qmult, inject_Z. cbn [Qnum Qden]. rewrite Pos.mul_1_r. reflexivity. }
  set (T := (10 ^ 24)%Z). set (N := (n * T / Z.pos d)%Z).
  assert (0 < T)%Z as HT by reflexivity.
  assert (0 <= N)%Z as HN by (apply Z.div_pos; lia).
  pose proof (Z.sqrt_spec N HN) as [Hlo Hhi].
  pose proof (Z.sqrt_nonneg N) as Hs.
  assert (N * Z.pos d <= n * T < (N + 1) * Z.pos d)%Z as [HNlo HNhi].
  { pose proof (Z.div_mod (n * T) (Z.pos d) ltac:(lia)) as Hdm.
    pose proof (Z.mod_pos_bound (n * T) (Z.pos d) ltac:(lia)) as Hmb.
    fold N in Hdm. lia. }
  set (s := Z.sqrt N) in *.
  assert (Z.pos (1000000000000 * 1000000000000) = T) as HD by reflexivity.
  repeat split.
  - unfold Qle. cbn. lia.
  - unfold Qle, Qmult. cbn [Qnum Qden]. rewrite HD. nia.
  - unfold Qlt, Qmult, Qplus. cbn [Qnum Qden].
    rewrite !Pos2Z.inj_mul. rewrite Z.mul_1_l.
    assert (Z.pos 1000000000000 * Z.pos 1000000000000 = T)%Z as HD' by reflexivity.
    set (D := Z.pos 1000000000000) in *.
    assert (0 < D)%Z by reflexivity.
    replace ((s * D + D) * (s * D + D) * Z.pos d)%Z
      with ((s + 1) * (s + 1) * Z.pos d * (D * D))%Z by ring.
    rewrite HD'.
    replace (n * (T * T))%Z with (n * T * T)%Z by ring.
    apply Z.mul_lt_mono_pos_r; [exact HT|]. nia.
Qed.

Lemma std_spec (xs : list Q) :
  (2 <= List.length xs)%nat ->
  exists s, GroupBy.std xs = PFloat s
            /\ 0 <= s
            /\ s * s <= GroupBy.variance xs
            /\ GroupBy.variance xs < (s + (1 # 1000000000000)) * (s + (1 # 1000000000000)).
Proof.
  intros Hlen. exists (fsqrt (GroupBy.variance xs)). split.
  - unfold GroupBy.std. destruct (Nat.leb_spec (List.length xs) 1); [lia | reflexivity].
  - apply fsqrt_spec. apply variance_spec. exact Hlen.
Qed.

Lemma std_of_ten_and_twenty :
  GroupBy.mean [10; 20] = PFloat 15
  /\ exists s, GroupBy.std [10; 20] = PFloat s /\ (7071 # 1000) <= s /\ s < (7072 # 1000).
Proof.
  split; [reflexivity|].
  exists (1414213562373 # 200000000000). split; [vm_compute; reflexivity|].
  split; [unfold Qle | unfold Qlt]; cbn; lia.
Qed.

(** ** Rows of the aggregated table *)

Lemma group_key_of_agg_row (agg : DataFrame) (attrs : list string) (k rest : list pyval) :
  columns agg = map PStr (agg_names attrs ++ ["Scan ID"]) ->
  List.length k = 3%nat ->
  group_key agg (k ++ rest) = k.
Proof.
  intros Hcols Hk. unfold group_key, field. rewrite Hcols.
  destruct k as [|k0 [|k1 [|k2 [|]]]]; try discriminate Hk. reflexivity.
Qed.

Lemma aggregate_keys (results agg : DataFrame) (scan_id : option string) :
  CytenaProcessor.aggregate results scan_id = Ok agg ->
  exists ks, (forall r, key_of ks r = group_key results r)
             /\ map (group_key agg) (rows agg) = GroupBy.group_keys ks results.
Proof.
  intros E. destruct (aggregate_shape _ _ _ E) as (Hcols & ks & js & Hkey & _ & Hrows).
  exists ks. split; [exact Hkey|].
  apply Forall2_map_r. eapply Forall2_impl; [|exact Hrows].
  cbv beta. intros k a (Hk & cs0 & _ & ->).
  eapply group_key_of_agg_row; eassumption.
Qed.

(** One row per group key. *)
Lemma aggregate_one_row_per_key (results agg : DataFrame) (scan_id : option string) :
  CytenaProcessor.aggregate results scan_id = Ok agg ->
  distinct_keys (map (group_key agg) (rows agg))
  /\ (forall a, In a (rows agg) ->
        GroupBy.complete (group_key agg a) = true
        /\ exists r, In r (rows results) /\ group_key results r = group_key agg a)
  /\ (forall r, In r (rows results) ->
        GroupBy.complete (group_key results r) = true ->
        exists a, In a (rows agg)
                  /\ key_eqb (group_key results r) (group_key agg a) = true).
Proof.
  intros E. destruct (aggregate_keys _ _ _ E) as (ks & Hkey & Hkeys).
  destruct (group_keys_spec ks results) as (Hin & Hcov & Hdist).
  rewrite <- Hkeys in Hin, Hcov, Hdist.
  split; [exact Hdist|]. split.
  - intros a Ha. destruct (Hin (group_key agg a) (in_map _ _ _ Ha)) as (Hc & r & Hr & Er).
    split; [exact Hc|]. exists r. rewrite <- Hkey. auto.
  - intros r Hr Hc. rewrite <- Hkey in Hc.
    destruct (Hcov r Hr Hc) as (k & Hk & Ek).
    apply in_map_iff in Hk as (a & <- & Ha).
    exists a. rewrite <- Hkey. auto.
Qed.

(** The two statistics of an attribute in a row of the aggregated table
    are taken over the rows of the group. *)
Lemma aggregate_cells (results agg : DataFrame) (scan_id : option string)
    (a : row) (attr : string) :
  CytenaProcessor.aggregate results scan_id = Ok agg ->
  In a (rows agg) -> In attr (attribute_cols results) ->
  exists xs,
    GroupBy.numbers (values_of results attr (members results (group_key agg a))) = Ok xs
    /\ field agg (attr ++ "_avg") a = GroupBy.mean xs
    /\ field agg (attr ++ "_std") a = GroupBy.std xs.
Proof.
  intros E Ha Hattr.
  destruct (aggregate_shape _ _ _ E) as (Hcols & ks & js & Hkey & Hjs & Hrows).
  destruct (Forall2_in_r _ _ _ _ Hrows Ha) as (k & _ & Hk & cs0 & Hcs0 & ->).
  rewrite (group_key_of_agg_row agg _ k _ Hcols Hk).
  pose proof (attribute_cols_known results) as Hknown.
  destruct (cells_lookup (columns results) (members results k) attr
              (attribute_cols results) js cs0 Hknown Hjs Hcs0 Hattr)
    as (j & xs & n & Hj & Hxs & Havg & Hstd & Hm & Hs).
  exists xs. split.
  - unfold values_of. rewrite <- Hxs. f_equal. apply map_ext.
    intros r. unfold field. rewrite Hj. reflexivity.
  - destruct (names_not_reserved attr "Well Group" (Hknown _ Hattr)) as [A1 S1]; [cbn; tauto|].
    destruct (names_not_reserved attr "Time" (Hknown _ Hattr)) as [A2 S2]; [cbn; tauto|].
    destruct (names_not_reserved attr "channel" (Hknown _ Hattr)) as [A3 S3]; [cbn; tauto|].
    rewrite String.eqb_sym in A1, A2, A3, S1, S2, S3.
    destruct k as [|k0 [|k1 [|k2 [|]]]]; try discriminate Hk.
    unfold field. rewrite Hcols. unfold agg_names.
    rewrite <- app_assoc, !map_app.
    cbn [map app find_label val_eqb]. rewrite A1, A2, A3, S1, S2, S3.
    rewrite (find_label_app_l _ _ _ _ Havg), (find_label_app_l _ _ _ _ Hstd).
    cbn [option_map cell nth app].
    assert (forall i v, nth_error (List.concat cs0) i = Some v ->
                        nth i (List.concat cs0 ++ [scan_value scan_id]) NaN = v) as Hnth.
    { intros i v Hi. apply nth_error_nth.
      rewrite nth_error_app1; [exact Hi|]. apply nth_error_Some. congruence. }
    split; apply Hnth; assumption.
Qed.

(** C3. The aggregated table has the columns Well Group, Time, channel,
    then [<attribute>_avg] and [<attribute>_std] for every attribute
    column of the row-level table, then Scan ID. It has one row per group
    key: no two rows have the same key, every row has the key of some
    row of the row-level table, and every row of the row-level table
    whose key is complete has its key in the table. In the row of a
    group, [<attribute>_avg] is the mean of the attribute over the rows
    of the group and [<attribute>_std] the sample standard deviation
    (the square root, to twelve decimals, of the sum of squared
    deviations over [n - 1]); the values 10 and 20 give 15 and 7.071...;
    a group of one row gives the value of that row and a missing
    deviation. *)
Theorem aggregation_by_group (results agg : DataFrame) (scan_id : option string) :
  CytenaProcessor.aggregate results scan_id = Ok agg ->
  columns agg
  = map PStr (["Well Group"; "Time"; "channel"]
              ++ flat_map (fun a => [a ++ "_avg"; a ++ "_std"]%string) (attribute_cols results)
              ++ ["Scan ID"])
  /\ distinct_keys (map (group_key agg) (rows agg))
  /\ (forall a, In a (rows agg) ->
        exists r, In r (rows results) /\ group_key results r = group_key agg a)
  /\ (forall r, In r (rows results) ->
        GroupBy.complete (group_key results r) = true ->
        exists a, In a (rows agg)
                  /\ key_eqb (group_key results r) (group_key agg a) = true)
  /\ (forall a attr, In a (rows agg) -> In attr (attribute_cols results) ->
        exists xs,
          GroupBy.numbers (values_of results attr (members results (group_key agg a))) = Ok xs
          /\ field agg (attr ++ "_avg") a = GroupBy.mean xs
          /\ field agg (attr ++ "_std") a = GroupBy.std xs)
  /\ (forall xs, xs <> [] ->
        exists m, GroupBy.mean xs = PFloat m /\ m == GroupBy.Qsum xs / GroupBy.Qlen xs)
  /\ (forall xs, (2 <= List.length xs)%nat ->
        let m := GroupBy.Qsum xs / GroupBy.Qlen xs in
        let v := GroupBy.Qsum (map (fun x => (x - m) * (x - m)) xs) / (GroupBy.Qlen xs - 1) in
        exists s, GroupBy.std xs = PFloat s /\ 0 <= s /\ s * s <= v
                  /\ v < (s + (1 # 1000000000000)) * (s + (1 # 1000000000000)))
  /\ (GroupBy.mean [10; 20] = PFloat 15
      /\ exists s, GroupBy.std [10; 20] = PFloat s /\ (7071 # 1000) <= s /\ s < (7072 # 1000))
  /\ (forall a attr r x, In a (rows agg) -> In attr (attribute_cols results) ->
        members results (group_key agg a) = [r] ->
        num_of (field results attr r) = Some x ->
        exists m, field agg (attr ++ "_avg") a = PFloat m /\ m == x
                  /\ field agg (attr ++ "_std") a = NaN).
Proof.
  intros E.
  destruct (aggregate_shape _ _ _ E) as (Hcols & _).
  destruct (aggregate_one_row_per_key _ _ _ E) as (Hdist & Hin & Hcov).
  split; [rewrite Hcols; unfold agg_names; rewrite <- app_assoc; reflexivity|].
  split; [exact Hdist|].
  split; [intros a Ha; apply Hin; exact Ha|].
  split; [exact Hcov|].
  split; [intros a attr; apply (aggregate_cells results agg scan_id); exact E|].
  split; [exact mean_spec|].
  split.
  { intros xs Hlen m v.
    destruct (std_spec xs Hlen) as (s & Hs & H0 & Hlo & Hhi).
    destruct (variance_spec xs Hlen) as [Hv _]. fold m in Hv. fold v in Hv.
    exists s. rewrite <- Hv. auto. }
  split; [exact std_of_ten_and_twenty|].
  intros a attr r x Ha Hattr Hone Hx.
  destruct (aggregate_cells results agg scan_id a attr E Ha Hattr) as (xs & Hxs & Havg & Hstd).
  rewrite Hone in Hxs. unfold values_of in Hxs. cbn [map GroupBy.numbers] in Hxs.
  assert (xs = [x]) as ->.
  { destruct (field results attr r) as [| | z | q | s]; try discriminate Hx;
      cbn [GroupBy.numbers rbind num_of] in Hxs, Hx; congruence. }
  destruct (mean_single x) as (m & Hm & Em & Hs).
  exists m. rewrite Havg, Hstd. auto.
Qed.

Lemma aggregation_by_group_witness :
  CytenaProcessor.aggregate (snd run1_tables) (Some "scan42") = Ok (fst run1_tables)
  /\ columns (fst run1_tables)
     = map PStr ["Well Group"; "Time"; "channel";
                 "total_intensity_avg"; "total_intensity_std";
                 "confluency_avg"; "confluency_std"; "Scan ID"]
  /\ rows (fst run1_tables)
     = [[PStr "G1"; PInt 1; PStr "BF"; PFloat 15; PFloat (1414213562373 # 200000000000);
         NaN; NaN; PStr "scan42"];
        [PStr "G1"; PInt 1; PStr "green"; NaN; NaN;
         PFloat (165 # 4); PFloat (1060660171779 # 1000000000000); PStr "scan42"];
        [PStr "G1"; PInt 2; PStr "green"; NaN; NaN; PFloat 55; NaN; PStr "scan42"];
        [PStr "G2"; PInt 1; PStr "BF"; PFloat 7; NaN; NaN; NaN; PStr "scan42"]].
Proof.
  assert (CytenaProcessor.aggregate (snd run1_tables) (Some "scan42") = Ok (fst run1_tables))
    as E by (vm_compute; reflexivity).
  split; [exact E|]. split.
  - exact (proj1 (aggregation_by_group (snd run1_tables) (fst run1_tables) (Some "scan42") E)).
  - vm_compute. reflexivity.
Defined.

(* ================================================================== *)
(** * Rows without a group *)
(* ================================================================== *)

Lemma rmap_ext_in {A B} (f g : A -> result B) (l : list A) :
  (forall x, In x l -> f x = g x) -> rmap f l = rmap g l.
Proof.
  induction l as [|x l IH]; cbn; intros Hfg; [reflexivity|].
  rewrite (Hfg x) by auto. rewrite IH by auto. reflexivity.
Qed.

Lemma filter_map_filter {A B} (p : B -> bool) (f : A -> B) (l : list A) :
  filter p (map f (filter (fun x => p (f x)) l)) = filter p (map f l).
Proof.
  induction l as [|x l IH]; cbn; [reflexivity|].
  destruct (p (f x)) eqn:E; cbn; rewrite ?E, IH; reflexivity.
Qed.

Lemma filter_filter_implied {A} (p q : A -> bool) (l : list A) :
  (forall x, p x = true -> q x = true) ->
  filter p (filter q l) = filter p l.
Proof.
  intros Hpq. induction l as [|x l IH]; cbn; [reflexivity|].
  destruct (q x) eqn:Eq; cbn; rewrite IH.
  - reflexivity.
  - destruct (p x) eqn:Ep; [|reflexivity]. rewrite (Hpq x Ep) in Eq. discriminate.
Qed.

(** The rows with a missing Well Group, Time or channel play no part in
    the aggregation: without them the aggregated table is the same. *)
Lemma aggregate_ignores_incomplete (results : DataFrame) (scan_id : option string) :
  CytenaProcessor.aggregate (with_complete_key results) scan_id
  = CytenaProcessor.aggregate results scan_id.
Proof.
  unfold CytenaProcessor.aggregate. cbn [with_complete_key columns].
  f_equal. unfold GroupBy.groupby_agg. cbn [with_complete_key columns].
  destruct (rmap (fun k => label_index (PStr k) (columns results))
              ["Well Group"; "Time"; "channel"]) as [ks|e] eqn:Hks; [|reflexivity].
  cbn [rbind]. destruct (key_indices results ks Hks) as [_ Hkey]. clear Hks.
  destruct (rmap (fun a => label_index (PStr a) (columns results)) _) as [js|e];
    [|reflexivity].
  cbn [rbind].
  destruct (flat_map _ (columns results)) as [|a0 attrs]; [reflexivity|].
  assert (GroupBy.group_keys ks (with_complete_key results) = GroupBy.group_keys ks results)
    as Hgk.
  { unfold GroupBy.group_keys, with_complete_key. cbn [rows]. do 2 f_equal.
    rewrite <- (filter_map_filter GroupBy.complete (key_of ks) (rows results)).
    do 2 f_equal. apply filter_ext. intros r. rewrite Hkey. reflexivity. }
  rewrite Hgk. f_equal.
  apply rmap_ext_in. intros k Hk.
  destruct (group_keys_spec ks results) as (Hspec & _ & _).
  destruct (Hspec k Hk) as (Hc & _).
  do 2 f_equal. unfold GroupBy.group_rows, with_complete_key. cbn [rows].
  apply filter_filter_implied. intros r Er. rewrite <- Hkey.
  eapply key_eqb_complete; eassumption.
Qed.

Section Returned.
Context `{Numerics}.

(** What [process] returns: the row-level table and its aggregation. *)
Lemma process_returns (d : string) (w : World) (agg res : DataFrame) :
  fst (CytenaProcessor.process d w) = Ok (agg, res) ->
  exists scan_id tables metadata,
    fst (CytenaProcessor._extract_scan_id d w) = Ok scan_id
    /\ CytenaProcessor.reshape_and_join tables metadata scan_id = Ok res
    /\ CytenaProcessor.aggregate res scan_id = Ok agg.
Proof.
  unfold CytenaProcessor.process. intros E.
  bind_inv E. bind_inv E. bind_inv E. bind_inv E. bind_inv E. bind_inv E. bind_inv E.
  assert (a = d) as -> by (eapply validate_returns; eassumption).
  injection E as <- <-.
  exists a0, a2, a3. repeat split.
  - apply (run_fs _ _ _ _ (keeps_validate d)) in Run.
    replace (Ok a0) with (fst (CytenaProcessor._extract_scan_id d w0)) by (rewrite Run0; reflexivity).
    apply same_outcome_eq. apply (agree_extract_scan_id d d). unfold same_dir. congruence.
  - unfold lift in Run4. congruence.
  - unfold lift in Run5. congruence.
Qed.

End Returned.

(** C10. Every row of the aggregated table that [process] returns has a
    Well Group; the rows of a group all have one; and the rows of the
    row-level table with a missing Well Group (or Time, or channel) are
    left out of the aggregation altogether: the row-level table that is
    returned is the one that was aggregated, and without those rows it
    aggregates to the same table. *)
Theorem aggregated_rows_have_a_group `{Numerics} (d : string) (w : World)
    (agg res : DataFrame) :
  fst (CytenaProcessor.process d w) = Ok (agg, res) ->
  (forall a, In a (rows agg) -> notna (field agg "Well Group" a) = true)
  /\ (forall a r, In a (rows agg) -> In r (members res (group_key agg a)) ->
        notna (field res "Well Group" r) = true)
  /\ exists scan_id,
       CytenaProcessor.aggregate res scan_id = Ok agg
       /\ CytenaProcessor.aggregate (with_complete_key res) scan_id = Ok agg.
Proof.
  intros E. destruct (process_returns d w agg res E) as (scan_id & _ & _ & _ & _ & Hagg).
  destruct (aggregate_one_row_per_key _ _ _ Hagg) as (_ & Hin & _).
  repeat split.
  - intros a Ha. destruct (Hin a Ha) as [Hc _].
    unfold GroupBy.complete, group_key in Hc. cbn [forallb] in Hc.
    apply andb_true_iff in Hc as [Hc _]. exact Hc.
  - intros a r Ha Hr. destruct (Hin a Ha) as [Hc _].
    unfold members in Hr. apply filter_In in Hr as [_ Hr].
    pose proof (key_eqb_complete _ _ Hr Hc) as Hcr.
    unfold GroupBy.complete, group_key in Hcr. cbn [forallb] in Hcr.
    apply andb_true_iff in Hcr as [Hcr _]. exact Hcr.
  - exists scan_id. split; [exact Hagg|].
    rewrite aggregate_ignores_incomplete. exact Hagg.
Qed.

Lemma aggregated_rows_have_a_group_witness :
  (forall a, In a (rows (fst run1_tables)) ->
             notna (field (fst run1_tables) "Well Group" a) = true)
  /\ exists r, In r (rows (snd run1_tables))
               /\ isna (field (snd run1_tables) "Well Group" r) = true.
Proof.
  split.
  - exact (proj1 (aggregated_rows_have_a_group (H := Decimal.numerics)
                    "run1" Examples.world (fst run1_tables) (snd run1_tables)
                    ltac:(vm_compute; reflexivity))).
  - exists [PInt 1; PStr "C1"; PFloat 3; PStr "BF"; NaN; NaN; NaN; PStr "scan42"].
    split; [vm_compute; tauto | reflexivity].
Defined.

(* ================================================================== *)
(** * A well in more than one group *)
(* ================================================================== *)

(** C8, as stated, fails at the directory [twice], whose metadata maps
    the well A1 to G1 and to G2: the row-level table holds the
    measurement of A1 twice, once under each group. *)
Lemma duplicate_mapping_duplicates_rows :
  fst (CytenaProcessor.process (H := Decimal.numerics) "twice" Examples.world)
  = Ok twice_tables
  /\ ~ one_group_per_well (snd twice_tables)
  /\ ~ one_row_per_measurement (snd twice_tables).
Proof.
  split; [vm_compute; reflexivity|]. split.
  - intros Hc.
    specialize (Hc [PInt 1; PStr "A1"; PInt 10; PStr "BF"; PStr "G1"; PStr "G1"; PStr "scan42"]
                   [PInt 1; PStr "A1"; PInt 10; PStr "BF"; PStr "G2"; PStr "G2"; PStr "scan42"]).
    assert (false = true) as Habs; [|discriminate Habs].
    apply Hc; vm_compute; tauto.
  - intros Hc. unfold one_row_per_measurement in Hc.
    assert (map (measurement_key (snd twice_tables)) (rows (snd twice_tables))
            = [[PStr "A1"; PInt 1; PStr "BF"]; [PStr "A1"; PInt 1; PStr "BF"];
               [PStr "A2"; PInt 1; PStr "BF"]; [PStr "B1"; PInt 1; PStr "BF"];
               [PStr "C1"; PInt 1; PStr "BF"]]) as Hkeys by (vm_compute; reflexivity).
    rewrite Hkeys in Hc. destruct Hc as [Hc _].
    destruct (Hc [PStr "A1"; PInt 1; PStr "BF"] (or_introl eq_refl)) as [Habs _].
    vm_compute in Habs. discriminate Habs.
Qed.

(* ================================================================== *)
(** * The plate grid *)
(* ================================================================== *)

Lemma filter_all {A} (p : A -> bool) (l : list A) :
  (forall x, In x l -> p x = true) -> filter p l = l.
Proof.
  induction l as [|x l IH]; cbn; intros Hp; [reflexivity|].
  rewrite (Hp x) by auto. f_equal. apply IH. auto.
Qed.

Lemma select_all_true {A} (l : list bool) (xs : list A) :
  (forall b, In b l -> b = true) -> List.length l = List.length xs -> select l xs = xs.
Proof.
  revert xs. induction l as [|b l IH]; destruct xs as [|x xs]; cbn; intros Hl Hlen;
    try reflexivity; try discriminate.
  rewrite (Hl b) by auto. f_equal. apply IH; auto.
Qed.

Lemma combine_map_self {A B C} (g : A -> B) (h : B -> A -> C) (l : list A) :
  map (fun wr => h (fst wr) (snd wr)) (combine (map g l) l) = map (fun x => h (g x) x) l.
Proof. induction l; cbn; [reflexivity|]. f_equal. assumption. Qed.

Lemma flat_map_map_seq {B} (f : nat -> list B) (k : nat) :
  flat_map f (seq 1 k) = flat_map (fun j => f (S j)) (seq 0 k).
Proof. rewrite <- seq_shift. rewrite flat_map_concat_map, map_map, <- flat_map_concat_map. reflexivity. Qed.

Lemma titration_columns :
  (forall k, (1 <= k <= 8)%Z ->
     forall `{Numerics}, MetadataParser.titration_column (PInt k) = true
                         /\ MetadataParser.titration_column (PStr (str_of_int k)) = true)
  /\ (forall k, (9 <= k <= 12)%Z ->
     forall `{Numerics}, MetadataParser.titration_column (PInt k) = false
                         /\ MetadataParser.titration_column (PStr (str_of_int k)) = false).
Proof.
  split; intros k Hk N.
  - assert (k = 1 \/ k = 2 \/ k = 3 \/ k = 4 \/ k = 5 \/ k = 6 \/ k = 7 \/ k = 8)%Z
      as Hc by lia.
    repeat (destruct Hc as [-> | Hc]; [split; reflexivity|]). subst k. split; reflexivity.
  - assert (k = 9 \/ k = 10 \/ k = 11 \/ k = 12)%Z as Hc by lia.
    repeat (destruct Hc as [-> | Hc]; [split; reflexivity|]). subst k. split; reflexivity.
Qed.

Section GridProofs.
Context `{Numerics}.

Lemma annotate_rows (p : DataFrame) (ci : nat) :
  (forall r, In r (rows p) -> exists s, cell r 1 = PStr s) ->
  (2 <= List.length (columns p))%nat ->
  (ci < List.length (columns p))%nat ->
  rows (MetadataParser.annotate p ci)
  = map (fun r => map (fun j =>
                         if (2 <=? j)%nat
                            && MetadataParser.titration_column (nth j (columns p) NaN)
                            && notna (cell r j)
                         then MetadataParser.annotated (cell r j) (cell r ci)
                         else cell r j) (seq 0 (List.length (columns p)))) (rows p).
Proof.
  intros Hrow Hn Hci. unfold MetadataParser.annotate. cbn [rows].
  apply map_ext_in. intros r Hr.
  assert (MetadataParser.iterrows_row p r = pad (List.length (columns p)) r) as ->.
  { unfold MetadataParser.iterrows_row.
    assert (existsb MetadataParser.is_object
              (map (fun j => column_at j p) (seq 0 (List.length (columns p)))) = true) as ->;
      [|reflexivity].
    apply existsb_exists. exists (column_at 1 p). split.
    - apply in_map_iff. exists 1%nat. split; [reflexivity|]. apply in_seq. lia.
    - unfold MetadataParser.is_object. apply existsb_exists.
      destruct (Hrow r Hr) as [s Hs]. exists (PStr s). split; [|reflexivity].
      unfold column_at. apply in_map_iff. exists r. auto. }
  apply map_ext_in. intros j Hj. apply in_seq in Hj.
  rewrite !cell_pad by lia.
  reflexivity.
Qed.

Lemma drop_conc (p : DataFrame) (rl : pyval) (plate : list pyval) (rs : list row) :
  (rl = PStr "Row" \/ rl = PStr "well column") ->
  (forall c, In c plate -> plate_column c = true) ->
  (forall r, In r rs -> List.length r = S (S (List.length plate))) ->
  drop_label MetadataParser.conc_label
    {| columns := MetadataParser.conc_label :: rl :: plate; rows := rs |}
  = {| columns := rl :: plate; rows := map (@tl pyval) rs |}.
Proof.
  intros Hrl Hplate Hlen. unfold drop_label. cbn [columns rows map select].
  rewrite val_eqb_refl. cbn [negb].
  assert (val_eqb rl MetadataParser.conc_label = false) as ->
    by (destruct Hrl as [-> | ->]; reflexivity).
  cbn [negb select].
  assert (map (fun c => negb (val_eqb c MetadataParser.conc_label)) plate
          = map (fun _ => true) plate) as Hkeep.
  { apply map_ext_in. intros c Hc. specialize (Hplate c Hc).
    unfold plate_column in Hplate. apply negb_true_iff in Hplate.
    apply orb_false_iff in Hplate as [Hplate _]. apply orb_false_iff in Hplate as [-> _].
    reflexivity. }
  rewrite Hkeep. f_equal.
  - f_equal. apply select_all_true; [|rewrite length_map; reflexivity].
    intros b Hb. apply in_map_iff in Hb as [? [<- _]]. reflexivity.
  - apply map_ext_in. intros r Hr. specialize (Hlen r Hr).
    change (S (S (List.length plate))) with (List.length (MetadataParser.conc_label :: rl :: plate)) in Hlen.
    rewrite <- Hlen at 1. rewrite pad_all.
    destruct r as [|x0 [|x1 r]]; try discriminate Hlen. cbn [select tl]. f_equal.
    apply select_all_true.
    + intros b Hb. apply in_map_iff in Hb as [? [<- _]]. reflexivity.
    + rewrite length_map. cbn in Hlen. lia.
Qed.

Lemma map_flat_map {A B C} (h : B -> C) (f : A -> list B) (l : list A) :
  map h (flat_map f l) = flat_map (fun x => map h (f x)) l.
Proof. induction l; cbn; [reflexivity|]. rewrite map_app. f_equal. assumption. Qed.

Lemma flat_map_ext_in {A B} (f g : A -> list B) (l : list A) :
  (forall x, In x l -> f x = g x) -> flat_map f l = flat_map g l.
Proof.
  induction l as [|x l IH]; cbn; intros Hfg; [reflexivity|].
  rewrite (Hfg x) by auto. f_equal. apply IH. auto.
Qed.

Lemma annotate_and_melt_grid (p : DataFrame) (rl : pyval) (plate : list pyval) :
  columns p = MetadataParser.conc_label :: rl :: plate ->
  (rl = PStr "Row" \/ rl = PStr "well column") ->
  (forall c, In c plate -> plate_column c = true) ->
  (forall r, In r (rows p) -> exists s, cell r 1 = PStr s) ->
  MetadataParser.annotate_and_melt p = Ok (unpivoted p plate).
Proof.
  intros Hcols Hrl Hplate Hrow. unfold MetadataParser.annotate_and_melt.
  set (k := List.length plate).
  set (final := fun (r : row) (j : nat) =>
         if (2 <=? j)%nat
            && MetadataParser.titration_column
                 (nth j (MetadataParser.conc_label :: rl :: plate) NaN)
            && notna (cell r j)
         then MetadataParser.annotated (cell r j) (cell r 0)
         else cell r j).
  assert (MetadataParser.annotate p 0
          = {| columns := MetadataParser.conc_label :: rl :: plate;
               rows := map (fun r => map (final r) (seq 0 (S (S k)))) (rows p) |}) as Hann.
  { transitivity {| columns := columns p; rows := rows (MetadataParser.annotate p 0) |};
      [reflexivity|].
    rewrite (annotate_rows p 0 Hrow) by (rewrite Hcols; cbn; lia).
    rewrite !Hcols. reflexivity. }
  rewrite Hcols at 1. unfold label_index. cbn [find_label]. rewrite val_eqb_refl. cbn [rbind].
  rewrite Hann.
  rewrite (drop_conc p rl plate _ Hrl Hplate).
  2:{ intros r Hr. apply in_map_iff in Hr as [r0 [<- _]].
      rewrite length_map, length_seq. reflexivity. }
  rewrite map_map.
  assert (rename_label (PStr "well column") (PStr "Row")
            {| columns := rl :: plate;
               rows := map (fun r => tl (map (final r) (seq 0 (S (S k))))) (rows p) |}
          = {| columns := PStr "Row" :: plate;
               rows := map (fun r => map (final r) (seq 1 (S k))) (rows p) |}) as ->.
  { unfold rename_label, set_columns. cbn [columns rows map]. f_equal.
    assert ((if val_eqb rl (PStr "well column") then PStr "Row" else rl) = PStr "Row") as ->
      by (destruct Hrl as [-> | ->]; reflexivity).
    f_equal. rewrite <- (map_id plate) at 2. apply map_ext_in. intros c Hc.
    specialize (Hplate c Hc). unfold plate_column in Hplate.
    apply negb_true_iff in Hplate. apply orb_false_iff in Hplate as [_ ->]. reflexivity. }
  unfold melt, label_index. cbn [columns rows find_label]. rewrite val_eqb_refl. cbn [rbind].
  cbn [rows].
  set (long := flat_map _ _).
  assert (long = flat_map (fun j =>
                   map (fun r => [cell r 1; nth j plate NaN; grid_group r j (nth j plate NaN)])
                       (rows p)) (seq 0 k)) as Hlong.
  { subst long. cbn [List.length seq filter nth]. rewrite val_eqb_refl. cbn [negb].
    rewrite filter_all.
    2:{ intros j Hj. apply in_seq in Hj. destruct j as [|j]; [lia|]. cbn [nth].
        assert (In (nth j plate NaN) plate) as Hin by (apply nth_In; fold k; lia).
        specialize (Hplate _ Hin). unfold plate_column in Hplate.
        apply negb_true_iff in Hplate. apply orb_false_iff in Hplate as [Hplate _].
        apply orb_false_iff in Hplate as [_ ->]. reflexivity. }
    fold k. rewrite flat_map_map_seq. apply flat_map_ext_in. intros j Hj.
    apply in_seq in Hj. rewrite map_map. apply map_ext_in. intros r Hr.
    cbn [nth]. f_equal. f_equal. f_equal.
    unfold cell at 1. cbn [map nth].
    rewrite (nth_indep _ NaN (final r 0%nat)) by (rewrite length_map, length_seq; lia).
    rewrite map_nth, seq_nth by lia.
    unfold final, grid_group, MetadataParser.annotated. reflexivity. }
  rewrite Hlong. clear long Hlong.
  set (long := flat_map _ _).
  set (g := fun lr : row => match cell lr 0 with
                            | PStr s => PStr (s ++ str_of (cell lr 1))
                            | _ => NaN
                            end).
  rewrite (rmap_total _ g).
  2:{ intros lr Hlr. subst long. apply in_flat_map in Hlr as (j & _ & Hlr).
      apply in_map_iff in Hlr as (r & <- & Hr). destruct (Hrow r Hr) as [s Hs].
      unfold g. cbn [cell nth]. fold (cell r 1). rewrite Hs. reflexivity. }
  cbn [rbind]. unfold unpivoted. do 2 f_equal.
  rewrite (combine_map_self g (fun w lr => [w; cell lr 2])).
  subst long. rewrite map_flat_map. fold k. apply flat_map_ext_in. intros j Hj.
  rewrite map_map. apply map_ext_in. intros r Hr. destruct (Hrow r Hr) as [s Hs].
  unfold g, grid_well, row_letter_of. cbn [cell nth]. fold (cell r 1). rewrite Hs. reflexivity.
Qed.


Lemma set_column_existing (l : pyval) (vals : list pyval) (df : DataFrame) (j : nat) :
  find_label l (columns df) = Some j ->
  columns (set_column l vals df) = columns df
  /\ forall r, In r (rows (set_column l vals df)) -> In (cell r j) vals.
Proof.
  intros E. unfold set_column. rewrite E. cbn [columns rows]. split; [reflexivity|].
  intros r Hr. apply in_map_iff in Hr as ([r0 v] & <- & Hrv). cbn [fst snd].
  rewrite cell_replace_nth.
  - eapply in_combine_r. eassumption.
  - rewrite pad_length. eapply find_label_bound. eassumption.
Qed.


End GridProofs.

(* ================================================================== *)
(** * The scan identifier of a directory *)
(* ================================================================== *)

(** The scan column of the two tables holds the scan identifier. *)
Lemma aggregate_scan_column (results agg : DataFrame) (scan_id : option string) (a : row) :
  CytenaProcessor.aggregate results scan_id = Ok agg ->
  In a (rows agg) -> field agg "Scan ID" a = scan_value scan_id.
Proof.
  unfold CytenaProcessor.aggregate. intros E Ha.
  apply rbind_ok in E as (ra & _ & E). apply Ok_inj in E. subst agg.
  apply set_column_const_field. exact Ha.
Qed.

Lemma reshape_scan_column `{Numerics} (tables : list (string * DataFrame))
    (metadata : option DataFrame) (scan_id : option string) (res : DataFrame) (r : row) :
  CytenaProcessor.reshape_and_join tables metadata scan_id = Ok res ->
  In r (rows res) -> field res "Scan ID" r = scan_value scan_id.
Proof.
  unfold CytenaProcessor.reshape_and_join. intros E Hr.
  apply rbind_ok in E as (long & _ & E). apply rbind_ok in E as (merged & _ & E).
  apply rbind_ok in E as (md & _ & E). apply rbind_ok in E as (final & _ & E).
  apply rbind_ok in E as (results & _ & E). apply Ok_inj in E. subst res.
  apply set_column_const_field. exact Hr.
Qed.

(* ================================================================== *)
(** * Further properties of the code *)
(* ================================================================== *)

(** ** The encoder over the whole alphabet *)

Lemma to_int_not_nil (z : Z) :
  Z.to_int z <> Decimal.Pos Decimal.Nil /\ Z.to_int z <> Decimal.Neg Decimal.Nil.
Proof.
  pose proof (DecimalZ.to_of (Z.to_int z)) as E.
  rewrite DecimalZ.of_to in E.
  split; intros Hnil; rewrite Hnil in E; discriminate E.
Qed.

(** [str] is one-to-one on the integers. *)
Lemma str_of_int_inj (z z' : Z) : str_of_int z = str_of_int z' -> z = z'.
Proof.
  unfold str_of_int. intros E.
  apply DecimalZ.to_int_inj.
  destruct (to_int_not_nil z) as [P N], (to_int_not_nil z') as [P' N'].
  pose proof (NilZero.isi _ P N) as I. pose proof (NilZero.isi _ P' N') as I'.
  rewrite E in I. congruence.
Qed.
(** ** The encoder over the whole alphabet *)

Section Alphabet.
Context `{Numerics}.

Lemma letter_of_row (r : Z) :
  (0 <= r < 26)%Z ->
  String.get (Z.to_nat r) ascii_uppercase = Some (ascii_of_nat (65 + Z.to_nat r)).
Proof.
  intros Hr.
  replace r with (Z.of_nat (Z.to_nat r)) in Hr by lia.
  generalize dependent (Z.to_nat r). intros n Hn.
  do 26 (destruct n as [|n]; [reflexivity|]). lia.
Qed.

Lemma str_index_uppercase (r : Z) :
  str_index ascii_uppercase r
  = if ((0 <=? r) && (r <? 26))%Z
    then Ok (String (ascii_of_nat (65 + Z.to_nat r)) EmptyString)
    else if ((-26 <=? r) && (r <? 0))%Z
    then Ok (String (ascii_of_nat (65 + Z.to_nat (r + 26))) EmptyString)
    else Raise IndexError.
Proof.
  unfold str_index. change (Z.of_nat (String.length ascii_uppercase)) with 26%Z.
  cbv zeta.
  destruct (r <? 0)%Z eqn:Neg.
  - apply Z.ltb_lt in Neg.
    replace ((0 <=? r) && (r <? 26))%Z with false
      by (symmetry; apply andb_false_iff; left; apply Z.leb_gt; exact Neg).
    replace (-26 <=? r)%Z with (0 <=? r + 26)%Z
      by (apply eq_true_iff_eq; rewrite !Z.leb_le; lia).
    replace (r + 26 <? 26)%Z with true
      by (symmetry; apply Z.ltb_lt; lia).
    rewrite andb_true_r.
    destruct (0 <=? r + 26)%Z eqn:Lo; cbn [andb]; [|reflexivity].
    apply Z.leb_le in Lo. rewrite letter_of_row by lia. reflexivity.
  - apply Z.ltb_ge in Neg.
    destruct ((0 <=? r) && (r <? 26))%Z eqn:In.
    + apply andb_true_iff in In. destruct In as [Lo Hi].
      apply Z.leb_le in Lo. apply Z.ltb_lt in Hi.
      rewrite letter_of_row by lia. reflexivity.
    + replace (-26 <=? r)%Z with true by (symmetry; apply Z.leb_le; lia).
      reflexivity.
Qed.

(** X1. Over the whole alphabet: for row indices in [0,26) the encoder is
    one-to-one on (row, column) for every integer column; a row index in
    [-26,0) counts from the end of the alphabet and gives the label of
    row [r+26]; any other row index raises IndexError. *)
Theorem well_labels_over_the_alphabet (well well' : json) (r c r' c' : Z) :
  jget well "Row" = Ok (JInt r) -> jget well "Column" = Ok (JInt c) ->
  jget well' "Row" = Ok (JInt r') -> jget well' "Column" = Ok (JInt c') ->
  ((0 <= r < 26)%Z -> (0 <= r' < 26)%Z ->
   CytenaProcessor._well_to_label well' = CytenaProcessor._well_to_label well ->
   r' = r /\ c' = c)
  /\ ((-26 <= r < 0)%Z ->
      CytenaProcessor._well_to_label well
      = CytenaProcessor._well_to_label (json_well (r + 26) c))
  /\ ((-26 <= r < 26)%Z ->
      exists label, CytenaProcessor._well_to_label well = Ok label)
  /\ ((r < -26 \/ 26 <= r)%Z ->
      CytenaProcessor._well_to_label well = Raise IndexError).
Proof.
  intros Hr Hc Hr' Hc'.
  rewrite (well_to_label_int well r c Hr Hc), (well_to_label_int well' r' c' Hr' Hc').
  rewrite (well_to_label_int (json_well (r + 26) c) (r + 26) c eq_refl eq_refl).
  rewrite !str_index_uppercase.
  assert (forall a b x : Z, (a <= x < b)%Z -> ((a <=? x) && (x <? b))%Z = true) as Hin
    by (intros a b x Hx; apply andb_true_iff; rewrite Z.leb_le, Z.ltb_lt; exact Hx).
  assert (forall a b x : Z, (x < a \/ b <= x)%Z -> ((a <=? x) && (x <? b))%Z = false) as Hout
    by (intros a b x Hx; apply andb_false_iff; rewrite Z.leb_gt, Z.ltb_ge; exact Hx).
  split; [|split; [|split]].
  - intros B B' E.
    rewrite (Hin _ _ r B), (Hin _ _ r' B') in E.
    cbn [rbind append] in E. apply Ok_inj in E. injection E as Ha Hs.
    apply (f_equal nat_of_ascii) in Ha.
    rewrite !nat_ascii_embedding in Ha by lia.
    apply str_of_int_inj in Hs. lia.
  - intros B.
    rewrite (Hout 0%Z 26%Z r) by lia.
    rewrite (Hin (-26)%Z 0%Z r B), (Hin 0%Z 26%Z (r + 26)%Z) by lia.
    reflexivity.
  - intros B.
    destruct (Z_lt_ge_dec r 0).
    + rewrite (Hout 0%Z 26%Z r), (Hin (-26)%Z 0%Z r) by lia. cbn. eauto.
    + rewrite (Hin 0%Z 26%Z r) by lia. cbn. eauto.
  - intros B.
    rewrite (Hout 0%Z 26%Z r), (Hout (-26)%Z 0%Z r) by lia. reflexivity.
Qed.

End Alphabet.

Lemma well_labels_over_the_alphabet_witness :
  CytenaProcessor._well_to_label (H := Decimal.numerics) (json_well 25 98)
  <> CytenaProcessor._well_to_label (H := Decimal.numerics) (json_well 3 98)
  /\ CytenaProcessor._well_to_label (H := Decimal.numerics) (json_well (-1) 98)
     = CytenaProcessor._well_to_label (H := Decimal.numerics) (json_well 25 98)
  /\ (exists label,
        CytenaProcessor._well_to_label (H := Decimal.numerics) (json_well (-26) 0)
        = Ok label)
  /\ CytenaProcessor._well_to_label (H := Decimal.numerics) (json_well 26 0)
     = Raise IndexError
  /\ CytenaProcessor._well_to_label (H := Decimal.numerics) (json_well (-27) 0)
     = Raise IndexError.
Proof.
  split; [|split; [|split; [|split]]].
  - intros E.
    destruct (proj1 (well_labels_over_the_alphabet (H := Decimal.numerics)
                       (json_well 3 98) (json_well 25 98) 3 98 25 98
                       eq_refl eq_refl eq_refl eq_refl)
                ltac:(lia) ltac:(lia) E) as [E' _].
    discriminate E'.
  - exact (proj1 (proj2 (well_labels_over_the_alphabet (H := Decimal.numerics)
                           (json_well (-1) 98) (json_well 25 98) (-1) 98 25 98
                           eq_refl eq_refl eq_refl eq_refl)) ltac:(lia)).
  - exact (proj1 (proj2 (proj2 (well_labels_over_the_alphabet (H := Decimal.numerics)
                           (json_well (-26) 0) (json_well 0 0) (-26) 0 0 0
                           eq_refl eq_refl eq_refl eq_refl))) ltac:(lia)).
  - exact (proj2 (proj2 (proj2 (well_labels_over_the_alphabet (H := Decimal.numerics)
                           (json_well 26 0) (json_well 0 0) 26 0 0 0
                           eq_refl eq_refl eq_refl eq_refl))) ltac:(lia)).
  - exact (proj2 (proj2 (proj2 (well_labels_over_the_alphabet (H := Decimal.numerics)
                           (json_well (-27) 0) (json_well 0 0) (-27) 0 0 0
                           eq_refl eq_refl eq_refl eq_refl))) ltac:(lia)).
Defined.

(** ** Validation of the data directory *)

Lemma no_supported_file (names : list string) :
  ((([] ++ filter (fun f => endswith f ".csv") names)
      ++ filter (fun f => endswith f ".xlsx") names)
     ++ filter (fun f => endswith f ".json") names)%list = []
  <-> existsb (fun f => endswith f ".csv" || endswith f ".xlsx" || endswith f ".json")
        names = false.
Proof.
  cbn [app]. induction names as [|f names IH]; cbn [filter existsb]; [tauto|].
  destruct (endswith f ".csv") eqn:E1; cbn [orb app].
  { split; discriminate. }
  destruct (endswith f ".xlsx") eqn:E2; cbn [orb app].
  { split; [|discriminate]. intros E. apply app_eq_nil in E. destruct E as [E _].
    apply app_eq_nil in E. destruct E as [_ E]. discriminate E. }
  destruct (endswith f ".json") eqn:E3; cbn [orb app].
  { split; [|discriminate]. intros E. apply app_eq_nil in E. destruct E as [_ E].
    discriminate E. }
  exact IH.
Qed.

(** X2. Validation has three outcomes and no effect: a path that does not
    exist raises FileNotFoundError; a path that is a file, or a directory
    none of whose entries ends in [.csv], [.xlsx] or [.json], raises
    ValueError; any other directory is returned. The world, its output
    included, is left as it was, and [process] fails in the same way
    before it prints or reads anything. *)
Theorem validation_outcomes `{Numerics} (data_dir : string) (w : World) :
  let supported f := endswith f ".csv" || endswith f ".xlsx" || endswith f ".json" in
  let outcome :=
    match lookup data_dir (fs w) with
    | None => Raise FileNotFoundError
    | Some (File _) => Raise ValueError
    | Some (Dir entries) =>
        if existsb supported (map fst entries) then Ok data_dir else Raise ValueError
    end in
  CytenaProcessor._validate_directory data_dir w = (outcome, w)
  /\ (forall e, outcome = Raise e -> CytenaProcessor.process data_dir w = (Raise e, w)).
Proof.
  intros supported outcome.
  assert (CytenaProcessor._validate_directory data_dir w = (outcome, w)) as V.
  { unfold outcome.
    cbv [CytenaProcessor._validate_directory bind exists_ glob_ext read ret raise foreach
         resolve is_ok negb].
    destruct (lookup data_dir (fs w)) as [[c|entries]|] eqn:L;
      repeat (progress (cbv beta iota; rewrite ?L)); [reflexivity| |reflexivity].
    destruct (existsb supported (map fst entries)) eqn:E.
    - destruct (_ ++ filter (fun f => endswith f ".json") (map fst entries))%list eqn:F;
        [|reflexivity].
      apply no_supported_file in F. unfold supported in E. congruence.
    - apply no_supported_file in E. rewrite E. reflexivity. }
  split; [exact V|].
  intros e E. unfold CytenaProcessor.process, bind at 1. rewrite V, E. reflexivity.
Qed.

(** ** The scan identifier: every outcome *)

(** X3. [_extract_scan_id] raises only what listing the directory raises,
    and then changes nothing. Otherwise it returns: a prefix exactly when
    the directory has a CSV file and all its CSV files share that prefix,
    leaving the world as it was; and [None] in every other case, the
    directory without any CSV file included, after printing "Multiple
    scan IDs found" once. *)
Theorem scan_id_outcomes (d : string) (w : World) :
  match fst (listdir [d] w) with
  | Raise e => CytenaProcessor._extract_scan_id d w = (Raise e, w)
  | Ok names =>
      exists scan_id,
        CytenaProcessor._extract_scan_id d w
        = (Ok scan_id,
           match scan_id with
           | Some _ => w
           | None => {| fs := fs w;
                        stdout := (stdout w ++ ["Multiple scan IDs found"])%list |}
           end)
        /\ (csv_files names = [] -> scan_id = None)
        /\ (forall p, scan_id = Some p
                      <-> csv_files names <> []
                          /\ forall f, In f (csv_files names) -> scan_prefix f = p)
  end.
Proof.
  destruct (fst (listdir [d] w)) as [names|e] eqn:Hls; apply read_run in Hls;
    unfold CytenaProcessor._extract_scan_id, bind; unfold listdir; rewrite Hls;
    [|reflexivity].
  destruct (prefixes_spec names []) as [Hin Hnd]. specialize (Hnd (NoDup_nil _)).
  cbv zeta in Hin, Hnd.
  set (prefixes := fold_left _ names []) in *.
  assert (forall x, In x prefixes <-> exists f, In f (csv_files names) /\ scan_prefix f = x)
    as Hin'.
  { intros x. rewrite Hin. split; [intros [[] | E]; exact E | intros E; right; exact E]. }
  clear Hin.
  destruct prefixes as [|x [|y l]].
  - exists None. split; [reflexivity|]. split; [reflexivity|].
    intros p. split; [discriminate|]. intros [Hne Hall]. exfalso.
    destruct (csv_files names) as [|f fs] eqn:E; [congruence|].
    apply (proj2 (Hin' (scan_prefix f))). exists f. split; [left|]; reflexivity.
  - exists (Some x). split; [reflexivity|].
    assert (exists f, In f (csv_files names) /\ scan_prefix f = x) as (f0 & Hf0 & Ef0)
      by (apply Hin'; left; reflexivity).
    split; [intros E; rewrite E in Hf0; destruct Hf0|].
    intros p. split.
    + intros E. injection E as <-. split; [intros E; rewrite E in Hf0; destruct Hf0|].
      intros f Hf. assert (In (scan_prefix f) [x]) as [<- | []]; [|reflexivity].
      apply Hin'. eauto.
    + intros [_ Hall]. rewrite <- Ef0, (Hall f0 Hf0). reflexivity.
  - exists None. split; [reflexivity|].
    assert (exists f, In f (csv_files names) /\ scan_prefix f = x) as (f0 & Hf0 & Ef0)
      by (apply Hin'; left; reflexivity).
    split; [intros E; rewrite E in Hf0; destruct Hf0|].
    intros p. split; [discriminate|]. intros [_ Hall]. exfalso.
    assert (x = p) as ->.
    { rewrite <- Ef0. apply Hall. exact Hf0. }
    assert (y = p) as ->.
    { destruct (proj1 (Hin' y)) as (g & Hg & Eg); [right; left; reflexivity|].
      rewrite <- Eg. apply Hall. exact Hg. }
    inversion Hnd as [|? ? Hx _]; subst. apply Hx. left. reflexivity.
Qed.

(** ** Exports with a name the readers cannot cut *)

Lemma split_go_nonempty (sep : string) (n k : nat) (s : string) :
  split_go sep n k s <> [].
Proof.
  revert n k. induction s as [|c s IH]; intros n k; cbn [split_go]; [discriminate|].
  destruct k; [|apply IH].
  destruct n.
  - destruct (split_go sep 0 0 s); discriminate.
  - destruct (String.prefix sep (String c s)); [discriminate|].
    destruct (split_go sep (S n) 0 s); discriminate.
Qed.

(** Without a cut left, nothing is split. *)
Lemma split_go_no_cut (sep s : string) : split_go sep 0 0 s = [s].
Proof.
  induction s as [|c s IH]; cbn [split_go]; [reflexivity|]. rewrite IH. reflexivity.
Qed.

(** Two pieces or more: the separator occurs. *)
Lemma split_go_cut (sep : string) (n : nat) (s : string) :
  (2 <= List.length (split_go sep n 0 s))%nat -> contains sep s = true.
Proof.
  revert n. induction s as [|c s IH]; intros n; cbn [split_go contains].
  - cbn. lia.
  - destruct n.
    + rewrite split_go_no_cut. cbn. lia.
    + destruct (String.prefix sep (String c s)); [reflexivity|]. cbn [orb].
      intros L. apply (IH (S n)).
      destruct (split_go sep (S n) 0 s); cbn in *; lia.
Qed.

(** [s.split('_', 1)] with two pieces: the text before the first
    underscore and the text after it. *)
Lemma split1_underscore (s c a : string) :
  split1 "_" s = [c; a] -> s = (c ++ String "_" a)%string /\ contains "_" c = false.
Proof.
  unfold split1. revert c. induction s as [|x s IH]; intros c; cbn [split_go].
  - discriminate.
  - rewrite prefix_cons, prefix_nil. cbn [String.length Nat.sub].
    destruct (ascii_dec "_" x) as [<-|Hx].
    + rewrite split_go_no_cut. intros E. injection E as <- <-. split; reflexivity.
    + destruct (split_go "_" 1 0 s) as [|p ps] eqn:E; [discriminate|].
      intros E'. injection E' as <- ->. destruct (IH p eq_refl) as [-> Hp].
      split; [reflexivity|]. cbn [contains]. rewrite prefix_cons, prefix_nil.
      destruct (ascii_dec "_" x); [contradiction|]. exact Hp.
Qed.

(** A loop that ends normally ran its body normally on every element. *)
Lemma foreach_ok_each {A S} (l : list A) (body : A -> S -> M S) (s r : S) (w w' : World) :
  (forall x s, keeps_fs (body x s)) ->
  foreach l body s w = (Ok r, w') ->
  forall x, In x l ->
    exists s1 w1, fs w1 = fs w /\ is_ok (fst (body x s1 w1)) = true.
Proof.
  intros K. revert s w. induction l as [|y l IH]; intros s w E x Hx; [destruct Hx|].
  cbn [foreach] in E. apply bind_run_ok in E as (s2 & w2 & Ey & E).
  destruct Hx as [<- | Hx].
  - exists s, w. split; [reflexivity|]. rewrite Ey. reflexivity.
  - destruct (IH s2 w2 E x Hx) as (s1 & w1 & Hfs & Hok).
    exists s1, w1. split; [|exact Hok].
    rewrite Hfs. exact (run_fs _ _ _ _ (K y s) Ey).
Qed.

Lemma bind_is_ok {A B} (m : M A) (f : A -> M B) (w : World) :
  is_ok (fst (bind m f w)) = true ->
  exists a w1, m w = (Ok a, w1) /\ is_ok (fst (f a w1)) = true.
Proof.
  unfold bind. destruct (m w) as [[a|e] w1]; cbn; [eauto | discriminate].
Qed.

(** What a normal end of the first loop of a reader says of each file it
    took. *)
Lemma read_summaries_names (d marker : string) (w : World)
    (tables : list (string * DataFrame)) (names : list string) :
  fst (CytenaProcessor.read_summaries d marker w) = Ok tables ->
  fst (listdir [d] w) = Ok names ->
  forall f, In f names -> endswith f ".csv" = true -> contains marker f = true ->
    contains (marker ++ "_") f = true
    /\ (exists channel attribute,
          label_of marker f = (channel ++ String "_" attribute)%string
          /\ contains "_" channel = false)
    /\ exists df, resolve (fs w) [d; f] = Ok (File (Csv df)).
Proof.
  unfold CytenaProcessor.read_summaries. intros E Hls f Hf Hcsv Hm.
  apply read_run in Hls. unfold bind at 1 in E. unfold listdir in E. rewrite Hls in E.
  destruct (foreach names _ [] w) as [[r|e] w'] eqn:Loop; [|discriminate E].
  eapply foreach_ok_each in Loop as (s1 & w1 & Hfs & Hok); [| |exact Hf].
  2:{ intros x s. keeps_all. }
  cbv beta in Hok. rewrite Hcsv, Hm in Hok. cbn [andb] in Hok.
  unfold label_of.
  destruct (split (marker ++ "_") f) as [|p0 [|l rest]] eqn:Cut; [discriminate Hok..|].
  split.
  { apply (split_go_cut _ (String.length f)). unfold split in Cut. rewrite Cut. cbn. lia. }
  cbn [nth].
  unfold bind at 1, lift at 1 in Hok.
  destruct (split1 "_" (replace ".csv" "" l)) as [|c [|a [|? ?]]] eqn:Cut1;
    try discriminate Hok.
  split.
  { exists c, a. apply split1_underscore. exact Cut1. }
  unfold bind at 1, lift at 1 in Hok.
  apply bind_is_ok in Hok as (u1 & w2 & Hw2 & Hok).
  apply run_fs in Hw2; [|destruct (negb _); keeps_all].
  apply bind_is_ok in Hok as (u2 & w3 & Hw3 & Hok).
  apply run_fs in Hw3; [|destruct (negb _); keeps_all].
  unfold bind, read_csv, read_file, read in Hok. cbn [fst] in Hok.
  rewrite Hw3, Hw2, Hfs in Hok.
  destruct (resolve (fs w) [d; f]) as [[[df| | |]|]|]; cbn in Hok; try discriminate Hok.
  eauto.
Qed.

(** X4. When [process] returns, every CSV file of the directory whose
    name contains [summary_positions] or [summary_wells] has the marker
    followed by an underscore, the label cut out after it is a channel
    without underscore, an underscore and an attribute, and the file
    holds a table: an export named otherwise (IndexError, ValueError) or
    unreadable aborts the run, whichever of the two kinds it is. *)
Theorem misnamed_export_aborts `{Numerics} (d : string) (w : World)
    (names : list string) (f marker : string) :
  is_ok (fst (CytenaProcessor.process d w)) = true ->
  fst (listdir [d] w) = Ok names ->
  In f names -> In marker markers ->
  endswith f ".csv" = true -> contains marker f = true ->
  contains (marker ++ "_") f = true
  /\ (exists channel attribute,
        label_of marker f = (channel ++ String "_" attribute)%string
        /\ contains "_" channel = false)
  /\ exists df, resolve (fs w) [d; f] = Ok (File (Csv df)).
Proof.
  intros E Hls Hf Hm Hcsv Hc.
  unfold CytenaProcessor.process in E.
  apply bind_is_ok in E as (d' & w1 & V & E).
  assert (d' = d) as -> by (eapply validate_returns; eassumption).
  apply (run_fs _ _ _ _ (keeps_validate d)) in V.
  apply bind_is_ok in E as (scan_id & w2 & S & E).
  apply (run_fs _ _ _ _ (keeps_extract_scan_id d)) in S.
  apply bind_is_ok in E as (tables & w3 & L & _).
  unfold CytenaProcessor.load_measurements in L.
  apply bind_run_ok in L as (r & w4 & P & L).
  assert (CytenaProcessor.truthy r = false) as Hr.
  { apply (parse_position_is_falsy d w2). rewrite P. reflexivity. }
  rewrite Hr in L. cbn [negb] in L.
  apply bind_run_ok in L as (u & w5 & Pr & W).
  pose proof (run_fs _ _ _ _ (keeps_parse_position d) P) as F4.
  pose proof (run_fs _ _ _ _ (keeps_print _) Pr) as F5.
  unfold CytenaProcessor.parse_position_summary_files in P.
  apply bind_run_ok in P as (raw & w6 & P & _).
  unfold CytenaProcessor.parse_well_summary_files in W.
  apply bind_run_ok in W as (raw' & w7 & W & _).
  assert (fs w2 = fs w) as F2 by congruence.
  assert (fs w5 = fs w) as F5' by congruence.
  destruct Hm as [<- | [<- | []]].
  - rewrite <- F2. apply (read_summaries_names d _ w2 raw names); auto.
    + rewrite P. reflexivity.
    + rewrite (listdir_same_fs [d] w w2 F2). exact Hls.
  - rewrite <- F5'. apply (read_summaries_names d _ w5 raw' names); auto.
    + rewrite W. reflexivity.
    + rewrite (listdir_same_fs [d] w w5 F5'). exact Hls.
Qed.

Lemma misnamed_export_aborts_witness :
  contains ("summary_wells" ++ "_") "scan42_summary_wells_green_confluency.csv" = true
  /\ (exists channel attribute,
        label_of "summary_wells" "scan42_summary_wells_green_confluency.csv"
        = (channel ++ String "_" attribute)%string
        /\ contains "_" channel = false)
  /\ exists df, resolve (fs Examples.world) ["run1"; "scan42_summary_wells_green_confluency.csv"]
                = Ok (File (Csv df)).
Proof.
  apply (misnamed_export_aborts (H := Decimal.numerics) "run1" Examples.world
           ["scan42_summary_wells_BF_total_intensity.csv";
            "scan42_summary_wells_green_confluency.csv"; "plate.xlsx"] "scan42_summary_wells_green_confluency.csv" "summary_wells");
    vm_compute; auto.
Defined.

(* ================================================================== *)
(** * The upload filter *)
(* ================================================================== *)

Lemma contains_char (c x : ascii) (s : string) :
  contains (String c EmptyString) (String x s)
  = (Ascii.eqb x c || contains (String c EmptyString) s).
Proof.
  cbn [contains]. rewrite prefix_cons, prefix_nil.
  destruct (ascii_dec c x) as [<-|Hx].
  - rewrite Ascii.eqb_refl. reflexivity.
  - destruct (Ascii.eqb_spec x c); [congruence | reflexivity].
Qed.

Lemma cut_last_none (c : ascii) (s : string) :
  App.cut_last c s = None <-> contains (String c EmptyString) s = false.
Proof.
  induction s as [|x s IH].
  - split; reflexivity.
  - rewrite contains_char. cbn [App.cut_last].
    destruct (App.cut_last c s) as [[a b]|].
    + split; [discriminate|]. intros E. apply orb_false_iff in E as [_ E].
      apply IH in E. discriminate E.
    + destruct (Ascii.eqb x c); cbn [orb].
      * split; discriminate.
      * split; intros _; [apply IH|]; reflexivity.
Qed.

(** The cut is at the last separator. *)
Lemma cut_last_spec (c : ascii) (s a b : string) :
  App.cut_last c s = Some (a, b)
  <-> s = (a ++ String c b)%string /\ contains (String c EmptyString) b = false.
Proof.
  revert a b. induction s as [|x s IH]; intros a b; cbn [App.cut_last].
  - split; [discriminate|]. intros [E _]. destruct a; discriminate E.
  - destruct (App.cut_last c s) as [[a' b']|] eqn:Cut.
    + destruct (proj1 (IH a' b') eq_refl) as [-> Hb'].
      split.
      * intros E. injection E as <- <-. split; [reflexivity | exact Hb'].
      * intros [E Hb]. destruct a as [|y a]; cbn [append] in E.
        -- injection E as -> E.
           assert (contains (String c EmptyString) b = true) as Hc.
           { rewrite <- E. clear. induction a' as [|z a' IHa]; cbn [append].
             - rewrite contains_char, Ascii.eqb_refl. reflexivity.
             - rewrite contains_char, IHa. apply orb_true_r. }
           congruence.
        -- injection E as <- E.
           assert (Some (a', b') = Some (a, b)) as E' by (apply IH; split; assumption).
           injection E' as <- <-. reflexivity.
    + apply cut_last_none in Cut.
      destruct (Ascii.eqb_spec x c) as [->|Hx].
      * split.
        -- intros E. injection E as <- <-. split; [reflexivity | exact Cut].
        -- intros [E Hb]. destruct a as [|y a]; cbn [append] in E.
           ++ injection E as <-. reflexivity.
           ++ injection E as _ E. exfalso.
              assert (contains (String c EmptyString) s = true) as Hc.
              { rewrite E. clear. induction a as [|z a IHa]; cbn [append].
                - rewrite contains_char, Ascii.eqb_refl. reflexivity.
                - rewrite contains_char, IHa. apply orb_true_r. }
              congruence.
      * split; [discriminate|]. intros [E Hb]. exfalso.
        destruct a as [|y a]; cbn [append] in E.
        -- injection E as E _. congruence.
        -- injection E as _ E.
           assert (contains (String c EmptyString) s = true) as Hc.
           { rewrite E. clear. induction a as [|z a IHa]; cbn [append].
             - rewrite contains_char, Ascii.eqb_refl. reflexivity.
             - rewrite contains_char, IHa. apply orb_true_r. }
           congruence.
Qed.

Lemma substring_all (s : string) : substring 0 (String.length s) s = s.
Proof. induction s as [|c s IH]; cbn; [reflexivity | rewrite IH; reflexivity]. Qed.

Lemma substring_cut (s : string) (k : nat) :
  (k <= String.length s)%nat ->
  s = (substring 0 k s ++ substring k (String.length s - k) s)%string.
Proof.
  revert k. induction s as [|c s IH]; intros k Hk.
  - destruct k; reflexivity.
  - destruct k as [|k].
    + cbn [substring append Nat.sub String.length]. rewrite substring_all. reflexivity.
    + cbn [substring append Nat.sub String.length]. f_equal. apply IH. cbn in Hk. lia.
Qed.

Lemma substring_app_r (p suf : string) :
  substring (String.length p) (String.length suf) (p ++ suf) = suf.
Proof.
  induction p as [|c p IH]; cbn [String.length append substring].
  - apply substring_all.
  - exact IH.
Qed.

Lemma length_append (p q : string) :
  String.length (p ++ q) = (String.length p + String.length q)%nat.
Proof. induction p as [|c p IH]; cbn; [reflexivity | rewrite IH; reflexivity]. Qed.

(** [s.endswith(suf)]: [s] is some text followed by [suf]. *)
Lemma endswith_spec (s suf : string) :
  endswith s suf = true <-> exists p, s = (p ++ suf)%string.
Proof.
  unfold endswith. split.
  - destruct (Nat.leb_spec (String.length suf) (String.length s)) as [L|L]; [|discriminate].
    intros E. apply String.eqb_eq in E.
    exists (substring 0 (String.length s - String.length suf) s).
    pose proof (substring_cut s (String.length s - String.length suf)) as C.
    replace (String.length s - (String.length s - String.length suf))%nat
      with (String.length suf) in C by lia.
    rewrite E in C. apply C. lia.
  - intros [p ->]. rewrite length_append.
    replace (String.length suf <=? String.length p + String.length suf)%nat with true
      by (symmetry; apply Nat.leb_le; lia).
    replace (String.length p + String.length suf - String.length suf)%nat
      with (String.length p) by lia.
    rewrite substring_app_r. apply String.eqb_refl.
Qed.

(** X5. The upload filter never raises: the index into the pieces of
    [rsplit] is guarded by the test for a dot. It accepts a name exactly
    when the text after its last dot is [csv], [xlsx] or [xls] in any
    mix of upper and lower case; a name that ends in [.json] is
    refused. *)
Theorem allowed_file_spec (filename : string) :
  (exists b, App.allowed_file filename = Ok b)
  /\ (App.allowed_file filename = Ok true
      <-> exists stem ext,
            filename = (stem ++ "." ++ ext)%string
            /\ contains "." ext = false
            /\ In (App.lower ext) ["csv"; "xlsx"; "xls"])
  /\ (endswith filename ".json" = true -> App.allowed_file filename = Ok false).
Proof.
  assert (forall stem ext, filename = (stem ++ "." ++ ext)%string ->
            contains "." ext = false ->
            App.allowed_file filename
            = Ok (existsb (String.eqb (App.lower ext)) ["csv"; "xlsx"; "xls"])) as Hcut.
  { intros stem ext E Hext. unfold App.allowed_file, App.rsplit1.
    rewrite (proj2 (cut_last_spec "." filename stem ext) (conj E Hext)).
    destruct (contains "." filename) eqn:Hdot; [reflexivity|].
    apply cut_last_none in Hdot.
    rewrite (proj2 (cut_last_spec "." filename stem ext) (conj E Hext)) in Hdot.
    discriminate Hdot. }
  assert (forall ext, existsb (String.eqb (App.lower ext)) ["csv"; "xlsx"; "xls"] = true
                      <-> In (App.lower ext) ["csv"; "xlsx"; "xls"]) as Hin.
  { intros ext. rewrite existsb_exists. split.
    - intros (x & Hx & E). apply String.eqb_eq in E. rewrite E. exact Hx.
    - intros Hx. exists (App.lower ext). split; [exact Hx | apply String.eqb_refl]. }
  split; [|split].
  - unfold App.allowed_file, App.rsplit1.
    destruct (contains "." filename) eqn:Hdot; [|eauto].
    destruct (App.cut_last "." filename) as [[a b]|] eqn:Cut; [eauto|].
    apply cut_last_none in Cut. congruence.
  - split.
    + unfold App.allowed_file, App.rsplit1.
      destruct (contains "." filename) eqn:Hdot; [|discriminate].
      destruct (App.cut_last "." filename) as [[a b]|] eqn:Cut; [|discriminate].
      apply cut_last_spec in Cut as [E Hb].
      intros Hb'. apply Ok_inj in Hb'. exists a, b. split; [exact E|].
      split; [exact Hb | apply Hin; exact Hb'].
    + intros (stem & ext & E & Hext & Hl). rewrite (Hcut stem ext E Hext).
      f_equal. apply Hin. exact Hl.
  - intros E. apply endswith_spec in E as [p ->].
    rewrite (Hcut p "json"); reflexivity.
Qed.

(* ================================================================== *)
(** * What the dashboard reads in the aggregated table *)
(* ================================================================== *)

(** The names the dashboard derives from a column name, for the columns
    [aggregate] writes. *)
Lemma attribute_suffixes (a : string) :
  In a (map fst CytenaProcessor.possible_attributes) ->
  App.base_name (PStr (a ++ "_avg")) = Ok a
  /\ App.base_name (PStr (a ++ "_std")) = Ok a
  /\ App.stripped (PStr (a ++ "_avg")) = PStr a
  /\ dict_has a App.possible_attributes = true
  /\ lookup a App.possible_attributes = Some (App.unit_of (a ++ "_avg")).
Proof.
  cbn [map fst CytenaProcessor.possible_attributes]. intros Ha.
  repeat (destruct Ha as [<- | Ha]; [repeat split; vm_compute; reflexivity|]).
  destruct Ha.
Qed.

Lemma has_label_str (s : string) (names : list string) :
  has_label (PStr s) (map PStr names) = true <-> In s names.
Proof.
  unfold has_label. rewrite existsb_exists. split.
  - intros (c & Hc & E). apply in_map_iff in Hc as (n & <- & Hn).
    cbn in E. apply String.eqb_eq in E. subst n. exact Hn.
  - intros Hs. exists (PStr s). split; [apply in_map; exact Hs | apply val_eqb_refl].
Qed.

Lemma has_label_find (l : pyval) (cols : list pyval) :
  has_label l cols = true -> exists j, find_label l cols = Some j.
Proof.
  induction cols as [|c cols IH]; cbn; [discriminate|].
  destruct (val_eqb c l); cbn; [eauto|].
  intros E. destruct (IH E) as [j ->]. cbn. eauto.
Qed.

(** The set the comprehension of [upload_files] builds over column
    names. *)
Lemma available_attributes_spec (names acc : list string) :
  exists attrs,
    rfold (map PStr names) (fun col acc =>
      rbind (App.base_name col) (fun b =>
      Ok (if dict_has b App.possible_attributes
          then CytenaProcessor.set_add b acc else acc))) acc = Ok attrs
    /\ forall x, In x attrs
                 <-> In x acc
                     \/ exists n, In n names
                                  /\ App.base_name (PStr n) = Ok x
                                  /\ dict_has x App.possible_attributes = true.
Proof.
  revert acc. induction names as [|n names IH]; intros acc; cbn [map rfold].
  - exists acc. split; [reflexivity|]. intros x. split; [auto|].
    intros [Hx | (n & [] & _)]. exact Hx.
  - cbn [App.base_name rbind].
    set (b := hd EmptyString (split "_std" (hd EmptyString (split "_avg" n)))).
    destruct (IH (if dict_has b App.possible_attributes
                  then CytenaProcessor.set_add b acc else acc)) as (attrs & -> & Hin).
    exists attrs. split; [reflexivity|]. intros x. rewrite Hin. clear Hin IH.
    destruct (dict_has b App.possible_attributes) eqn:Hb.
    + rewrite set_add_in. split.
      * intros [[Hx | ->] | (m & Hm & Em & Hd)].
        -- left. exact Hx.
        -- right. exists n. repeat split; [left; reflexivity | exact Hb].
        -- right. exists m. repeat split; [right; exact Hm | exact Em | exact Hd].
      * intros [Hx | (m & [<- | Hm] & Em & Hd)].
        -- left. left. exact Hx.
        -- left. right. cbn in Em. apply Ok_inj in Em. symmetry. exact Em.
        -- right. exists m. repeat split; assumption.
    + split.
      * intros [Hx | (m & Hm & Em & Hd)]; [left; exact Hx|].
        right. exists m. repeat split; [right; exact Hm | exact Em | exact Hd].
      * intros [Hx | (m & [<- | Hm] & Em & Hd)]; [left; exact Hx | |].
        -- cbn in Em. apply Ok_inj in Em. fold b in Em. congruence.
        -- right. exists m. repeat split; assumption.
Qed.

Lemma agg_names_in (attrs : list string) (n : string) :
  In n (agg_names attrs ++ ["Scan ID"])
  <-> In n ["Well Group"; "Time"; "channel"; "Scan ID"]
      \/ exists a, In a attrs /\ (n = (a ++ "_avg")%string \/ n = (a ++ "_std")%string).
Proof.
  unfold agg_names. rewrite !in_app_iff, in_flat_map. cbn [In]. split.
  - intros [[H | (a & Ha & [<- | [<- | []]])] | [H | []]]; eauto 8.
    intuition.
  - intros [[H | [H | [H | [H | []]]]] | (a & Ha & [-> | ->])]; eauto 8.
Qed.

(** X6. What the dashboard reads in an aggregated table that [aggregate]
    returned: the attributes it offers are exactly the attribute columns
    of the row-level table; each of them can be requested, is plotted
    from its [_avg] column and comes with the unit of the attribute; the
    scan identifier it shows is the one of the run, the fallback
    "Unknown" is never used, and an aggregated table without rows makes
    the upload fail with IndexError. *)
Theorem dashboard_reads_the_aggregate (results agg : DataFrame) (scan_id : option string) :
  CytenaProcessor.aggregate results scan_id = Ok agg ->
  (exists attrs, App.available_attributes agg = Ok attrs
                 /\ forall a, In a attrs <-> In a (attribute_cols results))
  /\ (forall a, In a (attribute_cols results) ->
        App.plot_column (columns agg) a = Some (a ++ "_avg")%string
        /\ lookup a CytenaProcessor.possible_attributes
           = Some (App.unit_of (a ++ "_avg")))
  /\ App.response_scan_id agg
     = match rows agg with
       | [] => Raise IndexError
       | _ :: _ => Ok (scan_value scan_id)
       end.
Proof.
  intros E. destruct (aggregate_shape _ _ _ E) as (Hcols & _).
  pose proof (attribute_cols_known results) as Hknown.
  split; [|split].
  - unfold App.available_attributes. rewrite Hcols.
    destruct (available_attributes_spec (agg_names (attribute_cols results) ++ ["Scan ID"]) [])
      as (attrs & -> & Hin).
    exists attrs. split; [reflexivity|]. intros x. rewrite Hin. split.
    + intros [[] | (n & Hn & En & Hd)].
      apply agg_names_in in Hn as [Hn | (a & Ha & Hn)].
      * exfalso. cbn in Hn.
        repeat (destruct Hn as [<- | Hn];
                [apply Ok_inj in En; subst x; vm_compute in Hd; discriminate Hd|]).
        exact Hn.
      * destruct (attribute_suffixes a (Hknown a Ha)) as (Eavg & Estd & _).
        destruct Hn as [-> | ->]; congruence.
    + intros Hx. right. exists (x ++ "_avg")%string.
      destruct (attribute_suffixes x (Hknown x Hx)) as (Eavg & _ & _ & Hd & _).
      split; [|split; assumption].
      apply agg_names_in. right. exists x. split; [exact Hx | left; reflexivity].
  - intros a Ha.
    destruct (attribute_suffixes a (Hknown a Ha)) as (_ & _ & Es & _ & Hu).
    split; [|exact Hu].
    assert (In (a ++ "_avg")%string (agg_names (attribute_cols results) ++ ["Scan ID"])) as Hn.
    { apply agg_names_in. right. exists a. split; [exact Ha | left; reflexivity]. }
    unfold App.plot_column. rewrite Hcols.
    rewrite (proj2 (has_label_str _ _) Hn).
    assert (has_label (PStr a)
              (map App.stripped (map PStr (agg_names (attribute_cols results) ++ ["Scan ID"])))
            = true) as ->; [|reflexivity].
    unfold has_label. apply existsb_exists. exists (PStr a). split; [|apply val_eqb_refl].
    rewrite <- Es. apply in_map, in_map. exact Hn.
  - unfold App.response_scan_id.
    assert (has_label (PStr "Scan ID") (columns agg) = true) as Hl.
    { rewrite Hcols. apply has_label_str. apply agg_names_in. left. cbn. auto. }
    rewrite Hl. apply has_label_find in Hl as [j Hj].
    unfold label_index. rewrite Hj. cbn [rbind].
    destruct (rows agg) as [|r rs] eqn:Hrows; [reflexivity|].
    f_equal. rewrite <- (aggregate_scan_column results agg scan_id r E).
    + unfold field. rewrite Hj. reflexivity.
    + rewrite Hrows. left. reflexivity.
Qed.

Lemma dashboard_reads_the_aggregate_witness :
  (exists attrs, App.available_attributes (fst run1_tables) = Ok attrs
                 /\ forall a, In a attrs <-> In a (attribute_cols (snd run1_tables)))
  /\ (forall a, In a (attribute_cols (snd run1_tables)) ->
        App.plot_column (columns (fst run1_tables)) a = Some (a ++ "_avg")%string
        /\ lookup a CytenaProcessor.possible_attributes
           = Some (App.unit_of (a ++ "_avg")))
  /\ App.response_scan_id (fst run1_tables)
     = match rows (fst run1_tables) with
       | [] => Raise IndexError
       | _ :: _ => Ok (scan_value (Some "scan42"))
       end.
Proof.
  apply (dashboard_reads_the_aggregate (snd run1_tables) (fst run1_tables) (Some "scan42")).
  vm_compute. reflexivity.
Defined.

(* ================================================================== *)
(** * Normalisation of the measurement tables *)
(* ================================================================== *)




Section Normalise.
Context `{Numerics}.

Lemma to_numeric_length (col : list pyval) : List.length (to_numeric col) = List.length col.
Proof.
  unfold to_numeric. destruct (forallb is_int _); rewrite ?length_map; reflexivity.
Qed.



End Normalise.


(* ================================================================== *)
(** * The two readers of [AnalysisWellGroup.json] *)
(* ================================================================== *)

Lemma pdict_set_new {A} (k : pyval) (v : A) (d : list (pyval * A)) :
  (forall kv, In kv d -> val_eqb (fst kv) k = false) ->
  pdict_set k v d = (d ++ [(k, v)])%list.
Proof.
  induction d as [|[k' v'] d IH]; cbn [pdict_set app]; intros Hd; [reflexivity|].
  pose proof (Hd (k', v') (or_introl eq_refl)) as E. cbn [fst] in E. rewrite E.
  rewrite IH by (intros kv Hkv; apply Hd; right; exact Hkv). reflexivity.
Qed.

Section Readers.
Context `{Numerics}.

Lemma labels_of_wells (wells : list (Z * Z)) :
  (forall rc, In rc wells -> (0 <= fst rc < 26)%Z) ->
  rmap (fun w => rbind (getattr_well_to_label CytenaProcessor.new) (fun f => f w))
       (map (fun rc => json_well (fst rc) (snd rc)) wells)
  = Ok (map well_label wells).
Proof.
  induction wells as [|[r c] wells IH]; intros Hr; [reflexivity|].
  cbn [map rmap fst snd]. rewrite IH by (intros rc Hrc; apply Hr; right; exact Hrc).
  cbn [getattr_well_to_label CytenaProcessor.new well_to_label_attr rbind].
  rewrite (well_to_label_int (json_well r c) r c eq_refl eq_refl).
  rewrite str_index_uppercase.
  specialize (Hr (r, c) (or_introl eq_refl)). cbn [fst] in Hr.
  replace ((0 <=? r) && (r <? 26))%Z with true
    by (symmetry; apply andb_true_iff; rewrite Z.leb_le, Z.ltb_lt; exact Hr).
  reflexivity.
Qed.

Lemma decode_groups (gs : list (string * list (Z * Z))) (acc : list (pyval * list string)) :
  NoDup (map fst acc ++ map (fun g => PStr (fst g)) gs)%list ->
  (forall kv, In kv acc -> exists s, fst kv = PStr s) ->
  (forall g rc, In g gs -> In rc (snd g) -> (0 <= fst rc < 26)%Z) ->
  rfold (map json_group gs) (fun group d =>
    rbind (jget group "GroupName") (fun name =>
    rbind (hashable name) (fun key =>
    rbind (jget group "SelectedWells") (fun sel =>
    rbind (jiter sel) (fun wells =>
    rbind (rmap (fun w => rbind (getattr_well_to_label CytenaProcessor.new) (fun f => f w))
                wells)
      (fun labels => Ok (pdict_set key labels d))))))) acc
  = Ok (acc ++ map (fun g => (PStr (fst g), map well_label (snd g))) gs)%list.
Proof.
  revert acc. induction gs as [|[name wells] gs IH]; intros acc Hnd Hstr Hr.
  - cbn. rewrite app_nil_r. reflexivity.
  - cbn [map rfold json_group fst snd].
    unfold json_group at 1 2.
    cbn [jget lookup String.eqb Ascii.eqb Bool.eqb hashable jiter rbind fst snd].
    rewrite labels_of_wells by (intros rc Hrc; apply (Hr (name, wells)); [left|]; auto).
    cbn [rbind].
    rewrite pdict_set_new.
    + rewrite IH.
      * rewrite <- app_assoc. reflexivity.
      * rewrite map_app. cbn [map fst]. rewrite <- app_assoc. exact Hnd.
      * intros kv Hkv. apply in_app_iff in Hkv as [Hkv | [<- | []]];
          [apply Hstr; exact Hkv | exists name; reflexivity].
      * intros g rc Hg. apply Hr. right. exact Hg.
    + intros kv Hkv. destruct (Hstr kv Hkv) as [s Hs]. rewrite Hs. cbn.
      apply String.eqb_neq. intros ->.
      cbn [map fst] in Hnd. apply NoDup_remove_2 in Hnd. apply Hnd.
      apply in_app_iff. left. rewrite <- Hs. apply in_map. exact Hkv.
Qed.

Lemma groups_without_codec (gs : list (string * list (Z * Z)))
    (acc : list (pyval * list string)) :
  (forall kv, In kv acc -> snd kv = []) ->
  match rfold (map json_group gs) (fun group d =>
          rbind (jget group "GroupName") (fun name =>
          rbind (hashable name) (fun key =>
          rbind (jget group "SelectedWells") (fun sel =>
          rbind (jiter sel) (fun wells =>
          rbind (rmap (fun w => rbind (getattr_well_to_label MetadataParser.new)
                                      (fun f => f w)) wells)
            (fun labels => Ok (pdict_set key labels d))))))) acc with
  | Ok d => forallb (fun g => match snd g with [] => true | _ => false end) gs = true
            /\ forall kv, In kv d -> snd kv = []
  | Raise e => forallb (fun g => match snd g with [] => true | _ => false end) gs = false
               /\ e = AttributeError
  end.
Proof.
  revert acc. induction gs as [|[name wells] gs IH]; intros acc Hacc.
  - cbn. auto.
  - cbn [map rfold json_group fst snd].
    unfold json_group at 1 2.
    cbn [jget lookup String.eqb Ascii.eqb Bool.eqb hashable jiter rbind forallb fst snd].
    destruct wells as [|rc wells]; cbn [map rmap rbind andb].
    + apply IH. intros kv Hkv. apply pdict_set_in in Hkv as [Hkv | Hkv]; auto.
    + cbn. auto.
Qed.

(** X8. The two readers on a file [AnalysisWellGroup.json] of the
    documented structure, with distinct group names and rows within the
    alphabet. The reader of [CytenaProcessor] returns, group after group,
    the name with the labels of its wells, and changes nothing. The
    reader of [MetadataParser] raises AttributeError as soon as one group
    lists a well, and returns a table without columns when none does. *)
Theorem readers_of_well_groups (p : path) (w : World) (gs : list (string * list (Z * Z))) :
  resolve (fs w) (p ++ ["AnalysisWellGroup.json"])%list = Ok (File (Json (json_groups gs))) ->
  NoDup (map fst gs) ->
  (forall g rc, In g gs -> In rc (snd g) -> (0 <= fst rc < 26)%Z) ->
  CytenaProcessor._parse_json_metadata CytenaProcessor.new p w
  = (Ok (map (fun g => (PStr (fst g), map well_label (snd g))) gs), w)
  /\ fst (MetadataParser.parse_json_metadata MetadataParser.new p w)
     = if forallb (fun g => match snd g with [] => true | _ => false end) gs
       then Ok {| columns := []; rows := [] |}
       else Raise AttributeError.
Proof.
  intros Hfile Hnd Hr. split.
  - unfold CytenaProcessor._parse_json_metadata, bind, load_json, read_file, read, lift.
    rewrite Hfile. cbn [rbind]. f_equal.
    unfold well_groups_of_json, json_groups.
    cbn [jget lookup String.eqb Ascii.eqb Bool.eqb jiter rbind].
    rewrite (decode_groups gs []); [reflexivity| |intros kv []|exact Hr].
    cbn [map app]. clear -Hnd. induction gs as [|g gs IH]; cbn [map]; [constructor|].
    inversion Hnd as [|? ? Hg Hgs]; subst. constructor; [|apply IH; exact Hgs].
    intros Hin. apply Hg. apply in_map_iff in Hin as (g' & E & Hg').
    injection E as <-. apply in_map. exact Hg'.
  - unfold MetadataParser.parse_json_metadata, bind, load_json, read_file, read, lift.
    rewrite Hfile. cbn [rbind fst].
    unfold well_groups_of_json, json_groups.
    cbn [jget lookup String.eqb Ascii.eqb Bool.eqb jiter rbind].
    pose proof (groups_without_codec gs [] (fun kv (F : In kv []) => match F with end)) as G.
    destruct (rfold (map json_group gs) _ []) as [d|e].
    + destruct G as [-> Hd]. cbn [ret fst].
      assert (flat_map (fun gw : pyval * list string =>
                          map (fun well => [PStr well; fst gw]) (snd gw)) d = []) as ->;
        [|reflexivity].
      clear -Hd. induction d as [|g d IH]; cbn; [reflexivity|].
      rewrite (Hd g) by (left; reflexivity). cbn. apply IH.
      intros kv Hkv. apply Hd. right. exact Hkv.
    + destruct G as [-> ->]. reflexivity.
Qed.

End Readers.

Lemma readers_of_well_groups_witness :
  CytenaProcessor._parse_json_metadata (CytenaProcessor.new (H := Decimal.numerics))
    ["groups"] Examples.world
  = (Ok (map (fun g => (PStr (fst g), map well_label (snd g)))
             [("G1", [(0, 0); (0, 1)]); ("G2", [(1, 0)])]%Z), Examples.world)
  /\ fst (MetadataParser.parse_json_metadata MetadataParser.new
            ["groups"] Examples.world)
     = if forallb (fun g : string * list (Z * Z) =>
                     match snd g with [] => true | _ => false end)
                  [("G1", [(0, 0); (0, 1)]); ("G2", [(1, 0)])]%Z
       then Ok {| columns := []; rows := [] |}
       else Raise AttributeError.
Proof.
  apply (readers_of_well_groups (H := Decimal.numerics) ["groups"] Examples.world
           [("G1", [(0, 0); (0, 1)]); ("G2", [(1, 0)])]%Z).
  - reflexivity.
  - repeat constructor; simpl; intuition discriminate.
  - simpl. intros g rc [<- | [<- | []]]; simpl; intros [<- | Hrc];
      try (destruct Hrc as [<- | []]); simpl; lia.
Defined.

(* ================================================================== *)
(** * The checks on the plate grid *)
(* ================================================================== *)

Lemma set_column_shape (l : pyval) (vals : list pyval) (df : DataFrame) (j : nat) :
  find_label l (columns df) = Some j ->
  List.length vals = List.length (rows df) ->
  columns (set_column l vals df) = columns df
  /\ List.length (rows (set_column l vals df)) = List.length (rows df).
Proof.
  intros E Hl. unfold set_column. rewrite E. cbn [columns rows].
  split; [reflexivity|]. rewrite length_map, length_combine. lia.
Qed.

Lemma column_at_length (j : nat) (df : DataFrame) :
  List.length (column_at j df) = List.length (rows df).
Proof. unfold column_at. apply length_map. Qed.

(** A loop that overwrites columns the table has keeps the labels and
    the number of rows. *)
Lemma fold_keeps_shape (step : DataFrame -> pyval -> DataFrame)
    (cols : list pyval) (df : DataFrame) :
  (forall d c, columns (step d c) = columns d
               /\ List.length (rows (step d c)) = List.length (rows d)) ->
  columns (fold_left step cols df) = columns df
  /\ List.length (rows (fold_left step cols df)) = List.length (rows df).
Proof.
  intros Hs. revert df. induction cols as [|c cols IH]; intros df; cbn [fold_left].
  - split; reflexivity.
  - destruct (IH (step df c)) as [-> ->]. apply Hs.
Qed.

Lemma broadcast_shape (md : DataFrame) :
  columns (MetadataParser.broadcast md) = columns md
  /\ List.length (rows (MetadataParser.broadcast md)) = List.length (rows md).
Proof.
  unfold MetadataParser.broadcast. apply fold_keeps_shape. intros d c.
  destruct (find_label c (columns d)) as [j|] eqn:E; [|split; reflexivity].
  destruct (filter notna (column_at j d)) as [|v [|? ?]]; try (split; reflexivity).
  unfold set_column_const. apply (set_column_shape _ _ _ j E). apply repeat_length.
Qed.

Lemma strip_ppb_shape (md : DataFrame) :
  columns (MetadataParser.strip_ppb md) = columns md
  /\ List.length (rows (MetadataParser.strip_ppb md)) = List.length (rows md).
Proof.
  unfold MetadataParser.strip_ppb. apply fold_keeps_shape. intros d c.
  destruct (find_label c (columns d)) as [j|] eqn:E; [|split; reflexivity].
  destruct (MetadataParser.is_object (column_at j d)); [|split; reflexivity].
  apply (set_column_shape _ _ _ j E). rewrite length_map. apply column_at_length.
Qed.

Lemma find_label_none (l : pyval) (cols : list pyval) :
  find_label l cols = None <-> has_label l cols = false.
Proof.
  unfold has_label. induction cols as [|c cols IH]; cbn; [tauto|].
  destruct (val_eqb c l); cbn; [split; discriminate|].
  rewrite <- IH. destruct (find_label l cols); cbn; split; congruence.
Qed.


Section Checks.
Context `{Numerics}.


End Checks.

Lemma is_literal_eq (v : pyval) (s : string) : is_literal v s = true <-> v = PStr s.
Proof.
  destruct v; cbn; try (split; discriminate).
  rewrite String.eqb_eq. split; congruence.
Qed.

(** The test [set(unique_values) == set(expected_values)]. *)
Lemma second_column_test (col : list pyval) :
  forallb (fun v => existsb (is_literal v) MetadataParser.letters) col
  && forallb (fun l => existsb (fun v => is_literal v l) col) MetadataParser.letters = true
  <-> letters_A_to_H col.
Proof.
  unfold letters_A_to_H. rewrite andb_true_iff, !forallb_forall. split.
  - intros [Hv Hl]. split.
    + intros v Hin. specialize (Hv v Hin). apply existsb_exists in Hv as (l & Hl' & E).
      exists l. split; [exact Hl' | apply is_literal_eq; exact E].
    + intros l Hin. specialize (Hl l Hin). apply existsb_exists in Hl as (v & Hv' & E).
      apply is_literal_eq in E. subst v. exact Hv'.
  - intros [Hv Hl]. split.
    + intros v Hin. destruct (Hv v Hin) as (l & Hl' & ->).
      apply existsb_exists. exists l. split; [exact Hl' | apply is_literal_eq; reflexivity].
    + intros l Hin. apply existsb_exists. exists (PStr l).
      split; [apply Hl; exact Hin | apply is_literal_eq; reflexivity].
Qed.

Lemma has_label_select (l : pyval) (keep : list bool) (cols : list pyval) :
  has_label l cols = false -> has_label l (select keep cols) = false.
Proof.
  unfold has_label. revert keep. induction cols as [|c cols IH]; intros keep; cbn.
  - destruct keep; reflexivity.
  - intros E. apply orb_false_iff in E as [Ec E].
    destruct keep as [|[] keep]; cbn; [reflexivity | rewrite Ec | ]; apply IH; exact E.
Qed.

Section Letters.
Context `{Numerics}.

Lemma check_and_coerce_labels (g p : DataFrame) (w w' : World) :
  MetadataParser.check_and_coerce g w = (Ok p, w') ->
  ~ letters_A_to_H (column_at 1 g) ->
  columns p = columns g.
Proof.
  intros E Hno. unfold MetadataParser.check_and_coerce in E.
  apply bind_run_ok in E as (second & w1 & Hsecond & E).
  apply bind_run_ok in E as (md0 & w2 & Hmd0 & E).
  apply bind_run_ok in E as (u1 & w3 & _ & E).
  apply bind_run_ok in E as (u2 & w4 & _ & E).
  apply bind_run_ok in E as (ci & w5 & Hci & E).
  apply bind_run_ok in E as (u3 & w6 & _ & E).
  apply bind_run_ok in E as (ci2 & w7 & Hci2 & E).
  unfold lift, label_index in Hci, Hci2.
  set (md1 := MetadataParser.strip_ppb (MetadataParser.broadcast md0)) in *.
  assert (columns md1 = columns md0) as C1.
  { unfold md1. destruct (strip_ppb_shape (MetadataParser.broadcast md0)) as [-> _].
    apply broadcast_shape. }
  destruct (find_label MetadataParser.conc_label (columns md1)) as [c1|] eqn:E1;
    [|discriminate Hci].
  assert (ci = c1) as -> by congruence. clear Hci.
  set (md2 := set_column MetadataParser.conc_label (to_numeric (column_at c1 md1)) md1) in *.
  destruct (set_column_existing _ (to_numeric (column_at c1 md1)) md1 c1 E1) as [C2 _].
  fold md2 in C2.
  assert (find_label MetadataParser.conc_label (columns md2) = Some c1) as E2
    by (rewrite C2; exact E1).
  rewrite E2 in Hci2. assert (ci2 = c1) as -> by congruence. clear Hci2.
  destruct (set_column_existing _ (map MetadataParser.round_cell (column_at c1 md2)) md2 c1 E2)
    as [C3 _].
  unfold ret in E. apply (f_equal fst) in E. cbn [fst] in E. apply Ok_inj in E. subst p.
  rewrite C3, C2, C1.
  destruct (forallb _ (column_at 1 g) && forallb _ MetadataParser.letters) eqn:V.
  - apply second_column_test in V. contradiction.
  - unfold bind, print, ret in Hmd0. apply (f_equal fst) in Hmd0. cbn [fst] in Hmd0.
    apply Ok_inj in Hmd0. subst md0. reflexivity.
Qed.

(** X10. The check of the second column is enforced further down: when
    [parse_disco_bio_excel] returns for a grid that has no column
    labelled "Row" or "well column", the second column of the grid held
    the letters A to H, each at least once, and nothing else. Any other
    such grid is reported as invalid and then raises KeyError where the
    column "Row" is looked up. *)
Theorem grid_rows_are_lettered (g : DataFrame) (w : World) :
  is_ok (fst (MetadataParser.parse_disco_bio_excel g w)) = true ->
  has_label (PStr "Row") (columns g) = false ->
  has_label (PStr "well column") (columns g) = false ->
  letters_A_to_H (column_at 1 g).
Proof.
  intros Hok Hrow Hwc.
  destruct (forallb (fun v => existsb (is_literal v) MetadataParser.letters) (column_at 1 g)
            && forallb (fun l => existsb (fun v => is_literal v l) (column_at 1 g))
                 MetadataParser.letters) eqn:V; [apply second_column_test; exact V|].
  exfalso.
  assert (~ letters_A_to_H (column_at 1 g)) as Hno.
  { intros L. apply second_column_test in L. congruence. }
  unfold MetadataParser.parse_disco_bio_excel, bind in Hok.
  destruct (MetadataParser.check_and_coerce g w) as [[p|e] w'] eqn:E; [|discriminate Hok].
  pose proof (check_and_coerce_labels g p w w' E Hno) as Hcols.
  cbn [lift fst] in Hok. unfold MetadataParser.annotate_and_melt in Hok.
  destruct (label_index MetadataParser.conc_label (columns p)) as [ci|]; [|discriminate Hok].
  cbn [rbind] in Hok. unfold melt at 1 in Hok.
  assert (label_index (PStr "Row")
            (columns (rename_label (PStr "well column") (PStr "Row")
                        (drop_label MetadataParser.conc_label
                           (MetadataParser.annotate p ci)))) = Raise KeyError) as K.
  { unfold label_index.
    assert (find_label (PStr "Row")
              (columns (rename_label (PStr "well column") (PStr "Row")
                          (drop_label MetadataParser.conc_label
                             (MetadataParser.annotate p ci)))) = None) as ->; [|reflexivity].
    apply find_label_none.
    cbn [rename_label set_columns drop_label MetadataParser.annotate columns].
    rewrite Hcols.
    set (kept := select _ (columns g)).
    assert (has_label (PStr "Row") kept = false) as Hr by (apply has_label_select; exact Hrow).
    assert (has_label (PStr "well column") kept = false) as Hw
      by (apply has_label_select; exact Hwc).
    clearbody kept. unfold has_label in *.
    induction kept as [|c kept IH]; [reflexivity|]. cbn in *.
    apply orb_false_iff in Hr as [Hr1 Hr]. apply orb_false_iff in Hw as [Hw1 Hw].
    rewrite Hw1, Hr1. cbn. apply IH; assumption. }
  rewrite K in Hok. discriminate Hok.
Qed.

End Letters.

Lemma grid_rows_are_lettered_witness : letters_A_to_H (column_at 1 lettered_grid).
Proof.
  apply (grid_rows_are_lettered (H := Decimal.numerics) lettered_grid Examples.world);
    vm_compute; reflexivity.
Defined.

(* ================================================================== *)
(** * What the row-level table needs *)
(* ================================================================== *)

Lemma rfilter_ok {A} (p : A -> result bool) (l kept : list A) :
  rfilter p l = Ok kept ->
  (forall x, In x l -> exists b, p x = Ok b)
  /\ (forall x, In x kept -> In x l /\ p x = Ok true).
Proof.
  revert kept. induction l as [|y l IH]; cbn [rfilter]; intros kept E.
  - apply Ok_inj in E. subst kept. split; intros x [].
  - apply rbind_ok in E as (b & Hb & E). apply rbind_ok in E as (r & Hr & E).
    apply Ok_inj in E. destruct (IH r Hr) as [Hall Hkept]. split.
    + intros x [<- | Hx]; [eauto | apply Hall; exact Hx].
    + intros x Hx. subst kept. destruct b.
      * destruct Hx as [<- | Hx]; [split; [left; reflexivity | exact Hb]|].
        destruct (Hkept x Hx). split; [right|]; assumption.
      * destruct (Hkept x Hx). split; [right|]; assumption.
Qed.

Lemma val_eqb_str (c : pyval) (s : string) : val_eqb c (PStr s) = true <-> c = PStr s.
Proof.
  destruct c; cbn; try (split; discriminate).
  rewrite String.eqb_eq. split; congruence.
Qed.

Lemma find_label_ext (l : pyval) (f : pyval -> pyval) (cols : list pyval) :
  (forall c, In c cols -> val_eqb (f c) l = val_eqb c l) ->
  find_label l (map f cols) = find_label l cols.
Proof.
  induction cols as [|c cols IH]; cbn; intros Hf; [reflexivity|].
  rewrite (Hf c) by (left; reflexivity).
  rewrite IH by (intros c' Hc'; apply Hf; right; exact Hc'). reflexivity.
Qed.

Lemma has_label_false (l : pyval) (cols : list pyval) :
  has_label l cols = false <-> forall c, In c cols -> val_eqb c l = false.
Proof.
  unfold has_label. split.
  - intros E c Hc. destruct (val_eqb c l) eqn:Ec; [|reflexivity].
    assert (existsb (fun c => val_eqb c l) cols = true) as E'
      by (apply existsb_exists; eauto).
    congruence.
  - intros Hc. destruct (existsb _ cols) eqn:E; [|reflexivity].
    apply existsb_exists in E as (c & Hin & Ec). rewrite (Hc c Hin) in Ec. discriminate Ec.
Qed.

Lemma has_label_app (l : pyval) (xs ys : list pyval) :
  has_label l (xs ++ ys) = has_label l xs || has_label l ys.
Proof. unfold has_label. apply existsb_app. Qed.

(** A label with a suffix of the join is not the label "channel". *)
Lemma suffix_is_not_channel (s : string) :
  String.eqb (s ++ "_x") "channel" = false /\ String.eqb (s ++ "_y") "channel" = false.
Proof.
  split; apply String.eqb_neq; intros E;
    do 7 (destruct s as [|? s]; cbn [append] in E; [discriminate E | injection E as _ E]);
    destruct s; discriminate E.
Qed.

Lemma set_column_const_label (l v : pyval) (df : DataFrame) :
  exists j, find_label l (columns (set_column_const l v df)) = Some j
            /\ (forall r, In r (rows (set_column_const l v df)) -> cell r j = v)
            /\ List.length (rows (set_column_const l v df)) = List.length (rows df).
Proof.
  destruct (find_label l (columns df)) as [j|] eqn:E.
  - exists j. unfold set_column_const, set_column. rewrite E. cbn [columns rows].
    split; [exact E|]. split.
    + rewrite (combine_repeat (fun r x => replace_nth j x (pad (List.length (columns df)) r))).
      intros r Hr. apply in_map_iff in Hr as (r0 & <- & _).
      apply cell_replace_nth. rewrite pad_length. eapply find_label_bound. exact E.
    + rewrite length_map, length_combine, repeat_length. lia.
  - exists (List.length (columns df)). rewrite (set_column_const_new l v df E).
    cbn [columns rows]. split; [apply find_label_app_new; exact E|]. split.
    + intros r Hr. apply in_map_iff in Hr as (r0 & <- & _).
      unfold cell. rewrite app_nth2 by (rewrite pad_length; lia).
      rewrite pad_length, Nat.sub_diag. reflexivity.
    + apply length_map.
Qed.

Lemma Forall2_in_l {A B} (R : A -> B -> Prop) (l : list A) (l' : list B) (x : A) :
  Forall2 R l l' -> In x l -> exists y, In y l' /\ R x y.
Proof.
  induction 1 as [|x0 y l l' Hxy _ IH]; cbn; intros Hx; [destruct Hx|].
  destruct Hx as [<- | Hx]; [eauto|].
  destruct (IH Hx) as [y' [? ?]]. eauto.
Qed.

Section Needs.
Context `{Numerics}.

(** In the join of a table that has the column "channel" with the
    metadata on "Well", the column found under the label "channel" is
    the one of the table. *)
Lemma channel_of_join (l md m : DataFrame) (j0 j : nat) (v : pyval) :
  merge_left l md [PStr "Well"] = Ok m ->
  find_label (PStr "channel") (columns l) = Some j0 ->
  (forall a, In a (rows l) -> cell a j0 = v) ->
  find_label (PStr "channel") (columns m) = Some j ->
  (rows m <> [] -> rows l <> [])
  /\ forall r, In r (rows m) -> cell r j = v.
Proof.
  unfold merge_left. intros E Hj0 Hv Hj.
  apply rbind_ok in E as (lk & _ & E). apply rbind_ok in E as (rk & _ & E).
  apply Ok_inj in E. subst m. cbn [columns rows] in *.
  set (rest := select _ (columns md)) in *.
  set (lrest := filter _ (columns l)) in *.
  split.
  { intros Hne Hl. apply Hne. rewrite Hl. reflexivity. }
  assert (j = j0) as ->.
  { destruct (has_label (PStr "channel") rest) eqn:Hrest.
    - exfalso.
      assert (find_label (PStr "channel")
                (map (suffixed [PStr "Well"] rest "_x") (columns l)
                 ++ map (suffixed [PStr "Well"] lrest "_y") rest) = None) as Hnone;
        [|congruence].
      apply find_label_none. rewrite has_label_app. apply orb_false_iff. split.
      + apply has_label_false. intros c Hc. apply in_map_iff in Hc as (c0 & <- & Hc0).
        unfold suffixed.
        destruct (negb (is_key [PStr "Well"] c0) && has_label c0 rest) eqn:S.
        * cbn. apply suffix_is_not_channel.
        * destruct (val_eqb c0 (PStr "channel")) eqn:Ec; [|reflexivity].
          apply val_eqb_str in Ec. subst c0. rewrite Hrest in S. discriminate S.
      + apply has_label_false. intros c Hc. apply in_map_iff in Hc as (c0 & <- & Hc0).
        unfold suffixed.
        destruct (negb (is_key [PStr "Well"] c0) && has_label c0 lrest) eqn:S.
        * cbn. apply suffix_is_not_channel.
        * destruct (val_eqb c0 (PStr "channel")) eqn:Ec; [|reflexivity].
          apply val_eqb_str in Ec. subst c0. exfalso.
          assert (has_label (PStr "channel") lrest = true) as Hl; [|rewrite Hl in S; discriminate S].
          unfold has_label. apply existsb_exists. exists (PStr "channel").
          split; [|reflexivity]. unfold lrest. apply filter_In. split; [|reflexivity].
          clear -Hj0. revert j0 Hj0. induction (columns l) as [|c cs IH]; cbn; intros j0 E;
            [discriminate E|].
          destruct (val_eqb c (PStr "channel")) eqn:Ec.
          -- left. apply val_eqb_str. exact Ec.
          -- right. destruct (find_label (PStr "channel") cs) as [j'|]; [|discriminate E].
             eapply IH. reflexivity.
    - assert (find_label (PStr "channel") (map (suffixed [PStr "Well"] rest "_x") (columns l))
              = Some j0) as Hl.
      { rewrite find_label_ext; [exact Hj0|]. intros c Hc. unfold suffixed.
        destruct (negb (is_key [PStr "Well"] c) && has_label c rest) eqn:S; [|reflexivity].
        apply andb_true_iff in S as [_ S].
        destruct (val_eqb c (PStr "channel")) eqn:Ec.
        - apply val_eqb_str in Ec. subst c. congruence.
        - cbn. apply suffix_is_not_channel. }
      rewrite (find_label_app_l _ _ _ _ Hl) in Hj. congruence. }
  intros r Hr. apply in_flat_map in Hr as (a & Ha & Hr).
  assert (exists tail, r = pad (List.length (columns l)) a ++ tail)%list as (tail & ->).
  { destruct (filter (fun b => key_eqb (key_of lk a) (key_of rk b)) (rows md)) as [|b ms].
    - destruct Hr as [<- | []]. eauto.
    - apply in_map_iff in Hr as (b' & <- & _). eauto. }
  pose proof (find_label_bound _ _ _ Hj0) as Hb.
  unfold cell. rewrite app_nth1 by (rewrite pad_length; exact Hb).
  fold (cell (pad (List.length (columns l)) a) j0). rewrite cell_pad by exact Hb.
  apply Hv. exact Ha.
Qed.

Lemma joined_tables (tables long : list (string * DataFrame)) (metadata : option DataFrame)
    (merged : list DataFrame) :
  rmap (fun item =>
          let df := snd item in
          rbind (first_label df) (fun id =>
          let value_name := nth 1 (split1 "_" (fst item)) EmptyString in
          rbind (melt id (PStr "Well") (PStr value_name) df) (fun df_long =>
          Ok (fst item, df_long)))) tables = Ok long ->
  rmap (fun item =>
          let channel := hd EmptyString (split "_" (fst item)) in
          let df := set_column_const (PStr "channel") (PStr channel) (snd item) in
          rbind (CytenaProcessor.local metadata) (fun metadata =>
          merge_left df metadata [PStr "Well"])) long = Ok merged ->
  Forall2 (joined_with metadata) tables merged.
Proof.
  revert long merged. induction tables as [|t tables IH]; intros long merged Hl Hm.
  - cbn in Hl. apply Ok_inj in Hl. subst long. cbn in Hm. apply Ok_inj in Hm. subst merged.
    constructor.
  - cbn [rmap] in Hl. apply rbind_ok in Hl as (i & Hi & Hl).
    apply rbind_ok in Hl as (long' & Hlong' & Hl). apply Ok_inj in Hl. subst long.
    cbn [rmap] in Hm. apply rbind_ok in Hm as (m & Hm0 & Hm).
    apply rbind_ok in Hm as (merged' & Hmerged' & Hm). apply Ok_inj in Hm. subst merged.
    constructor; [|eapply IH; eassumption].
    cbv zeta in Hi. apply rbind_ok in Hi as (id & Hid & Hi).
    apply rbind_ok in Hi as (df_long & Hmelt & Hi). apply Ok_inj in Hi. subst i.
    cbv zeta in Hm0. cbn [fst snd] in Hm0.
    apply rbind_ok in Hm0 as (md & Hmd & Hm0).
    exists id, df_long, md. repeat split; try assumption.
    destruct metadata; cbn in Hmd; congruence.
Qed.

(** A joined table whose first row can be read has a measurement table
    with a row and a column besides the first. *)
Lemma joined_has_data (metadata : option DataFrame) (item : string * DataFrame)
    (m : DataFrame) (ch : string) (b : bool) :
  joined_with metadata item m ->
  CytenaProcessor.first_channel_is ch m = Ok b ->
  rows (snd item) <> []
  /\ (exists id c, first_label (snd item) = Ok id
                   /\ In c (columns (snd item)) /\ val_eqb c id = false)
  /\ (b = true -> hd EmptyString (split "_" (fst item)) = ch).
Proof.
  intros (id & long & md & Hid & Hmelt & _ & Hmerge) Hfirst.
  unfold CytenaProcessor.first_channel_is, label_index in Hfirst.
  destruct (find_label (PStr "channel") (columns m)) as [j|] eqn:Hj; [|discriminate Hfirst].
  cbn [rbind] in Hfirst.
  destruct (rows m) as [|r rs] eqn:Hrows; [discriminate Hfirst|].
  apply Ok_inj in Hfirst.
  destruct (set_column_const_label (PStr "channel")
              (PStr (hd EmptyString (split "_" (fst item)))) long) as (j0 & Hj0 & Hcells & Hlen).
  destruct (channel_of_join _ _ _ j0 j _ Hmerge Hj0 Hcells Hj) as (Hne & Hch).
  assert (rows long <> []) as Hlong.
  { intros E. apply Hne; [rewrite Hrows; discriminate|].
    apply length_zero_iff_nil. rewrite Hlen, E. reflexivity. }
  unfold melt in Hmelt. apply rbind_ok in Hmelt as (i & _ & Hmelt).
  apply Ok_inj in Hmelt. subst long. cbn [rows] in Hlong.
  split; [|split].
  - intros E. apply Hlong. rewrite E. clear. induction (filter _ _); auto.
  - destruct (flat_map _ _) as [|x xs] eqn:F in Hlong; [contradiction|].
    assert (In x (x :: xs)) as Hx by (left; reflexivity). rewrite <- F in Hx.
    apply in_flat_map in Hx as (k & Hk & _). apply filter_In in Hk as (Hk & Hlabel).
    apply in_seq in Hk. exists id, (nth k (columns (snd item)) NaN).
    split; [exact Hid|]. split; [apply nth_In; lia|].
    apply negb_true_iff. exact Hlabel.
  - intros ->. specialize (Hch r). rewrite Hrows in Hch.
    specialize (Hch (or_introl eq_refl)). rewrite Hch in Hfirst. cbn in Hfirst.
    apply String.eqb_eq. exact Hfirst.
Qed.

(** The loop over the channels adds a table only for a channel that a
    joined table carries in its first row. *)
Lemma channel_loop (merged : list DataFrame) (cols_to_merge : list pyval)
    (channels : list string) (acc final : list DataFrame) :
  rfold channels (fun channel merged_dfs_final =>
    rbind (rfilter (CytenaProcessor.first_channel_is channel) merged) (fun dfs_to_merge =>
    match dfs_to_merge with
    | first :: (_ :: _) as others =>
        rbind (rfold others (fun df merged_df_channel =>
                 merge_left merged_df_channel df cols_to_merge) first)
              (fun merged_df_channel => Ok (merged_dfs_final ++ [merged_df_channel])%list)
    | [single] => Ok (merged_dfs_final ++ [single])%list
    | [] => Ok merged_dfs_final
    end)) acc = Ok final ->
  (forall ch m, In ch channels -> In m merged ->
     exists b, CytenaProcessor.first_channel_is ch m = Ok b)
  /\ (final <> [] ->
      acc <> [] \/ exists ch m, In ch channels /\ In m merged
                                /\ CytenaProcessor.first_channel_is ch m = Ok true).
Proof.
  revert acc. induction channels as [|c channels IH]; intros acc E.
  - cbn in E. apply Ok_inj in E. subst final. split; [intros ch m []|]. auto.
  - cbn [rfold] in E. apply rbind_ok in E as (acc' & Hstep & E).
    apply rbind_ok in Hstep as (kept & Hkept & Hstep).
    destruct (rfilter_ok _ _ _ Hkept) as [Hall Hin].
    destruct (IH acc' E) as [IHall IHfinal]. split.
    + intros ch m [<- | Hch] Hm; [apply Hall; exact Hm | apply IHall; assumption].
    + intros Hne. destruct (IHfinal Hne) as [Hacc' | (ch & m & Hch & Hm & Hp)].
      * destruct kept as [|x kept].
        -- apply Ok_inj in Hstep. subst acc'. left. exact Hacc'.
        -- right. exists c, x. destruct (Hin x (or_introl eq_refl)) as [Hx Hp].
           split; [left; reflexivity|]. split; assumption.
      * right. exists ch, m. split; [right; exact Hch|]. split; assumption.
Qed.

(** What a normal end of lines 207-238 of [process] says of its
    inputs. *)
Lemma reshape_needs (tables : list (string * DataFrame))
    (metadata : option DataFrame) (scan_id : option string) (results : DataFrame) :
  CytenaProcessor.reshape_and_join tables metadata scan_id = Ok results ->
  (exists md, metadata = Some md /\ has_label (PStr "Well") (columns md) = true)
  /\ (forall item, In item tables ->
        rows (snd item) <> []
        /\ exists id c, first_label (snd item) = Ok id
                        /\ In c (columns (snd item)) /\ val_eqb c id = false)
  /\ exists item, In item tables
                  /\ In (hd EmptyString (split "_" (fst item)))
                        (map fst CytenaProcessor.possible_channels).
Proof.
  unfold CytenaProcessor.reshape_and_join. intros E.
  apply rbind_ok in E as (long & Hlong & E).
  apply rbind_ok in E as (merged & Hmerged & E).
  apply rbind_ok in E as (md & Hmd & E).
  apply rbind_ok in E as (final & Hfinal & E).
  apply rbind_ok in E as (res & Hres & _).
  pose proof (joined_tables _ _ _ _ Hlong Hmerged) as HF.
  destruct (channel_loop _ _ _ _ _ Hfinal) as [Hall Hsome].
  assert (exists item, In item tables
                       /\ In (hd EmptyString (split "_" (fst item)))
                             (map fst CytenaProcessor.possible_channels)) as Hknown.
  { destruct Hsome as [[] | (ch & m & Hch & Hm & Hp)]; [|reflexivity|].
    { intros ->. discriminate Hres. }
    destruct (Forall2_in_r _ _ _ _ HF Hm) as (item & Hitem & J).
    destruct (joined_has_data _ _ _ _ _ J Hp) as (_ & _ & Hc).
    exists item. split; [exact Hitem|]. rewrite (Hc eq_refl). exact Hch. }
  split; [|split; [|exact Hknown]].
  - exists md. split; [destruct metadata; cbn in Hmd; congruence|].
    destruct Hknown as (item & Hitem & _).
    destruct (Forall2_in_l _ _ _ _ HF Hitem) as (m & _ & J).
    destruct J as (id & long0 & md' & _ & _ & Hmd' & Hmerge).
    assert (md' = md) as -> by (rewrite Hmd' in Hmd; cbn in Hmd; congruence).
    unfold merge_left in Hmerge. apply rbind_ok in Hmerge as (lk & _ & Hmerge).
    apply rbind_ok in Hmerge as (rk & Hrk & _).
    cbn [rmap] in Hrk. apply rbind_ok in Hrk as (k & Hk & _).
    unfold label_index in Hk.
    destruct (has_label (PStr "Well") (columns md)) eqn:Hl; [reflexivity|].
    apply find_label_none in Hl. rewrite Hl in Hk. discriminate Hk.
  - intros item Hitem.
    destruct (Forall2_in_l _ _ _ _ HF Hitem) as (m & Hm & J).
    destruct (Hall "BF" m (or_introl eq_refl) Hm) as [b Hb].
    destruct (joined_has_data _ _ _ _ _ J Hb) as (Hrows & Hcol & _). auto.
Qed.

(** X11. The row-level table is built only from measurement tables with
    data and for a known channel: when lines 207-238 of [process] return,
    every measurement table has a row and a column besides its first,
    the metadata table exists, and the label of at least one table
    starts with BF, green or EC. A table without rows, or with its first
    column only, makes the run raise; so does a set of tables of
    unknown channels only. *)
Theorem row_level_table_needs_data (tables : list (string * DataFrame))
    (metadata : option DataFrame) (scan_id : option string) (results : DataFrame) :
  CytenaProcessor.reshape_and_join tables metadata scan_id = Ok results ->
  (exists md, metadata = Some md)
  /\ (forall item, In item tables ->
        rows (snd item) <> []
        /\ exists id c, first_label (snd item) = Ok id
                        /\ In c (columns (snd item)) /\ val_eqb c id = false)
  /\ exists item, In item tables
                  /\ In (hd EmptyString (split "_" (fst item)))
                        (map fst CytenaProcessor.possible_channels).
Proof.
  intros E. destruct (reshape_needs _ _ _ _ E) as ((md & Hmd & _) & Hdata & Hknown).
  split; [exists md; exact Hmd|]. split; assumption.
Qed.

End Needs.

Lemma row_level_table_needs_data_witness :
  (exists md, Some Examples.plate_map = Some md)
  /\ (forall item, In item one_table ->
        rows (snd item) <> []
        /\ exists id c, first_label (snd item) = Ok id
                        /\ In c (columns (snd item)) /\ val_eqb c id = false)
  /\ exists item, In item one_table
                  /\ In (hd EmptyString (split "_" (fst item)))
                        (map fst CytenaProcessor.possible_channels).
Proof.
  apply (row_level_table_needs_data (H := Decimal.numerics)
           one_table (Some Examples.plate_map) (Some "scan42") one_table_joined).
  vm_compute. reflexivity.
Defined.

(* ================================================================== *)
(** * The tables of the per-well reader *)
(* ================================================================== *)

Lemma dict_set_keys {A} (k : string) (v : A) (d : list (string * A)) (x : string) :
  In x (map fst (dict_set k v d)) <-> In x (map fst d) \/ x = k.
Proof.
  induction d as [|[k' v'] d IH]; cbn [dict_set map fst In].
  - intuition.
  - destruct (String.eqb_spec k' k) as [->|Hk]; cbn [map fst In].
    + intuition.
    + rewrite IH. intuition.
Qed.






(* ================================================================== *)
(** * From the directory to the row-level table *)
(* ================================================================== *)

Lemma rfold_keys {A B} (body : string * A -> list (string * B) -> result (list (string * B)))
    (items : list (string * A)) (acc d : list (string * B)) :
  (forall item d0 d1, body item d0 = Ok d1 ->
     forall x, In x (map fst d1) -> In x (map fst d0) \/ x = fst item) ->
  rfold items body acc = Ok d ->
  forall x, In x (map fst d) -> In x (map fst acc) \/ In x (map fst items).
Proof.
  intros Hb. revert acc. induction items as [|item items IH]; intros acc E x Hx.
  - cbn in E. apply Ok_inj in E. subst d. left. exact Hx.
  - cbn [rfold] in E. apply rbind_ok in E as (d1 & E1 & E).
    destruct (IH d1 E x Hx) as [H1 | H1].
    + destruct (Hb item acc d1 E1 x H1) as [H0 | ->]; [left; exact H0|].
      right. left. reflexivity.
    + right. right. exact H1.
Qed.

Lemma normalise_keys `{Numerics} (tables tables' : list (string * DataFrame)) :
  CytenaProcessor.normalise tables = Ok tables' ->
  forall x, In x (map fst tables') -> In x (map fst tables).
Proof.
  unfold CytenaProcessor.normalise. intros E x Hx.
  eapply rfold_keys in E; [destruct E as [E | E]; exact E | | exact Hx].
  intros item d0 d1 Hb y Hy. cbv zeta in Hb.
  apply rbind_ok in Hb as (c0 & _ & Hb). apply rbind_ok in Hb as (cols & _ & Hb).
  apply Ok_inj in Hb. subst d1. apply dict_set_keys in Hy. exact Hy.
Qed.

Lemma well_loop_keys (raw tables : list (string * DataFrame)) :
  CytenaProcessor.well_loop raw = Ok tables ->
  forall x, In x (map fst tables) -> In x (map fst raw).
Proof.
  unfold CytenaProcessor.well_loop. intros E x Hx.
  eapply rfold_keys in E; [destruct E as [[] | E]; exact E | | exact Hx].
  intros item d0 d1 Hb y Hy.
  apply rbind_ok in Hb as (df & _ & Hb). cbv zeta in Hb.
  apply rbind_ok in Hb as (df' & _ & Hb).
  apply Ok_inj in Hb. subst d1. apply dict_set_keys in Hy. exact Hy.
Qed.

(** The labels of the dictionary a loop over files builds. *)
Lemma foreach_keys {A B} (P : A -> string -> Prop)
    (body : A -> list (string * B) -> M (list (string * B)))
    (l : list A) (s r : list (string * B)) (w w' : World) :
  (forall x s0 w0 s1 w1, body x s0 w0 = (Ok s1, w1) ->
     forall k, In k (map fst s1) -> In k (map fst s0) \/ P x k) ->
  foreach l body s w = (Ok r, w') ->
  forall k, In k (map fst r) -> In k (map fst s) \/ exists x, In x l /\ P x k.
Proof.
  intros Hb. revert s w. induction l as [|y l IH]; intros s w E k Hk.
  - cbn in E. unfold ret in E. injection E as <- _. left. exact Hk.
  - cbn [foreach] in E. apply bind_run_ok in E as (s1 & w1 & Ey & E).
    destruct (IH s1 w1 E k Hk) as [H1 | (x & Hx & Px)].
    + destruct (Hb y s w s1 w1 Ey k H1) as [H0 | Py]; [left; exact H0|].
      right. exists y. split; [left; reflexivity | exact Py].
    + right. exists x. split; [right; exact Hx | exact Px].
Qed.

Lemma read_summaries_keys (d marker : string) (w w' : World)
    (tables : list (string * DataFrame)) :
  CytenaProcessor.read_summaries d marker w = (Ok tables, w') ->
  exists names,
    fst (listdir [d] w) = Ok names
    /\ forall k, In k (map fst tables) ->
         exists f, In f names /\ endswith f ".csv" = true /\ contains marker f = true
                   /\ k = label_of marker f.
Proof.
  unfold CytenaProcessor.read_summaries. intros E.
  apply bind_run_ok in E as (names & w1 & Hls & E).
  exists names. split; [rewrite Hls; reflexivity|].
  intros k Hk.
  eapply (foreach_keys (fun f k => endswith f ".csv" = true /\ contains marker f = true
                                   /\ k = label_of marker f)) in E;
    [destruct E as [[] | (f & Hf & P)]; eauto | | exact Hk].
  clear. intros f s0 w0 s1 w1 Hb k Hk.
  destruct (endswith f ".csv" && contains marker f) eqn:C.
  - apply andb_true_iff in C as [C1 C2].
    apply bind_run_ok in Hb as (label & w2 & Hlabel & Hb).
    apply bind_run_ok in Hb as (ca & w3 & _ & Hb).
    apply bind_run_ok in Hb as (u1 & w4 & _ & Hb).
    apply bind_run_ok in Hb as (u2 & w5 & _ & Hb).
    apply bind_run_ok in Hb as (df & w6 & _ & Hb).
    unfold ret in Hb. injection Hb as <- _.
    apply dict_set_keys in Hk as [Hk | ->]; [left; exact Hk|].
    right. split; [exact C1|]. split; [exact C2|].
    unfold lift in Hlabel. unfold label_of.
    destruct (split (marker ++ "_") f) as [|p0 [|l rest]]; try discriminate Hlabel.
    injection Hlabel as <- _. reflexivity.
  - unfold ret in Hb. injection Hb as <- _. left. exact Hk.
Qed.

(** X13. [process] returns only for a directory that holds a per-well
    export of a known channel: a CSV file with [summary_wells] in its
    name whose label starts with BF, green or EC. Exports of other
    channels are reported ("Channel ... not recognized") and read, but
    they alone give no table. *)
Theorem process_needs_a_known_channel `{Numerics} (d : string) (w : World) :
  is_ok (fst (CytenaProcessor.process d w)) = true ->
  exists names f,
    fst (listdir [d] w) = Ok names
    /\ In f names /\ endswith f ".csv" = true /\ contains "summary_wells" f = true
    /\ In (hd EmptyString (split "_" (label_of "summary_wells" f)))
          (map fst CytenaProcessor.possible_channels).
Proof.
  intros E. unfold CytenaProcessor.process in E.
  apply bind_is_ok in E as (d' & w1 & V & E).
  assert (d' = d) as -> by (eapply validate_returns; eassumption).
  apply (run_fs _ _ _ _ (keeps_validate d)) in V.
  apply bind_is_ok in E as (scan_id & w2 & S & E).
  apply (run_fs _ _ _ _ (keeps_extract_scan_id d)) in S.
  apply bind_is_ok in E as (tables0 & w3 & L & E).
  apply bind_is_ok in E as (tables & w4 & N & E).
  apply bind_is_ok in E as (metadata & w5 & _ & E).
  apply bind_is_ok in E as (results & w6 & R & _).
  unfold lift in N, R. injection N as N _. injection R as R _.
  destruct (reshape_needs _ _ _ _ R) as (_ & _ & item & Hitem & Hch).
  unfold CytenaProcessor.load_measurements in L.
  apply bind_run_ok in L as (r & w7 & P & L).
  assert (CytenaProcessor.truthy r = false) as Hr.
  { apply (parse_position_is_falsy d w2). rewrite P. reflexivity. }
  rewrite Hr in L. cbn [negb] in L.
  apply bind_run_ok in L as (u & w8 & Pr & W).
  apply (run_fs _ _ _ _ (keeps_parse_position d)) in P.
  apply (run_fs _ _ _ _ (keeps_print _)) in Pr.
  unfold CytenaProcessor.parse_well_summary_files in W.
  apply bind_run_ok in W as (raw & w9 & W & Wl).
  unfold lift in Wl. injection Wl as Wl _.
  destruct (read_summaries_keys _ _ _ _ _ W) as (names & Hls & Hkeys).
  destruct (Hkeys (fst item)) as (f & Hf & Hcsv & Hm & Hl).
  { apply (well_loop_keys raw tables0 Wl). apply (normalise_keys tables0 tables N).
    apply in_map. exact Hitem. }
  exists names, f. split.
  - rewrite <- Hls. symmetry.
    rewrite (listdir_same_fs [d] w w8) by congruence. reflexivity.
  - rewrite <- Hl. auto.
Qed.

Lemma process_needs_a_known_channel_witness :
  exists names f,
    fst (listdir ["run1"] Examples.world) = Ok names
    /\ In f names /\ endswith f ".csv" = true /\ contains "summary_wells" f = true
    /\ In (hd EmptyString (split "_" (label_of "summary_wells" f)))
          (map fst CytenaProcessor.possible_channels).
Proof.
  apply (process_needs_a_known_channel (H := Decimal.numerics) "run1" Examples.world).
  vm_compute. reflexivity.
Defined.

(* ================================================================== *)
(** * Where the metadata can come from *)
(* ================================================================== *)

Section Spreadsheet.
Context `{Numerics}.

(** Metadata with a column "Well" comes from a spreadsheet. *)
Lemma metadata_from_spreadsheet (d : string) (w w' : World) (names : list string)
    (md : DataFrame) :
  fst (listdir [d] w) = Ok names ->
  CytenaProcessor.resolve_metadata d w = (Ok (Some md), w') ->
  has_label (PStr "Well") (columns md) = true ->
  exists x, filter (fun file => endswith file ".xlsx") names = [x]
            /\ exists df, resolve (fs w) [d; x] = Ok (File (Excel df)).
Proof.
  intros Hls E Hwell. apply read_run in Hls.
  unfold CytenaProcessor.resolve_metadata in E. unfold bind at 1 in E.
  unfold listdir at 1 in E. rewrite Hls in E.
  destruct (filter (fun file => endswith file ".xlsx") names) as [|x [|y xs]].
  - exfalso. apply bind_run_ok in E as (u & w1 & Pr & E).
    apply (run_fs _ _ _ _ (keeps_print _)) in Pr.
    apply bind_run_ok in E as (names' & w2 & _ & E).
    destruct (filter (fun file => endswith file ".json") names') as [|j [|k js]].
    + apply bind_run_ok in E as (u' & w3 & _ & E). discriminate E.
    + apply bind_run_ok in E as (u' & w3 & _ & E).
      apply bind_run_ok in E as (md' & w4 & J & E).
      unfold ret in E. injection E as -> _.
      assert (md = {| columns := []; rows := [] |}) as ->.
      { apply (parse_json_metadata_is_empty [d; j] w3). rewrite J. reflexivity. }
      discriminate Hwell.
    + apply bind_run_ok in E as (u' & w3 & _ & E). discriminate E.
  - exists x. split; [reflexivity|].
    apply bind_run_ok in E as (u & w1 & Pr & E).
    apply (run_fs _ _ _ _ (keeps_print _)) in Pr.
    apply bind_run_ok in E as (df & w2 & R & _).
    exists df. unfold read_excel, read_file, read in R. rewrite Pr in R.
    destruct (resolve (fs w) [d; x]) as [[[| df' | |]|]|]; cbn in R; try discriminate R.
    injection R as -> _. reflexivity.
  - exfalso. apply bind_run_ok in E as (u & w1 & _ & E). discriminate E.
Qed.

(** X14. [process] returns only for a directory with exactly one file
    whose name ends in [.xlsx], and that file holds a sheet. With no
    such file the JSON route is taken, and it never gives a result:
    [AnalysisWellGroup.json] is looked up below the JSON file, and the
    reader of [MetadataParser] returns at most a table without a column
    "Well"; with several such files no metadata is assigned. *)
Theorem process_needs_one_spreadsheet (d : string) (w : World) :
  is_ok (fst (CytenaProcessor.process d w)) = true ->
  exists names x,
    fst (listdir [d] w) = Ok names
    /\ filter (fun file => endswith file ".xlsx") names = [x]
    /\ exists df, resolve (fs w) [d; x] = Ok (File (Excel df)).
Proof.
  intros E. unfold CytenaProcessor.process in E.
  apply bind_is_ok in E as (d' & w1 & V & E).
  assert (d' = d) as -> by (eapply validate_returns; eassumption).
  apply (run_fs _ _ _ _ (keeps_validate d)) in V.
  apply bind_is_ok in E as (scan_id & w2 & S & E).
  pose proof (run_fs _ _ _ _ (keeps_extract_scan_id d) S) as Fs.
  apply bind_is_ok in E as (tables0 & w3 & L & E).
  apply (run_fs _ _ _ _ (keeps_load_measurements d)) in L.
  apply bind_is_ok in E as (tables & w4 & N & E).
  apply (run_fs _ _ _ _ (keeps_lift _)) in N.
  apply bind_is_ok in E as (metadata & w5 & Md & E).
  apply bind_is_ok in E as (results & w6 & R & _).
  unfold lift in R. injection R as R _.
  destruct (reshape_needs _ _ _ _ R) as ((md & -> & Hwell) & _).
  assert (fs w4 = fs w) as F4 by congruence.
  destruct (fst (listdir [d] w)) as [names|e] eqn:Hls.
  - destruct (metadata_from_spreadsheet d w4 w5 names md) as (x & Hx & df & Hdf);
      [rewrite (listdir_same_fs [d] w w4 F4); exact Hls | exact Md | exact Hwell |].
    exists names, x. split; [reflexivity|]. split; [exact Hx|].
    exists df. rewrite <- F4. exact Hdf.
  - exfalso. unfold CytenaProcessor._extract_scan_id, bind in S.
    rewrite (listdir_same_fs [d] w w1 V), Hls in S. discriminate S.
Qed.

End Spreadsheet.

Lemma process_needs_one_spreadsheet_witness :
  exists names x,
    fst (listdir ["run1"] Examples.world) = Ok names
    /\ filter (fun file => endswith file ".xlsx") names = [x]
    /\ exists df, resolve (fs Examples.world) ["run1"; x] = Ok (File (Excel df)).
Proof.
  apply (process_needs_one_spreadsheet (H := Decimal.numerics) "run1" Examples.world).
  vm_compute. reflexivity.
Defined.

(* ================================================================== *)
(** * Order of the aggregated rows *)
(* ================================================================== *)

Lemma ascii_compare_lt (a b : ascii) :
  Ascii.compare a b = Lt -> (nat_of_ascii a < nat_of_ascii b)%nat.
Proof.
  unfold Ascii.compare, nat_of_ascii. rewrite N.compare_lt_iff. lia.
Qed.

(** [String.compare] is the order of texts. *)
Lemma string_compare_spec (s t : string) :
  match String.compare s t with
  | Lt => text_before s t
  | Gt => text_before t s
  | Eq => s = t
  end.
Proof.
  revert t. induction s as [|a s IH]; destruct t as [|b t]; cbn; auto.
  destruct (Ascii.compare a b) eqn:E.
  - apply Ascii.compare_eq_iff in E. subst b. specialize (IH t).
    destruct (String.compare s t); [congruence | right; auto | right; auto].
  - left. apply ascii_compare_lt. exact E.
  - left. apply ascii_compare_lt. rewrite Ascii.compare_antisym, E. reflexivity.
Qed.

(** The comparison of [groupby] is the order of the values of a key. *)
Lemma val_cmp_spec (a b : pyval) :
  notna a = true -> notna b = true ->
  match GroupBy.val_cmp a b with
  | Lt => value_before a b
  | Gt => value_before b a
  | Eq => same_value a b /\ val_eqb a b = true
  end.
Proof.
  destruct a as [| |x|x|s], b as [| |y|y|t]; cbn; try discriminate; intros _ _;
    try (eexists; reflexivity).
  1-4: match goal with
       | |- context [Qcompare ?p ?q] =>
           destruct (Qcompare_spec p q) as [E | E | E];
           [ split; [do 2 eexists; repeat split; exact E | apply Qeq_bool_iff; exact E]
           | do 2 eexists; repeat split; exact E
           | do 2 eexists; repeat split; exact E ]
       end.
  pose proof (string_compare_spec s t) as Hs.
  destruct (String.compare s t); [|exact Hs|exact Hs].
  split; [exact Hs | apply String.eqb_eq; exact Hs].
Qed.

Lemma key_cmp_spec (a b : list pyval) :
  GroupBy.complete a = true -> GroupBy.complete b = true ->
  List.length a = List.length b ->
  match GroupBy.key_cmp a b with
  | Lt => key_before a b
  | Gt => key_before b a
  | Eq => key_eqb a b = true
  end.
Proof.
  unfold GroupBy.complete. revert b.
  induction a as [|x a IH]; destruct b as [|y b]; cbn; try discriminate; [reflexivity|].
  intros Ha Hb Hlen. apply andb_true_iff in Ha as [Hx Ha]. apply andb_true_iff in Hb as [Hy Hb].
  pose proof (val_cmp_spec x y Hx Hy) as Hv.
  destruct (GroupBy.val_cmp x y); [|left; exact Hv|left; exact Hv].
  destruct Hv as [Hs He]. rewrite He. cbn [andb].
  specialize (IH b Ha Hb ltac:(lia)).
  destruct (GroupBy.key_cmp a b); [exact IH | right; auto |].
  right. split; [|exact IH].
  clear -Hs. destruct x as [| |x|x|s], y as [| |y|y|t]; cbn in *; auto;
    destruct Hs as (p & q & Hp & Hq & E); exists q, p; repeat split; auto;
    symmetry; exact E.
Qed.

Section Sorted.
Variable n : nat.

Lemma insert_key_ascending (k : list pyval) (l : list (list pyval)) :
  GroupBy.complete k = true /\ List.length k = n ->
  (forall x, In x l -> GroupBy.complete x = true /\ List.length x = n) ->
  (forall x, In x l -> key_eqb k x = false /\ key_eqb x k = false) ->
  ascending l -> ascending (GroupBy.insert_key k l).
Proof.
  intros [Hk Hn]. induction l as [|x l IH]; cbn [GroupBy.insert_key]; intros Hwf Hd Hl;
    [exact I|].
  destruct (Hwf x (or_introl eq_refl)) as [Hx Hnx].
  pose proof (key_cmp_spec k x Hk Hx ltac:(congruence)) as Hc.
  unfold GroupBy.key_leb. destruct (GroupBy.key_cmp k x) eqn:E.
  - destruct (Hd x (or_introl eq_refl)) as [Hkx _]. congruence.
  - split; assumption.
  - assert (ascending (GroupBy.insert_key k l)) as IH'.
    { apply IH; [intros y Hy; apply Hwf; right; exact Hy
                | intros y Hy; apply Hd; right; exact Hy |].
      destruct l as [|y l]; [exact I | apply Hl]. }
    destruct l as [|y l]; cbn [GroupBy.insert_key] in *.
    + split; [exact Hc | exact I].
    + destruct Hl as [Hxy Hl].
      destruct (GroupBy.key_leb k y); split; assumption.
Qed.

Lemma sort_keys_ascending (l : list (list pyval)) :
  (forall x, In x l -> GroupBy.complete x = true /\ List.length x = n) ->
  distinct_keys l ->
  ascending (GroupBy.sort_keys l).
Proof.
  unfold GroupBy.sort_keys. induction l as [|k l IH]; cbn [fold_right distinct_keys];
    intros Hwf Hd; [exact I|].
  destruct Hd as [Hk Hd]. apply insert_key_ascending.
  - apply Hwf. left. reflexivity.
  - intros x Hx. apply Hwf. right. apply (sort_keys_in x l). exact Hx.
  - intros x Hx. apply Hk. apply (sort_keys_in x l). exact Hx.
  - apply IH; [intros x Hx; apply Hwf; right; exact Hx | exact Hd].
Qed.

End Sorted.

(** X15. The rows of the aggregated table come in ascending order of
    their key: by Well Group, then by Time, then by channel; numbers in
    the order of their values, texts character by character in the order
    of the code points, and every number before every text. No two rows
    have the same key. *)
Theorem aggregated_rows_are_sorted (results agg : DataFrame) (scan_id : option string) :
  CytenaProcessor.aggregate results scan_id = Ok agg ->
  ascending (map (group_key agg) (rows agg)).
Proof.
  intros E. destruct (aggregate_keys _ _ _ E) as (ks & Hkey & ->).
  unfold GroupBy.group_keys. apply (sort_keys_ascending (List.length ks)).
  - intros x Hx. apply nub_in in Hx as [Hx _]. apply filter_In in Hx as [Hx Hc].
    split; [exact Hc|]. apply in_map_iff in Hx as (r & <- & _).
    unfold key_of. apply length_map.
  - apply nub_distinct.
Qed.

Lemma aggregated_rows_are_sorted_witness :
  ascending (map (group_key mixed_groups_agg) (rows mixed_groups_agg))
  /\ map (group_key mixed_groups_agg) (rows mixed_groups_agg)
     = [[PFloat (5 # 2); PInt 1; PStr "green"];
        [PInt 10; PInt 1; PStr "BF"];
        [PInt 10; PInt 1; PStr "green"];
        [PInt 10; PInt 2; PStr "green"];
        [PStr "10"; PInt 1; PStr "green"];
        [PStr "B"; PInt 1; PStr "green"];
        [PStr "Ba"; PInt 1; PStr "green"];
        [PStr "b"; PInt 1; PStr "green"]].
Proof.
  split.
  - apply (aggregated_rows_are_sorted mixed_groups mixed_groups_agg None).
    vm_compute. reflexivity.
  - vm_compute. reflexivity.
Defined.

(* ================================================================== *)
(** * The text [" (PPB-<digits>)"] *)
(* ================================================================== *)

Lemma substring_drop (x y : string) :
  substring (String.length x) (String.length (x ++ y) - String.length x) (x ++ y) = y.
Proof.
  rewrite length_append.
  replace (String.length x + String.length y - String.length x)%nat
    with (String.length y) by lia.
  apply substring_app_r.
Qed.

Lemma prefix_append (x y : string) : String.prefix x (x ++ y) = true.
Proof.
  induction x as [|c x IH]; cbn [append]; [apply prefix_nil|].
  rewrite prefix_cons. destruct (ascii_dec c c); [exact IH | congruence].
Qed.

Lemma count_digits_run (ds rest : string) :
  all_digits ds = true ->
  String.prefix ")" rest = true ->
  MetadataParser.count_digits (ds ++ rest) = String.length ds.
Proof.
  intros Hd Hr. induction ds as [|c ds IH]; cbn [append String.length].
  - destruct rest as [|c rest]; [discriminate Hr|].
    rewrite prefix_cons in Hr. destruct (ascii_dec ")" c) as [<-|]; [|discriminate Hr].
    reflexivity.
  - cbn [all_digits] in Hd. apply andb_true_iff in Hd as [Hc Hd].
    cbn [MetadataParser.count_digits]. rewrite Hc, IH by exact Hd. reflexivity.
Qed.

Lemma sub_ppb_skip (x y : string) :
  MetadataParser.sub_ppb (String.length x) (x ++ y) = MetadataParser.sub_ppb 0 y.
Proof.
  induction x as [|c x IH]; cbn [String.length append]; [reflexivity|].
  cbn [MetadataParser.sub_ppb]. exact IH.
Qed.

(** The pattern matches where it is written out. *)
Lemma match_ppb_here (ds b : string) :
  all_digits ds = true -> ds <> EmptyString ->
  MetadataParser.match_ppb (" (PPB-" ++ ds ++ ")" ++ b)
  = Some (6 + String.length ds + 1)%nat.
Proof.
  intros Hd Hne. unfold MetadataParser.match_ppb.
  rewrite prefix_append.
  assert (substring 6 (String.length (" (PPB-" ++ ds ++ ")" ++ b) - 6)
            (" (PPB-" ++ ds ++ ")" ++ b) = (ds ++ ")" ++ b)%string) as ->
    by exact (substring_drop " (PPB-" (ds ++ ")" ++ b)).
  rewrite (count_digits_run ds (")" ++ b) Hd) by apply prefix_append.
  rewrite substring_drop, prefix_append.
  destruct ds as [|c ds]; [congruence|]. reflexivity.
Qed.

(** No match starts where the next character is no opening bracket. *)
Lemma match_ppb_none (c : ascii) (s : string) :
  String.prefix "(" s = false -> MetadataParser.match_ppb (String c s) = None.
Proof.
  intros Hs. unfold MetadataParser.match_ppb.
  assert (String.prefix " (PPB-" (String c s) = false) as ->; [|reflexivity].
  rewrite prefix_cons. destruct (ascii_dec " " c); [|reflexivity].
  destruct s as [|c' s]; [reflexivity|].
  rewrite prefix_cons in *. destruct (ascii_dec "(" c'); [|reflexivity].
  rewrite prefix_nil in Hs. discriminate Hs.
Qed.

Lemma sub_ppb_step (c : ascii) (s : string) :
  MetadataParser.sub_ppb 0 (String c s)
  = match MetadataParser.match_ppb (String c s) with
    | Some n => MetadataParser.sub_ppb (n - 1) s
    | None => String c (MetadataParser.sub_ppb 0 s)
    end.
Proof. reflexivity. Qed.

Lemma sub_ppb_plain (a rest : string) :
  contains "(" a = false ->
  String.prefix "(" rest = false ->
  MetadataParser.sub_ppb 0 (a ++ rest) = (a ++ MetadataParser.sub_ppb 0 rest)%string.
Proof.
  intros Ha Hrest. induction a as [|c a IH]; [reflexivity|].
  cbn [contains] in Ha. apply orb_false_iff in Ha as [Hc Ha].
  cbn [append]. rewrite sub_ppb_step, match_ppb_none.
  - rewrite IH by exact Ha. reflexivity.
  - destruct a as [|c' a]; [exact Hrest|].
    cbn [contains] in Ha. apply orb_false_iff in Ha as [Hc' _].
    cbn [append]. rewrite prefix_cons, prefix_nil in *. exact Hc'.
Qed.

(** X16. What [re.sub(r' \(PPB-\d+\)', '', s)] removes: a text without
    opening bracket is unchanged; after such a text, [" (PPB-"], one or
    more digits and [")"] are removed, and the rest of the text is
    treated in turn. *)
Theorem ppb_is_removed (a ds b : string) :
  contains "(" a = false ->
  all_digits ds = true -> ds <> EmptyString ->
  MetadataParser.sub_ppb 0 a = a
  /\ MetadataParser.sub_ppb 0 (a ++ " (PPB-" ++ ds ++ ")" ++ b)
     = (a ++ MetadataParser.sub_ppb 0 b)%string.
Proof.
  intros Ha Hd Hne. split.
  - pose proof (sub_ppb_plain a EmptyString Ha eq_refl) as E.
    assert (forall s : string, (s ++ "")%string = s) as Hnil
      by (induction s as [|c s IH]; cbn; congruence).
    cbn [MetadataParser.sub_ppb] in E. rewrite Hnil in E. exact E.
  - rewrite sub_ppb_plain by (exact Ha || reflexivity). f_equal.
    change (" (PPB-" ++ ds ++ ")" ++ b)%string
      with (String " " ("(PPB-" ++ ds ++ ")" ++ b)).
    rewrite sub_ppb_step.
    change (String " " ("(PPB-" ++ ds ++ ")" ++ b))
      with (" (PPB-" ++ ds ++ ")" ++ b)%string.
    rewrite (match_ppb_here ds b Hd Hne).
    replace (6 + String.length ds + 1 - 1)%nat
      with (String.length ("(PPB-" ++ ds ++ ")")%string)
      by (rewrite !length_append; cbn; lia).
    replace ("(PPB-" ++ ds ++ ")" ++ b)%string with (("(PPB-" ++ ds ++ ")") ++ b)%string.
    + apply sub_ppb_skip.
    + cbn [append]. do 5 f_equal. clear. induction ds as [|c ds IH]; cbn; congruence.
Qed.

Lemma ppb_is_removed_witness :
  MetadataParser.sub_ppb 0 "mAb 7" = "mAb 7"
  /\ MetadataParser.sub_ppb 0 ("mAb 7" ++ " (PPB-" ++ "123" ++ ")" ++ " lot 2")
     = ("mAb 7" ++ MetadataParser.sub_ppb 0 " lot 2")%string.
Proof.
  apply (ppb_is_removed "mAb 7" "123" " lot 2"); [reflexivity | reflexivity | discriminate].
Defined.

(* ================================================================== *)
(** * What the console shows *)
(* ================================================================== *)

Section Prints.

Lemma prints_ret {A} (a : A) : only_prints (ret a).
Proof. intros w. exists []. cbn. rewrite app_nil_r. reflexivity. Qed.

Lemma prints_raise {A} (e : exn) : only_prints (@raise A e).
Proof. intros w. exists []. cbn. rewrite app_nil_r. reflexivity. Qed.

Lemma prints_lift {A} (r : result A) : only_prints (lift r).
Proof. intros w. exists []. cbn. rewrite app_nil_r. reflexivity. Qed.

Lemma prints_print (msg : string) : only_prints (print msg).
Proof. intros w. exists [msg]. reflexivity. Qed.

Lemma prints_read {A} (f : list (string * node) -> result A) : only_prints (read f).
Proof. intros w. exists []. cbn. rewrite app_nil_r. reflexivity. Qed.

Lemma prints_bind {A B} (m : M A) (f : A -> M B) :
  only_prints m -> (forall a, only_prints (f a)) -> only_prints (bind m f).
Proof.
  intros Hm Hf w. unfold bind. destruct (Hm w) as [o1 E1].
  destruct (m w) as [[a|e] w1]; cbn [snd] in *; [|eauto].
  destruct (Hf a w1) as [o2 E2]. exists (o1 ++ o2)%list.
  rewrite E2, E1, app_assoc. reflexivity.
Qed.

Lemma prints_foreach {A S} (l : list A) (body : A -> S -> M S) (s : S) :
  (forall x s, only_prints (body x s)) -> only_prints (foreach l body s).
Proof.
  intros Hb. revert s. induction l as [|x l IH]; intros s; cbn.
  - apply prints_ret.
  - apply prints_bind; auto.
Qed.

End Prints.

Ltac prints_step :=
  lazymatch goal with
  | |- only_prints (bind _ _) => apply prints_bind; [|intros]
  | |- only_prints (ret _) => apply prints_ret
  | |- only_prints (raise _) => apply prints_raise
  | |- only_prints (lift _) => apply prints_lift
  | |- only_prints (print _) => apply prints_print
  | |- only_prints (read _) => apply prints_read
  | |- only_prints (exists_ _) => apply prints_read
  | |- only_prints (listdir _) => apply prints_read
  | |- only_prints (glob_ext _ _) => apply prints_read
  | |- only_prints (read_file _ _ _) => apply prints_read
  | |- only_prints (read_csv _) => apply prints_read
  | |- only_prints (read_excel _) => apply prints_read
  | |- only_prints (load_json _) => apply prints_read
  | |- only_prints (foreach _ _ _) => apply prints_foreach; intros
  | |- only_prints (match ?x with _ => _ end) => destruct x
  | |- only_prints (let _ := _ in _) => cbv zeta
  end.

Ltac prints_all := repeat first [prints_step | solve [auto]].

Lemma prints_run {A} (m : M A) (w w' : World) (r : result A) :
  only_prints m -> m w = (r, w') -> exists out, stdout w' = (stdout w ++ out)%list.
Proof. intros P E. destruct (P w) as [out Ho]. rewrite E in Ho. eauto. Qed.

Lemma prints_validate (d : string) : only_prints (CytenaProcessor._validate_directory d).
Proof. unfold CytenaProcessor._validate_directory. prints_all. Qed.

Lemma prints_extract_scan_id (d : string) : only_prints (CytenaProcessor._extract_scan_id d).
Proof. unfold CytenaProcessor._extract_scan_id. prints_all. Qed.

Lemma prints_read_summaries (d marker : string) :
  only_prints (CytenaProcessor.read_summaries d marker).
Proof. unfold CytenaProcessor.read_summaries. prints_all. Qed.

Lemma prints_parse_position (d : string) :
  only_prints (CytenaProcessor.parse_position_summary_files d).
Proof.
  unfold CytenaProcessor.parse_position_summary_files.
  apply prints_bind; [apply prints_read_summaries | intros; apply prints_lift].
Qed.

Lemma prints_parse_well (d : string) :
  only_prints (CytenaProcessor.parse_well_summary_files d).
Proof.
  unfold CytenaProcessor.parse_well_summary_files.
  apply prints_bind; [apply prints_read_summaries | intros; apply prints_lift].
Qed.

Section PrintsMetadata.
Context `{Numerics}.

Lemma prints_check_and_coerce (md : DataFrame) :
  only_prints (MetadataParser.check_and_coerce md).
Proof. unfold MetadataParser.check_and_coerce. prints_all. Qed.

Lemma prints_parse_disco (md : DataFrame) :
  only_prints (MetadataParser.parse_disco_bio_excel md).
Proof.
  unfold MetadataParser.parse_disco_bio_excel.
  apply prints_bind; [apply prints_check_and_coerce | intros; apply prints_lift].
Qed.

Lemma prints_parse_json (self : instance) (p : path) :
  only_prints (MetadataParser.parse_json_metadata self p).
Proof. unfold MetadataParser.parse_json_metadata. prints_all. Qed.

Lemma prints_resolve_metadata (d : string) :
  only_prints (CytenaProcessor.resolve_metadata d).
Proof.
  pose proof prints_parse_json. pose proof prints_parse_disco.
  unfold CytenaProcessor.resolve_metadata. prints_all.
Qed.

Lemma prints_load_measurements (d : string) :
  only_prints (CytenaProcessor.load_measurements d).
Proof.
  pose proof prints_parse_position. pose proof prints_parse_well.
  unfold CytenaProcessor.load_measurements. prints_all.
Qed.

Lemma prints_process (d : string) : only_prints (CytenaProcessor.process d).
Proof.
  pose proof prints_validate. pose proof prints_extract_scan_id.
  pose proof prints_load_measurements. pose proof prints_resolve_metadata.
  unfold CytenaProcessor.process. prints_all.
Qed.

(** The per-well branch is announced whenever the readers return. *)
Lemma load_measurements_console (d : string) (w w' : World)
    (tables : list (string * DataFrame)) :
  CytenaProcessor.load_measurements d w = (Ok tables, w') ->
  exists out,
    stdout w' = (stdout w ++ out)%list
    /\ In "INFO: Multiple positions detected, switching to well summary files" out.
Proof.
  unfold CytenaProcessor.load_measurements. intros L.
  apply bind_run_ok in L as (r & w1 & P & L).
  assert (CytenaProcessor.truthy r = false) as Hr.
  { apply (parse_position_is_falsy d w). rewrite P. reflexivity. }
  rewrite Hr in L. cbn [negb] in L.
  apply bind_run_ok in L as (u & w2 & Pr & W).
  destruct (prints_run _ _ _ _ (prints_parse_position d) P) as [o1 E1].
  destruct (prints_run _ _ _ _ (prints_parse_well d) W) as [o2 E2].
  unfold print in Pr. injection Pr as _ <-. cbn [stdout] in E2.
  exists (o1 ++ ["INFO: Multiple positions detected, switching to well summary files"]
          ++ o2)%list.
  split.
  - rewrite E2, E1, <- !app_assoc. reflexivity.
  - apply in_app_iff. right. left. reflexivity.
Qed.

(** Metadata with a column "Well" is announced as a spreadsheet. *)
Lemma resolve_metadata_console (d : string) (w w' : World) (md : DataFrame) :
  CytenaProcessor.resolve_metadata d w = (Ok (Some md), w') ->
  has_label (PStr "Well") (columns md) = true ->
  exists x out,
    endswith x ".xlsx" = true
    /\ stdout w' = (stdout w ++ ("Excel file found: " ++ d ++ "/" ++ x)%string :: out)%list.
Proof.
  intros E Hwell.
  destruct (fst (listdir [d] w)) as [names|e] eqn:Hls.
  2:{ exfalso. unfold CytenaProcessor.resolve_metadata, bind in E.
      apply read_run in Hls. unfold listdir in E. rewrite Hls in E. discriminate E. }
  destruct (metadata_from_spreadsheet d w w' names md Hls E Hwell) as (x & Hx & _).
  assert (endswith x ".xlsx" = true) as Hend.
  { assert (In x (filter (fun file => endswith file ".xlsx") names)) as Hin
      by (rewrite Hx; left; reflexivity).
    apply filter_In in Hin as [_ Hin]. exact Hin. }
  exists x. apply read_run in Hls.
  unfold CytenaProcessor.resolve_metadata in E. unfold bind at 1 in E.
  unfold listdir at 1 in E. rewrite Hls in E. cbv zeta in E. rewrite Hx in E.
  apply bind_run_ok in E as (u & w1 & Pr & E).
  unfold print in Pr. injection Pr as _ <-.
  eapply prints_run in E as [out Ho].
  - exists out. split; [exact Hend|]. rewrite Ho. cbn [stdout].
    rewrite <- app_assoc. reflexivity.
  - pose proof prints_parse_disco. prints_all.
Qed.

(** X17. What the console shows. Whatever the outcome, [process] adds
    lines to the console and erases none. When it returns, the lines it
    added include "INFO: Multiple positions detected, switching to well
    summary files", whether or not the directory holds any per-position
    export, and "Excel file found: " followed by the path of the one
    spreadsheet. *)
Theorem console_of_a_run (d : string) (w w' : World) (r : result (DataFrame * DataFrame)) :
  CytenaProcessor.process d w = (r, w') ->
  exists out,
    stdout w' = (stdout w ++ out)%list
    /\ (is_ok r = true ->
        In "INFO: Multiple positions detected, switching to well summary files" out
        /\ exists x, endswith x ".xlsx" = true
                     /\ In ("Excel file found: " ++ d ++ "/" ++ x)%string out).
Proof.
  intros E. destruct r as [res|e].
  2:{ destruct (prints_run _ _ _ _ (prints_process d) E) as [out Ho].
      exists out. split; [exact Ho | discriminate]. }
  unfold CytenaProcessor.process in E.
  apply bind_run_ok in E as (d' & w1 & V & E).
  assert (d' = d) as -> by (eapply validate_returns; eassumption).
  apply bind_run_ok in E as (scan_id & w2 & S & E).
  apply bind_run_ok in E as (tables0 & w3 & L & E).
  apply bind_run_ok in E as (tables & w4 & N & E).
  apply bind_run_ok in E as (metadata & w5 & Md & E).
  apply bind_run_ok in E as (results & w6 & R & E).
  apply bind_run_ok in E as (agg & w7 & A & E).
  unfold lift in N, R, A. injection N as N <-. injection R as R <-. injection A as A <-.
  unfold ret in E. injection E as _ <-.
  destruct (reshape_needs _ _ _ _ R) as ((md & -> & Hwell) & _).
  destruct (prints_run _ _ _ _ (prints_validate d) V) as [o1 E1].
  destruct (prints_run _ _ _ _ (prints_extract_scan_id d) S) as [o2 E2].
  destruct (load_measurements_console _ _ _ _ L) as (o3 & E3 & Hinfo).
  destruct (resolve_metadata_console _ _ _ _ Md Hwell) as (x & o4 & Hx & E4).
  exists (o1 ++ o2 ++ o3 ++ ("Excel file found: " ++ d ++ "/" ++ x)%string :: o4)%list.
  split; [rewrite E4, E3, E2, E1, <- !app_assoc; reflexivity|].
  intros _. split.
  - rewrite !in_app_iff. right. right. left. exact Hinfo.
  - exists x. split; [exact Hx|]. rewrite !in_app_iff. right. right. right.
    left. reflexivity.
Qed.

End PrintsMetadata.

Lemma console_of_a_run_witness :
  exists out,
    stdout (snd (CytenaProcessor.process (H := Decimal.numerics) "run1" Examples.world))
    = (stdout Examples.world ++ out)%list
    /\ In "INFO: Multiple positions detected, switching to well summary files" out
    /\ exists x, endswith x ".xlsx" = true
                 /\ In ("Excel file found: " ++ "run1" ++ "/" ++ x)%string out.
Proof.
  destruct (console_of_a_run (H := Decimal.numerics) "run1" Examples.world
              (snd (CytenaProcessor.process (H := Decimal.numerics) "run1" Examples.world))
              (fst (CytenaProcessor.process (H := Decimal.numerics) "run1" Examples.world)))
    as (out & Ho & Hin).
  - vm_compute. reflexivity.
  - exists out. split; [exact Ho|]. apply Hin. vm_compute. reflexivity.
Defined.

(* ================================================================== *)
(** * The channels of the row-level table *)
(* ================================================================== *)

Lemma find_label_some (l : pyval) (cols : list pyval) (j : nat) :
  find_label l cols = Some j -> val_eqb (nth j cols NaN) l = true.
Proof.
  revert j. induction cols as [|c cols IH]; cbn [find_label]; intros j E; [discriminate E|].
  destruct (val_eqb c l) eqn:Ec.
  - injection E as <-. exact Ec.
  - destruct (find_label l cols) as [j'|]; cbn in E; [|discriminate E].
    injection E as <-. cbn [nth]. apply IH. reflexivity.
Qed.

Lemma has_label_union (l : pyval) (acc ls : list pyval) :
  has_label l acc = true \/ has_label l ls = true ->
  has_label l (union_labels acc ls) = true.
Proof.
  revert acc. induction ls as [|c ls IH]; intros acc; cbn [union_labels].
  - intros [E | E]; [exact E | discriminate E].
  - intros E. destruct (has_label c acc) eqn:Hc.
    + apply IH. destruct E as [E | E]; [left; exact E|].
      unfold has_label in E. cbn [existsb] in E. apply orb_true_iff in E as [E | E].
      * left. destruct (val_eqb c l) eqn:Ecl; [|discriminate E].
        unfold has_label in *. apply existsb_exists in Hc as (x & Hx & Ex).
        apply existsb_exists. exists x. split; [exact Hx|].
        destruct x, c, l; cbn in *; try discriminate; try reflexivity;
          try (apply Qeq_bool_iff; apply Qeq_bool_iff in Ex; apply Qeq_bool_iff in Ecl;
               rewrite Ex; exact Ecl);
          try (apply String.eqb_eq in Ex; apply String.eqb_eq in Ecl; subst;
               apply String.eqb_refl).
      * right. exact E.
    + apply IH. destruct E as [E | E].
      * left. rewrite has_label_app, E. reflexivity.
      * unfold has_label in E. cbn [existsb] in E. apply orb_true_iff in E as [E | E].
        -- left. rewrite has_label_app. apply orb_true_iff. right.
           unfold has_label. cbn. rewrite E. reflexivity.
        -- right. exact E.
Qed.

Lemma has_label_fold_union (l : pyval) (dfs : list DataFrame) (acc : list pyval) :
  has_label l acc = true \/ (exists df, In df dfs /\ has_label l (columns df) = true) ->
  has_label l (fold_left (fun acc df => union_labels acc (columns df)) dfs acc) = true.
Proof.
  revert acc. induction dfs as [|d dfs IH]; intros acc; cbn [fold_left].
  - intros [E | (df & [] & _)]. exact E.
  - intros E. apply IH. destruct E as [E | (df & [<- | Hdf] & E)].
    + left. apply has_label_union. left. exact E.
    + left. apply has_label_union. right. exact E.
    + right. exists df. split; assumption.
Qed.

Lemma cell_replace_nth_other (j k : nat) (v : pyval) (r : row) :
  j <> k -> cell (replace_nth j v r) k = cell r k.
Proof.
  unfold cell. revert j k. induction r as [|x r IH]; intros j k Hjk; [destruct j; reflexivity|].
  destruct j as [|j], k as [|k]; cbn; try reflexivity; [congruence|].
  apply IH. congruence.
Qed.

Lemma cell_map (f : pyval -> pyval) (cols : list pyval) (j : nat) :
  (j < List.length cols)%nat -> cell (map f cols) j = f (nth j cols NaN).
Proof.
  intros Hj. unfold cell.
  rewrite (nth_indep _ NaN (f NaN)) by (rewrite length_map; exact Hj).
  apply map_nth.
Qed.

Section Channels.
Context `{Numerics}.

(** A join on keys that include "channel" keeps the channel column of
    its left table. *)
Lemma merge_keeps_channel (l r m : DataFrame) (on : list pyval) (ch : string) :
  merge_left l r on = Ok m ->
  has_label (PStr "channel") on = true ->
  channel_is ch l -> channel_is ch m.
Proof.
  unfold merge_left. intros E Hon (j & Hj & Hcells).
  apply rbind_ok in E as (lk & _ & E). apply rbind_ok in E as (rk & _ & E).
  apply Ok_inj in E. subst m. exists j. cbn [columns rows]. split.
  - apply find_label_app_l. rewrite find_label_ext; [exact Hj|].
    intros c Hc. unfold suffixed.
    destruct (negb (is_key on c) && has_label c _) eqn:S; [|reflexivity].
    apply andb_true_iff in S as [S _]. apply negb_true_iff in S.
    destruct (val_eqb c (PStr "channel")) eqn:Ec.
    + apply val_eqb_str in Ec. subst c. unfold is_key in S. congruence.
    + cbn. apply suffix_is_not_channel.
  - intros x Hx. apply in_flat_map in Hx as (a & Ha & Hx).
    assert (exists tail, x = pad (List.length (columns l)) a ++ tail)%list as (tail & ->).
    { destruct (filter (fun b => key_eqb (key_of lk a) (key_of rk b)) (rows r)) as [|b ms].
      - destruct Hx as [<- | []]. eauto.
      - apply in_map_iff in Hx as (b' & <- & _). eauto. }
    pose proof (find_label_bound _ _ _ Hj) as Hb.
    unfold cell. rewrite app_nth1 by (rewrite pad_length; exact Hb).
    fold (cell (pad (List.length (columns l)) a) j). rewrite cell_pad by exact Hb.
    apply Hcells. exact Ha.
Qed.

Lemma joined_channel (metadata : option DataFrame) (item : string * DataFrame)
    (m : DataFrame) (ch : string) :
  joined_with metadata item m ->
  CytenaProcessor.first_channel_is ch m = Ok true ->
  channel_is ch m.
Proof.
  intros J Hfirst.
  destruct (joined_has_data _ _ _ _ _ J Hfirst) as (_ & _ & Hch). specialize (Hch eq_refl).
  destruct J as (id & long & md & _ & _ & _ & Hmerge). rewrite Hch in Hmerge.
  unfold CytenaProcessor.first_channel_is, label_index in Hfirst.
  destruct (find_label (PStr "channel") (columns m)) as [j|] eqn:Hj; [|discriminate Hfirst].
  destruct (set_column_const_label (PStr "channel") (PStr ch) long)
    as (j0 & Hj0 & Hcells & _).
  exists j. split; [exact Hj|].
  apply (channel_of_join _ _ _ j0 j _ Hmerge Hj0 Hcells Hj).
Qed.

Lemma chain_keeps_channel (others : list DataFrame) (first merged : DataFrame)
    (on : list pyval) (ch : string) :
  rfold others (fun df merged_df_channel => merge_left merged_df_channel df on) first
  = Ok merged ->
  has_label (PStr "channel") on = true ->
  channel_is ch first -> channel_is ch merged.
Proof.
  revert first. induction others as [|df others IH]; intros first E Hon Hc.
  - cbn in E. apply Ok_inj in E. subst merged. exact Hc.
  - cbn [rfold] in E. apply rbind_ok in E as (m1 & Hm1 & E).
    apply (IH m1 E Hon). eapply merge_keeps_channel; eassumption.
Qed.

Lemma final_channels (tables : list (string * DataFrame)) (metadata : option DataFrame)
    (merged : list DataFrame) (on : list pyval) (channels : list string)
    (acc final : list DataFrame) (known : list string) :
  Forall2 (joined_with metadata) tables merged ->
  has_label (PStr "channel") on = true ->
  (forall ch, In ch channels -> In ch known) ->
  (forall df, In df acc -> exists ch, In ch known /\ channel_is ch df) ->
  rfold channels (fun channel merged_dfs_final =>
    rbind (rfilter (CytenaProcessor.first_channel_is channel) merged) (fun dfs_to_merge =>
    match dfs_to_merge with
    | first :: (_ :: _) as others =>
        rbind (rfold others (fun df merged_df_channel =>
                 merge_left merged_df_channel df on) first)
              (fun merged_df_channel => Ok (merged_dfs_final ++ [merged_df_channel])%list)
    | [single] => Ok (merged_dfs_final ++ [single])%list
    | [] => Ok merged_dfs_final
    end)) acc = Ok final ->
  forall df, In df final -> exists ch, In ch known /\ channel_is ch df.
Proof.
  intros HF Hon. revert acc. induction channels as [|c channels IH]; intros acc Hk Hacc E.
  - cbn in E. apply Ok_inj in E. subst final. exact Hacc.
  - cbn [rfold] in E. apply rbind_ok in E as (acc' & Hstep & E).
    apply (IH acc'); [intros ch Hch; apply Hk; right; exact Hch | | exact E].
    apply rbind_ok in Hstep as (kept & Hkept & Hstep).
    destruct (rfilter_ok _ _ _ Hkept) as [_ Hin].
    assert (forall x, In x kept -> channel_is c x) as Hc.
    { intros x Hx. destruct (Hin x Hx) as [Hm Hp].
      destruct (Forall2_in_r _ _ _ _ HF Hm) as (item & _ & J).
      eapply joined_channel; eassumption. }
    assert (In c known) as Hck by (apply Hk; left; reflexivity).
    destruct kept as [|first [|second others]].
    + apply Ok_inj in Hstep. subst acc'. exact Hacc.
    + apply Ok_inj in Hstep. subst acc'. intros df Hdf.
      apply in_app_iff in Hdf as [Hdf | [<- | []]]; [apply Hacc; exact Hdf|].
      exists c. split; [exact Hck | apply Hc; left; reflexivity].
    + apply rbind_ok in Hstep as (m & Hm & Hstep). apply Ok_inj in Hstep. subst acc'.
      intros df Hdf. apply in_app_iff in Hdf as [Hdf | [<- | []]]; [apply Hacc; exact Hdf|].
      exists c. split; [exact Hck|].
      eapply chain_keeps_channel; [exact Hm | exact Hon | apply Hc; left; reflexivity].
Qed.

Lemma concat_channels (dfs : list DataFrame) (res : DataFrame) (known : list string) :
  concat dfs = Ok res ->
  (forall df, In df dfs -> exists ch, In ch known /\ channel_is ch df) ->
  exists j, find_label (PStr "channel") (columns res) = Some j
            /\ forall r, In r (rows res) -> exists ch, In ch known /\ cell r j = PStr ch.
Proof.
  intros E Hdfs. destruct (concat_rows _ _ E) as [Hcols Hrows].
  destruct dfs as [|d0 dfs0] eqn:Edfs; [discriminate E|]. rewrite <- Edfs in *.
  set (cols := fold_left (fun acc df => union_labels acc (columns df)) dfs []) in *.
  assert (has_label (PStr "channel") cols = true) as Hl.
  { apply has_label_fold_union. right. exists d0. split; [rewrite Edfs; left; reflexivity|].
    destruct (Hdfs d0) as (ch & _ & j & Hj & _); [rewrite Edfs; left; reflexivity|].
    destruct (has_label (PStr "channel") (columns d0)) eqn:Hd; [reflexivity|].
    apply find_label_none in Hd. congruence. }
  apply has_label_find in Hl as [j Hj]. exists j. split; [rewrite Hcols; exact Hj|].
  intros r Hr. destruct (Forall2_in_r _ _ _ _ Hrows Hr) as (r0 & Hr0 & HF).
  apply in_flat_map in Hr0 as (df & Hdf & Hr0).
  unfold reindex in Hr0. apply in_map_iff in Hr0 as (a & <- & Ha).
  destruct (Hdfs df Hdf) as (ch & Hch & j' & Hj' & Hcells).
  exists ch. split; [exact Hch|].
  eapply upcast_of_str; [apply Forall2_cell; [exact HF | left; reflexivity]|].
  rewrite cell_map by (eapply find_label_bound; exact Hj).
  pose proof (find_label_some _ _ _ Hj) as Hc. apply val_eqb_str in Hc. rewrite Hc, Hj'.
  apply Hcells. exact Ha.
Qed.

(** X18. Every row of the row-level table carries one of the channels
    BF, green and EC in its column "channel": the tables of any other
    channel are read, reshaped and joined, and then left out. *)
Theorem row_level_channels_are_known (tables : list (string * DataFrame))
    (metadata : option DataFrame) (scan_id : option string) (results : DataFrame) :
  CytenaProcessor.reshape_and_join tables metadata scan_id = Ok results ->
  forall r, In r (rows results) ->
    exists ch, In ch (map fst CytenaProcessor.possible_channels)
               /\ field results "channel" r = PStr ch.
Proof.
  unfold CytenaProcessor.reshape_and_join. intros E.
  apply rbind_ok in E as (long & Hlong & E).
  apply rbind_ok in E as (merged & Hmerged & E).
  apply rbind_ok in E as (md & Hmd & E).
  apply rbind_ok in E as (final & Hfinal & E).
  apply rbind_ok in E as (res & Hres & E). apply Ok_inj in E. subst results.
  pose proof (joined_tables _ _ _ _ Hlong Hmerged) as HF.
  assert (forall df, In df final ->
            exists ch, In ch (map fst CytenaProcessor.possible_channels) /\ channel_is ch df)
    as Hch.
  { eapply final_channels; [exact HF | | | | exact Hfinal].
    - rewrite has_label_app. apply orb_true_iff. right. reflexivity.
    - auto.
    - intros df []. }
  destruct (concat_channels _ _ _ Hres Hch) as (j & Hj & Hrows).
  set (v := match scan_id with Some s => PStr s | None => PNone end).
  intros r Hr. unfold field.
  destruct (find_label (PStr "Scan ID") (columns res)) as [k|] eqn:Hk.
  - destruct (set_column_shape (PStr "Scan ID") (repeat v (List.length (rows res))) res k Hk)
      as [Hcols _]; [apply repeat_length|].
    unfold set_column_const in *. rewrite Hcols, Hj.
    unfold set_column in Hr. rewrite Hk in Hr. cbn [rows] in Hr.
    apply in_map_iff in Hr as ([r0 v0] & <- & Hr0). cbn [fst snd].
    apply in_combine_l in Hr0.
    assert (k <> j) as Hkj.
    { intros ->. apply find_label_some in Hk. apply find_label_some in Hj.
      apply val_eqb_str in Hk. apply val_eqb_str in Hj. congruence. }
    rewrite cell_replace_nth_other by exact Hkj.
    rewrite cell_pad by (eapply find_label_bound; exact Hj).
    apply Hrows. exact Hr0.
  - rewrite (set_column_const_new _ v res Hk) in *. cbn [columns rows] in *.
    rewrite (find_label_app_l _ _ _ _ Hj).
    apply in_map_iff in Hr as (r0 & <- & Hr0).
    pose proof (find_label_bound _ _ _ Hj) as Hb.
    unfold cell. rewrite app_nth1 by (rewrite pad_length; exact Hb).
    fold (cell (pad (List.length (columns res)) r0) j). rewrite cell_pad by exact Hb.
    apply Hrows. exact Hr0.
Qed.

End Channels.

Lemma row_level_channels_are_known_witness :
  exists ch, In ch (map fst CytenaProcessor.possible_channels)
             /\ field one_table_joined "channel" (hd [] (rows one_table_joined)) = PStr ch.
Proof.
  apply (row_level_channels_are_known (H := Decimal.numerics)
           one_table (Some Examples.plate_map) (Some "scan42") one_table_joined).
  - vm_compute. reflexivity.
  - vm_compute. auto.
Defined.

(* ================================================================== *)
(** * The metadata template *)
(* ================================================================== *)

Lemma combine_map_r {A B C} (g : A -> B) (h : A -> B -> C) (l : list A) :
  map (fun rv => h (fst rv) (snd rv)) (combine l (map g l)) = map (fun r => h r (g r)) l.
Proof. induction l; cbn; [reflexivity|]. f_equal. assumption. Qed.

Lemma Forall2_map_self {A B} (R : A -> B -> Prop) (f : A -> B) (l : list A) :
  (forall x, In x l -> R x (f x)) -> Forall2 R l (map f l).
Proof.
  induction l as [|x l IH]; cbn; intros Hl; constructor; [apply Hl; left; reflexivity|].
  apply IH. intros y Hy. apply Hl. right. exact Hy.
Qed.

Section Template.
Context `{Numerics}.

(** X19. The metadata template: a spreadsheet whose first column is
    labelled "Well", with a column or more after it. [process] announces
    it and gives every row a Well Group: the texts of the cells after
    the first, joined by single spaces, a missing cell reading "nan".
    The Well Group is never missing, the wells are as in the sheet, and
    no row is added or lost. *)
Theorem template_well_groups (d : string) (w : World) (names : list string) (x : string)
    (md : DataFrame) (rest : list pyval) :
  fst (listdir [d] w) = Ok names ->
  filter (fun file => endswith file ".xlsx") names = [x] ->
  resolve (fs w) [d; x] = Ok (File (Excel md)) ->
  columns md = PStr "Well" :: rest -> rest <> [] ->
  exists md',
    CytenaProcessor.resolve_metadata d w
    = (Ok (Some md'),
       {| fs := fs w;
          stdout := (stdout w ++ [("Excel file found: " ++ d ++ "/" ++ x)%string;
                                  "Found excel metadata template"])%list |})
    /\ Forall2 (fun r r' =>
                  field md' "Well" r' = cell r 0
                  /\ field md' "Well Group" r'
                     = PStr (String.concat " " (map str_of (tl (pad (S (List.length rest)) r)))))
               (rows md) (rows md').
Proof.
  intros Hls Hx Hfile Hcols Hrest. apply read_run in Hls.
  exists (set_column (PStr "Well Group") (CytenaProcessor.joined_columns md) md).
  split.
  - unfold CytenaProcessor.resolve_metadata. unfold bind at 1. unfold listdir at 1.
    rewrite Hls. cbv zeta. rewrite Hx.
    unfold bind, print, read_excel, read_file, read, lift, ret. cbn [fs stdout fst snd].
    rewrite Hfile. cbn [rbind]. unfold first_label. rewrite Hcols. cbn [is_literal].
    rewrite String.eqb_refl. cbn [fs stdout]. rewrite <- app_assoc. reflexivity.
  - unfold set_column, CytenaProcessor.joined_columns, field. rewrite Hcols.
    cbn [List.length].
    set (joined := fun r : row =>
           PStr (String.concat " " (map str_of (tl (pad (S (List.length rest)) r))))).
    destruct (find_label (PStr "Well Group") (PStr "Well" :: rest)) as [j|] eqn:Hj;
      cbn [columns rows].
    + rewrite Hj.
      rewrite (combine_map_r joined
                 (fun r v => replace_nth j v (pad (S (List.length rest)) r))).
      apply Forall2_map_self. intros r _.
      pose proof (find_label_bound _ _ _ Hj) as Hb. cbn [List.length] in Hb.
      cbn [find_label val_eqb String.eqb Ascii.eqb Bool.eqb] in Hj |- *.
      destruct (find_label (PStr "Well Group") rest) as [j'|]; [|discriminate Hj].
      cbn in Hj. injection Hj as <-. split.
      * rewrite cell_replace_nth_other by discriminate. apply cell_pad. lia.
      * apply cell_replace_nth. rewrite pad_length. exact Hb.
    + rewrite (find_label_app_new _ _ Hj).
      rewrite (combine_map_r joined
                 (fun r v => (pad (S (List.length rest)) r ++ [v])%list)).
      apply Forall2_map_self. intros r _. split.
      * cbn [find_label app val_eqb String.eqb Ascii.eqb Bool.eqb].
        unfold cell at 1. cbn [pad seq map app nth]. reflexivity.
      * cbn [List.length]. unfold cell. rewrite app_nth2 by (rewrite pad_length; lia).
        rewrite pad_length, Nat.sub_diag. reflexivity.
Qed.

End Template.

Lemma template_well_groups_witness :
  exists md',
    CytenaProcessor.resolve_metadata (H := Decimal.numerics) "run1" Examples.world
    = (Ok (Some md'),
       {| fs := fs Examples.world;
          stdout := (stdout Examples.world
                     ++ [("Excel file found: " ++ "run1" ++ "/" ++ "plate.xlsx")%string;
                         "Found excel metadata template"])%list |})
    /\ Forall2 (fun r r' =>
                  field md' "Well" r' = cell r 0
                  /\ field md' "Well Group" r'
                     = PStr (String.concat " "
                               (map (str_of (H := Decimal.numerics))
                                    (tl (pad (S (List.length [PStr "Condition"])) r)))))
               (rows Examples.plate_map) (rows md').
Proof.
  apply (template_well_groups (H := Decimal.numerics) "run1" Examples.world
           ["scan42_summary_wells_BF_total_intensity.csv";
            "scan42_summary_wells_green_confluency.csv"; "plate.xlsx"]
           "plate.xlsx" Examples.plate_map [PStr "Condition"]);
    first [reflexivity | discriminate].
Defined.

(* ================================================================== *)
(** * Columns filled in one row *)
(* ================================================================== *)

Lemma find_label_distinct (cols : list pyval) (k : nat) :
  distinct_labels cols -> (k < List.length cols)%nat ->
  find_label (nth k cols NaN) cols = Some k.
Proof.
  intros Hd Hk.
  assert (has_label (nth k cols NaN) cols = true) as Hl.
  { unfold has_label. apply existsb_exists. exists (nth k cols NaN).
    split; [apply nth_In; exact Hk | apply val_eqb_refl]. }
  apply has_label_find in Hl as [i Hi]. rewrite Hi. f_equal.
  apply Hd; [eapply find_label_bound; exact Hi | exact Hk |].
  apply find_label_some. exact Hi.
Qed.

Lemma skipn_cons_nth {A} (l : list A) (k : nat) (x d : A) (rest : list A) :
  skipn k l = x :: rest ->
  (k < List.length l)%nat /\ nth k l d = x /\ skipn (S k) l = rest.
Proof.
  revert k. induction l as [|y l IH]; intros k E.
  - destruct k; discriminate E.
  - destruct k as [|k].
    + cbn in E. injection E as -> ->. cbn. repeat split. lia.
    + cbn [skipn] in E. destruct (IH k E) as (Hk & Hn & Hs). cbn [List.length nth].
      repeat split; [lia | exact Hn | exact Hs].
Qed.

Lemma map_const {A B} (v : B) (l : list A) : map (fun _ => v) l = repeat v (List.length l).
Proof. induction l; cbn; [reflexivity | f_equal; assumption]. Qed.

(** [df[c] = v] writes one column and leaves the others. *)
Lemma column_at_set_const (c v : pyval) (df : DataFrame) (k j : nat) :
  find_label c (columns df) = Some k ->
  (j < List.length (columns df))%nat ->
  column_at j (set_column_const c v df)
  = if (j =? k)%nat then repeat v (List.length (rows df)) else column_at j df.
Proof.
  intros Hk Hj. unfold set_column_const, set_column, column_at. rewrite Hk. cbn [rows].
  rewrite (combine_repeat (fun r x => replace_nth k x (pad (List.length (columns df)) r))).
  rewrite map_map.
  destruct (Nat.eqb_spec j k) as [->|Hjk].
  - rewrite <- map_const. apply map_ext. intros r.
    apply cell_replace_nth. rewrite pad_length. exact Hj.
  - apply map_ext. intros r.
    rewrite cell_replace_nth_other by congruence. apply cell_pad. exact Hj.
Qed.

Lemma broadcast_fold (md : DataFrame) (todo : list pyval) (k : nat) (df : DataFrame) :
  distinct_labels (columns md) ->
  skipn k (columns md) = todo ->
  columns df = columns md ->
  List.length (rows df) = List.length (rows md) ->
  (forall j, (j < List.length (columns md))%nat ->
     column_at j df = if (j <? k)%nat then broadcast_column (column_at j md)
                      else column_at j md) ->
  let df' := fold_left (fun df col =>
               match find_label col (columns df) with
               | Some j =>
                   match filter notna (column_at j df) with
                   | [value] => set_column_const col value df
                   | _ => df
                   end
               | None => df
               end) todo df in
  columns df' = columns md
  /\ forall j, (j < List.length (columns md))%nat ->
       column_at j df' = broadcast_column (column_at j md).
Proof.
  intros Hd. revert k df. induction todo as [|c todo IH]; intros k df Hs Hc Hr Hcol.
  - cbn [fold_left]. split; [exact Hc|]. intros j Hj. rewrite (Hcol j Hj).
    assert (List.length (columns md) <= k)%nat as Hk.
    { destruct (Nat.le_gt_cases (List.length (columns md)) k) as [L|L]; [exact L|].
      exfalso. apply (f_equal (@List.length pyval)) in Hs. rewrite length_skipn in Hs.
      cbn in Hs. lia. }
    replace (j <? k)%nat with true by (symmetry; apply Nat.ltb_lt; lia). reflexivity.
  - destruct (skipn_cons_nth _ _ _ NaN _ Hs) as (Hk & Hn & Hs').
    cbn [fold_left]. rewrite Hc, <- Hn, (find_label_distinct _ _ Hd Hk).
    pose proof (Hcol k Hk) as Hkcol. rewrite Nat.ltb_irrefl in Hkcol. rewrite Hkcol.
    assert (find_label (nth k (columns md) NaN) (columns df) = Some k) as Hfind
      by (rewrite Hc; apply find_label_distinct; assumption).
    apply (IH (S k)); [exact Hs' | | |].
    + destruct (filter notna (column_at k md)) as [|v [|? ?]]; try exact Hc.
      destruct (set_column_const_label (nth k (columns md) NaN) v df) as (j0 & Hj0 & _).
      unfold set_column_const, set_column. rewrite Hfind. exact Hc.
    + destruct (filter notna (column_at k md)) as [|v [|? ?]]; try exact Hr.
      destruct (set_column_const_label (nth k (columns md) NaN) v df) as (_ & _ & _ & Hl).
      rewrite Hl. exact Hr.
    + intros j Hj. unfold broadcast_column.
      destruct (filter notna (column_at k md)) as [|v [|? ?]] eqn:F.
      * rewrite (Hcol j Hj).
        destruct (Nat.ltb_spec j k), (Nat.ltb_spec j (S k)); try reflexivity; try lia.
        assert (j = k) as -> by lia. unfold broadcast_column. rewrite F. reflexivity.
      * rewrite (column_at_set_const _ _ _ k j Hfind) by (rewrite Hc; exact Hj).
        destruct (Nat.eqb_spec j k) as [->|Hjk].
        -- replace (k <? S k)%nat with true by (symmetry; apply Nat.ltb_lt; lia).
           unfold broadcast_column. rewrite F, column_at_length, Hr. reflexivity.
        -- rewrite (Hcol j Hj).
           destruct (Nat.ltb_spec j k), (Nat.ltb_spec j (S k)); try reflexivity; lia.
      * rewrite (Hcol j Hj).
        destruct (Nat.ltb_spec j k), (Nat.ltb_spec j (S k)); try reflexivity; try lia.
        assert (j = k) as -> by lia. unfold broadcast_column. rewrite F. reflexivity.
Qed.



(* ================================================================== *)
(** * The properties above at the staging directories *)
(* ================================================================== *)

Lemma validation_outcomes_witness :
  CytenaProcessor._validate_directory "nowhere" Examples.world
  = (Raise FileNotFoundError, Examples.world)
  /\ CytenaProcessor.process (H := Decimal.numerics) "nowhere" Examples.world
     = (Raise FileNotFoundError, Examples.world).
Proof.
  destruct (validation_outcomes (H := Decimal.numerics) "nowhere" Examples.world) as [V P].
  split; [exact V | exact (P FileNotFoundError eq_refl)].
Defined.

Lemma scan_id_outcomes_witness :
  CytenaProcessor._extract_scan_id "mixed" Examples.world
  = (Ok None,
     {| fs := fs Examples.world;
        stdout := (stdout Examples.world ++ ["Multiple scan IDs found"])%list |}).
Proof.
  destruct (scan_id_outcomes "mixed" Examples.world) as (scan_id & E & _ & Hiff).
  destruct scan_id as [p|]; [exfalso | exact E].
  destruct (proj1 (Hiff p) eq_refl) as [_ Hall].
  pose proof (Hall "scanA_summary_wells_BF_total_intensity.csv" (or_introl eq_refl)) as Ha.
  pose proof (Hall "scanB_summary_wells_green_confluency.csv"
                (or_intror (or_introl eq_refl))) as Hb.
  vm_compute in Ha, Hb. congruence.
Defined.

Lemma allowed_file_spec_witness :
  App.allowed_file "plate.XLSX" = Ok true
  /\ App.allowed_file "AnalysisWellGroup.json" = Ok false.
Proof.
  split.
  - apply (proj2 (proj1 (proj2 (allowed_file_spec "plate.XLSX")))).
    exists "plate", "XLSX". split; [reflexivity|]. split; [reflexivity|].
    vm_compute. auto.
  - apply (proj2 (proj2 (allowed_file_spec "AnalysisWellGroup.json"))).
    vm_compute. reflexivity.
Defined.


(* ================================================================== *)
(** * The rows of the row-level table *)
(* ================================================================== *)

Section Steps.
Context `{Numerics}.

(** The steps of a run of [process] that returns. *)
Lemma process_steps (d : string) (w : World) (agg res : DataFrame) :
  fst (CytenaProcessor.process d w) = Ok (agg, res) ->
  exists scan_id raw tables metadata,
    fst (CytenaProcessor._extract_scan_id d w) = Ok scan_id
    /\ fst (CytenaProcessor.load_measurements d w) = Ok raw
    /\ CytenaProcessor.normalise raw = Ok tables
    /\ fst (CytenaProcessor.resolve_metadata d w) = Ok metadata
    /\ CytenaProcessor.reshape_and_join tables metadata scan_id = Ok res
    /\ CytenaProcessor.aggregate res scan_id = Ok agg.
Proof.
  unfold CytenaProcessor.process. intros E.
  assert (forall {A} (m : M A) (w1 : World) (a : A) (w2 : World),
            agree d d eq m m -> fs w1 = fs w -> m w1 = (Ok a, w2) -> fst (m w) = Ok a)
    as Back.
  { intros A m w1 a w2 Ag F Run. symmetry. apply same_outcome_eq.
    replace (Ok a) with (fst (m w1)) by (rewrite Run; reflexivity).
    apply Ag. unfold same_dir. congruence. }
  destruct (bind _ _ w) as [r wend] eqn:R. cbn [fst] in E. subst r.
  apply bind_run_ok in R as (d' & w1 & V & R).
  assert (d' = d) as -> by (eapply validate_returns; eassumption).
  apply (run_fs _ _ _ _ (keeps_validate d)) in V.
  apply bind_run_ok in R as (scan_id & w2 & S & R).
  pose proof (run_fs _ _ _ _ (keeps_extract_scan_id d) S) as F2.
  apply bind_run_ok in R as (raw & w3 & L & R).
  pose proof (run_fs _ _ _ _ (keeps_load_measurements d) L) as F3.
  apply bind_run_ok in R as (tables & w4 & N & R).
  pose proof (run_fs _ _ _ _ (keeps_lift _) N) as F4.
  apply bind_run_ok in R as (metadata & w5 & Md & R).
  apply bind_run_ok in R as (results & w6 & Rs & R).
  apply bind_run_ok in R as (results_agg & w7 & Ag & R).
  unfold ret in R. injection R as <- <- _.
  unfold lift in N, Rs, Ag. injection N as N _. injection Rs as Rs _. injection Ag as Ag _.
  exists scan_id, raw, tables, metadata. repeat split.
  - apply (Back _ _ w1 scan_id w2 (agree_extract_scan_id d d) V S).
  - apply (Back _ _ w2 raw w3 (agree_load_measurements d d)); [congruence | exact L].
  - exact N.
  - apply (Back _ _ w4 metadata w5 (agree_resolve_metadata d d)); [congruence | exact Md].
  - exact Rs.
  - exact Ag.
Qed.

End Steps.

Lemma Forall2_flat_map {A B C D} (S : A -> B -> Prop) (R : C -> D -> Prop)
    (f : A -> list C) (g : B -> list D) (l : list A) (l' : list B) :
  Forall2 S l l' ->
  (forall x y, In x l -> In y l' -> S x y -> Forall2 R (f x) (g y)) ->
  Forall2 R (flat_map f l) (flat_map g l').
Proof.
  induction 1 as [|x y l l' Hxy HF IH]; cbn; intros Hfg; [constructor|].
  apply Forall2_app; [apply Hfg; auto|]. apply IH. intros; apply Hfg; auto.
Qed.

Lemma Forall2_same {A} (R : A -> A -> Prop) (l : list A) :
  (forall x, In x l -> R x x) -> Forall2 R l l.
Proof.
  induction l as [|x l IH]; intros Hl; constructor; [apply Hl; left; reflexivity|].
  apply IH. intros y Hy. apply Hl. right. exact Hy.
Qed.

Lemma Forall2_map {A B C} (R : B -> C -> Prop) (f : A -> B) (g : A -> C) (l : list A) :
  (forall x, In x l -> R (f x) (g x)) -> Forall2 R (map f l) (map g l).
Proof.
  induction l as [|x l IH]; cbn; intros Hl; constructor; [apply Hl; left; reflexivity|].
  apply IH. intros y Hy. apply Hl. right. exact Hy.
Qed.

Lemma Forall2_trans {A B C} (R : A -> B -> Prop) (S : B -> C -> Prop) (T : A -> C -> Prop)
    (l : list A) (l' : list B) (l'' : list C) :
  (forall x y z, R x y -> S y z -> T x z) ->
  Forall2 R l l' -> Forall2 S l' l'' -> Forall2 T l l''.
Proof.
  intros HT HR. revert l''. induction HR as [|x y l l' Hxy _ IH]; intros l'' HS;
    inversion HS; subst; constructor; eauto.
Qed.

Lemma flat_map_map {A B C} (f : B -> list C) (g : A -> B) (l : list A) :
  flat_map f (map g l) = flat_map (fun x => f (g x)) l.
Proof. induction l; cbn; [reflexivity|]. f_equal. assumption. Qed.

Lemma in_select {A} (keep : list bool) (l : list A) (x : A) :
  In x (select keep l) -> In x l.
Proof.
  revert keep. induction l as [|y l IH]; intros [|[] keep]; cbn; try tauto.
  - intros [-> | Hx]; [left; reflexivity | right; eapply IH; exact Hx].
  - intros Hx. right. eapply IH. exact Hx.
Qed.

(** The cells of a row under the labels that a selection keeps. *)
Lemma select_field (s : string) (p : pyval -> bool) (cols : list pyval) (j : nat) :
  p (PStr s) = true ->
  find_label (PStr s) cols = Some j ->
  exists k, find_label (PStr s) (select (map p cols) cols) = Some k
            /\ forall r, List.length r = List.length cols ->
                 cell (select (map p cols) r) k = cell r j.
Proof.
  intros Hp. revert j. induction cols as [|c cols IH]; cbn [find_label]; intros j E;
    [discriminate E|].
  destruct (val_eqb c (PStr s)) eqn:Ec.
  - injection E as <-. apply val_eqb_str in Ec. subst c. cbn [map select]. rewrite Hp.
    exists 0%nat. cbn [find_label]. rewrite val_eqb_refl. split; [reflexivity|].
    intros [|x r] Hr; [discriminate Hr | reflexivity].
  - destruct (find_label (PStr s) cols) as [j'|]; [|discriminate E]. injection E as <-.
    destruct (IH j' eq_refl) as (k' & Hk' & Hcell). cbn [map select].
    destruct (p c).
    + exists (S k'). cbn [find_label]. rewrite Ec, Hk'. split; [reflexivity|].
      intros [|x r] Hr; [discriminate Hr|]. cbn [select]. apply (Hcell r). cbn in Hr. lia.
    + exists k'. split; [exact Hk'|].
      intros [|x r] Hr; [discriminate Hr|]. cbn [select]. apply (Hcell r). cbn in Hr. lia.
Qed.

Lemma cell_app_r (a b : row) (k : nat) :
  cell (a ++ b)%list (List.length a + k) = cell b k.
Proof. unfold cell. apply app_nth2_plus. Qed.

Lemma cell_repeat_nan (n k : nat) : cell (repeat NaN n) k = NaN.
Proof.
  unfold cell. revert k. induction n as [|n IH]; intros [|k]; cbn; auto.
Qed.

Lemma melt_measurements (df long : DataFrame) (id : pyval) (attr : string) :
  first_label df = Ok id ->
  melt id (PStr "Well") (PStr attr) df = Ok long ->
  columns long = [id; PStr "Well"; PStr attr]
  /\ rows long = map (fun m => [m_time m; m_well m; m_value m]) (measurements df).
Proof.
  unfold first_label, melt, label_index, measurements. intros Hid E.
  destruct (columns df) as [|c cs] eqn:Hc; [discriminate Hid|]. injection Hid as ->.
  cbn [find_label] in E. rewrite val_eqb_refl in E. cbn [rbind] in E.
  apply Ok_inj in E. subst long. cbn [columns rows]. split; [reflexivity|].
  rewrite map_flat_map. cbn [nth]. apply flat_map_ext_in. intros j _.
  rewrite map_map. reflexivity.
Qed.

Section Rows.
Context `{Numerics}.

(** The join of the long form of an export with the metadata: the
    entries of the export, in their order. *)
Lemma joined_entries (md : DataFrame) (item : string * DataFrame) (m : DataFrame) :
  joined_with (Some md) item m ->
  has_label (PStr "Well Group") (columns md) = true ->
  has_label (PStr "Time") (columns md) = false ->
  has_label (PStr "channel") (columns md) = false ->
  is_literal (nth 0 (columns (snd item)) NaN) "Time" = true ->
  existsb (String.eqb (attribute_of item)) ["Time"; "channel"; "Scan ID"] = false ->
  has_label (PStr (attribute_of item)) (columns md) = false ->
  (forall f, In f ["channel"; "Time"; "Well"; "Well Group"; attribute_of item] ->
             has_label (PStr f) (columns m) = true)
  /\ Forall2 (holds m) (entries_of md item) (rows m).
Proof.
  intros (id & long & md' & Hid & Hmelt & Hmd & Hmerge) Hwg Htime Hchan Hfirst Hattr Hamd.
  injection Hmd as <-.
  fold (attribute_of item) in Hmelt. fold (channel_of item) in Hmerge.
  set (attr := attribute_of item) in *. set (ch := channel_of item) in *.
  assert (id = PStr "Time") as ->.
  { unfold first_label in Hid. destruct (columns (snd item)) as [|c cs]; [discriminate Hid|].
    injection Hid as <-. cbn [nth] in Hfirst. apply is_literal_eq in Hfirst. exact Hfirst. }
  destruct (melt_measurements _ _ _ _ Hid Hmelt) as [Hlc Hlr].
  cbn [existsb] in Hattr. apply orb_false_iff in Hattr as [At Hattr].
  apply orb_false_iff in Hattr as [Ac Hattr]. apply orb_false_iff in Hattr as [As _].
  rewrite set_column_const_new in Hmerge
    by (rewrite Hlc; cbn [find_label val_eqb]; rewrite String.eqb_sym, Ac; reflexivity).
  rewrite Hlc, Hlr in Hmerge. unfold merge_left in Hmerge. cbn [columns rows] in Hmerge.
  cbn [rmap label_index find_label app val_eqb String.eqb Ascii.eqb Bool.eqb option_map rbind]
    in Hmerge.
  unfold label_index in Hmerge.
  destruct (find_label (PStr "Well") (columns md)) as [jw|] eqn:Hjw; [|discriminate Hmerge].
  cbn [rbind] in Hmerge. apply Ok_inj in Hmerge.
  assert (String.eqb "Well" attr = false) as Aw.
  { pose proof (find_label_some _ _ _ Hjw) as Hn. apply val_eqb_str in Hn.
    assert (In (PStr "Well") (columns md)) as Hin
      by (rewrite <- Hn; apply nth_In; eapply find_label_bound; exact Hjw).
    apply (proj1 (has_label_false _ _) Hamd) in Hin. exact Hin. }
  assert (String.eqb "Well Group" attr = false) as Ag.
  { apply has_label_find in Hwg as [jg Hjg].
    pose proof (find_label_some _ _ _ Hjg) as Hn. apply val_eqb_str in Hn.
    assert (In (PStr "Well Group") (columns md)) as Hin
      by (rewrite <- Hn; apply nth_In; eapply find_label_bound; exact Hjg).
    apply (proj1 (has_label_false _ _) Hamd) in Hin. exact Hin. }
  set (keep := map (fun c => negb (is_key [PStr "Well"] c)) (columns md)) in *.
  set (rest := select keep (columns md)) in *.
  assert (forall l, has_label l (columns md) = false -> has_label l rest = false) as Hrest
    by (intros l Hl; apply has_label_select; exact Hl).
  assert (columns m = ([PStr "Time"; PStr "Well"; PStr attr; PStr "channel"] ++ rest)%list)
    as Hcols.
  { subst m. cbn [columns]. f_equal.
    - assert (forall s, has_label (PStr s) (columns md) = false ->
                        suffixed [PStr "Well"] rest "_x" (PStr s) = PStr s) as Hx
        by (intros s Hs; unfold suffixed; rewrite (Hrest _ Hs), andb_false_r; reflexivity).
      cbn [map]. rewrite (Hx _ Htime), (Hx _ Hamd), (Hx _ Hchan). reflexivity.
    - set (lrest := filter _ _). rewrite <- (map_id rest) at 2. apply map_ext_in.
      intros c Hc. unfold suffixed.
      assert (In c (columns md)) as Hin by (eapply in_select; exact Hc).
      assert (has_label c lrest = false) as ->; [|rewrite andb_false_r; reflexivity].
      apply has_label_false. intros x Hx. apply filter_In in Hx as [Hx Kx].
      rewrite val_eqb_sym.
      destruct Hx as [<- | [<- | [<- | [<- | []]]]].
      + exact (proj1 (has_label_false _ _) Htime c Hin).
      + discriminate Kx.
      + exact (proj1 (has_label_false _ _) Hamd c Hin).
      + exact (proj1 (has_label_false _ _) Hchan c Hin). }
  apply has_label_find in Hwg as [jg Hjg].
  destruct (select_field "Well Group" (fun c => negb (is_key [PStr "Well"] c))
              (columns md) jg eq_refl Hjg) as (k & Hk & Hcell).
  fold keep in Hk, Hcell. fold rest in Hk.
  pose proof At as At'. pose proof Aw as Aw'. pose proof Ag as Ag'. pose proof Ac as Ac'.
  rewrite String.eqb_sym in At', Aw', Ag', Ac'.
  assert (find_label (PStr "channel") (columns m) = Some 3%nat) as Fc.
  { rewrite Hcols. cbn [app find_label val_eqb]. rewrite Ac. reflexivity. }
  assert (find_label (PStr "Time") (columns m) = Some 0%nat) as Ft
    by (rewrite Hcols; reflexivity).
  assert (find_label (PStr "Well") (columns m) = Some 1%nat) as Fw
    by (rewrite Hcols; reflexivity).
  assert (find_label (PStr attr) (columns m) = Some 2%nat) as Fa.
  { rewrite Hcols. cbn [app find_label val_eqb]. rewrite At', Aw, String.eqb_refl.
    reflexivity. }
  assert (find_label (PStr "Well Group") (columns m) = Some (4 + k)%nat) as Fg.
  { rewrite Hcols. cbn [app find_label val_eqb]. rewrite Ag', Hk. reflexivity. }
  assert (rows m = flat_map (fun mm =>
            let a := [m_time mm; m_well mm; m_value mm; PStr ch] in
            match filter (fun b => val_eqb (m_well mm) (field md "Well" b)) (rows md) with
            | [] => [a ++ repeat NaN (List.length rest)]
            | ms => map (fun b => a ++ select keep (pad (List.length (columns md)) b)) ms
            end)%list (measurements (snd item))) as Hrows.
  { subst m. cbn [rows]. rewrite !flat_map_map. apply flat_map_ext_in. intros mm _.
    cbn [key_of map List.length pad seq app]. unfold cell at 1 2 3 4 5. cbn [nth].
    match goal with
    | |- context [filter ?p (rows md)] =>
        rewrite (filter_ext p (fun b => val_eqb (m_well mm) (field md "Well" b)))
    end; [reflexivity|].
    intros b. unfold field. rewrite Hjw. cbn [key_eqb]. apply andb_true_r. }
  split.
  { intros f Hf. apply Bool.not_false_iff_true. intros Hno. apply find_label_none in Hno.
    destruct Hf as [<- | [<- | [<- | [<- | [<- | []]]]]]; congruence. }
  rewrite Hrows. unfold entries_of. fold attr ch.
  apply Forall2_flat_map with (S := eq); [apply Forall2_same; reflexivity|].
  intros mm ? _ _ <-. cbv zeta. unfold groups_of.
  assert (forall (X : row) g, cell X k = g ->
            holds m {| e_channel := ch; e_time := m_time mm; e_well := m_well mm;
                       e_group := g; e_attribute := attr; e_value := m_value mm |}
                  ([m_time mm; m_well mm; m_value mm; PStr ch] ++ X)%list) as Hrow.
  { intros X g Hg. unfold holds, field.
    cbn [e_channel e_time e_well e_group e_attribute e_value].
    rewrite Fc, Ft, Fw, Fa, Fg. repeat split; try reflexivity.
    rewrite <- Hg. exact (cell_app_r [m_time mm; m_well mm; m_value mm; PStr ch] X k). }
  destruct (filter (fun b => val_eqb (m_well mm) (field md "Well" b)) (rows md))
    as [|b0 bs].
  - cbn [map]. constructor; [|constructor]. apply Hrow. apply cell_repeat_nan.
  - change (match map (field md "Well Group") (b0 :: bs) with
            | [] => [NaN]
            | g :: gs => g :: gs
            end) with (map (field md "Well Group") (b0 :: bs)).
    rewrite map_map. apply Forall2_map. intros b _. apply Hrow.
    rewrite Hcell by apply pad_length.
    rewrite cell_pad by (eapply find_label_bound; exact Hjg).
    unfold field. rewrite Hjg. reflexivity.
Qed.

(** Which exports pass the test [df['channel'].iloc[0] == channel]. *)
Lemma first_channel_of_join (metadata : option DataFrame) (item : string * DataFrame)
    (m : DataFrame) (ch : string) (b : bool) :
  joined_with metadata item m ->
  CytenaProcessor.first_channel_is ch m = Ok b ->
  b = String.eqb (channel_of item) ch.
Proof.
  intros (id & long & md & _ & _ & _ & Hmerge) Hfirst.
  unfold CytenaProcessor.first_channel_is, label_index in Hfirst.
  destruct (find_label (PStr "channel") (columns m)) as [j|] eqn:Hj; [|discriminate Hfirst].
  cbn [rbind] in Hfirst.
  destruct (rows m) as [|r rs] eqn:Hrows; [discriminate Hfirst|].
  apply Ok_inj in Hfirst. subst b.
  destruct (set_column_const_label (PStr "channel")
              (PStr (hd EmptyString (split "_" (fst item)))) long) as (j0 & Hj0 & Hcells & _).
  destruct (channel_of_join _ _ _ j0 j _ Hmerge Hj0 Hcells Hj) as (_ & Hch).
  rewrite (Hch r) by (rewrite Hrows; left; reflexivity). reflexivity.
Qed.

Lemma kept_exports (metadata : option DataFrame) (tables : list (string * DataFrame))
    (merged kept : list DataFrame) (ch : string) :
  Forall2 (joined_with metadata) tables merged ->
  rfilter (CytenaProcessor.first_channel_is ch) merged = Ok kept ->
  Forall2 (joined_with metadata) (exports_of ch tables) kept.
Proof.
  intros HF. revert kept. induction HF as [|item m tables merged J _ IH]; intros kept E.
  - cbn in E. apply Ok_inj in E. subst kept. constructor.
  - cbn [rfilter] in E. apply rbind_ok in E as (b & Hb & E).
    apply rbind_ok in E as (r & Hr & E). apply Ok_inj in E. subst kept.
    apply (first_channel_of_join _ _ _ _ _ J) in Hb. subst b.
    unfold exports_of. cbn [filter]. fold (exports_of ch tables).
    destruct (String.eqb (channel_of item) ch); [constructor; [exact J|]|]; apply IH; exact Hr.
Qed.

(** When no channel has two exports, the loop over the channels keeps
    the joined tables of the channels BF, green and EC, channel after
    channel. *)
Lemma channel_loop_single (metadata : option DataFrame)
    (tables : list (string * DataFrame)) (merged : list DataFrame)
    (cols_to_merge : list pyval) (channels : list string) (acc final : list DataFrame) :
  Forall2 (joined_with metadata) tables merged ->
  (forall ch, In ch channels -> (List.length (exports_of ch tables) <= 1)%nat) ->
  rfold channels (fun channel merged_dfs_final =>
    rbind (rfilter (CytenaProcessor.first_channel_is channel) merged) (fun dfs_to_merge =>
    match dfs_to_merge with
    | first :: (_ :: _) as others =>
        rbind (rfold others (fun df merged_df_channel =>
                 merge_left merged_df_channel df cols_to_merge) first)
              (fun merged_df_channel => Ok (merged_dfs_final ++ [merged_df_channel])%list)
    | [single] => Ok (merged_dfs_final ++ [single])%list
    | [] => Ok merged_dfs_final
    end)) acc = Ok final ->
  exists kept, final = (acc ++ kept)%list
               /\ Forall2 (joined_with metadata)
                    (flat_map (fun ch => exports_of ch tables) channels) kept.
Proof.
  intros HF. revert acc. induction channels as [|c channels IH]; intros acc Hone E.
  - cbn in E. apply Ok_inj in E. subst final. exists []. split; [|constructor].
    symmetry. apply app_nil_r.
  - cbn [rfold] in E. apply rbind_ok in E as (acc' & Hstep & E).
    apply rbind_ok in Hstep as (kept & Hkept & Hstep).
    pose proof (kept_exports _ _ _ _ _ HF Hkept) as HK.
    pose proof (Forall2_length HK) as Hlen.
    specialize (Hone c (or_introl eq_refl)) as Hc.
    destruct (IH acc' (fun ch Hch => Hone ch (or_intror Hch)) E) as (tl & -> & Htl).
    cbn [flat_map].
    destruct kept as [|single [|second others]].
    + apply Ok_inj in Hstep. subst acc'. exists tl. split; [reflexivity|].
      destruct (exports_of c tables); [exact Htl | discriminate Hlen].
    + apply Ok_inj in Hstep. subst acc'. exists (single :: tl).
      split; [rewrite <- app_assoc; reflexivity|].
      apply (Forall2_app HK Htl).
    + exfalso. cbn in Hlen. lia.
Qed.

Lemma find_label_app_none (l c : pyval) (cols : list pyval) :
  find_label l cols = None -> val_eqb c l = false -> find_label l (cols ++ [c])%list = None.
Proof.
  intros Hl Hc. apply find_label_none. rewrite has_label_app. apply find_label_none in Hl.
  rewrite Hl. cbn. rewrite Hc. reflexivity.
Qed.

(** [df['Scan ID'] = v] leaves the other columns as they are. *)
Lemma scan_column_other (v : pyval) (df : DataFrame) :
  Forall2 (fun r0 r => forall f, String.eqb f "Scan ID" = false ->
                         field (set_column_const (PStr "Scan ID") v df) f r = field df f r0)
          (rows df) (rows (set_column_const (PStr "Scan ID") v df)).
Proof.
  destruct (find_label (PStr "Scan ID") (columns df)) as [k|] eqn:Hk.
  - unfold set_column_const, set_column. rewrite Hk. cbn [rows columns].
    rewrite (combine_repeat (fun r x => replace_nth k x (pad (List.length (columns df)) r))).
    rewrite <- (map_id (rows df)) at 1. apply Forall2_map. intros r0 _ f Hf.
    unfold field. cbn [columns]. destruct (find_label (PStr f) (columns df)) as [j|] eqn:Hj;
      [|reflexivity].
    assert (k <> j) as Hkj.
    { intros ->. apply find_label_some in Hk. apply find_label_some in Hj.
      apply val_eqb_str in Hk. apply val_eqb_str in Hj.
      rewrite Hk in Hj. injection Hj as <-. rewrite String.eqb_refl in Hf. discriminate Hf. }
    rewrite cell_replace_nth_other by exact Hkj.
    apply cell_pad. eapply find_label_bound. exact Hj.
  - rewrite (set_column_const_new _ v df Hk). cbn [rows columns].
    rewrite <- (map_id (rows df)) at 1. apply Forall2_map. intros r0 _ f Hf.
    unfold field. cbn [columns]. destruct (find_label (PStr f) (columns df)) as [j|] eqn:Hj.
    + rewrite (find_label_app_l _ _ _ _ Hj).
      pose proof (find_label_bound _ _ _ Hj) as Hb.
      unfold cell. rewrite app_nth1 by (rewrite pad_length; exact Hb).
      apply (cell_pad _ _ _ Hb).
    + rewrite find_label_app_none; [reflexivity | exact Hj |].
      cbn [val_eqb]. rewrite String.eqb_sym. exact Hf.
Qed.

Lemma Forall2_map_right {A B C} (R : A -> C -> Prop) (g : B -> C) (l : list A) (l' : list B) :
  Forall2 (fun x y => R x (g y)) l l' -> Forall2 R l (map g l').
Proof. induction 1; cbn; constructor; assumption. Qed.

(** The rows of [pd.concat]: the rows of the tables, table after table;
    a cell under a label of its table is the cell of the row of that
    table, in the type of the column. *)
Lemma concat_fields (dfs : list DataFrame) (res : DataFrame) :
  concat dfs = Ok res ->
  Forall2 (fun ma r => forall f, has_label (PStr f) (columns (fst ma)) = true ->
                         upcast_of (field (fst ma) f (snd ma)) (field res f r))
          (flat_map (fun m => map (pair m) (rows m)) dfs) (rows res).
Proof.
  intros E. destruct (concat_rows _ _ E) as [Hcols Hrows]. cbv zeta in Hcols, Hrows.
  set (cols := fold_left (fun acc df => union_labels acc (columns df)) dfs []) in *.
  assert (Forall2 (fun ma r0 =>
            In (fst ma) dfs
            /\ r0 = map (fun c => match find_label c (columns (fst ma)) with
                                  | Some j => cell (snd ma) j
                                  | None => NaN
                                  end) cols)
            (flat_map (fun m => map (pair m) (rows m)) dfs)
            (flat_map (reindex cols) dfs)) as Hre.
  { apply Forall2_flat_map with (S := eq); [apply Forall2_same; reflexivity|].
    intros m ? Hm _ <-. unfold reindex. apply Forall2_map. intros a _. split; [exact Hm|].
    reflexivity. }
  eapply Forall2_trans; [|exact Hre|exact Hrows].
  cbv beta. intros [m a] r0 r [Hm ->] HF f Hf. cbn [fst snd] in *.
  assert (has_label (PStr f) cols = true) as Hl
    by (apply has_label_fold_union; right; exists m; split; assumption).
  apply has_label_find in Hl as [k Hk]. unfold field at 2. rewrite Hcols, Hk.
  pose proof (Forall2_cell upcast_of _ _ k HF (or_introl eq_refl)) as Hu.
  rewrite cell_map in Hu by (eapply find_label_bound; exact Hk).
  pose proof (find_label_some _ _ _ Hk) as Hn. apply val_eqb_str in Hn. rewrite Hn in Hu.
  exact Hu.
Qed.

Lemma flat_map_flat_map {A B C} (f : B -> list C) (g : A -> list B) (l : list A) :
  flat_map f (flat_map g l) = flat_map (fun x => flat_map f (g x)) l.
Proof.
  induction l as [|x l IH]; cbn; [reflexivity|]. rewrite flat_map_app. f_equal. exact IH.
Qed.

(** C8, amended. Take a run of [process] that returns, on a directory
    in which none of the channels BF, green and EC has two exports and
    whose labels do not clash. The row-level table holds the
    measurements of the exports, channel after channel, well after well
    and time point after time point; no duplicate is removed and no
    mapping wins: a measurement appears once per row of the metadata
    that maps its well, in the order of these rows and each time with
    the Well Group of the row, and it appears once, with a missing Well
    Group, when no row of the metadata maps its well. *)
Theorem measurements_repeat_per_mapping (d : string) (w : World) (agg res : DataFrame)
    (raw tables : list (string * DataFrame)) (md : DataFrame) :
  fst (CytenaProcessor.process d w) = Ok (agg, res) ->
  fst (CytenaProcessor.load_measurements d w) = Ok raw ->
  CytenaProcessor.normalise raw = Ok tables ->
  fst (CytenaProcessor.resolve_metadata d w) = Ok (Some md) ->
  one_export_per_channel tables = true ->
  plain_labels md tables = true ->
  Forall2 (shows res) (expected_entries md tables) (rows res).
Proof.
  intros E Hraw Hnorm Hmd Hone Hplain.
  destruct (process_steps d w agg res E)
    as (scan_id & raw' & tables' & md' & _ & Hraw' & Hnorm' & Hmd' & Hres & _).
  assert (raw' = raw) as -> by congruence.
  assert (tables' = tables) as -> by congruence.
  assert (md' = Some md) as -> by congruence.
  clear Hraw Hraw' Hnorm Hnorm' Hmd Hmd' E.
  unfold CytenaProcessor.reshape_and_join in Hres.
  apply rbind_ok in Hres as (long & Hlong & Hres).
  apply rbind_ok in Hres as (merged & Hmerged & Hres).
  apply rbind_ok in Hres as (md0 & Hmd0 & Hres). apply Ok_inj in Hmd0. subst md0.
  apply rbind_ok in Hres as (final & Hfinal & Hres).
  apply rbind_ok in Hres as (conc & Hconc & Hres). apply Ok_inj in Hres.
  pose proof (joined_tables _ _ _ _ Hlong Hmerged) as HF.
  assert (forall ch, In ch (map fst CytenaProcessor.possible_channels) ->
            (List.length (exports_of ch tables) <= 1)%nat) as Hone'.
  { intros ch Hch. unfold one_export_per_channel in Hone.
    rewrite forallb_forall in Hone. apply Nat.leb_le. apply Hone. exact Hch. }
  destruct (channel_loop_single _ _ _ _ _ _ _ HF Hone' Hfinal) as (kept & -> & HK).
  cbn [app] in Hconc.
  unfold plain_labels in Hplain.
  apply andb_true_iff in Hplain as [Hplain Hitems].
  apply andb_true_iff in Hplain as [Hplain Hchan]. apply negb_true_iff in Hchan.
  apply andb_true_iff in Hplain as [Hplain Htime]. apply negb_true_iff in Htime.
  apply andb_true_iff in Hplain as [_ Hwg].
  rewrite forallb_forall in Hitems.
  set (items := flat_map (fun ch => exports_of ch tables)
                  (map fst CytenaProcessor.possible_channels)) in *.
  assert (forall item, In item items ->
            is_literal (nth 0 (columns (snd item)) NaN) "Time" = true
            /\ existsb (String.eqb (attribute_of item)) ["Time"; "channel"; "Scan ID"] = false
            /\ has_label (PStr (attribute_of item)) (columns md) = false) as Hitem.
  { intros item Hin. apply in_flat_map in Hin as (ch & _ & Hin).
    apply filter_In in Hin as [Hin _]. specialize (Hitems item Hin).
    apply andb_true_iff in Hitems as [Hitems Ha]. apply andb_true_iff in Hitems as [Hf Hn].
    apply negb_true_iff in Ha. apply negb_true_iff in Hn. auto. }
  unfold expected_entries. rewrite <- flat_map_flat_map. fold items.
  assert (Forall2 (fun e ma =>
            holds (fst ma) e (snd ma)
            /\ String.eqb (e_attribute e) "Scan ID" = false
            /\ forall f, In f ["channel"; "Time"; "Well"; "Well Group"; e_attribute e] ->
                         has_label (PStr f) (columns (fst ma)) = true)
            (flat_map (entries_of md) items)
            (flat_map (fun m => map (pair m) (rows m)) kept)) as Hent.
  { eapply Forall2_flat_map; [exact HK|]. intros item m Hin _ J.
    destruct (Hitem item Hin) as (Hf & Hn & Ha).
    destruct (joined_entries md item m J Hwg Htime Hchan Hf Hn Ha) as [Hlab Hrows].
    apply Forall2_map_right.
    assert (forall e, In e (entries_of md item) -> e_attribute e = attribute_of item) as Hattr.
    { intros e He. unfold entries_of in He. apply in_flat_map in He as (mm & _ & He).
      apply in_map_iff in He as (g & <- & _). reflexivity. }
    clear -Hrows Hlab Hattr Hn.
    induction Hrows as [|e a es rs Hea _ IH]; constructor.
    - cbn [fst snd]. rewrite (Hattr e (or_introl eq_refl)). split; [exact Hea|]. split.
      + cbn [existsb] in Hn. apply orb_false_iff in Hn as [_ Hn].
        apply orb_false_iff in Hn as [_ Hn]. apply orb_false_iff in Hn as [Hn _]. exact Hn.
      + exact Hlab.
    - apply IH. intros e' He'. apply Hattr. right. exact He'. }
  pose proof (concat_fields _ _ Hconc) as Hcat.
  pose proof (scan_column_other
                (match scan_id with Some s => PStr s | None => PNone end) conc) as Hscan.
  rewrite Hres in Hscan.
  assert (Forall2 (fun e r0 => shows conc e r0
                               /\ String.eqb (e_attribute e) "Scan ID" = false)
            (flat_map (entries_of md) items) (rows conc)) as Hconc'.
  { eapply Forall2_trans; [| exact Hent | exact Hcat].
    cbv beta. intros e ma r0 ((Hc & Ht & Hw & Hg & Hv) & Hsid & Hlab) Hr0.
    split; [|exact Hsid]. unfold shows.
    rewrite <- Ht, <- Hw, <- Hg, <- Hv.
    repeat split; try (apply Hr0; apply Hlab; cbn; tauto).
    eapply upcast_of_str; [apply Hr0; apply Hlab; cbn; tauto | exact Hc]. }
  eapply Forall2_trans; [| exact Hconc' | exact Hscan].
  cbv beta. intros e r0 r [(Hc & Ht & Hw & Hg & Hv) Hsid] Hr.
  unfold shows. rewrite !Hr by (reflexivity || exact Hsid). auto.
Qed.

End Rows.

Lemma measurements_repeat_per_mapping_witness :
  Forall2 (shows (snd twice_tables))
          (expected_entries (metadata_read (H := Decimal.numerics) "twice" Examples.world)
                            (tables_read (H := Decimal.numerics) "twice" Examples.world))
          (rows (snd twice_tables))
  /\ rows (metadata_read (H := Decimal.numerics) "twice" Examples.world)
     = [[PStr "A1"; PStr "G1"; PStr "G1"]; [PStr "A1"; PStr "G2"; PStr "G2"];
        [PStr "A2"; PStr "G1"; PStr "G1"]]
  /\ expected_entries (metadata_read (H := Decimal.numerics) "twice" Examples.world)
                      (tables_read (H := Decimal.numerics) "twice" Examples.world)
     = map (fun wgv => {| e_channel := "BF"; e_time := PInt 1; e_well := PStr (fst (fst wgv));
                          e_group := snd (fst wgv); e_attribute := "total_intensity";
                          e_value := PInt (snd wgv) |})
           [("A1", PStr "G1", 10%Z); ("A1", PStr "G2", 10%Z); ("A2", PStr "G1", 20%Z);
            ("B1", NaN, 7%Z); ("C1", NaN, 3%Z)].
Proof.
  split; [|split].
  - apply (measurements_repeat_per_mapping (H := Decimal.numerics) "twice" Examples.world
             (fst twice_tables) (snd twice_tables) (raw_tables "twice" Examples.world)).
    + vm_compute. reflexivity.
    + vm_compute. reflexivity.
    + vm_compute. reflexivity.
    + vm_compute. reflexivity.
    + vm_compute. reflexivity.
    + vm_compute. reflexivity.
  - vm_compute. reflexivity.
  - vm_compute. reflexivity.
Defined.

(** Where a channel has two exports, lines 226-232 join the joined
    tables of the channel once more, on the columns of the metadata, on
    "Time" and on "channel", and the row-level table is another: in the
    directory [listed] the two exports of the channel BF hold eight
    measurements, and the row-level table has four rows. *)
Remark same_channel_exports_are_joined_again :
  one_export_per_channel (tables_read (H := Decimal.numerics) "listed" Examples.listings)
  = false
  /\ List.length (expected_entries
                    (metadata_read (H := Decimal.numerics) "listed" Examples.listings)
                    (tables_read (H := Decimal.numerics) "listed" Examples.listings))
     = 8%nat
  /\ List.length (rows (snd listed_tables)) = 4%nat.
Proof. repeat split; vm_compute; reflexivity. Qed.

(* ================================================================== *)
(** * The scan identifier in the tables *)
(* ================================================================== *)

Lemma replace_nth_length {A} (j : nat) (x : A) (l : list A) :
  List.length (replace_nth j x l) = List.length l.
Proof.
  revert j. induction l as [|y l IH]; intros [|j]; cbn; auto.
Qed.

Lemma replace_nth_twice {A} (j : nat) (x y : A) (l : list A) :
  replace_nth j y (replace_nth j x l) = replace_nth j y l.
Proof.
  revert j. induction l as [|z l IH]; intros [|j]; cbn; f_equal; auto.
Qed.

Lemma replace_nth_last {A} (x y : A) (l : list A) :
  replace_nth (List.length l) y (l ++ [x])%list = (l ++ [y])%list.
Proof. induction l as [|z l IH]; cbn; f_equal; auto. Qed.

(** Writing a column twice is writing it once. *)
Lemma set_column_const_twice (l u v : pyval) (df : DataFrame) :
  set_column_const l v (set_column_const l u df) = set_column_const l v df.
Proof.
  assert (forall n (X : row), List.length X = n -> pad n X = X) as Hp
    by (intros n X <-; apply pad_all).
  destruct (find_label l (columns df)) as [k|] eqn:Hk.
  - unfold set_column_const at 2 3. unfold set_column. rewrite Hk.
    rewrite !(combine_repeat (fun r x => replace_nth k x (pad (List.length (columns df)) r))).
    unfold set_column_const, set_column. cbn [columns rows]. rewrite Hk. f_equal.
    rewrite (combine_repeat (fun r x => replace_nth k x (pad (List.length (columns df)) r))).
    rewrite map_map. apply map_ext. intros r.
    rewrite Hp by (rewrite replace_nth_length; apply pad_length).
    apply replace_nth_twice.
  - rewrite !(set_column_const_new _ _ df Hk).
    unfold set_column_const, set_column. cbn [columns rows].
    rewrite (find_label_app_new _ _ Hk). f_equal.
    rewrite (combine_repeat (fun r x => replace_nth (List.length (columns df)) x
                                          (pad (List.length (columns df ++ [l])) r))).
    rewrite map_map. apply map_ext. intros r.
    rewrite Hp by (rewrite !length_app, pad_length; reflexivity).
    rewrite <- (pad_length (List.length (columns df)) r) at 1.
    apply replace_nth_last.
Qed.

Section ScanColumn.
Context `{Numerics}.

(** The scan identifier goes into the column "Scan ID" of the row-level
    table and into nothing else. *)
Lemma reshape_scan_id (tables : list (string * DataFrame)) (metadata : option DataFrame)
    (scan_id scan_id' : option string) :
  CytenaProcessor.reshape_and_join tables metadata scan_id'
  = rbind (CytenaProcessor.reshape_and_join tables metadata scan_id)
          (fun res => Ok (set_column_const (PStr "Scan ID") (scan_value scan_id') res)).
Proof.
  unfold CytenaProcessor.reshape_and_join.
  destruct (rmap _ tables) as [long|]; [|reflexivity]. cbn [rbind].
  destruct (rmap _ long) as [merged|]; [|reflexivity]. cbn [rbind].
  destruct (CytenaProcessor.local metadata) as [md|]; [|reflexivity]. cbn [rbind].
  destruct (rfold _ _ _) as [final|]; [|reflexivity]. cbn [rbind].
  destruct (concat final) as [conc|]; [|reflexivity]. cbn [rbind].
  rewrite set_column_const_twice. reflexivity.
Qed.

Lemma find_label_scan (f : string) (u : pyval) (df : DataFrame) :
  String.eqb f "Scan ID" = false ->
  find_label (PStr f) (columns (set_column_const (PStr "Scan ID") u df))
  = find_label (PStr f) (columns df).
Proof.
  intros Hf. destruct (find_label (PStr "Scan ID") (columns df)) as [k|] eqn:Hk.
  - unfold set_column_const, set_column. rewrite Hk. reflexivity.
  - rewrite (set_column_const_new _ u df Hk). cbn [columns].
    destruct (find_label (PStr f) (columns df)) as [j|] eqn:Hj.
    + apply find_label_app_l. exact Hj.
    + apply find_label_app_none; [exact Hj|]. cbn [val_eqb]. rewrite String.eqb_sym. exact Hf.
Qed.

(** The groups and their aggregates depend on the key columns and on
    the aggregated columns only. *)
Lemma groupby_cells_ext (ks js : list nat) (df df' : DataFrame) :
  Forall2 (fun r0 r => forall j, In j (ks ++ js)%list -> cell r j = cell r0 j)
          (rows df) (rows df') ->
  GroupBy.group_keys ks df' = GroupBy.group_keys ks df
  /\ forall k, GroupBy.agg_cells js (GroupBy.group_rows ks df' k)
               = GroupBy.agg_cells js (GroupBy.group_rows ks df k).
Proof.
  intros HF.
  assert (Forall2 (fun r0 r => key_of ks r = key_of ks r0) (rows df) (rows df')) as Hkeys.
  { eapply Forall2_impl; [|exact HF]. cbv beta. intros r0 r Hr. unfold key_of.
    apply map_ext_in. intros j Hj. apply Hr. apply in_or_app. left. exact Hj. }
  split.
  - unfold GroupBy.group_keys. do 3 f_equal.
    clear -Hkeys. induction Hkeys as [|r0 r l0 l E _ IH]; cbn; [reflexivity|].
    rewrite E, IH. reflexivity.
  - intros k. unfold GroupBy.agg_cells. f_equal. apply rmap_ext_in. intros j Hj.
    do 2 f_equal. unfold GroupBy.group_rows.
    assert (Forall2 (fun r0 r => key_of ks r = key_of ks r0 /\ cell r j = cell r0 j)
              (rows df) (rows df')) as Hboth.
    { clear -HF Hkeys Hj. induction HF as [|r0 r l0 l Hr _ IH]; [constructor|].
      inversion Hkeys; subst. constructor; [|apply IH; assumption].
      split; [assumption|]. apply Hr. apply in_or_app. right. exact Hj. }
    clear -Hboth. induction Hboth as [|r0 r l0 l [E Ec] _ IH]; cbn; [reflexivity|].
    rewrite E. destruct (key_eqb (key_of ks r0) k); cbn; rewrite ?Ec, IH; reflexivity.
Qed.

Lemma label_indices (names : list string) (cols : list pyval) (js : list nat) (j : nat) :
  rmap (fun a => label_index (PStr a) cols) names = Ok js -> In j js ->
  exists f, In f names /\ find_label (PStr f) cols = Some j.
Proof.
  intros E Hj. apply rmap_ok in E.
  destruct (Forall2_in_r _ _ _ _ E Hj) as (f & Hf & Ef). exists f. split; [exact Hf|].
  unfold label_index in Ef. destruct (find_label (PStr f) cols); congruence.
Qed.

Lemma groupby_agg_scan (keys attrs : list string) (u : pyval) (df : DataFrame) :
  (forall f, In f (keys ++ attrs)%list -> String.eqb f "Scan ID" = false) ->
  GroupBy.groupby_agg keys attrs (set_column_const (PStr "Scan ID") u df)
  = GroupBy.groupby_agg keys attrs df.
Proof.
  intros Hno. unfold GroupBy.groupby_agg.
  rewrite (rmap_ext_in (fun k => label_index (PStr k)
                                   (columns (set_column_const (PStr "Scan ID") u df)))
                       (fun k => label_index (PStr k) (columns df)) keys)
    by (intros k Hk; unfold label_index; rewrite find_label_scan;
        [reflexivity | apply Hno; apply in_or_app; left; exact Hk]).
  rewrite (rmap_ext_in (fun k => label_index (PStr k)
                                   (columns (set_column_const (PStr "Scan ID") u df)))
                       (fun k => label_index (PStr k) (columns df)) attrs)
    by (intros k Hk; unfold label_index; rewrite find_label_scan;
        [reflexivity | apply Hno; apply in_or_app; right; exact Hk]).
  destruct (rmap _ keys) as [ks|] eqn:Hks; [|reflexivity]. cbn [rbind].
  destruct (rmap _ attrs) as [js|] eqn:Hjs; [|reflexivity]. cbn [rbind].
  destruct attrs as [|a0 attrs0] eqn:Ea; [reflexivity|]. rewrite <- Ea in *.
  destruct (groupby_cells_ext ks js df (set_column_const (PStr "Scan ID") u df))
    as [Hkeys Hcells].
  { eapply Forall2_impl; [|apply (scan_column_other u df)]. cbv beta.
    intros r0 r Hr j Hj.
    assert (exists f, In f (keys ++ attrs)%list /\ find_label (PStr f) (columns df) = Some j)
      as (f & Hf & Ef).
    { apply in_app_or in Hj as [Hj | Hj].
      - destruct (label_indices _ _ _ _ Hks Hj) as (f & Hf & Ef).
        exists f. split; [apply in_or_app; left; exact Hf | exact Ef].
      - destruct (label_indices _ _ _ _ Hjs Hj) as (f & Hf & Ef).
        exists f. split; [apply in_or_app; right; exact Hf | exact Ef]. }
    specialize (Hr f (Hno f Hf)). unfold field in Hr.
    rewrite (find_label_scan f u df (Hno f Hf)), Ef in Hr. exact Hr. }
  rewrite Hkeys.
  rewrite (rmap_ext_in _ (fun k => rbind (GroupBy.agg_cells js (GroupBy.group_rows ks df k))
                                         (fun cs => Ok (k ++ cs)%list)))
    by (intros k _; rewrite Hcells; reflexivity).
  reflexivity.
Qed.

(** The aggregation does not look into the scan column of the row-level
    table, and the scan identifier goes into the scan column of the
    aggregated table and into nothing else. *)
Lemma aggregate_scan_id (results : DataFrame) (u : pyval) (scan_id scan_id' : option string) :
  CytenaProcessor.aggregate (set_column_const (PStr "Scan ID") u results) scan_id'
  = rbind (CytenaProcessor.aggregate results scan_id)
          (fun agg => Ok (set_column_const (PStr "Scan ID") (scan_value scan_id') agg)).
Proof.
  unfold CytenaProcessor.aggregate.
  set (attrs_of := fun cols : list pyval =>
         flat_map (fun col => match col with
                              | PStr s => if dict_has s CytenaProcessor.possible_attributes
                                          then [s] else []
                              | _ => []
                              end) cols).
  assert (attrs_of (columns (set_column_const (PStr "Scan ID") u results))
          = attrs_of (columns results)) as Hattrs.
  { destruct (find_label (PStr "Scan ID") (columns results)) as [k|] eqn:Hk.
    - unfold set_column_const, set_column. rewrite Hk. reflexivity.
    - rewrite (set_column_const_new _ u results Hk). cbn [columns]. unfold attrs_of.
      rewrite flat_map_app. cbn. apply app_nil_r. }
  fold (attrs_of (columns (set_column_const (PStr "Scan ID") u results))).
  fold (attrs_of (columns results)). rewrite Hattrs.
  rewrite groupby_agg_scan.
  - destruct (GroupBy.groupby_agg _ _ results) as [ra|]; [|reflexivity]. cbn [rbind].
    rewrite set_column_const_twice. reflexivity.
  - intros f Hf. apply in_app_or in Hf as [Hf | Hf].
    + destruct Hf as [<- | [<- | [<- | []]]]; reflexivity.
    + unfold attrs_of in Hf. apply in_flat_map in Hf as (c & _ & Hf).
      destruct c as [| | | |s]; try destruct Hf.
      destruct (dict_has s CytenaProcessor.possible_attributes) eqn:D; [|destruct Hf].
      destruct Hf as [<- | []].
      destruct (String.eqb s "Scan ID") eqn:Es; [|reflexivity].
      apply String.eqb_eq in Es. subst s. discriminate D.
Qed.

End ScanColumn.

(** ** The row-level table has rows *)

Section HasRows.
Context `{Numerics}.

Lemma merge_left_has_rows (l r m : DataFrame) (on : list pyval) :
  merge_left l r on = Ok m -> rows l <> [] -> rows m <> [].
Proof.
  unfold merge_left. intros E Hl.
  apply rbind_ok in E as (lk & _ & E). apply rbind_ok in E as (rk & _ & E).
  apply Ok_inj in E. subst m. cbn [rows].
  destruct (rows l) as [|a rest]; [congruence|]. cbn [flat_map].
  match goal with |- context [filter ?p (rows r)] => destruct (filter p (rows r)) end;
    cbn; discriminate.
Qed.

Lemma chain_has_rows (others : list DataFrame) (first merged : DataFrame)
    (on : list pyval) :
  rfold others (fun df merged_df_channel => merge_left merged_df_channel df on) first
  = Ok merged ->
  rows first <> [] -> rows merged <> [].
Proof.
  revert first. induction others as [|df others IH]; intros first E Hf.
  - cbn in E. apply Ok_inj in E. subst merged. exact Hf.
  - cbn [rfold] in E. apply rbind_ok in E as (m1 & Hm1 & E).
    apply (IH m1 E). eapply merge_left_has_rows; eassumption.
Qed.

Lemma first_channel_has_rows (ch : string) (df : DataFrame) (b : bool) :
  CytenaProcessor.first_channel_is ch df = Ok b -> rows df <> [].
Proof.
  unfold CytenaProcessor.first_channel_is. intros E.
  apply rbind_ok in E as (j & _ & E). destruct (rows df); [discriminate E | discriminate].
Qed.

Lemma final_has_rows (merged : list DataFrame) (cols_to_merge : list pyval)
    (channels : list string) (acc final : list DataFrame) :
  (forall df, In df acc -> rows df <> []) ->
  rfold channels (fun channel merged_dfs_final =>
    rbind (rfilter (CytenaProcessor.first_channel_is channel) merged) (fun dfs_to_merge =>
    match dfs_to_merge with
    | first :: (_ :: _) as others =>
        rbind (rfold others (fun df merged_df_channel =>
                 merge_left merged_df_channel df cols_to_merge) first)
              (fun merged_df_channel => Ok (merged_dfs_final ++ [merged_df_channel])%list)
    | [single] => Ok (merged_dfs_final ++ [single])%list
    | [] => Ok merged_dfs_final
    end)) acc = Ok final ->
  forall df, In df final -> rows df <> [].
Proof.
  revert acc. induction channels as [|c channels IH]; intros acc Hacc E.
  - cbn in E. apply Ok_inj in E. subst final. exact Hacc.
  - cbn [rfold] in E. apply rbind_ok in E as (acc' & Hstep & E).
    apply (IH acc'); [|exact E].
    apply rbind_ok in Hstep as (kept & Hkept & Hstep).
    destruct (rfilter_ok _ _ _ Hkept) as [_ Hin].
    assert (forall x, In x kept -> rows x <> []) as Hk
      by (intros x Hx; destruct (Hin x Hx) as [_ Hp];
          eapply first_channel_has_rows; exact Hp).
    destruct kept as [|first [|second others]].
    + apply Ok_inj in Hstep. subst acc'. exact Hacc.
    + apply Ok_inj in Hstep. subst acc'. intros df Hdf.
      apply in_app_iff in Hdf as [Hdf | [<- | []]]; [apply Hacc; exact Hdf|].
      apply Hk. left. reflexivity.
    + apply rbind_ok in Hstep as (m & Hm & Hstep). apply Ok_inj in Hstep. subst acc'.
      intros df Hdf. apply in_app_iff in Hdf as [Hdf | [<- | []]]; [apply Hacc; exact Hdf|].
      eapply chain_has_rows; [exact Hm|]. apply Hk. left. reflexivity.
Qed.

(** The row-level table has the column "Scan ID" and a row or more. *)
Lemma reshape_returns_rows (tables : list (string * DataFrame))
    (metadata : option DataFrame) (scan_id : option string) (res : DataFrame) :
  CytenaProcessor.reshape_and_join tables metadata scan_id = Ok res ->
  has_label (PStr "Scan ID") (columns res) = true /\ rows res <> [].
Proof.
  unfold CytenaProcessor.reshape_and_join. intros E.
  apply rbind_ok in E as (long & _ & E). apply rbind_ok in E as (merged & _ & E).
  apply rbind_ok in E as (md & _ & E). apply rbind_ok in E as (final & Hfinal & E).
  apply rbind_ok in E as (conc & Hconc & E). apply Ok_inj in E. subst res.
  destruct (set_column_const_label (PStr "Scan ID")
              (match scan_id with Some s => PStr s | None => PNone end) conc)
    as (j & Hj & _ & Hlen).
  split.
  - apply Bool.not_false_iff_true. intros Hno. apply find_label_none in Hno. congruence.
  - intros Hnil. rewrite Hnil in Hlen. cbn in Hlen.
    destruct (concat_rows _ _ Hconc) as [_ Hrows]. cbv zeta in Hrows.
    apply Forall2_length in Hrows. rewrite <- Hlen in Hrows.
    destruct final as [|d0 final]; [discriminate Hconc|].
    pose proof (final_has_rows _ _ _ _ _ (fun df (Hdf : In df []) => match Hdf with end)
                  Hfinal d0 (or_introl eq_refl)) as Hd0.
    cbn [flat_map] in Hrows. rewrite length_app in Hrows. unfold reindex at 1 in Hrows.
    rewrite length_map in Hrows. destruct (rows d0); [congruence | discriminate Hrows].
Qed.

Lemma aggregate_has_scan_column (results agg : DataFrame) (scan_id : option string) :
  CytenaProcessor.aggregate results scan_id = Ok agg ->
  has_label (PStr "Scan ID") (columns agg) = true.
Proof.
  unfold CytenaProcessor.aggregate. intros E.
  apply rbind_ok in E as (ra & _ & E). apply Ok_inj in E. subst agg.
  match goal with |- has_label _ (columns (set_column_const _ ?v ?t)) = true =>
    destruct (set_column_const_label (PStr "Scan ID") v t) as (j & Hj & _)
  end.
  apply Bool.not_false_iff_true. intros Hno. apply find_label_none in Hno. congruence.
Qed.

(** With no scan identifier, the rest of the run takes the course it
    takes with one, and [None] stands in the scan columns. *)
Lemma process_from_missing (d : string) (s : option string) :
  agree d d (fun known missing => missing = scan_missing known)
        (process_from s d) (process_from None d).
Proof.
  pose proof (agree_load_measurements d d). pose proof (agree_resolve_metadata d d).
  pose proof keeps_resolve_metadata.
  unfold process_from.
  apply agree_bind with (RA := eq); [keeps_all | keeps_all | auto with world |].
  intros raw ? <-.
  apply agree_bind with (RA := eq); [keeps_all | keeps_all | apply agree_lift |].
  intros tables ? <-.
  apply agree_bind with (RA := eq); [keeps_all | keeps_all | assumption |].
  intros md ? <-.
  apply agree_bind with (RA := fun r r' => r' = set_column_const (PStr "Scan ID") PNone r);
    [keeps_all | keeps_all | |].
  { intros w1 w2 _. cbn [lift fst]. rewrite (reshape_scan_id tables md s None).
    destruct (CytenaProcessor.reshape_and_join tables md s); reflexivity. }
  intros r ? ->.
  apply agree_bind with (RA := fun a a' => a' = set_column_const (PStr "Scan ID") PNone a);
    [keeps_all | keeps_all | |].
  { intros w1 w2 _. cbn [lift fst]. rewrite (aggregate_scan_id r PNone s None).
    destruct (CytenaProcessor.aggregate r s); reflexivity. }
  intros a ? ->. apply agree_ret. reflexivity.
Qed.

End HasRows.

(** C6. When every CSV file of the directory has the same prefix (the
    text before the first underscore of its name), the scan identifier
    is that prefix. When two CSV files differ in their prefix,
    [_extract_scan_id] raises nothing and returns [None], and so does
    the run: [process] takes the course it takes when the scan
    identifier is known (it raises the same exception, or it returns
    the same two tables) except that [None], a missing value, stands in
    the scan column. When it returns, the two tables have the column
    "Scan ID", the row-level table has a row or more, and the column
    holds [None] in every row. *)
Theorem scan_id_is_the_common_prefix `{Numerics} (d : string) (w : World)
    (names : list string) :
  fst (listdir [d] w) = Ok names ->
  (forall p, csv_files names <> [] ->
             (forall f, In f (csv_files names) -> scan_prefix f = p) ->
             fst (CytenaProcessor._extract_scan_id d w) = Ok (Some p))
  /\ (forall f g, In f (csv_files names) -> In g (csv_files names) ->
                  scan_prefix f <> scan_prefix g ->
                  fst (CytenaProcessor._extract_scan_id d w) = Ok None
                  /\ (forall s, same_outcome (fun known missing => missing = scan_missing known)
                                  (fst (process_with (Some s) d w))
                                  (fst (CytenaProcessor.process d w)))
                  /\ forall agg res,
                       fst (CytenaProcessor.process d w) = Ok (agg, res) ->
                       has_label (PStr "Scan ID") (columns agg) = true
                       /\ has_label (PStr "Scan ID") (columns res) = true
                       /\ rows res <> []
                       /\ (forall a, In a (rows agg) -> field agg "Scan ID" a = PNone)
                       /\ (forall r, In r (rows res) -> field res "Scan ID" r = PNone))
  /\ (forall p rest, contains "_" p = false -> scan_prefix (p ++ String "_" rest) = p)
  /\ isna PNone = true.
Proof.
  intros Hls. pose proof Hls as Hls'. apply read_run in Hls.
  assert (forall f g, In f (csv_files names) -> In g (csv_files names) ->
                      scan_prefix f <> scan_prefix g ->
                      fst (CytenaProcessor._extract_scan_id d w) = Ok None) as Hnone.
  { unfold CytenaProcessor._extract_scan_id, bind. unfold listdir. rewrite Hls.
    destruct (prefixes_spec names []) as [Hin _]. cbv zeta in Hin.
    set (prefixes := fold_left _ names []) in *.
    intros f g Hf Hg Hne.
    assert (In (scan_prefix f) prefixes) as Pf by (apply Hin; eauto).
    assert (In (scan_prefix g) prefixes) as Pg by (apply Hin; eauto).
    destruct prefixes as [|x [|y l]]; [destruct Pf | | reflexivity].
    exfalso. apply Hne. destruct Pf as [<- | []], Pg as [<- | []]. reflexivity. }
  split; [|split; [|split; [apply scan_prefix_before_underscore | reflexivity]]].
  - unfold CytenaProcessor._extract_scan_id, bind. unfold listdir. rewrite Hls.
    destruct (prefixes_spec names []) as [Hin Hnd]. specialize (Hnd (NoDup_nil _)).
    cbv zeta in Hin, Hnd.
    set (prefixes := fold_left _ names []) in *.
    intros p Hne Hall.
    assert (forall x, In x prefixes -> x = p) as Hp.
    { intros x Hx. apply Hin in Hx as [[] | [f [Hf <-]]]. auto. }
    assert (In p prefixes) as Hpin.
    { destruct (csv_files names) as [|f fs] eqn:E; [congruence|].
      apply Hin. right. exists f. split; [left; reflexivity | apply Hall; left; reflexivity]. }
    destruct prefixes as [|x [|y l]]; [destruct Hpin | |].
    + rewrite (Hp x) by (left; reflexivity). reflexivity.
    + exfalso. inversion Hnd as [|? ? Hx _]; subst. apply Hx.
      rewrite (Hp x), (Hp y) by (cbn; auto). left. reflexivity.
  - intros f g Hf Hg Hne. pose proof (Hnone f g Hf Hg Hne) as Hscan.
    split; [exact Hscan|]. split.
    + intros s. unfold process_with, CytenaProcessor.process, bind.
      destruct (CytenaProcessor._validate_directory d w) as [[d'|e] w1] eqn:V;
        [|reflexivity].
      assert (d' = d) as -> by (eapply validate_returns; exact V).
      apply (run_fs _ _ _ _ (keeps_validate d)) in V.
      destruct (CytenaProcessor._extract_scan_id d w1) as [sid w2] eqn:S.
      pose proof (run_fs _ _ _ _ (keeps_extract_scan_id d) S) as F2.
      assert (sid = Ok None) as ->.
      { rewrite <- Hscan. replace sid with (fst (CytenaProcessor._extract_scan_id d w1))
          by (rewrite S; reflexivity).
        apply same_outcome_eq. apply (agree_extract_scan_id d d). unfold same_dir.
        congruence. }
      apply (process_from_missing d (Some s) w1 w2). unfold same_dir. congruence.
    + intros agg res E.
      destruct (process_returns d w agg res E) as (scan_id & tables & md & Hs & Hres & Hagg).
      assert (scan_id = None) as -> by congruence.
      destruct (reshape_returns_rows _ _ _ _ Hres) as [Hcol Hrows].
      split; [exact (aggregate_has_scan_column _ _ _ Hagg)|].
      split; [exact Hcol|]. split; [exact Hrows|]. split.
      * intros a Ha. exact (aggregate_scan_column _ _ _ a Hagg Ha).
      * intros r Hr. exact (reshape_scan_column _ _ _ _ r Hres Hr).
Qed.

Lemma scan_id_is_the_common_prefix_witness :
  fst (CytenaProcessor._extract_scan_id "run1" Examples.world) = Ok (Some "scan42")
  /\ fst (CytenaProcessor._extract_scan_id "mixed" Examples.world) = Ok None
  /\ same_outcome (fun known missing => missing = scan_missing known)
       (fst (process_with (H := Decimal.numerics) (Some "scanA") "mixed" Examples.world))
       (fst (CytenaProcessor.process (H := Decimal.numerics) "mixed" Examples.world))
  /\ fst (CytenaProcessor.process (H := Decimal.numerics) "mixed" Examples.world)
     = Ok mixed_tables
  /\ (has_label (PStr "Scan ID") (columns (fst mixed_tables)) = true
      /\ has_label (PStr "Scan ID") (columns (snd mixed_tables)) = true
      /\ rows (snd mixed_tables) <> []
      /\ (forall a, In a (rows (fst mixed_tables)) ->
                    field (fst mixed_tables) "Scan ID" a = PNone)
      /\ (forall r, In r (rows (snd mixed_tables)) ->
                    field (snd mixed_tables) "Scan ID" r = PNone))
  /\ map (field (snd mixed_tables) "Well") (rows (snd mixed_tables))
     = [PStr "A1"; PStr "A2"; PStr "B1"; PStr "C1"; PStr "A1"; PStr "A1"; PStr "A2"; PStr "A2"]
  /\ map (field (snd mixed_tables) "Scan ID") (rows (snd mixed_tables))
     = repeat PNone 8.
Proof.
  pose proof (scan_id_is_the_common_prefix (H := Decimal.numerics) "mixed" Examples.world
                ["scanA_summary_wells_BF_total_intensity.csv";
                 "scanB_summary_wells_green_confluency.csv"; "plate.xlsx"] eq_refl)
    as (_ & Hmixed & _).
  destruct (Hmixed "scanA_summary_wells_BF_total_intensity.csv"
                   "scanB_summary_wells_green_confluency.csv"
                   (or_introl eq_refl) (or_intror (or_introl eq_refl))
                   ltac:(discriminate)) as (Hnone & Hrun & Hcol).
  split; [|split; [exact Hnone|split; [exact (Hrun "scanA")|split; [|split; [|split]]]]].
  - apply (proj1 (scan_id_is_the_common_prefix (H := Decimal.numerics) "run1" Examples.world
                    ["scan42_summary_wells_BF_total_intensity.csv";
                     "scan42_summary_wells_green_confluency.csv"; "plate.xlsx"] eq_refl)).
    + discriminate.
    + intros f [<- | [<- | []]]; reflexivity.
  - vm_compute. reflexivity.
  - apply Hcol. vm_compute. reflexivity.
  - vm_compute. reflexivity.
  - vm_compute. reflexivity.
Defined.

(* ================================================================== *)
(** * From the grid to the table of wells *)
(* ================================================================== *)

Lemma map_fst_combine {A B} (l : list A) (l' : list B) :
  List.length l = List.length l' -> map fst (combine l l') = l.
Proof.
  revert l'. induction l as [|x l IH]; intros [|y l'] E; cbn in *; try discriminate;
    [reflexivity|]. f_equal. apply IH. lia.
Qed.

Lemma map_snd_combine {A B} (l : list A) (l' : list B) :
  List.length l = List.length l' -> map snd (combine l l') = l'.
Proof.
  revert l'. induction l as [|x l IH]; intros [|y l'] E; cbn in *; try discriminate;
    [reflexivity|]. f_equal. apply IH. lia.
Qed.

(** [df[c] = vals] writes one column and leaves the others. *)
Lemma column_at_set_column (c : pyval) (vals : list pyval) (df : DataFrame) (k j : nat) :
  find_label c (columns df) = Some k ->
  List.length vals = List.length (rows df) ->
  (j < List.length (columns df))%nat ->
  column_at j (set_column c vals df) = if (j =? k)%nat then vals else column_at j df.
Proof.
  intros Hk Hl Hj. unfold set_column, column_at. rewrite Hk. cbn [rows]. rewrite map_map.
  destruct (Nat.eqb_spec j k) as [->|Hjk].
  - rewrite <- (map_snd_combine (rows df) vals) at 2 by congruence.
    apply map_ext. intros [r v]. cbn [fst snd].
    apply cell_replace_nth. rewrite pad_length. exact Hj.
  - rewrite <- (map_fst_combine (rows df) vals) at 2 by congruence.
    rewrite map_map. apply map_ext. intros [r v]. cbn [fst snd].
    rewrite cell_replace_nth_other by congruence. apply cell_pad. exact Hj.
Qed.

(** A table whose rows have a cell for every column is the table of its
    columns. *)
Lemma rows_of_columns (df : DataFrame) :
  (forall r, In r (rows df) -> List.length r = List.length (columns df)) ->
  rows df = map (fun i => map (fun j => nth i (column_at j df) NaN)
                              (seq 0 (List.length (columns df))))
                (seq 0 (List.length (rows df))).
Proof.
  intros Hlen. apply (nth_ext _ _ [] []).
  - rewrite length_map, length_seq. reflexivity.
  - intros i Hi.
    set (F := fun i => map (fun j => nth i (column_at j df) NaN)
                           (seq 0 (List.length (columns df)))).
    rewrite (nth_indep (map F (seq 0 (List.length (rows df)))) [] (F 0%nat))
      by (rewrite length_map, length_seq; exact Hi).
    rewrite (map_nth F), seq_nth by exact Hi. cbn [Nat.add]. unfold F.
    assert (In (nth i (rows df) []) (rows df)) as Hin by (apply nth_In; exact Hi).
    rewrite <- (pad_all (nth i (rows df) [])) at 1. rewrite (Hlen _ Hin).
    unfold pad. apply map_ext. intros j. symmetry. apply column_at_nth.
Qed.

(** The loop of lines 64-68 over a grid with distinct labels. *)
Lemma strip_fold (md : DataFrame) (todo : list pyval) (k : nat) (df : DataFrame) :
  distinct_labels (columns md) ->
  skipn k (columns md) = todo ->
  columns df = columns md ->
  List.length (rows df) = List.length (rows md) ->
  (forall j, (j < List.length (columns md))%nat ->
     column_at j df = if ((2 <=? j) && (j <? k))%nat
                      then (if MetadataParser.is_object (column_at j md)
                            then map MetadataParser.str_replace_ppb (column_at j md)
                            else column_at j md)
                      else column_at j md) ->
  (2 <= k)%nat ->
  let df' := fold_left (fun df col =>
               match find_label col (columns df) with
               | Some j =>
                   if MetadataParser.is_object (column_at j df)
                   then set_column col (map MetadataParser.str_replace_ppb (column_at j df)) df
                   else df
               | None => df
               end) todo df in
  columns df' = columns md
  /\ List.length (rows df') = List.length (rows md)
  /\ forall j, (j < List.length (columns md))%nat ->
       column_at j df' = if (2 <=? j)%nat
                         then (if MetadataParser.is_object (column_at j md)
                               then map MetadataParser.str_replace_ppb (column_at j md)
                               else column_at j md)
                         else column_at j md.
Proof.
  intros Hd. revert k df. induction todo as [|c todo IH]; intros k df Hs Hc Hr Hcol H2.
  - cbn [fold_left]. split; [exact Hc|]. split; [exact Hr|]. intros j Hj.
    rewrite (Hcol j Hj).
    assert (List.length (columns md) <= k)%nat as Hk.
    { destruct (Nat.le_gt_cases (List.length (columns md)) k) as [L|L]; [exact L|].
      exfalso. apply (f_equal (@List.length pyval)) in Hs. rewrite length_skipn in Hs.
      cbn in Hs. lia. }
    replace (j <? k)%nat with true by (symmetry; apply Nat.ltb_lt; lia).
    rewrite andb_true_r. reflexivity.
  - destruct (skipn_cons_nth _ _ _ NaN _ Hs) as (Hk & Hn & Hs').
    cbn [fold_left]. rewrite Hc, <- Hn, (find_label_distinct _ _ Hd Hk).
    pose proof (Hcol k Hk) as Hkcol. rewrite Nat.ltb_irrefl, andb_false_r in Hkcol.
    rewrite Hkcol.
    assert (find_label (nth k (columns md) NaN) (columns df) = Some k) as Hfind
      by (rewrite Hc; apply find_label_distinct; assumption).
    assert (List.length (map MetadataParser.str_replace_ppb (column_at k md))
            = List.length (rows df)) as Hlen
      by (rewrite length_map, column_at_length; congruence).
    apply (IH (S k)); [exact Hs' | | | | lia].
    + destruct (MetadataParser.is_object (column_at k md)); [|exact Hc].
      destruct (set_column_shape _ _ _ k Hfind Hlen) as [-> _]. exact Hc.
    + destruct (MetadataParser.is_object (column_at k md)); [|exact Hr].
      destruct (set_column_shape _ _ _ k Hfind Hlen) as [_ ->]. exact Hr.
    + intros j Hj.
      assert ((2 <=? k)%nat = true) as H2k by (apply Nat.leb_le; exact H2).
      destruct (MetadataParser.is_object (column_at k md)) eqn:Ob.
      * rewrite (column_at_set_column _ _ _ k j Hfind Hlen) by (rewrite Hc; exact Hj).
        destruct (Nat.eqb_spec j k) as [->|Hjk].
        -- replace (k <? S k)%nat with true by (symmetry; apply Nat.ltb_lt; lia).
           rewrite H2k, Ob. reflexivity.
        -- rewrite (Hcol j Hj).
           destruct (Nat.ltb_spec j k), (Nat.ltb_spec j (S k)); try reflexivity; lia.
      * rewrite (Hcol j Hj).
        destruct (Nat.ltb_spec j k), (Nat.ltb_spec j (S k)); try reflexivity; try lia.
        assert (j = k) as -> by lia. rewrite H2k, Ob. reflexivity.
Qed.

Lemma run_bind {A B} (m : M A) (f : A -> M B) (w w1 : World) (a : A) :
  m w = (Ok a, w1) -> bind m f w = f a w1.
Proof. intros E. unfold bind. rewrite E. reflexivity. Qed.

Lemma int_of_str_outcome (s : string) :
  (exists z, int_of_str s = Ok z) \/ int_of_str s = Raise ValueError.
Proof.
  unfold int_of_str.
  destruct (strip s) as [|[[] [] [] [] [] [] [] []] d];
    destruct (isdigit _); eauto.
Qed.

Lemma val_eqb_nth_distinct (cols : list pyval) (i j : nat) :
  distinct_labels cols -> (i < List.length cols)%nat -> (j < List.length cols)%nat ->
  i <> j -> val_eqb (nth i cols NaN) (nth j cols NaN) = false.
Proof.
  intros Hd Hi Hj Hij. destruct (val_eqb _ _) eqn:E; [|reflexivity].
  exfalso. apply Hij. apply Hd; assumption.
Qed.

(** Another label for the second column, one that no other column has. *)
Lemma distinct_labels_second (a b b' : pyval) (plate : list pyval) :
  distinct_labels (a :: b :: plate) ->
  val_eqb a b' = false ->
  (forall c, In c plate -> val_eqb c b' = false) ->
  distinct_labels (a :: b' :: plate).
Proof.
  intros Hd Ha Hp i j Hi Hj E. cbn [List.length] in Hi, Hj.
  assert (forall k, (2 <= k)%nat -> (k < S (S (List.length plate)))%nat ->
            val_eqb (nth k (a :: b' :: plate) NaN) b' = false) as Hk.
  { intros k H2 Hlt. destruct k as [|[|k]]; try lia. cbn [nth].
    apply Hp. apply nth_In. lia. }
  destruct (Nat.eq_dec i 1) as [->|Hi1], (Nat.eq_dec j 1) as [->|Hj1]; [reflexivity | | |].
  - exfalso. change (nth 1 (a :: b' :: plate) NaN) with b' in E. rewrite val_eqb_sym in E.
    destruct j as [|[|j]]; [cbn in E; congruence | lia |].
    rewrite Hk in E by lia. discriminate E.
  - exfalso. change (nth 1 (a :: b' :: plate) NaN) with b' in E.
    destruct i as [|[|i]]; [cbn in E; congruence | lia |].
    rewrite Hk in E by lia. discriminate E.
  - apply Hd; [exact Hi | exact Hj |].
    destruct i as [|[|i]], j as [|[|j]]; try lia; exact E.
Qed.

Section FromTheGrid.
Context `{Numerics}.

(** The loop over the labels of the plate columns raises nothing when
    no label is [None]. *)
Lemma label_loop_returns (cols : list pyval) (w : World) :
  (forall c, In c cols -> c <> PNone) ->
  exists w', foreach cols (fun col (_ : unit) =>
                match MetadataParser.int_of col with
                | Ok num => if ((num <? 1) || (12 <? num))%Z
                            then print ("Invalid column name: " ++ str_of col) else ret tt
                | Raise ValueError => print ("Invalid column name: " ++ str_of col)
                | Raise e => raise e
                end) tt w = (Ok tt, w').
Proof.
  revert w. induction cols as [|c cols IH]; intros w Hc; cbn [foreach]; [eexists; reflexivity|].
  assert (exists w1, (match MetadataParser.int_of c with
                      | Ok num => if ((num <? 1) || (12 <? num))%Z
                                  then print ("Invalid column name: " ++ str_of c) else ret tt
                      | Raise ValueError => print ("Invalid column name: " ++ str_of c)
                      | Raise e => raise e
                      end) w = (Ok tt, w1)) as [w1 E1].
  { destruct c as [| |z|q|s]; cbn [MetadataParser.int_of].
    - exfalso. apply (Hc PNone); [left|]; reflexivity.
    - eexists. reflexivity.
    - destruct ((z <? 1) || (12 <? z))%Z; eexists; reflexivity.
    - destruct ((_ <? 1) || (12 <? _))%Z; eexists; reflexivity.
    - destruct (int_of_str_outcome s) as [[z ->] | ->].
      + destruct ((z <? 1) || (12 <? z))%Z; eexists; reflexivity.
      + eexists. reflexivity. }
  rewrite (run_bind _ _ _ _ _ E1). apply IH. intros c' Hc'. apply Hc. right. exact Hc'.
Qed.

Ltac run_step a tac :=
  match goal with
  | |- exists w', bind ?m ?f ?w0 = _ =>
      let E := fresh "E" in
      let w1 := fresh "w" in
      assert (exists w1, m w0 = (Ok a, w1)) as [w1 E] by tac;
      rewrite (run_bind m f w0 w1 a E); clear E; cbv beta zeta
  end.

(** What [check_and_coerce] returns for a grid in the plate layout: the
    grid with its columns prepared, the second column under the label
    "well column" when it holds the letters A to H. *)
Lemma check_and_coerce_prepared (g : DataFrame) (w : World) (second : pyval)
    (plate : list pyval) :
  columns g = MetadataParser.conc_label :: second :: plate ->
  distinct_labels (columns g) ->
  (forall c, In c plate -> plate_column c = true /\ c <> PNone) ->
  exists rl,
    ((rl = second /\ ~ letters_A_to_H (column_at 1 g))
     \/ (rl = PStr "well column" /\ letters_A_to_H (column_at 1 g)))
    /\ exists w',
         MetadataParser.check_and_coerce g w
         = (Ok {| columns := MetadataParser.conc_label :: rl :: plate;
                  rows := rows (prepared g) |}, w').
Proof.
  intros Hcols Hd Hplate.
  remember (forallb (fun v => existsb (is_literal v) MetadataParser.letters) (column_at 1 g)
            && forallb (fun l => existsb (fun v => is_literal v l) (column_at 1 g))
                 MetadataParser.letters) as valid eqn:V.
  set (rl := if valid then PStr "well column" else second).
  set (md0 := if valid then rename_label second (PStr "well column") g else g).
  exists rl. split.
  { symmetry in V. destruct valid; [right | left]; (split; [reflexivity|]).
    - apply second_column_test. exact V.
    - intros L. apply second_column_test in L. congruence. }
  assert (val_eqb MetadataParser.conc_label second = false) as Hcs.
  { pose proof (val_eqb_nth_distinct (columns g) 0 1 Hd) as E. rewrite Hcols in E.
    apply E; cbn; lia. }
  assert (forall c, In c plate -> val_eqb c second = false) as Hps.
  { intros c Hc. apply (In_nth _ _ NaN) in Hc as (k & Hk & <-).
    pose proof (val_eqb_nth_distinct (columns g) (S (S k)) 1 Hd) as E. rewrite Hcols in E.
    apply E; cbn; lia. }
  assert (columns md0 = MetadataParser.conc_label :: rl :: plate) as C0.
  { unfold md0, rl. destruct valid; [|exact Hcols].
    unfold rename_label, set_columns. cbn [columns]. rewrite Hcols. cbn [map].
    rewrite Hcs, val_eqb_refl. do 2 f_equal.
    rewrite <- (map_id plate) at 2. apply map_ext_in. intros c Hc. rewrite (Hps c Hc).
    reflexivity. }
  assert (rows md0 = rows g) as R0 by (unfold md0; destruct valid; reflexivity).
  assert (distinct_labels (columns md0)) as D0.
  { rewrite C0. unfold rl. destruct valid; [|rewrite <- Hcols; exact Hd].
    rewrite Hcols in Hd. apply (distinct_labels_second _ _ _ _ Hd); [reflexivity|].
    intros c Hc. destruct (Hplate c Hc) as [Hp _]. unfold plate_column in Hp.
    apply negb_true_iff in Hp. apply orb_false_iff in Hp as [_ Hp]. exact Hp. }
  set (n := List.length (columns md0)).
  assert (n = S (S (List.length plate))) as Hn by (unfold n; rewrite C0; reflexivity).
  (* the columns, step by step *)
  set (md1 := MetadataParser.broadcast md0).
  destruct (broadcast_fold md0 (columns md0) 0 md0 D0 eq_refl eq_refl eq_refl
              (fun j _ => eq_refl)) as [C1 K1].
  fold (MetadataParser.broadcast md0) in C1, K1. fold md1 in C1, K1.
  destruct (broadcast_shape md0) as [_ L1]. fold md1 in L1.
  set (md2 := MetadataParser.strip_ppb md1).
  destruct (strip_fold md1 (skipn 2 (columns md1)) 2 md1) as (C2 & L2 & K2);
    [rewrite C1; exact D0 | reflexivity | reflexivity | reflexivity | | lia |].
  { intros j _. destruct (Nat.leb_spec 2 j), (Nat.ltb_spec j 2); try reflexivity. lia. }
  fold (MetadataParser.strip_ppb md1) in C2, L2, K2. fold md2 in C2, L2, K2.
  rewrite C1 in C2, K2.
  assert (find_label MetadataParser.conc_label (columns md2) = Some 0%nat) as F2
    by (rewrite C2, C0; cbn [find_label]; rewrite val_eqb_refl; reflexivity).
  set (md3 := set_column MetadataParser.conc_label (to_numeric (column_at 0 md2)) md2).
  assert (List.length (to_numeric (column_at 0 md2)) = List.length (rows md2)) as T2
    by (rewrite to_numeric_length; apply column_at_length).
  destruct (set_column_shape _ _ _ _ F2 T2) as [C3 L3]. fold md3 in C3, L3.
  assert (find_label MetadataParser.conc_label (columns md3) = Some 0%nat) as F3
    by (rewrite C3; exact F2).
  set (p := set_column MetadataParser.conc_label
              (map MetadataParser.round_cell (column_at 0 md3)) md3).
  assert (List.length (map MetadataParser.round_cell (column_at 0 md3))
          = List.length (rows md3)) as T3
    by (rewrite length_map; apply column_at_length).
  destruct (set_column_shape _ _ _ _ F3 T3) as [C4 L4]. fold p in C4, L4.
  (* the run *)
  unfold MetadataParser.check_and_coerce.
  run_step second ltac:(eexists; unfold lift; rewrite Hcols; reflexivity).
  rewrite <- V.
  run_step md0 ltac:(unfold md0; destruct valid; eexists; reflexivity).
  run_step tt ltac:(rewrite C0; cbn [skipn]; apply label_loop_returns;
                    intros c Hc; apply Hplate; exact Hc).
  change (MetadataParser.strip_ppb (MetadataParser.broadcast md0)) with md2.
  run_step tt ltac:(destruct (negb _); eexists; reflexivity).
  run_step 0%nat ltac:(eexists; unfold lift, label_index; rewrite F2; reflexivity).
  run_step tt ltac:(destruct (negb _); eexists; reflexivity).
  change (set_column MetadataParser.conc_label (to_numeric (column_at 0 md2)) md2) with md3.
  run_step 0%nat ltac:(eexists; unfold lift, label_index; rewrite F3; reflexivity).
  fold p. eexists. unfold ret. do 2 f_equal.
  assert (forall df, df = {| columns := columns df; rows := rows df |}) as Eta
    by (intros []; reflexivity).
  rewrite (Eta p). f_equal; [rewrite C4, C3, C2; exact C0|].
  assert (forall j, (j < n)%nat -> column_at j p = prepared_column j (column_at j g)) as Kp.
  { intros j Hj. unfold p.
    rewrite (column_at_set_column _ _ _ 0 j F3 T3) by (rewrite C3, C2; exact Hj).
    unfold md3 at 1 2.
    rewrite (column_at_set_column _ _ _ 0 0 F2 T2) by (rewrite C2; fold n; lia).
    cbn [Nat.eqb].
    assert (forall k, column_at k md0 = column_at k g) as K0
      by (intros k; unfold column_at; rewrite R0; reflexivity).
    unfold prepared_column.
    destruct j as [|[|j]].
    - cbn [Nat.eqb]. rewrite (K2 0%nat) by (fold n; lia). cbn [Nat.leb].
      rewrite (K1 0%nat) by (fold n; lia). rewrite K0. reflexivity.
    - cbn [Nat.eqb]. unfold md3.
      rewrite (column_at_set_column _ _ _ 0 1 F2 T2) by (rewrite C2; fold n; lia).
      cbn [Nat.eqb]. rewrite (K2 1%nat) by (fold n; lia). cbn [Nat.leb].
      rewrite (K1 1%nat) by (fold n; lia). rewrite K0. reflexivity.
    - cbn [Nat.eqb]. unfold md3.
      rewrite (column_at_set_column _ _ _ 0 (S (S j)) F2 T2) by (rewrite C2; exact Hj).
      cbn [Nat.eqb]. rewrite (K2 (S (S j))) by exact Hj. cbn [Nat.leb].
      rewrite (K1 (S (S j))) by exact Hj. rewrite K0. reflexivity. }
  rewrite (rows_of_columns p).
  - unfold prepared. cbn [rows]. rewrite C4, C3, C2. fold n.
    replace (List.length (columns g)) with n by (rewrite Hn, Hcols; reflexivity).
    replace (List.length (rows p)) with (List.length (rows g)) by congruence.
    apply map_ext. intros i. apply map_ext_in. intros j Hj. apply in_seq in Hj.
    rewrite Kp by lia. reflexivity.
  - intros r Hr. unfold p, set_column in Hr. rewrite F3 in Hr. cbn [rows] in Hr.
    apply in_map_iff in Hr as ([r0 v] & <- & _). cbn [fst snd].
    rewrite replace_nth_length, pad_length. rewrite C4. reflexivity.
Qed.

End FromTheGrid.

Section FromTheGrid2.
Context `{Numerics}.

Lemma broadcast_column_length (col : list pyval) :
  List.length (broadcast_column col) = List.length col.
Proof.
  unfold broadcast_column. destruct (filter notna col) as [|v [|? ?]]; try reflexivity.
  apply repeat_length.
Qed.

Lemma prepared_column_length (j : nat) (col : list pyval) :
  List.length (prepared_column j col) = List.length col.
Proof.
  unfold prepared_column. destruct j as [|[|j]].
  - rewrite length_map, to_numeric_length. apply broadcast_column_length.
  - apply broadcast_column_length.
  - destruct (MetadataParser.is_object _); rewrite ?length_map;
      apply broadcast_column_length.
Qed.

Lemma map_nth_seq {A} (l : list A) (d : A) :
  map (fun i => nth i l d) (seq 0 (List.length l)) = l.
Proof.
  apply (nth_ext _ _ d d); [rewrite length_map, length_seq; reflexivity|].
  intros i Hi. rewrite length_map, length_seq in Hi.
  rewrite (nth_indep _ d (nth 0 l d)) by (rewrite length_map, length_seq; exact Hi).
  rewrite (map_nth (fun i => nth i l d)), seq_nth by exact Hi. reflexivity.
Qed.

(** The columns of the prepared grid. *)
Lemma prepared_columns (g : DataFrame) (j : nat) :
  (j < List.length (columns g))%nat ->
  column_at j (prepared g) = prepared_column j (column_at j g).
Proof.
  intros Hj.
  transitivity (map (fun i => nth i (prepared_column j (column_at j g)) NaN)
                    (seq 0 (List.length (rows g)))).
  - unfold prepared. unfold column_at at 1. cbn [rows]. rewrite map_map.
    apply map_ext. intros i. unfold cell.
    rewrite (nth_indep _ NaN (nth i (prepared_column 0 (column_at 0 g)) NaN))
      by (rewrite length_map, length_seq; exact Hj).
    rewrite (map_nth (fun j => nth i (prepared_column j (column_at j g)) NaN)).
    rewrite seq_nth by exact Hj. reflexivity.
  - rewrite <- (column_at_length j g), <- (prepared_column_length j (column_at j g)).
    apply map_nth_seq.
Qed.

(** C5. Take a grid in the plate layout: the column of the
    concentrations, the column of the row letters, headed "Row" or
    "well column" or holding the letters A to H, then the plate columns
    under distinct labels. [parse_disco_bio_excel] prepares the columns
    (a column filled in one row only is filled in every row, the
    concentrations are coerced to numbers and rounded to two decimals,
    [" (PPB-<digits>)"] is removed from the plate columns that hold
    text) and returns the prepared grid unpivoted: one row per cell,
    column after column, with Well = row letter + plate column and the
    cell as Well Group, where a cell that is not missing in a column
    headed 1 to 8 has become ["<value> (<conc> nM)"] and a cell in any
    other column, 9 to 12 among them, is as it was prepared. *)
Theorem plate_grid_is_annotated_and_unpivoted (g : DataFrame) (w : World)
    (second : pyval) (plate : list pyval) :
  columns g = MetadataParser.conc_label :: second :: plate ->
  distinct_labels (columns g) ->
  (forall c, In c plate -> plate_column c = true /\ c <> PNone) ->
  (forall v, In v (column_at 1 g) -> exists s, v = PStr s) ->
  (second = PStr "Row" \/ second = PStr "well column" \/ letters_A_to_H (column_at 1 g)) ->
  fst (MetadataParser.parse_disco_bio_excel g w) = Ok (unpivoted (prepared g) plate)
  /\ column_at 0 (prepared g)
     = map MetadataParser.round_cell (to_numeric (broadcast_column (column_at 0 g)))
  /\ (forall j, (j < List.length plate)%nat ->
        column_at (2 + j) (prepared g)
        = if MetadataParser.is_object (broadcast_column (column_at (2 + j) g))
          then map MetadataParser.str_replace_ppb (broadcast_column (column_at (2 + j) g))
          else broadcast_column (column_at (2 + j) g))
  /\ (forall k, (1 <= k <= 8)%Z ->
        MetadataParser.titration_column (PInt k) = true
        /\ MetadataParser.titration_column (PStr (str_of_int k)) = true)
  /\ (forall k, (9 <= k <= 12)%Z ->
        MetadataParser.titration_column (PInt k) = false
        /\ MetadataParser.titration_column (PStr (str_of_int k)) = false).
Proof.
  intros Hcols Hd Hplate Hstr Hsecond.
  split; [|split; [|split; [|split]]].
  - destruct (check_and_coerce_prepared g w second plate Hcols Hd Hplate)
      as (rl & Hrl & w' & E).
    unfold MetadataParser.parse_disco_bio_excel.
    rewrite (run_bind _ _ _ _ _ E). cbn [lift fst].
    rewrite (annotate_and_melt_grid _ rl plate); [reflexivity | reflexivity | | | ].
    + destruct Hrl as [[-> Hno] | [-> _]]; [|right; reflexivity].
      destruct Hsecond as [-> | [-> | L]]; [left | right | contradiction]; reflexivity.
    + intros c Hc. apply Hplate. exact Hc.
    + cbn [rows]. intros r Hr. unfold prepared in Hr. cbn [rows] in Hr.
      apply in_map_iff in Hr as (i & <- & Hi). apply in_seq in Hi.
      rewrite Hcols. cbn [List.length seq map cell nth].
      unfold prepared_column.
      assert (forall v, In v (broadcast_column (column_at 1 g)) -> exists s, v = PStr s)
        as Hb.
      { unfold broadcast_column. destruct (filter notna (column_at 1 g)) as [|v0 [|? ?]] eqn:F;
          try exact Hstr.
        intros v Hv. apply repeat_spec in Hv. subst v. apply Hstr.
        assert (In v0 (filter notna (column_at 1 g))) as Hin by (rewrite F; left; reflexivity).
        apply filter_In in Hin. apply Hin. }
      apply Hb. apply nth_In. rewrite broadcast_column_length, column_at_length. lia.
  - rewrite prepared_columns by (rewrite Hcols; cbn; lia). reflexivity.
  - intros j Hj. rewrite prepared_columns by (rewrite Hcols; cbn; lia). reflexivity.
  - intros k Hk. exact (proj1 titration_columns k Hk _).
  - intros k Hk. exact (proj2 titration_columns k Hk _).
Qed.

End FromTheGrid2.

Lemma plate_grid_is_annotated_and_unpivoted_witness :
  fst (MetadataParser.parse_disco_bio_excel (H := Decimal.numerics)
         Examples.titration_grid Examples.world)
  = Ok {| columns := [PStr "Well"; PStr "Well Group"];
          rows := [[PStr "A1"; PStr "mAb1 (1.25 nM)"]; [PStr "B1"; NaN];
                   [PStr "C1"; PStr "mAb1 (0.12 nM)"];
                   [PStr "A2"; PStr "mAb2 (1.25 nM)"]; [PStr "B2"; PStr "mAb2 x (8.35 nM)"];
                   [PStr "C2"; NaN];
                   [PStr "A9"; PStr "ctl"]; [PStr "B9"; PStr "ctl"]; [PStr "C9"; NaN]] |}.
Proof.
  rewrite (proj1 (plate_grid_is_annotated_and_unpivoted (H := Decimal.numerics)
                    Examples.titration_grid Examples.world (PStr "Row")
                    [PInt 1; PInt 2; PInt 9] eq_refl
                    ltac:(intros i j Hi Hj; cbn in Hi, Hj;
                          do 5 (destruct i as [|i];
                                [do 5 (destruct j as [|j];
                                       [cbn; intros E; first [reflexivity | discriminate E]|]);
                                 lia|]); lia)
                    ltac:(intros c [<- | [<- | [<- | []]]]; split; (reflexivity || discriminate))
                    ltac:(intros v [<- | [<- | [<- | []]]]; eexists; reflexivity)
                    (or_introl eq_refl))).
  vm_compute. reflexivity.
Defined.
